(** * Blue/green cutover of load balancers and target groups between
      auto scaling groups: a shallow embedding of the four Ansible modules

    The modules under [library/] are straight-line Python scripts that talk
    to two remote services (autoscaling and elb/elbv2) through boto3, read
    the wall clock and sleep between polls.  The embedding keeps that shape:

    - the remote control plane is a [World]: the auto scaling groups with
      their attachments, plus a chronological [log] of every call made;
    - what the outside world answers (clock readings, health reports) is an
      [Env] of oracles, indexed by how many readings were taken so far, so
      every interleaving of answers is covered;
    - a script is a function [World -> Outcome A * World]; [fail_json] and
      uncaught Python exceptions end the run, as they do in Ansible;
    - the [while] polling loops take fuel.

    Time stamps are Python floats in the source; the scripts only add an
    integer to a reading and compare readings, so they are integers here. *)

From stdpp Require Import gmap strings list fin_maps.
From Stdlib Require Import ZArith.

Local Open Scope Z_scope.
Local Open Scope string_scope.

(** ** Python values held by [module.params] *)

Inductive pyval : Type :=
| PyNone
| PyStr (s : string)
| PyInt (z : Z)
| PyBool (b : bool)
| PyList (l : list string).

#[global] Instance pyval_eq_dec : EqDecision pyval.
Proof. solve_decision. Defined.

(** Python truthiness, as used by [if x:] and by [x or y]. *)
Definition truthy (v : pyval) : bool :=
  match v with
  | PyNone => false
  | PyStr s => negb (bool_decide (s = ""))
  | PyInt z => negb (bool_decide (z = 0))
  | PyBool b => b
  | PyList l => negb (bool_decide (l = []))
  end.

(** [a or b] *)
Definition py_or (a b : pyval) : pyval := if truthy a then a else b.

(** [d.get(k)] on a dict: [None] when the key is absent. *)
Definition dict_get (d : gmap string pyval) (k : string) : pyval :=
  default PyNone (d !! k).

(** ** AnsibleModule argument handling *)

Inductive argtype : Type := TStr | TInt | TBool | TList.

Record argspec : Type := ArgSpec
  { arg_type : argtype;
    arg_required : bool;
    arg_default : pyval }.

(** [dict(type='str', required=True)] and friends. *)
Definition arg (t : argtype) : argspec := ArgSpec t false PyNone.
Definition arg_req (t : argtype) : argspec := ArgSpec t true PyNone.
Definition arg_def (t : argtype) (d : pyval) : argspec := ArgSpec t false d.

Definition has_type (t : argtype) (v : pyval) : bool :=
  match v, t with
  | PyNone, _ => true
  | PyStr _, TStr => true
  | PyInt _, TInt => true
  | PyBool _, TBool => true
  | PyList _, TList => true
  | _, _ => false
  end.

(** ** Data returned by the control plane *)

Record Instance : Type := MkInstance
  { InstanceId : string;
    LifecycleState : string;
    HealthStatus : string }.

Record AutoScalingGroup : Type := MkGroup
  { AutoScalingGroupName : string;
    LoadBalancerNames : list string;
    TargetGroupARNs : list string;
    HealthCheckType : string;
    HealthCheckGracePeriod : Z;
    Instances : list Instance }.

(** One entry of [describe_instance_health(...)['InstanceStates']]. *)
Record InstanceState : Type := MkInstanceState
  { is_InstanceId : string;
    is_State : string }.

(** The ['TargetHealth'] dict of one entry of
    [describe_target_health(...)['TargetHealthDescriptions']]; a key that is
    absent from the dict is [None]. *)
Record TargetHealth : Type := MkTargetHealth
  { th_State : option string;
    th_Reason : option string }.

(** One entry of [describe_target_groups(...)['TargetGroups']]. *)
Record TargetGroup : Type := MkTargetGroup
  { TargetGroupName : string;
    TargetGroupArn : string }.

#[global] Instance Instance_eq_dec : EqDecision Instance.
Proof. solve_decision. Defined.
#[global] Instance AutoScalingGroup_eq_dec : EqDecision AutoScalingGroup.
Proof. solve_decision. Defined.

(** ** Calls that leave the process *)

Inductive Call : Type :=
| DescribeAutoScalingGroups (names : list pyval)
| DescribeTargetGroups (names : pyval)
| DetachLoadBalancers (group : string) (lbs : list string)
| AttachLoadBalancers (group : string) (lbs : list string)
| DetachLoadBalancerTargetGroups (group : string) (arns : list string)
| AttachLoadBalancerTargetGroups (group : string) (arns : list string)
| UpdateAutoScalingGroup (group : string) (hc_type : string) (grace : Z)
| DescribeInstanceHealth (lb : string)
| DescribeTargetHealth (arn : string) (instance_id : string)
| TimeTime
| Sleep (seconds : Z).

#[global] Instance Call_eq_dec : EqDecision Call.
Proof. solve_decision. Defined.

(** Calls that change remote state. *)
Definition is_mutation (c : Call) : bool :=
  match c with
  | DetachLoadBalancers _ _ | AttachLoadBalancers _ _
  | DetachLoadBalancerTargetGroups _ _ | AttachLoadBalancerTargetGroups _ _
  | UpdateAutoScalingGroup _ _ _ => true
  | _ => false
  end.

(** The attach and detach calls among them. *)
Definition is_attach_detach (c : Call) : bool :=
  match c with
  | DetachLoadBalancers _ _ | AttachLoadBalancers _ _
  | DetachLoadBalancerTargetGroups _ _ | AttachLoadBalancerTargetGroups _ _ => true
  | _ => false
  end.

Definition mutations (l : list Call) : list Call := List.filter is_mutation l.

(** ** The world and what it answers *)

Record World : Type := MkWorld
  { groups : list AutoScalingGroup;   (* the autoscaling service *)
    target_groups : list TargetGroup; (* the elbv2 service *)
    ticks : nat;                      (* clock readings taken so far *)
    polls : nat;                      (* health queries made so far *)
    log : list Call }.                (* every call, oldest first *)

Record Env : Type := MkEnv
  { (* ansible.module_utils.ec2.ec2_argument_spec() *)
    ec2_argument_spec : gmap string argspec;
    (* the n-th reading of time.time() *)
    clock : nat -> Z;
    (* answer of the n-th health query when it is describe_instance_health *)
    instance_health : nat -> string -> list InstanceState;
    (* answer of the n-th health query when it is describe_target_health *)
    target_health : nat -> string -> string -> list TargetHealth }.

(** ** Outcomes and the script monad *)

Inductive Outcome (A : Type) : Type :=
| Return (a : A)            (* normal completion; [exit_json] for [main] *)
| FailJson (msg : string)   (* [module.fail_json(msg=...)] *)
| Raise (exn : string)      (* uncaught Python exception *)
| Diverge.                  (* polling loop out of fuel *)

Arguments Return {A} a.
Arguments FailJson {A} msg.
Arguments Raise {A} exn.
Arguments Diverge {A}.

Definition M (A : Type) : Type := World -> Outcome A * World.

Definition ret {A} (a : A) : M A := fun w => (Return a, w).

Definition bind {A B} (m : M A) (k : A -> M B) : M B :=
  fun w =>
    match m w with
    | (Return a, w') => k a w'
    | (FailJson msg, w') => (FailJson msg, w')
    | (Raise e, w') => (Raise e, w')
    | (Diverge, w') => (Diverge, w')
    end.

Definition fail_json {A} (msg : string) : M A := fun w => (FailJson msg, w).
Definition raise {A} (exn : string) : M A := fun w => (Raise exn, w).
Definition diverge {A} : M A := fun w => (Diverge, w).

Declare Scope script_scope.
Delimit Scope script_scope with script.
Notation "x <- c1 ;; c2" := (bind c1 (fun x => c2))
  (at level 100, c1 at next level, right associativity) : script_scope.
Notation "c1 ;;; c2" := (bind c1 (fun _ => c2))
  (at level 100, right associativity) : script_scope.
Local Open Scope script_scope.

(** [if c: body] with no [else]. *)
Definition when (c : bool) (body : M unit) : M unit :=
  if c then body else ret tt.

Definition is_failure {A} (o : Outcome A) : bool :=
  match o with
  | FailJson _ | Raise _ => true
  | _ => false
  end.

Definition record (c : Call) (w : World) : World :=
  MkWorld (groups w) (target_groups w) (ticks w) (polls w) (log w ++ [c]).

Definition tick (w : World) : World :=
  MkWorld (groups w) (target_groups w) (S (ticks w)) (polls w) (log w).

Definition polled (w : World) : World :=
  MkWorld (groups w) (target_groups w) (ticks w) (S (polls w)) (log w).

Definition set_groups (gs : list AutoScalingGroup) (w : World) : World :=
  MkWorld gs (target_groups w) (ticks w) (polls w) (log w).

(** ** Python dicts and loops *)

(** [dict((k(i), v(i)) for i in l)]: a later entry replaces an earlier one. *)
Definition dict_of {A V} (key : A -> string) (val : A -> V) (l : list A)
  : gmap string V :=
  foldl (fun d i => <[key i := val i]> d) ∅ l.

(** A loop over [d.iteritems()] whose body can only clear a flag (or fail):
    the flag survives iff every item passes. *)
Definition dict_all {V} (f : string -> V -> bool) (d : gmap string V) : bool :=
  forallb (fun kv => f kv.1 kv.2) (map_to_list d).

(** [for x in l: s = f(s, x)] with calls inside the body. *)
Fixpoint for_each {A S} (f : S -> A -> M S) (l : list A) (s : S) : M S :=
  match l with
  | [] => ret s
  | x :: rest => s' <- f s x ;; for_each f rest s'
  end.

(** [x in l] on lists of strings. *)
Definition py_in (x : string) (l : list string) : bool := bool_decide (x ∈ l).

(** [str(v)] as used by ['%s' % v]. *)
Definition py_str (v : pyval) : string :=
  match v with
  | PyStr s => s
  | PyNone => "None"
  | _ => ""
  end.

(** ** The remote services

    The services are outside the repository.  They are modelled as far as
    the scripts observe them: a lookup returns the groups whose name
    matches; detaching removes the named endpoints that are attached and
    ignores the others; attaching adds the named endpoints that are not yet
    attached; both are no-ops on an already-correct set. *)

Definition named (n : string) (g : AutoScalingGroup) : bool :=
  bool_decide (AutoScalingGroupName g = n).

Definition detached (gone : list string) (attached : list string) : list string :=
  List.filter (fun e => negb (py_in e gone)) attached.

Definition attached_with (new : list string) (attached : list string) : list string :=
  attached ++ remove_dups (List.filter (fun e => negb (py_in e attached)) new).

Definition with_load_balancers (f : list string -> list string) (g : AutoScalingGroup)
  : AutoScalingGroup :=
  MkGroup (AutoScalingGroupName g) (f (LoadBalancerNames g)) (TargetGroupARNs g)
          (HealthCheckType g) (HealthCheckGracePeriod g) (Instances g).

Definition with_target_groups (f : list string -> list string) (g : AutoScalingGroup)
  : AutoScalingGroup :=
  MkGroup (AutoScalingGroupName g) (LoadBalancerNames g) (f (TargetGroupARNs g))
          (HealthCheckType g) (HealthCheckGracePeriod g) (Instances g).

Definition with_health_check (t : string) (p : Z) (g : AutoScalingGroup)
  : AutoScalingGroup :=
  MkGroup (AutoScalingGroupName g) (LoadBalancerNames g) (TargetGroupARNs g)
          t p (Instances g).

(** Apply [f] to the group(s) called [n]. *)
Definition on_group (n : string) (f : AutoScalingGroup -> AutoScalingGroup)
    (gs : list AutoScalingGroup) : list AutoScalingGroup :=
  map (fun g => if named n g then f g else g) gs.

(** What a call does to the groups of the autoscaling service. *)
Definition effect (c : Call) (gs : list AutoScalingGroup) : list AutoScalingGroup :=
  match c with
  | DetachLoadBalancers n lbs => on_group n (with_load_balancers (detached lbs)) gs
  | AttachLoadBalancers n lbs => on_group n (with_load_balancers (attached_with lbs)) gs
  | DetachLoadBalancerTargetGroups n arns => on_group n (with_target_groups (detached arns)) gs
  | AttachLoadBalancerTargetGroups n arns =>
      on_group n (with_target_groups (attached_with arns)) gs
  | UpdateAutoScalingGroup n t p => on_group n (with_health_check t p) gs
  | _ => gs
  end.

(** Make the call: the service applies it and the call goes on record. *)
Definition perform (c : Call) : M unit :=
  fun w => (Return tt, record c (set_groups (effect c (groups w)) w)).

Section Clients.
Context (env : Env).

(** [autoscaling.describe_auto_scaling_groups(AutoScalingGroupNames=[name])['AutoScalingGroups']];
    boto3 validates the parameter before sending anything. *)
Definition describe_auto_scaling_groups (name : pyval) : M (list AutoScalingGroup) :=
  match name with
  | PyStr n =>
      fun w => (Return (List.filter (named n) (groups w)),
                record (DescribeAutoScalingGroups [name]) w)
  | _ => raise "ParamValidationError"
  end.

Definition detach_load_balancers (n : string) (lbs : list string) : M unit :=
  perform (DetachLoadBalancers n lbs).

Definition attach_load_balancers (n : string) (lbs : list string) : M unit :=
  perform (AttachLoadBalancers n lbs).

Definition detach_load_balancer_target_groups (n : string) (arns : list string) : M unit :=
  perform (DetachLoadBalancerTargetGroups n arns).

Definition attach_load_balancer_target_groups (n : string) (arns : list string) : M unit :=
  perform (AttachLoadBalancerTargetGroups n arns).

Definition update_auto_scaling_group (n : string) (t : string) (p : Z) : M unit :=
  perform (UpdateAutoScalingGroup n t p).

(** [elb.describe_instance_health(LoadBalancerName=lb)['InstanceStates']] *)
Definition describe_instance_health (lb : string) : M (list InstanceState) :=
  fun w => (Return (instance_health env (polls w) lb),
            record (DescribeInstanceHealth lb) (polled w)).

(** [elb.describe_target_health(TargetGroupArn=arn, Targets=[{'Id': id}])['TargetHealthDescriptions']],
    each entry reduced to its ['TargetHealth'] *)
Definition describe_target_health (arn id : string) : M (list TargetHealth) :=
  fun w => (Return (target_health env (polls w) arn id),
            record (DescribeTargetHealth arn id) (polled w)).

(** [time.time()] *)
Definition time_time : M Z :=
  fun w => (Return (clock env (ticks w)), record TimeTime (tick w)).

(** [time.sleep(s)] *)
Definition sleep (s : Z) : M unit :=
  fun w => (Return tt, record (Sleep s) w).

(** [time.time() + module.params.get('wait_timeout')] *)
Definition deadline_from_now (wait_timeout : pyval) : M Z :=
  now <- time_time ;;
  match wait_timeout with
  | PyInt z => ret (now + z)
  | _ => raise "TypeError"
  end.

(** [[
    while not flag and wait_timeout > time.time():
        flag = <iteration>
        if not flag:
            time.sleep(5)
    ]]
    [fuel] bounds the number of iterations. *)
Fixpoint poll_until (fuel : nat) (wait_timeout : Z) (iteration : M bool) (flag : bool)
  : M bool :=
  if flag then ret flag
  else
    now <- time_time ;;
    if bool_decide (wait_timeout > now) then
      match fuel with
      | O => diverge
      | S fuel' =>
          flag' <- iteration ;;
          when (negb flag') (sleep 5) ;;;
          poll_until fuel' wait_timeout iteration flag'
      end
    else ret flag.

(** A whole gate: compute the deadline, poll, then read the clock once
    more for [if wait_timeout <= time.time():].  Returns the final flag
    and whether that last test held. *)
Definition gate (fuel : nat) (wait_timeout : pyval) (iteration : M bool)
  : M (bool * bool) :=
  deadline <- deadline_from_now wait_timeout ;;
  flag <- poll_until fuel deadline iteration false ;;
  now <- time_time ;;
  ret (flag, bool_decide (deadline <= now)).

(** [AnsibleModule(argument_spec=spec)] applied to the task's arguments:
    unknown arguments and missing required ones are rejected, values are
    taken as already converted to the declared type, and every declared
    argument that was not supplied gets its default ([None] without one),
    so [module.params] has exactly the declared keys. *)
Definition well_typed (spec : gmap string argspec) (k : string) (v : pyval) : Prop :=
  match spec !! k with
  | Some s => has_type (arg_type s) v = true
  | None => False
  end.

#[global] Instance well_typed_dec spec k v : Decision (well_typed spec k v).
Proof. unfold well_typed. destruct (spec !! k); apply _. Defined.

Definition supplied (args : gmap string pyval) (k : string) (s : argspec) : Prop :=
  arg_required s = true -> is_Some (args !! k).

#[global] Instance supplied_dec args k s : Decision (supplied args k s).
Proof. unfold supplied. apply _. Defined.

Definition AnsibleModule (spec : gmap string argspec) (args : gmap string pyval)
  : M (gmap string pyval) :=
  if negb (bool_decide (map_Forall (well_typed spec) args)) then
    fail_json "unsupported parameter or wrong type"
  else if negb (bool_decide (map_Forall (supplied args) spec)) then
    fail_json "missing required arguments"
  else
    ret (map_imap (fun k s => Some (default (arg_default s) (args !! k))) spec).

(** [[
    gs = autoscaling.describe_auto_scaling_groups(...)
    if len(gs) > 1: module.fail_json(msg=many)
    elif len(gs) < 1: module.fail_json(msg=none)
    g = gs[0]
    ]] *)
Definition the_group (many none : string) (gs : list AutoScalingGroup)
  : M AutoScalingGroup :=
  match gs with
  | _ :: _ :: _ => fail_json many
  | [] => fail_json none
  | [g] => ret g
  end.

(** [dict((i['InstanceId'], (i['LifecycleState'], i['HealthStatus'])) for i in g['Instances'])] *)
Definition instance_status_of (g : AutoScalingGroup) : gmap string (string * string) :=
  dict_of InstanceId (fun i => (LifecycleState i, HealthStatus i)) (Instances g).

(** [status[0] != 'InService' or status[1] != 'Healthy'] *)
Definition not_ready (status : string * string) : bool :=
  negb (bool_decide (status.1 = "InService")) || negb (bool_decide (status.2 = "Healthy")).

(** [status[0] == 'InService' and (status[1] == 'Healthy' or g['HealthCheckType'] != 'ELB')] *)
Definition concerned (g : AutoScalingGroup) (status : string * string) : bool :=
  bool_decide (status.1 = "InService")
  && (bool_decide (status.2 = "Healthy") || negb (bool_decide (HealthCheckType g = "ELB"))).

(** [[
    if g['HealthCheckType'] == 'ELB':
        autoscaling.update_auto_scaling_group(AutoScalingGroupName=..., HealthCheckType=..., HealthCheckGracePeriod=...)
    ]] *)
Definition reenable_health_check (g : AutoScalingGroup) : M unit :=
  when (bool_decide (HealthCheckType g = "ELB"))
       (update_auto_scaling_group (AutoScalingGroupName g) (HealthCheckType g)
                                  (HealthCheckGracePeriod g)).

(** A value that boto3 must receive as a list of strings. *)
Definition as_list (v : pyval) : M (list string) :=
  match v with
  | PyList l => ret l
  | _ => raise "ParamValidationError"
  end.

End Clients.

(** ** library/ec2_asg_cutover_elb.py *)

Module ec2_asg_cutover_elb.

Record GroupResult : Type := MkGroupResult
  { name : string;
    load_balancer_names : list string;
    instance_ids : list string;
    instance_status : gmap string (string * string) }.

Record Result : Type := MkResult
  { new_group : GroupResult;
    old_group : GroupResult }.

Section Script.
Context (env : Env).

(** [argument_spec = ec2_argument_spec(); argument_spec.update(dict(...))] *)
Definition argument_spec : gmap string argspec :=
  list_to_map
    [ ("current_group_name", arg_req TStr);
      ("new_group_name", arg_req TStr);
      ("standby_load_balancers", arg TList);
      ("verify_standby_instances", arg_def TBool (PyBool false));
      ("rollback_on_failure", arg_def TBool (PyBool true));
      ("wait_timeout", arg_def TInt (PyInt 300)) ]
  ∪ ec2_argument_spec env.

(** What lines 137-171 bind before the first mutation. *)
Record Resolved : Type := MkResolved
  { current_group : AutoScalingGroup;
    new_group_ : AutoScalingGroup;
    target_load_balancers : list string;
    source_load_balancers : list string;
    standby_load_balancers : pyval;
    original_instances : list string;
    new_instances : list string;
    current_instance_status : gmap string (string * string);
    new_instance_status : gmap string (string * string) }.

(** Lines 137-176: names, lookups, endpoint lists, baseline snapshot and
    the check that the new group is healthy and in service. *)
Definition resolve (params : gmap string pyval) : M Resolved :=
  let current_group_name := dict_get params "current_group_name" in
  let new_group_name := dict_get params "new_group_name" in
  when (negb (bool_decide (current_group_name = PyNone))
        && bool_decide (current_group_name = new_group_name))
       (fail_json "current_group_name and new_group_name cannot be the same!") ;;;
  current_groups <- describe_auto_scaling_groups current_group_name ;;
  current_group <-
    the_group
      ("More than one auto scaling group was found that matches the supplied current_group_name '"
         ++ py_str current_group_name ++ "'.")
      ("The current auto scaling group '" ++ py_str current_group_name ++ "' was not found")
      current_groups ;;
  new_groups <- describe_auto_scaling_groups new_group_name ;;
  new_group <-
    the_group
      ("More than one auto scaling group was found that matches the supplied new_group_name '"
         ++ py_str new_group_name ++ "'.")
      ("The new auto scaling group '" ++ py_str new_group_name ++ "' was not found")
      new_groups ;;
  let target_load_balancers := LoadBalancerNames current_group in
  when (bool_decide (length target_load_balancers = 0%nat))
       (fail_json ("No load balancers are attached to the auto scaling group "
                     ++ AutoScalingGroupName current_group)) ;;;
  let source_load_balancers := LoadBalancerNames new_group in
  when (bool_decide (length source_load_balancers = 0%nat))
       (fail_json ("No load balancers are attached to the auto scaling group "
                     ++ AutoScalingGroupName new_group)) ;;;
  let standby_load_balancers :=
    py_or (dict_get params "standby_load_balancers") (PyList source_load_balancers) in
  let original_instances := map InstanceId (Instances current_group) in
  let new_instances := map InstanceId (Instances new_group) in
  let current_instance_status := instance_status_of current_group in
  let new_instance_status := instance_status_of new_group in
  when (negb (dict_all (fun _ status => negb (not_ready status)) new_instance_status))
       (fail_json "Instances in new_group must be healthy and in service") ;;;
  ret (MkResolved current_group new_group target_load_balancers source_load_balancers
                  standby_load_balancers original_instances new_instances
                  current_instance_status new_instance_status).

(** Lines 178-187: move the new group from its own load balancers to the
    target ones. *)
Definition prepare_new_group (r : Resolved) : M unit :=
  let g := AutoScalingGroupName (new_group_ r) in
  detach_load_balancers g (source_load_balancers r) ;;;
  attach_load_balancers g (target_load_balancers r) ;;;
  reenable_health_check (new_group_ r).

(** Lines 207-209 for one load balancer: every instance the script is
    concerned with is registered and InService in [instance_states]. *)
Definition in_service_with (g : AutoScalingGroup)
    (status : gmap string (string * string)) (instance_health : list InstanceState)
  : bool :=
  let instance_states := dict_of is_InstanceId is_State instance_health in
  dict_all (fun instance_id st =>
              if concerned g st
              then negb (negb (bool_decide (is_Some (instance_states !! instance_id)))
                         || negb (bool_decide (instance_states !! instance_id = Some "InService")))
              else true) status.

(** Lines 193-209 and 259-275: one iteration of a health loop. *)
Definition healthy_iteration (g : AutoScalingGroup)
    (status : gmap string (string * string)) (load_balancers : list string) : M bool :=
  for_each
    (fun healthy load_balancer =>
       instance_health <- describe_instance_health env load_balancer ;;
       ret (healthy && in_service_with g status instance_health))
    load_balancers true.

(** Lines 238-247: one iteration of the deregistration loop. *)
Definition deregistered_iteration (original_instances : list string)
    (load_balancers : list string) : M bool :=
  for_each
    (fun deregistered load_balancer =>
       instance_health <- describe_instance_health env load_balancer ;;
       ret (deregistered
            && forallb (fun i => negb (py_in (is_InstanceId i) original_instances))
                       instance_health))
    load_balancers true.

(** Lines 189-212 and the test of line 213. *)
Definition await_new_healthy (fuel : nat) (params : gmap string pyval) (r : Resolved)
  : M (bool * bool) :=
  gate env fuel (dict_get params "wait_timeout")
       (healthy_iteration (new_group_ r) (new_instance_status r) (target_load_balancers r)).

(** Lines 215-221: what runs when the test of line 213 holds. *)
Definition new_group_timed_out {A} (params : gmap string pyval) (r : Resolved) : M A :=
  when (truthy (dict_get params "rollback_on_failure"))
       (let g := AutoScalingGroupName (new_group_ r) in
        detach_load_balancers g (target_load_balancers r) ;;;
        attach_load_balancers g (source_load_balancers r)) ;;;
  fail_json "Waited too long for target ELB to report instances as healthy".

(** Lines 223-232: move the current group from the target load balancers
    to the standby ones. *)
Definition cut_over_current_group (r : Resolved) : M unit :=
  let g := AutoScalingGroupName (current_group r) in
  detach_load_balancers g (target_load_balancers r) ;;;
  standby <- as_list (standby_load_balancers r) ;;
  attach_load_balancers g standby ;;;
  reenable_health_check (current_group r).

(** Lines 234-252. *)
Definition await_deregistered (fuel : nat) (params : gmap string pyval) (r : Resolved)
  : M unit :=
  res <- gate env fuel (dict_get params "wait_timeout")
              (deregistered_iteration (original_instances r) (target_load_balancers r)) ;;
  when res.2 (fail_json "Waited too long for target ELB to deregister old instances").

(** Lines 254-280. *)
Definition verify_standby (fuel : nat) (params : gmap string pyval) (r : Resolved)
  : M unit :=
  when (truthy (dict_get params "verify_standby_instances"))
       (standby <- as_list (standby_load_balancers r) ;;
        res <- gate env fuel (dict_get params "wait_timeout")
                    (healthy_iteration (current_group r) (current_instance_status r) standby) ;;
        when res.2 (fail_json "Waited too long for standby ELB to report instances as healthy")).

(** Lines 282-295. *)
Definition result_of (r : Resolved) : M Result :=
  standby <- as_list (standby_load_balancers r) ;;
  ret (MkResult
         (MkGroupResult (AutoScalingGroupName (new_group_ r)) (target_load_balancers r)
                        (new_instances r) (new_instance_status r))
         (MkGroupResult (AutoScalingGroupName (current_group r)) standby
                        (original_instances r) (current_instance_status r))).

(** From the first use of [module.params] up to and including the test
    after the first health loop.  Returns the resolved groups, the final
    [healthy] flag and whether [wait_timeout <= time.time()] held. *)
Definition first_gate (fuel : nat) (params : gmap string pyval)
  : M (Resolved * (bool * bool)) :=
  r <- resolve params ;;
  prepare_new_group r ;;;
  res <- await_new_healthy fuel params r ;;
  ret (r, res).

(** Everything that runs between [AnsibleModule(...)] and the start of the
    deregistration loop. *)
Definition to_deregistration_gate (fuel : nat) (params : gmap string pyval)
  : M Resolved :=
  x <- first_gate fuel params ;;
  if x.2.2 then new_group_timed_out params x.1
  else cut_over_current_group x.1 ;;; ret x.1.

(** The script once [module.params] is known. *)
Definition run (fuel : nat) (params : gmap string pyval) : M Result :=
  r <- to_deregistration_gate fuel params ;;
  await_deregistered fuel params r ;;;
  verify_standby fuel params r ;;;
  result_of r.

Definition main (fuel : nat) (args : gmap string pyval) : M Result :=
  params <- AnsibleModule argument_spec args ;;
  run fuel params.

End Script.
End ec2_asg_cutover_elb.

(** ** library/ec2_asg_cutover_target_groups.py *)

Module ec2_asg_cutover_target_groups.

Record GroupResult : Type := MkGroupResult
  { name : string;
    target_group_arns : list string;
    instance_ids : list string;
    instance_status : gmap string (string * string) }.

Record Result : Type := MkResult
  { new_group : GroupResult;
    old_group : GroupResult }.

Section Script.
Context (env : Env).

Definition argument_spec : gmap string argspec :=
  list_to_map
    [ ("current_group_name", arg_req TStr);
      ("new_group_name", arg_req TStr);
      ("standby_target_group_arns", arg TList);
      ("verify_standby_instances", arg_def TBool (PyBool false));
      ("rollback_on_failure", arg_def TBool (PyBool true));
      ("wait_timeout", arg_def TInt (PyInt 300)) ]
  ∪ ec2_argument_spec env.

(** What lines 129-163 bind before the first mutation. *)
Record Resolved : Type := MkResolved
  { current_group : AutoScalingGroup;
    new_group_ : AutoScalingGroup;
    dest_target_groups : list string;
    source_target_groups : list string;
    standby_target_groups : pyval;
    original_instances : list string;
    new_instances : list string;
    current_instance_status : gmap string (string * string);
    new_instance_status : gmap string (string * string) }.

(** Lines 129-168. *)
Definition resolve (params : gmap string pyval) : M Resolved :=
  let current_group_name := dict_get params "current_group_name" in
  let new_group_name := dict_get params "new_group_name" in
  when (negb (bool_decide (current_group_name = PyNone))
        && bool_decide (current_group_name = new_group_name))
       (fail_json "current_group_name and new_group_name cannot be the same!") ;;;
  current_groups <- describe_auto_scaling_groups current_group_name ;;
  current_group <-
    the_group
      ("More than one auto scaling group was found that matches the supplied current_group_name '"
         ++ py_str current_group_name ++ "'.")
      ("The current auto scaling group '" ++ py_str current_group_name ++ "' was not found")
      current_groups ;;
  new_groups <- describe_auto_scaling_groups new_group_name ;;
  new_group <-
    the_group
      ("More than one auto scaling group was found that matches the supplied new_group_name '"
         ++ py_str new_group_name ++ "'.")
      ("The new auto scaling group '" ++ py_str new_group_name ++ "' was not found")
      new_groups ;;
  let dest_target_groups := TargetGroupARNs current_group in
  when (bool_decide (length dest_target_groups = 0%nat))
       (fail_json ("No target groups are attached to the auto scaling group "
                     ++ AutoScalingGroupName current_group)) ;;;
  let source_target_groups := TargetGroupARNs new_group in
  when (bool_decide (length source_target_groups = 0%nat))
       (fail_json ("No target groups are attached to the auto scaling group "
                     ++ AutoScalingGroupName new_group)) ;;;
  let standby_target_groups :=
    py_or (dict_get params "standby_target_group_arns") (PyList source_target_groups) in
  let original_instances := map InstanceId (Instances current_group) in
  let new_instances := map InstanceId (Instances new_group) in
  let current_instance_status := instance_status_of current_group in
  let new_instance_status := instance_status_of new_group in
  when (negb (dict_all (fun _ status => negb (not_ready status)) new_instance_status))
       (fail_json "Instances in new_group must be healthy and in service") ;;;
  ret (MkResolved current_group new_group dest_target_groups source_target_groups
                  standby_target_groups original_instances new_instances
                  current_instance_status new_instance_status).

(** Lines 170-179. *)
Definition prepare_new_group (r : Resolved) : M unit :=
  let g := AutoScalingGroupName (new_group_ r) in
  detach_load_balancer_target_groups g (source_target_groups r) ;;;
  attach_load_balancer_target_groups g (dest_target_groups r) ;;;
  reenable_health_check (new_group_ r).

(** Line 199, negated: [len(instance_health) == 0 or
    instance_health[0]['TargetHealth']['State'] != 'healthy'] clears
    the flag; a missing ['State'] key is a KeyError. *)
Definition reports_healthy (instance_health : list TargetHealth) : M bool :=
  match instance_health with
  | [] => ret false
  | th :: _ =>
      match th_State th with
      | Some s => ret (bool_decide (s = "healthy"))
      | None => raise "KeyError"
      end
  end.

(** Lines 185-200 and 270-285: one iteration of a health loop. *)
Definition healthy_iteration (g : AutoScalingGroup)
    (status : gmap string (string * string)) (target_groups : list string) : M bool :=
  for_each
    (fun healthy item =>
       if concerned g item.2 then
         for_each
           (fun healthy target_group =>
              instance_health <- describe_target_health env target_group item.1 ;;
              ok <- reports_healthy instance_health ;;
              ret (healthy && ok))
           target_groups healthy
       else ret healthy)
    (map_to_list status) true.

(** Lines 241-246: does this answer leave [deregistered] alone? *)
Definition reports_deregistered (instance_health : list TargetHealth) : bool :=
  match instance_health with
  | [] => true
  | th :: _ =>
      match th_State th, th_Reason th with
      | Some s, Some reason =>
          bool_decide (s = "unused") && bool_decide (reason = "Target.NotRegistered")
      | _, _ => false
      end
  end.

(** Lines 233-246: one iteration of the deregistration loop. *)
Definition deregistered_iteration (original_instances : list string)
    (target_groups : list string) : M bool :=
  for_each
    (fun deregistered instance =>
       for_each
         (fun deregistered target_group =>
            instance_health <- describe_target_health env target_group instance ;;
            ret (deregistered && reports_deregistered instance_health))
         target_groups deregistered)
    original_instances true.

(** Lines 181-203 and the test of line 206. *)
Definition await_new_healthy (fuel : nat) (params : gmap string pyval) (r : Resolved)
  : M (bool * bool) :=
  gate env fuel (dict_get params "wait_timeout")
       (healthy_iteration (new_group_ r) (new_instance_status r) (dest_target_groups r)).

(** Lines 208-216. *)
Definition new_group_timed_out {A} (params : gmap string pyval) (r : Resolved) : M A :=
  if truthy (dict_get params "rollback_on_failure") then
    let g := AutoScalingGroupName (new_group_ r) in
    detach_load_balancer_target_groups g (dest_target_groups r) ;;;
    attach_load_balancer_target_groups g (source_target_groups r) ;;;
    fail_json "Waited too long for destination target group to report instances as healthy. Deployment has been rolled back."
  else
    fail_json "Waited too long for destination target group to report instances as healthy. No rollback action taken.".

(** Lines 218-227. *)
Definition cut_over_current_group (r : Resolved) : M unit :=
  let g := AutoScalingGroupName (current_group r) in
  detach_load_balancer_target_groups g (dest_target_groups r) ;;;
  standby <- as_list (standby_target_groups r) ;;
  attach_load_balancer_target_groups g standby ;;;
  reenable_health_check (current_group r).

(** Lines 252-263. *)
Definition old_group_timed_out {A} (params : gmap string pyval) (r : Resolved) : M A :=
  if truthy (dict_get params "rollback_on_failure") then
    let c := AutoScalingGroupName (current_group r) in
    let n := AutoScalingGroupName (new_group_ r) in
    standby <- as_list (standby_target_groups r) ;;
    detach_load_balancer_target_groups c standby ;;;
    attach_load_balancer_target_groups c (dest_target_groups r) ;;;
    detach_load_balancer_target_groups n (dest_target_groups r) ;;;
    attach_load_balancer_target_groups n (source_target_groups r) ;;;
    fail_json "Waited too long for destination target group to deregister old instances. Deployment has been rolled back."
  else
    fail_json "Waited too long for destination target group to deregister old instances. No rollback action taken.".

(** Lines 229-263. *)
Definition await_deregistered (fuel : nat) (params : gmap string pyval) (r : Resolved)
  : M unit :=
  res <- gate env fuel (dict_get params "wait_timeout")
              (deregistered_iteration (original_instances r) (dest_target_groups r)) ;;
  if res.2 then old_group_timed_out params r else ret tt.

(** Lines 265-290. *)
Definition verify_standby (fuel : nat) (params : gmap string pyval) (r : Resolved)
  : M unit :=
  when (truthy (dict_get params "verify_standby_instances"))
       (standby <- as_list (standby_target_groups r) ;;
        res <- gate env fuel (dict_get params "wait_timeout")
                    (healthy_iteration (current_group r) (current_instance_status r) standby) ;;
        when res.2 (fail_json "Waited too long for standby target group to report instances as healthy")).

(** Lines 292-305. *)
Definition result_of (r : Resolved) : M Result :=
  standby <- as_list (standby_target_groups r) ;;
  ret (MkResult
         (MkGroupResult (AutoScalingGroupName (new_group_ r)) (dest_target_groups r)
                        (new_instances r) (new_instance_status r))
         (MkGroupResult (AutoScalingGroupName (current_group r)) standby
                        (original_instances r) (current_instance_status r))).

(** From the first use of [module.params] up to and including the test
    after the first health loop.  Returns the resolved groups, the final
    [healthy] flag and whether [wait_timeout <= time.time()] held. *)
Definition first_gate (fuel : nat) (params : gmap string pyval)
  : M (Resolved * (bool * bool)) :=
  r <- resolve params ;;
  prepare_new_group r ;;;
  res <- await_new_healthy fuel params r ;;
  ret (r, res).

(** Everything that runs between [AnsibleModule(...)] and the start of the
    deregistration loop. *)
Definition to_deregistration_gate (fuel : nat) (params : gmap string pyval)
  : M Resolved :=
  x <- first_gate fuel params ;;
  if x.2.2 then new_group_timed_out params x.1
  else cut_over_current_group x.1 ;;; ret x.1.

(** The script once [module.params] is known. *)
Definition run (fuel : nat) (params : gmap string pyval) : M Result :=
  r <- to_deregistration_gate fuel params ;;
  await_deregistered fuel params r ;;;
  verify_standby fuel params r ;;;
  result_of r.

Definition main (fuel : nat) (args : gmap string pyval) : M Result :=
  params <- AnsibleModule argument_spec args ;;
  run fuel params.

End Script.
End ec2_asg_cutover_target_groups.

(** ** library/ec2_asg_elbs.py *)

Module ec2_asg_elbs.

Record Result : Type := MkResult
  { name : string;
    load_balancer_names : list string;
    instance_ids : list string;
    instance_status : gmap string (string * string) }.

Section Script.
Context (env : Env).

Definition argument_spec : gmap string argspec :=
  list_to_map
    [ ("name", arg_req TStr);
      ("load_balancers", arg TList);
      ("wait_timeout", arg_def TInt (PyInt 300)) ]
  ∪ ec2_argument_spec env.

(** Line 137: [status[0] == 'InService' and (status[1] == 'Healthy' or
    new_group['HealthCheckType'] != 'ELB')].  No [new_group] is bound in
    this script, so reaching the last operand is a NameError. *)
Definition concerned (status : string * string) : M bool :=
  if bool_decide (status.1 = "InService") then
    if bool_decide (status.2 = "Healthy") then ret true
    else raise "NameError: new_group"
  else ret false.

(** Lines 133-141 for one load balancer. *)
Definition in_service_with (status : gmap string (string * string))
    (instance_health : list InstanceState) (healthy : bool) : M bool :=
  let instance_states := dict_of is_InstanceId is_State instance_health in
  for_each
    (fun healthy item =>
       c <- concerned item.2 ;;
       if c then
         ret (healthy
              && negb (negb (bool_decide (is_Some (instance_states !! item.1)))
                       || negb (bool_decide (instance_states !! item.1 = Some "InService"))))
       else ret healthy)
    (map_to_list status) healthy.

(** Lines 125-141: one iteration of the health loop. *)
Definition healthy_iteration (status : gmap string (string * string))
    (load_balancers : list string) : M bool :=
  for_each
    (fun healthy load_balancer =>
       instance_health <- describe_instance_health env load_balancer ;;
       in_service_with status instance_health healthy)
    load_balancers true.

(** Lines 148-153. *)
Definition timed_out {A} (params : gmap string pyval) (g : AutoScalingGroup)
    (unique_new_load_balancers : list string) : M A :=
  when (truthy (dict_get params "rollback_on_failure"))
       (detach_load_balancers (AutoScalingGroupName g) unique_new_load_balancers) ;;;
  fail_json "Waited too long for target ELB to report instances as healthy".

(** What lines 95-111 bind. *)
Record Resolved : Type := MkResolved
  { group : AutoScalingGroup;
    new_load_balancers : list string;
    unique_new_load_balancers : list string;
    unique_old_load_balancers : list string;
    instances : list string;
    group_instance_status : gmap string (string * string) }.

(** Lines 95-116: the lookup, the two deltas, the baseline snapshot and the
    check that the group is healthy and in service. *)
Definition resolve (params : gmap string pyval) : M Resolved :=
  let group_name := dict_get params "name" in
  groups <- describe_auto_scaling_groups group_name ;;
  group <-
    the_group
      ("More than one auto scaling group was found that matches the supplied group_name '"
         ++ py_str group_name ++ "'.")
      ("The auto scaling group '" ++ py_str group_name ++ "' was not found")
      groups ;;
  let old_load_balancers := LoadBalancerNames group in
  (* iterating over None in the first comprehension is a TypeError *)
  new_load_balancers <-
    match dict_get params "load_balancers" with
    | PyList l => ret l
    | _ => raise "TypeError"
    end ;;
  let unique_new_load_balancers :=
    List.filter (fun l => negb (py_in l old_load_balancers)) new_load_balancers in
  let unique_old_load_balancers :=
    List.filter (fun l => negb (py_in l new_load_balancers)) old_load_balancers in
  let instances := map InstanceId (Instances group) in
  let instance_status := instance_status_of group in
  when (negb (dict_all (fun _ status => negb (not_ready status)) instance_status))
       (fail_json "Instances in group must be healthy and in service") ;;;
  ret (MkResolved group new_load_balancers unique_new_load_balancers
                  unique_old_load_balancers instances instance_status).

(** Lines 95-146: up to and including the test after the health loop. *)
Definition first_gate (fuel : nat) (params : gmap string pyval)
  : M (Resolved * (bool * bool)) :=
  r <- resolve params ;;
  attach_load_balancers (AutoScalingGroupName (group r)) (new_load_balancers r) ;;;
  res <- gate env fuel (dict_get params "wait_timeout")
              (healthy_iteration (group_instance_status r) (new_load_balancers r)) ;;
  ret (r, res).

(** The script once [module.params] is known. *)
Definition run (fuel : nat) (params : gmap string pyval) : M Result :=
  x <- first_gate fuel params ;;
  if x.2.2 then timed_out params (group x.1) (unique_new_load_balancers x.1)
  else
    detach_load_balancers (AutoScalingGroupName (group x.1)) (unique_old_load_balancers x.1) ;;;
    ret (MkResult (AutoScalingGroupName (group x.1)) (new_load_balancers x.1)
                  (instances x.1) (group_instance_status x.1)).

Definition main (fuel : nat) (args : gmap string pyval) : M Result :=
  params <- AnsibleModule argument_spec args ;;
  run fuel params.

End Script.
End ec2_asg_elbs.

(** ** library/ec2_asg_target_groups.py *)

Module ec2_asg_target_groups.

Record Result : Type := MkResult
  { name : string;
    target_group_arns : list string;
    instance_ids : list string;
    instance_status : gmap string (string * string) }.

Section Script.
Context (env : Env).

Definition argument_spec : gmap string argspec :=
  list_to_map
    [ ("name", arg_req TStr);
      ("target_groups", arg_req TList);
      ("wait_timeout", arg_def TInt (PyInt 300)) ]
  ∪ ec2_argument_spec env.

(** [elb.describe_target_groups(Names=names)['TargetGroups']]: the
    target groups whose name is listed. *)
Definition describe_target_groups (names : pyval) : M (list TargetGroup) :=
  match names with
  | PyList l =>
      fun w => (Return (List.filter (fun t => py_in (TargetGroupName t) l) (target_groups w)),
                record (DescribeTargetGroups names) w)
  | _ => raise "ParamValidationError"
  end.

(** Line 138, with the same unbound [new_group] as in ec2_asg_elbs. *)
Definition concerned (status : string * string) : M bool :=
  if bool_decide (status.1 = "InService") then
    if bool_decide (status.2 = "Healthy") then ret true
    else raise "NameError: new_group"
  else ret false.

(** Line 145, negated. *)
Definition reports_healthy (instance_health : list TargetHealth) : M bool :=
  match instance_health with
  | [] => ret false
  | th :: _ =>
      match th_State th with
      | Some s => ret (bool_decide (s = "healthy"))
      | None => raise "KeyError"
      end
  end.

(** Lines 131-146: one iteration of the health loop. *)
Definition healthy_iteration (status : gmap string (string * string))
    (target_groups : list string) : M bool :=
  for_each
    (fun healthy item =>
       c <- concerned item.2 ;;
       if c then
         for_each
           (fun healthy target_group =>
              instance_health <- describe_target_health env target_group item.1 ;;
              ok <- reports_healthy instance_health ;;
              ret (healthy && ok))
           target_groups healthy
       else ret healthy)
    (map_to_list status) true.

(** Lines 154-160.  The rollback branch names [unique_new_load_balancers],
    which this script never binds: evaluating the argument is a
    NameError before any call is made. *)
Definition timed_out {A} (params : gmap string pyval) : M A :=
  if truthy (dict_get params "rollback_on_failure") then
    raise "NameError: unique_new_load_balancers"
  else
    fail_json "Waited too long for target ELB to report instances as healthy. No rollback action was taken.".

(** What lines 95-117 bind. *)
Record Resolved : Type := MkResolved
  { group : AutoScalingGroup;
    new_target_groups : list string;
    unique_new_target_groups : list string;
    unique_old_target_groups : list string;
    instances : list string;
    group_instance_status : gmap string (string * string) }.

(** Lines 95-122. *)
Definition resolve (params : gmap string pyval) : M Resolved :=
  let group_name := dict_get params "name" in
  groups <- describe_auto_scaling_groups group_name ;;
  group <-
    the_group
      ("More than one auto scaling group was found that matches the supplied group_name '"
         ++ py_str group_name ++ "'.")
      ("The auto scaling group '" ++ py_str group_name ++ "' was not found")
      groups ;;
  let new_target_group_names := dict_get params "target_groups" in
  target_groups <- describe_target_groups new_target_group_names ;;
  when (bool_decide (length target_groups < 1)%nat) (fail_json "No target groups found") ;;;
  let new_target_groups := map TargetGroupArn target_groups in
  let old_target_groups := TargetGroupARNs group in
  let unique_new_target_groups :=
    List.filter (fun t => negb (py_in t old_target_groups)) new_target_groups in
  let unique_old_target_groups :=
    List.filter (fun t => negb (py_in t new_target_groups)) old_target_groups in
  let instances := map InstanceId (Instances group) in
  let instance_status := instance_status_of group in
  when (negb (dict_all (fun _ status => negb (not_ready status)) instance_status))
       (fail_json "Instances in group must be healthy and in service") ;;;
  ret (MkResolved group new_target_groups unique_new_target_groups
                  unique_old_target_groups instances instance_status).

(** Lines 95-152: up to and including the test after the health loop. *)
Definition first_gate (fuel : nat) (params : gmap string pyval)
  : M (Resolved * (bool * bool)) :=
  r <- resolve params ;;
  attach_load_balancer_target_groups (AutoScalingGroupName (group r)) (new_target_groups r) ;;;
  res <- gate env fuel (dict_get params "wait_timeout")
              (healthy_iteration (group_instance_status r) (new_target_groups r)) ;;
  ret (r, res).

(** The script once [module.params] is known. *)
Definition run (fuel : nat) (params : gmap string pyval) : M Result :=
  x <- first_gate fuel params ;;
  if x.2.2 then timed_out params
  else
    detach_load_balancer_target_groups (AutoScalingGroupName (group x.1))
                                       (unique_old_target_groups x.1) ;;;
    ret (MkResult (AutoScalingGroupName (group x.1)) (new_target_groups x.1)
                  (instances x.1) (group_instance_status x.1)).

Definition main (fuel : nat) (args : gmap string pyval) : M Result :=
  params <- AnsibleModule argument_spec args ;;
  run fuel params.

End Script.
End ec2_asg_target_groups.

(** ** filter_plugins/aws.py *)

Module aws.

(** One tag as the filters read it.  A field is [None] when the dict has no
    such key, so that subscripting it raises KeyError; tag keys are
    strings.  Other keys of the dict are never looked at. *)
Record Tag : Type := MkTag
  { key : option string;                  (* tag['key'] *)
    value : option pyval;                 (* tag['value'] *)
    propagate_at_launch : option pyval }. (* tag['propagate_at_launch'] *)

(** The filters call nothing outside themselves; they either return or
    raise KeyError, which is [None] here. *)

(** [{tag['key']: tag['value'], 'propagate_at_launch': tag['propagate_at_launch']}]:
    in a dict display a later entry replaces an earlier one with the same
    key. *)
Definition new_tag (tag : Tag) : option (gmap string pyval) :=
  k ← key tag;
  v ← value tag;
  p ← propagate_at_launch tag;
  Some (<["propagate_at_launch" := p]> (<[k := v]> ∅)).

(** [[
    tags = []
    for tag in input_tags:
        new_tag = {...}
        tags.append(new_tag)
    return tags
    ]] *)
Definition format_asg_tags (input_tags : list Tag) : option (list (gmap string pyval)) :=
  foldl (fun tags tag =>
           tags ← tags;
           t ← new_tag tag;
           Some (tags ++ [t])%list)
        (Some []) input_tags.

(** [[
    tags = dict()
    for asg_tag in asg_tags:
        tag_key = asg_tag['key']
        tag_val = asg_tag['value']
        tags[tag_key] = tag_val
    return tags
    ]] *)
Definition parse_asg_tags (asg_tags : list Tag) : option (gmap string pyval) :=
  foldl (fun tags asg_tag =>
           tags ← tags;
           tag_key ← key asg_tag;
           tag_val ← value asg_tag;
           Some (<[tag_key := tag_val]> tags))
        (Some ∅) asg_tags.

(** [[
    for asg_tag in asg_tags:
        if asg_tag['key'] == key:
            return asg_tag['value']
    return None
    ]] *)
Fixpoint asg_tag_value (asg_tags : list Tag) (k : string) : option pyval :=
  match asg_tags with
  | [] => Some PyNone
  | asg_tag :: rest =>
      tag_key ← key asg_tag;
      if bool_decide (tag_key = k) then value asg_tag else asg_tag_value rest k
  end.

End aws.

(** ** Concrete fleets used to exercise the scripts *)

Module Scenario.

Definition i_blue : Instance := MkInstance "i-bbddff01" "InService" "Healthy".
Definition i_green : Instance := MkInstance "i-aaccee01" "InService" "Healthy".
Definition i_pending : Instance := MkInstance "i-aaccee02" "Pending" "Healthy".

Definition web_blue : AutoScalingGroup :=
  MkGroup "web-blue" ["lb-blue"] ["arn:tg-blue"] "ELB" 300 [i_blue].
Definition web_green : AutoScalingGroup :=
  MkGroup "web-green" ["lb-green"] ["arn:tg-green"] "ELB" 300 [i_green].
Definition web_bare : AutoScalingGroup :=
  MkGroup "web-bare" [] [] "EC2" 0 [i_green].
Definition web_warming : AutoScalingGroup :=
  MkGroup "web-warming" ["lb-green"] ["arn:tg-green"] "ELB" 300 [i_green; i_pending].

Definition world : World :=
  MkWorld [web_blue; web_green; web_bare; web_warming]
          [MkTargetGroup "tg-blue" "arn:tg-blue"; MkTargetGroup "tg-green" "arn:tg-green"]
          0 0 [].

(** A clock that advances four seconds per reading. *)
Definition clock4 (n : nat) : Z := 4 * Z.of_nat n.

(** Nothing is ever reported by the load balancers or target groups. *)
Definition silent : Env :=
  MkEnv ∅ clock4 (fun _ _ => []) (fun _ _ _ => []).

(** The first query reports the green instance in service; afterwards the
    endpoints report nobody. *)
Definition prompt : Env :=
  MkEnv ∅ clock4
        (fun n _ => if n is O then [MkInstanceState "i-aaccee01" "InService"] else [])
        (fun n _ _ => if n is O then [MkTargetHealth (Some "healthy") None] else []).

Definition cutover_args : gmap string pyval :=
  list_to_map [ ("current_group_name", PyStr "web-blue");
                ("new_group_name", PyStr "web-green");
                ("wait_timeout", PyInt 10) ].

Definition cutover_elb_archive_args : gmap string pyval :=
  <["standby_load_balancers" := PyList ["lb-archive"]]> cutover_args.

Definition cutover_elb_empty_standby_args : gmap string pyval :=
  <["standby_load_balancers" := PyList []]> cutover_args.

Definition cutover_tg_empty_standby_args : gmap string pyval :=
  <["standby_target_group_arns" := PyList []]> cutover_args.

Definition same_name_args : gmap string pyval :=
  list_to_map [ ("current_group_name", PyStr "web-blue");
                ("new_group_name", PyStr "web-blue") ].

Definition bare_args : gmap string pyval :=
  list_to_map [ ("current_group_name", PyStr "web-blue");
                ("new_group_name", PyStr "web-bare") ].

Definition warming_args : gmap string pyval :=
  list_to_map [ ("current_group_name", PyStr "web-blue");
                ("new_group_name", PyStr "web-warming") ].

Definition elbs_args : gmap string pyval :=
  list_to_map [ ("name", PyStr "web-green");
                ("load_balancers", PyList ["lb-green"; "lb-blue"]);
                ("wait_timeout", PyInt 10) ].

Definition target_groups_args : gmap string pyval :=
  list_to_map [ ("name", PyStr "web-green");
                ("target_groups", PyList ["tg-green"; "tg-blue"]);
                ("wait_timeout", PyInt 10) ].

(** Like [silent], except that the pending instance is reported, and
    reported badly, by every load balancer and target group. *)
Definition noisy : Env :=
  MkEnv ∅ clock4
        (fun _ _ => [MkInstanceState "i-aaccee02" "OutOfService"])
        (fun _ _ i => if bool_decide (i = "i-aaccee02")
                      then [MkTargetHealth (Some "unhealthy") None] else []).

(** The warming group taken both as live and as candidate fleet. *)
Definition warming_elb : ec2_asg_cutover_elb.Resolved :=
  ec2_asg_cutover_elb.MkResolved
    web_warming web_warming ["lb-blue"] ["lb-green"] (PyList ["lb-green"])
    ["i-aaccee01"; "i-aaccee02"] ["i-aaccee01"; "i-aaccee02"]
    (instance_status_of web_warming) (instance_status_of web_warming).

Definition warming_tg : ec2_asg_cutover_target_groups.Resolved :=
  ec2_asg_cutover_target_groups.MkResolved
    web_warming web_warming ["arn:tg-blue"] ["arn:tg-green"] (PyList ["arn:tg-green"])
    ["i-aaccee01"; "i-aaccee02"] ["i-aaccee01"; "i-aaccee02"]
    (instance_status_of web_warming) (instance_status_of web_warming).

Definition verifying_params : gmap string pyval :=
  list_to_map [ ("verify_standby_instances", PyBool true); ("wait_timeout", PyInt 10) ].

(** Every endpoint always reports both instances in service (healthy, for
    target groups): the green instance passes at once and the blue one is
    never seen to deregister. *)
Definition lingering : Env :=
  MkEnv ∅ clock4
        (fun _ _ => [MkInstanceState "i-aaccee01" "InService";
                     MkInstanceState "i-bbddff01" "InService"])
        (fun _ _ _ => [MkTargetHealth (Some "healthy") None]).

(** A clock that is set back: the second reading is far ahead, every other
    reading is 0.  Nothing is reported by the endpoints. *)
Definition stepping_back : Env :=
  MkEnv ∅ (fun n => if n is 1%nat then 100 else 0) (fun _ _ => []) (fun _ _ _ => []).

End Scenario.

(** * Properties of runs *)

Local Open Scope list_scope.

(** A computation is [quiet] when it changes neither the groups nor the
    mutation calls on record, however it ends. *)
Definition quiet {A} (m : M A) : Prop :=
  forall w, groups (m w).2 = groups w /\ mutations (log (m w).2) = mutations (log w).

(** The clock never runs backwards. *)
Definition monotone (env : Env) : Prop :=
  forall n, clock env n <= clock env (S n).

(** The groups called [n]. *)
Definition lookup_group (n : string) (w : World) : list AutoScalingGroup :=
  List.filter (named n) (groups w).

(** A computation [halts] when it never runs out of fuel. *)
Definition halts {A} (m : M A) : Prop := forall w, (m w).1 <> Diverge.

(** A computation is [calm] when it never ends in an uncaught exception. *)
Definition calm {A} (m : M A) : Prop := forall w e, (m w).1 <> Raise e.

(** The groups after a sequence of calls. *)
Definition replay (calls : list Call) (gs : list AutoScalingGroup) : list AutoScalingGroup :=
  foldl (fun gs c => effect c gs) gs calls.

(** World [w'] is world [w] after the mutation calls [tr], oldest first,
    and no other mutation. *)
Definition extends (w w' : World) (tr : list Call) : Prop :=
  mutations (log w') = mutations (log w) ++ tr /\ groups w' = replay tr (groups w).

(** [[
    if g['HealthCheckType'] == 'ELB':
        autoscaling.update_auto_scaling_group(...)
    ]]
    as calls. *)
Definition restore (g : AutoScalingGroup) : list Call :=
  if bool_decide (HealthCheckType g = "ELB")
  then [UpdateAutoScalingGroup (AutoScalingGroupName g) (HealthCheckType g)
                               (HealthCheckGracePeriod g)]
  else [].

(** The mutation calls of the phases of ec2_asg_cutover_elb. *)
Definition elb_prepare_calls (r : ec2_asg_cutover_elb.Resolved) : list Call :=
  let n := AutoScalingGroupName (ec2_asg_cutover_elb.new_group_ r) in
  [DetachLoadBalancers n (ec2_asg_cutover_elb.source_load_balancers r);
   AttachLoadBalancers n (ec2_asg_cutover_elb.target_load_balancers r)]
  ++ restore (ec2_asg_cutover_elb.new_group_ r).

Definition elb_rollback_calls (r : ec2_asg_cutover_elb.Resolved) : list Call :=
  let n := AutoScalingGroupName (ec2_asg_cutover_elb.new_group_ r) in
  [DetachLoadBalancers n (ec2_asg_cutover_elb.target_load_balancers r);
   AttachLoadBalancers n (ec2_asg_cutover_elb.source_load_balancers r)].

Definition elb_cut_over_calls (r : ec2_asg_cutover_elb.Resolved) (standby : list string)
  : list Call :=
  let c := AutoScalingGroupName (ec2_asg_cutover_elb.current_group r) in
  [DetachLoadBalancers c (ec2_asg_cutover_elb.target_load_balancers r);
   AttachLoadBalancers c standby]
  ++ restore (ec2_asg_cutover_elb.current_group r).

(** The mutation calls of the phases of ec2_asg_cutover_target_groups. *)
Definition tg_prepare_calls (r : ec2_asg_cutover_target_groups.Resolved) : list Call :=
  let n := AutoScalingGroupName (ec2_asg_cutover_target_groups.new_group_ r) in
  [DetachLoadBalancerTargetGroups n (ec2_asg_cutover_target_groups.source_target_groups r);
   AttachLoadBalancerTargetGroups n (ec2_asg_cutover_target_groups.dest_target_groups r)]
  ++ restore (ec2_asg_cutover_target_groups.new_group_ r).

Definition tg_rollback_calls (r : ec2_asg_cutover_target_groups.Resolved) : list Call :=
  let n := AutoScalingGroupName (ec2_asg_cutover_target_groups.new_group_ r) in
  [DetachLoadBalancerTargetGroups n (ec2_asg_cutover_target_groups.dest_target_groups r);
   AttachLoadBalancerTargetGroups n (ec2_asg_cutover_target_groups.source_target_groups r)].

Definition tg_cut_over_calls (r : ec2_asg_cutover_target_groups.Resolved)
    (standby : list string) : list Call :=
  let c := AutoScalingGroupName (ec2_asg_cutover_target_groups.current_group r) in
  [DetachLoadBalancerTargetGroups c (ec2_asg_cutover_target_groups.dest_target_groups r);
   AttachLoadBalancerTargetGroups c standby]
  ++ restore (ec2_asg_cutover_target_groups.current_group r).

Definition tg_late_rollback_calls (r : ec2_asg_cutover_target_groups.Resolved)
    (standby : list string) : list Call :=
  let c := AutoScalingGroupName (ec2_asg_cutover_target_groups.current_group r) in
  [DetachLoadBalancerTargetGroups c standby;
   AttachLoadBalancerTargetGroups c (ec2_asg_cutover_target_groups.dest_target_groups r)]
  ++ tg_rollback_calls r.

(** The world once [calls] have been made and recorded. *)
Definition performed (calls : list Call) (w : World) : World :=
  MkWorld (replay calls (groups w)) (target_groups w) (ticks w) (polls w) (log w ++ calls).

(** What a call does to one group. *)
Definition effect_on (c : Call) (g : AutoScalingGroup) : AutoScalingGroup :=
  match c with
  | DetachLoadBalancers n lbs =>
      if named n g then with_load_balancers (detached lbs) g else g
  | AttachLoadBalancers n lbs =>
      if named n g then with_load_balancers (attached_with lbs) g else g
  | DetachLoadBalancerTargetGroups n arns =>
      if named n g then with_target_groups (detached arns) g else g
  | AttachLoadBalancerTargetGroups n arns =>
      if named n g then with_target_groups (attached_with arns) g else g
  | UpdateAutoScalingGroup n t p =>
      if named n g then with_health_check t p g else g
  | _ => g
  end.

(** One group after a sequence of calls. *)
Definition replay_on (calls : list Call) (g : AutoScalingGroup) : AutoScalingGroup :=
  foldl (fun g c => effect_on c g) g calls.

(** The sequences of mutation calls a run of ec2_asg_cutover_elb can leave
    behind once both groups are resolved. *)
Inductive elb_shape (r : ec2_asg_cutover_elb.Resolved) : list Call -> Prop :=
| elb_stopped_at_gate :
    elb_shape r (elb_prepare_calls r)
| elb_rolled_back :
    elb_shape r (elb_prepare_calls r ++ elb_rollback_calls r)
| elb_cut_over standby :
    ec2_asg_cutover_elb.standby_load_balancers r = PyList standby ->
    elb_shape r (elb_prepare_calls r ++ elb_cut_over_calls r standby).

(** The same for ec2_asg_cutover_target_groups, which can also roll back
    after the deregistration loop. *)
Inductive tg_shape (r : ec2_asg_cutover_target_groups.Resolved) : list Call -> Prop :=
| tg_stopped_at_gate :
    tg_shape r (tg_prepare_calls r)
| tg_rolled_back :
    tg_shape r (tg_prepare_calls r ++ tg_rollback_calls r)
| tg_cut_over standby :
    ec2_asg_cutover_target_groups.standby_target_groups r = PyList standby ->
    tg_shape r (tg_prepare_calls r ++ tg_cut_over_calls r standby)
| tg_rolled_back_late standby :
    ec2_asg_cutover_target_groups.standby_target_groups r = PyList standby ->
    tg_shape r (tg_prepare_calls r ++ tg_cut_over_calls r standby
                ++ tg_late_rollback_calls r standby).

(** Reading a record of mutation calls against the rule "after every
    attach/detach pair the health-check configuration is restored, exactly
    when the group's health checks are of type ELB". *)

(** The group on which [c] followed by the head of [rest] is a
    detach/attach pair, if they are one. *)
Definition pair_on (c : Call) (rest : list Call) : option string :=
  match c, rest with
  | DetachLoadBalancers g _, AttachLoadBalancers g' _ :: _
  | DetachLoadBalancerTargetGroups g _, AttachLoadBalancerTargetGroups g' _ :: _ =>
      if bool_decide (g = g') then Some g else None
  | _, _ => None
  end.

Definition starts_with_update (g : string) (l : list Call) : bool :=
  match l with
  | UpdateAutoScalingGroup g' _ _ :: _ => bool_decide (g = g')
  | _ => false
  end.

(** Does a group called [g] use ELB health checks? *)
Definition endpoint_managed (gs : list AutoScalingGroup) (g : string) : bool :=
  existsb (fun grp => named g grp && bool_decide (HealthCheckType grp = "ELB")) gs.

Fixpoint pairs_restored (gs : list AutoScalingGroup) (tr : list Call) : bool :=
  match tr with
  | [] => true
  | c :: rest =>
      match pair_on c rest with
      | Some g => Bool.eqb (endpoint_managed gs g) (starts_with_update g (tl rest))
      | None => true
      end
      && pairs_restored gs rest
  end.

(** Reading a record of mutation calls against the rule "an attach call
    names only endpoints that are not attached to the group when the call
    is made", replaying the calls from the groups [gs]. *)
Fixpoint attaches_only_unattached (gs : list AutoScalingGroup) (tr : list Call) : bool :=
  match tr with
  | [] => true
  | c :: rest =>
      match c with
      | AttachLoadBalancers g l =>
          forallb (fun grp => negb (named g grp)
                              || forallb (fun e => negb (py_in e (LoadBalancerNames grp))) l) gs
      | AttachLoadBalancerTargetGroups g l =>
          forallb (fun grp => negb (named g grp)
                              || forallb (fun e => negb (py_in e (TargetGroupARNs grp))) l) gs
      | _ => true
      end
      && attaches_only_unattached (effect c gs) rest
  end.

(** The sequences of mutation calls a run of ec2_asg_elbs can leave behind
    once the group is resolved. *)
Inductive elbs_shape (r : ec2_asg_elbs.Resolved) : list Call -> Prop :=
| elbs_attached :
    elbs_shape r [AttachLoadBalancers (AutoScalingGroupName (ec2_asg_elbs.group r))
                                      (ec2_asg_elbs.new_load_balancers r)]
| elbs_rolled_back :
    elbs_shape r [AttachLoadBalancers (AutoScalingGroupName (ec2_asg_elbs.group r))
                                      (ec2_asg_elbs.new_load_balancers r);
                  DetachLoadBalancers (AutoScalingGroupName (ec2_asg_elbs.group r))
                                      (ec2_asg_elbs.unique_new_load_balancers r)]
| elbs_swapped :
    elbs_shape r [AttachLoadBalancers (AutoScalingGroupName (ec2_asg_elbs.group r))
                                      (ec2_asg_elbs.new_load_balancers r);
                  DetachLoadBalancers (AutoScalingGroupName (ec2_asg_elbs.group r))
                                      (ec2_asg_elbs.unique_old_load_balancers r)].

(** The same for ec2_asg_target_groups. *)
Inductive target_groups_shape (r : ec2_asg_target_groups.Resolved) : list Call -> Prop :=
| target_groups_attached :
    target_groups_shape r
      [AttachLoadBalancerTargetGroups (AutoScalingGroupName (ec2_asg_target_groups.group r))
                                      (ec2_asg_target_groups.new_target_groups r)]
| target_groups_swapped :
    target_groups_shape r
      [AttachLoadBalancerTargetGroups (AutoScalingGroupName (ec2_asg_target_groups.group r))
                                      (ec2_asg_target_groups.new_target_groups r);
       DetachLoadBalancerTargetGroups (AutoScalingGroupName (ec2_asg_target_groups.group r))
                                      (ec2_asg_target_groups.unique_old_target_groups r)].


(** A computation [never_raises] the exception [e]. *)
Definition never_raises {A} (e : string) (m : M A) : Prop :=
  forall w, (m w).1 <> Raise e.
(** ** The monad *)

Lemma mutations_app l1 l2 : mutations (l1 ++ l2) = mutations l1 ++ mutations l2.
Proof. apply List.filter_app. Qed.

Lemma mutations_snoc_other l c : is_mutation c = false -> mutations (l ++ [c]) = mutations l.
Proof. intros H. rewrite mutations_app. simpl. rewrite H. apply app_nil_r. Qed.

Lemma mutations_snoc_mutation l c : is_mutation c = true -> mutations (l ++ [c]) = mutations l ++ [c].
Proof. intros H. rewrite mutations_app. simpl. by rewrite H. Qed.

Lemma bind_Return {A B} (m : M A) (k : A -> M B) w a w' :
  m w = (Return a, w') -> bind m k w = k a w'.
Proof. intros H. unfold bind. by rewrite H. Qed.

Lemma bind_inv_Return {A B} (m : M A) (k : A -> M B) w b w' :
  bind m k w = (Return b, w') ->
  exists a w1, m w = (Return a, w1) /\ k a w1 = (Return b, w').
Proof.
  unfold bind. destruct (m w) as [[a| | |] w1]; intros H; try discriminate.
  by exists a, w1.
Qed.

Lemma quiet_ret {A} (a : A) : quiet (ret a).
Proof. by intros w. Qed.

Lemma quiet_fail_json {A} msg : quiet (@fail_json A msg).
Proof. by intros w. Qed.

Lemma quiet_raise {A} e : quiet (@raise A e).
Proof. by intros w. Qed.

Lemma quiet_diverge {A} : quiet (@diverge A).
Proof. by intros w. Qed.

Lemma quiet_bind {A B} (m : M A) (k : A -> M B) :
  quiet m -> (forall a, quiet (k a)) -> quiet (bind m k).
Proof.
  intros Hm Hk w. unfold bind. specialize (Hm w).
  destruct (m w) as [[a| | |] w1]; simpl in *; try done.
  destruct (Hk a w1) as [-> ->]. done.
Qed.

Lemma quiet_when c (body : M unit) : quiet body -> quiet (when c body).
Proof. destruct c; [done | intros _; apply quiet_ret]. Qed.

Lemma quiet_if {A} (c : bool) (m1 m2 : M A) :
  quiet m1 -> quiet m2 -> quiet (if c then m1 else m2).
Proof. by destruct c. Qed.

Lemma quiet_for_each {A S} (f : S -> A -> M S) l s :
  (forall s a, quiet (f s a)) -> quiet (for_each f l s).
Proof.
  intros Hf. revert s. induction l as [|x l IH]; intros s; simpl.
  - apply quiet_ret.
  - apply quiet_bind; [apply Hf | intros s'; apply IH].
Qed.

Lemma quiet_record {A} (a : World -> A) (f : World -> World) c :
  is_mutation c = false ->
  (forall w, groups (f w) = groups w /\ log (f w) = log w) ->
  quiet (fun w => (Return (a w), record c (f w))).
Proof.
  intros Hc Hf w. simpl. destruct (Hf w) as [-> ->].
  split; [done | by apply mutations_snoc_other].
Qed.

Lemma quiet_describe_auto_scaling_groups name : quiet (describe_auto_scaling_groups name).
Proof.
  destruct name; try apply quiet_raise.
  unfold describe_auto_scaling_groups.
  by apply (quiet_record (fun w => List.filter (named s) (groups w)) id).
Qed.

Lemma quiet_describe_instance_health env lb : quiet (describe_instance_health env lb).
Proof. by apply (quiet_record (fun w => instance_health env (polls w) lb) polled). Qed.

Lemma quiet_describe_target_health env arn i : quiet (describe_target_health env arn i).
Proof. by apply (quiet_record (fun w => target_health env (polls w) arn i) polled). Qed.

Lemma quiet_time_time env : quiet (time_time env).
Proof. by apply (quiet_record (fun w => clock env (ticks w)) tick). Qed.

Lemma quiet_sleep s : quiet (sleep s).
Proof. by apply (quiet_record (fun _ => tt) id). Qed.

Lemma quiet_the_group many none gs : quiet (the_group many none gs).
Proof.
  destruct gs as [|g [|g' gs]]; simpl;
    [apply quiet_fail_json | apply quiet_ret | apply quiet_fail_json].
Qed.

Lemma quiet_as_list v : quiet (as_list v).
Proof. destruct v; simpl; (apply quiet_ret || apply quiet_raise). Qed.

Lemma quiet_AnsibleModule spec args : quiet (AnsibleModule spec args).
Proof.
  unfold AnsibleModule.
  repeat (apply quiet_if; [apply quiet_fail_json |]). apply quiet_ret.
Qed.

Lemma quiet_deadline_from_now env v : quiet (deadline_from_now env v).
Proof.
  apply quiet_bind; [apply quiet_time_time |].
  intros now. destruct v; (apply quiet_ret || apply quiet_raise).
Qed.

Lemma quiet_poll_until env fuel deadline iteration flag :
  quiet iteration -> quiet (poll_until env fuel deadline iteration flag).
Proof.
  intros Hit. revert flag. induction fuel as [|fuel IH]; intros flag; simpl.
  - destruct flag; [apply quiet_ret |].
    apply quiet_bind; [apply quiet_time_time | intros now].
    apply quiet_if; [apply quiet_diverge | apply quiet_ret].
  - destruct flag; [apply quiet_ret |].
    apply quiet_bind; [apply quiet_time_time | intros now].
    apply quiet_if; [| apply quiet_ret].
    apply quiet_bind; [done | intros flag'].
    apply quiet_bind; [apply quiet_when, quiet_sleep | intros _; apply IH].
Qed.

Lemma quiet_gate env fuel v iteration : quiet iteration -> quiet (gate env fuel v iteration).
Proof.
  intros Hit. apply quiet_bind; [apply quiet_deadline_from_now | intros deadline].
  apply quiet_bind; [by apply quiet_poll_until | intros flag].
  apply quiet_bind; [apply quiet_time_time | intros now; apply quiet_ret].
Qed.

Create HintDb quiet.

#[global] Hint Resolve quiet_ret quiet_fail_json quiet_raise quiet_diverge quiet_when
  quiet_if quiet_describe_auto_scaling_groups quiet_describe_instance_health
  quiet_describe_target_health quiet_time_time quiet_sleep quiet_the_group
  quiet_as_list quiet_AnsibleModule quiet_deadline_from_now quiet_poll_until
  quiet_gate : quiet.

(** Walk through a script, one [bind] at a time. *)
Ltac quiet_steps :=
  repeat first
    [ progress auto with quiet
    | match goal with
      | |- quiet (bind _ _) => apply quiet_bind; [| intros ?]
      | |- quiet (for_each _ _ _) => apply quiet_for_each; intros ? ?
      | |- quiet (gate _ _ _ _) => apply quiet_gate
      | |- quiet (when _ _) => apply quiet_when
      | |- quiet (if _ then _ else _) => apply quiet_if
      end ].

Lemma bind_FailJson {A B} (m : M A) (k : A -> M B) w msg w' :
  m w = (FailJson msg, w') -> bind m k w = (FailJson msg, w').
Proof. intros H. unfold bind. by rewrite H. Qed.

Lemma bind_Raise {A B} (m : M A) (k : A -> M B) w e w' :
  m w = (Raise e, w') -> bind m k w = (Raise e, w').
Proof. intros H. unfold bind. by rewrite H. Qed.

Lemma bind_Diverge {A B} (m : M A) (k : A -> M B) w w' :
  m w = (Diverge, w') -> bind m k w = (Diverge, w').
Proof. intros H. unfold bind. by rewrite H. Qed.

(** ** AnsibleModule *)

Lemma AnsibleModule_cases spec args w :
  (exists msg, AnsibleModule spec args w = (FailJson msg, w))
  \/ (AnsibleModule spec args w
        = (Return (map_imap (fun k s => Some (default (arg_default s) (args !! k))) spec), w)
      /\ map_Forall (well_typed spec) args).
Proof.
  unfold AnsibleModule.
  destruct (bool_decide (map_Forall (well_typed spec) args)) eqn:Ht; simpl; [| by eauto].
  destruct (bool_decide (map_Forall (supplied args) spec)); simpl; [| by eauto].
  right. split; [done | by apply bool_decide_eq_true in Ht].
Qed.

(** [module.params] holds, for a declared argument, the supplied value or
    else the default. *)
Lemma params_declared (spec : gmap string argspec) (args : gmap string pyval) k s :
  spec !! k = Some s ->
  dict_get (map_imap (fun k s => Some (default (arg_default s) (args !! k))) spec) k
  = default (arg_default s) (args !! k).
Proof. intros H. unfold dict_get. rewrite map_lookup_imap, H. done. Qed.

(** ... and nothing for an argument that is not declared. *)
Lemma params_undeclared (spec : gmap string argspec) (args : gmap string pyval) k :
  spec !! k = None ->
  dict_get (map_imap (fun k s => Some (default (arg_default s) (args !! k))) spec) k = PyNone.
Proof. intros H. unfold dict_get. rewrite map_lookup_imap, H. done. Qed.

Lemma elb_declared env k s :
  (list_to_map
     [ ("current_group_name", arg_req TStr);
       ("new_group_name", arg_req TStr);
       ("standby_load_balancers", arg TList);
       ("verify_standby_instances", arg_def TBool (PyBool false));
       ("rollback_on_failure", arg_def TBool (PyBool true));
       ("wait_timeout", arg_def TInt (PyInt 300)) ] : gmap string argspec) !! k = Some s ->
  ec2_asg_cutover_elb.argument_spec env !! k = Some s.
Proof. intros H. unfold ec2_asg_cutover_elb.argument_spec. by apply lookup_union_Some_l. Qed.

Lemma tg_declared env k s :
  (list_to_map
     [ ("current_group_name", arg_req TStr);
       ("new_group_name", arg_req TStr);
       ("standby_target_group_arns", arg TList);
       ("verify_standby_instances", arg_def TBool (PyBool false));
       ("rollback_on_failure", arg_def TBool (PyBool true));
       ("wait_timeout", arg_def TInt (PyInt 300)) ] : gmap string argspec) !! k = Some s ->
  ec2_asg_cutover_target_groups.argument_spec env !! k = Some s.
Proof.
  intros H. unfold ec2_asg_cutover_target_groups.argument_spec. by apply lookup_union_Some_l.
Qed.

(** ** Identical names *)

Lemma elb_resolve_same_name params n w :
  dict_get params "current_group_name" = PyStr n ->
  dict_get params "new_group_name" = PyStr n ->
  ec2_asg_cutover_elb.resolve params w
  = (FailJson "current_group_name and new_group_name cannot be the same!", w).
Proof.
  intros Hc Hn. unfold ec2_asg_cutover_elb.resolve. rewrite Hc, Hn.
  rewrite bool_decide_eq_false_2 by done. rewrite bool_decide_eq_true_2 by done. done.
Qed.

Lemma tg_resolve_same_name params n w :
  dict_get params "current_group_name" = PyStr n ->
  dict_get params "new_group_name" = PyStr n ->
  ec2_asg_cutover_target_groups.resolve params w
  = (FailJson "current_group_name and new_group_name cannot be the same!", w).
Proof.
  intros Hc Hn. unfold ec2_asg_cutover_target_groups.resolve. rewrite Hc, Hn.
  rewrite bool_decide_eq_false_2 by done. rewrite bool_decide_eq_true_2 by done. done.
Qed.

Lemma elb_main_same_name env fuel args n w :
  args !! "current_group_name" = Some (PyStr n) ->
  args !! "new_group_name" = Some (PyStr n) ->
  exists msg, ec2_asg_cutover_elb.main env fuel args w = (FailJson msg, w).
Proof.
  intros Hc Hn.
  unfold ec2_asg_cutover_elb.main, ec2_asg_cutover_elb.run,
    ec2_asg_cutover_elb.to_deregistration_gate, ec2_asg_cutover_elb.first_gate.
  destruct (AnsibleModule_cases (ec2_asg_cutover_elb.argument_spec env) args w)
    as [[msg H] | [H _]].
  - exists msg. by apply bind_FailJson.
  - eexists. erewrite bind_Return by exact H.
    do 3 apply bind_FailJson. apply (elb_resolve_same_name _ n).
    + erewrite params_declared by (by apply elb_declared). by rewrite Hc.
    + erewrite params_declared by (by apply elb_declared). by rewrite Hn.
Qed.

Lemma tg_main_same_name env fuel args n w :
  args !! "current_group_name" = Some (PyStr n) ->
  args !! "new_group_name" = Some (PyStr n) ->
  exists msg, ec2_asg_cutover_target_groups.main env fuel args w = (FailJson msg, w).
Proof.
  intros Hc Hn.
  unfold ec2_asg_cutover_target_groups.main, ec2_asg_cutover_target_groups.run,
    ec2_asg_cutover_target_groups.to_deregistration_gate, ec2_asg_cutover_target_groups.first_gate.
  destruct (AnsibleModule_cases (ec2_asg_cutover_target_groups.argument_spec env) args w)
    as [[msg H] | [H _]].
  - exists msg. by apply bind_FailJson.
  - eexists. erewrite bind_Return by exact H.
    do 3 apply bind_FailJson. apply (tg_resolve_same_name _ n).
    + erewrite params_declared by (by apply tg_declared). by rewrite Hc.
    + erewrite params_declared by (by apply tg_declared). by rewrite Hn.
Qed.

(** ** Termination of the steps without a loop *)

Lemma halts_ret {A} (a : A) : halts (ret a).
Proof. by intros w. Qed.

Lemma halts_fail_json {A} msg : halts (@fail_json A msg).
Proof. by intros w. Qed.

Lemma halts_raise {A} e : halts (@raise A e).
Proof. by intros w. Qed.

Lemma halts_bind {A B} (m : M A) (k : A -> M B) :
  halts m -> (forall a, halts (k a)) -> halts (bind m k).
Proof.
  intros Hm Hk w. unfold bind. specialize (Hm w).
  destruct (m w) as [[a| | |] w1]; simpl in *; try done. apply Hk.
Qed.

Lemma halts_when c (body : M unit) : halts body -> halts (when c body).
Proof. destruct c; [done | intros _; apply halts_ret]. Qed.

Lemma halts_if {A} (c : bool) (m1 m2 : M A) :
  halts m1 -> halts m2 -> halts (if c then m1 else m2).
Proof. by destruct c. Qed.

Lemma halts_perform c : halts (perform c).
Proof. by intros w. Qed.

Lemma halts_describe_auto_scaling_groups name : halts (describe_auto_scaling_groups name).
Proof. destruct name; by intros w. Qed.

Lemma halts_the_group many none gs : halts (the_group many none gs).
Proof. destruct gs as [|g [|g' gs]]; by intros w. Qed.

Lemma halts_as_list v : halts (as_list v).
Proof. destruct v; by intros w. Qed.

Lemma halts_AnsibleModule spec args : halts (AnsibleModule spec args).
Proof.
  intros w. destruct (AnsibleModule_cases spec args w) as [[msg ->] | [-> _]]; done.
Qed.

Create HintDb halts.

#[global] Hint Resolve halts_ret halts_fail_json halts_raise halts_when halts_if
  halts_perform halts_describe_auto_scaling_groups halts_the_group halts_as_list
  halts_AnsibleModule : halts.

Ltac halts_steps :=
  repeat first
    [ apply halts_bind; [| intros ?]
    | progress auto with halts ].

(** A run that neither returns nor diverges has failed. *)
Lemma failure_or_not {A} (o : Outcome A) :
  o <> Diverge -> (forall a, o <> Return a) -> is_failure o = true.
Proof. destruct o; naive_solver. Qed.

(** ** Resolving the two groups *)

Lemma the_group_Return many none gs g w w' :
  the_group many none gs w = (Return g, w') -> gs = [g] /\ w' = w.
Proof.
  destruct gs as [|g0 [|g1 gs]]; simpl; intros H; try discriminate.
  unfold ret in H. by simplify_eq.
Qed.

Lemma describe_Return name gs w w' :
  describe_auto_scaling_groups name w = (Return gs, w') ->
  exists n, name = PyStr n /\ gs = lookup_group n w
            /\ w' = record (DescribeAutoScalingGroups [name]) w.
Proof.
  destruct name; simpl; intros H; try discriminate.
  simplify_eq. by eexists.
Qed.

Lemma when_Return c body w w' :
  when c (@fail_json unit body) w = (Return tt, w') -> c = false /\ w' = w.
Proof. destruct c; cbv [when fail_json ret]; intros H; [discriminate | by simplify_eq]. Qed.

Lemma elb_resolve_Return params w r w' :
  ec2_asg_cutover_elb.resolve params w = (Return r, w') ->
  exists c n,
    dict_get params "current_group_name" = PyStr c
    /\ dict_get params "new_group_name" = PyStr n
    /\ c <> n
    /\ lookup_group c w = [ec2_asg_cutover_elb.current_group r]
    /\ lookup_group n w = [ec2_asg_cutover_elb.new_group_ r]
    /\ ec2_asg_cutover_elb.target_load_balancers r = LoadBalancerNames (ec2_asg_cutover_elb.current_group r)
    /\ ec2_asg_cutover_elb.source_load_balancers r = LoadBalancerNames (ec2_asg_cutover_elb.new_group_ r)
    /\ ec2_asg_cutover_elb.target_load_balancers r <> []
    /\ ec2_asg_cutover_elb.source_load_balancers r <> []
    /\ ec2_asg_cutover_elb.standby_load_balancers r
       = py_or (dict_get params "standby_load_balancers") (PyList (ec2_asg_cutover_elb.source_load_balancers r))
    /\ ec2_asg_cutover_elb.original_instances r = map InstanceId (Instances (ec2_asg_cutover_elb.current_group r))
    /\ ec2_asg_cutover_elb.current_instance_status r = instance_status_of (ec2_asg_cutover_elb.current_group r)
    /\ ec2_asg_cutover_elb.new_instance_status r = instance_status_of (ec2_asg_cutover_elb.new_group_ r)
    /\ dict_all (fun _ status => negb (not_ready status)) (ec2_asg_cutover_elb.new_instance_status r) = true
    /\ w' = record (DescribeAutoScalingGroups [PyStr n])
                   (record (DescribeAutoScalingGroups [PyStr c]) w).
Proof.
  unfold ec2_asg_cutover_elb.resolve. intros H.
  apply bind_inv_Return in H as ([] & w1 & H1 & H).
  apply when_Return in H1 as [Hsame ->].
  apply bind_inv_Return in H as (gs & w2 & H2 & H).
  apply describe_Return in H2 as (c & Hc & -> & ->).
  apply bind_inv_Return in H as (cg & w3 & H3 & H).
  apply the_group_Return in H3 as [Hcg ->].
  apply bind_inv_Return in H as (gs' & w4 & H4 & H).
  apply describe_Return in H4 as (n & Hn & -> & ->).
  apply bind_inv_Return in H as (ng & w5 & H5 & H).
  apply the_group_Return in H5 as [Hng ->].
  apply bind_inv_Return in H as ([] & w6 & H6 & H).
  apply when_Return in H6 as [Ht ->].
  apply bind_inv_Return in H as ([] & w7 & H7 & H).
  apply when_Return in H7 as [Hs ->].
  apply bind_inv_Return in H as ([] & w8 & H8 & H).
  apply when_Return in H8 as [Hr ->].
  unfold ret in H. injection H as <- <-. simpl.
  exists c, n. rewrite Hc, Hn in *.
  apply negb_false_iff in Hr.
  apply bool_decide_eq_false in Ht, Hs.
  split_and!; try done.
  - intros ->. simpl in Hsame. by rewrite bool_decide_eq_true_2 in Hsame.
  - intros E. apply Ht. by rewrite E.
  - intros E. apply Hs. by rewrite E.
Qed.

Lemma tg_resolve_Return params w r w' :
  ec2_asg_cutover_target_groups.resolve params w = (Return r, w') ->
  exists c n,
    dict_get params "current_group_name" = PyStr c
    /\ dict_get params "new_group_name" = PyStr n
    /\ c <> n
    /\ lookup_group c w = [ec2_asg_cutover_target_groups.current_group r]
    /\ lookup_group n w = [ec2_asg_cutover_target_groups.new_group_ r]
    /\ ec2_asg_cutover_target_groups.dest_target_groups r = TargetGroupARNs (ec2_asg_cutover_target_groups.current_group r)
    /\ ec2_asg_cutover_target_groups.source_target_groups r = TargetGroupARNs (ec2_asg_cutover_target_groups.new_group_ r)
    /\ ec2_asg_cutover_target_groups.dest_target_groups r <> []
    /\ ec2_asg_cutover_target_groups.source_target_groups r <> []
    /\ ec2_asg_cutover_target_groups.standby_target_groups r
       = py_or (dict_get params "standby_target_group_arns") (PyList (ec2_asg_cutover_target_groups.source_target_groups r))
    /\ ec2_asg_cutover_target_groups.original_instances r = map InstanceId (Instances (ec2_asg_cutover_target_groups.current_group r))
    /\ ec2_asg_cutover_target_groups.current_instance_status r = instance_status_of (ec2_asg_cutover_target_groups.current_group r)
    /\ ec2_asg_cutover_target_groups.new_instance_status r = instance_status_of (ec2_asg_cutover_target_groups.new_group_ r)
    /\ dict_all (fun _ status => negb (not_ready status)) (ec2_asg_cutover_target_groups.new_instance_status r) = true
    /\ w' = record (DescribeAutoScalingGroups [PyStr n])
                   (record (DescribeAutoScalingGroups [PyStr c]) w).
Proof.
  unfold ec2_asg_cutover_target_groups.resolve. intros H.
  apply bind_inv_Return in H as ([] & w1 & H1 & H).
  apply when_Return in H1 as [Hsame ->].
  apply bind_inv_Return in H as (gs & w2 & H2 & H).
  apply describe_Return in H2 as (c & Hc & -> & ->).
  apply bind_inv_Return in H as (cg & w3 & H3 & H).
  apply the_group_Return in H3 as [Hcg ->].
  apply bind_inv_Return in H as (gs' & w4 & H4 & H).
  apply describe_Return in H4 as (n & Hn & -> & ->).
  apply bind_inv_Return in H as (ng & w5 & H5 & H).
  apply the_group_Return in H5 as [Hng ->].
  apply bind_inv_Return in H as ([] & w6 & H6 & H).
  apply when_Return in H6 as [Ht ->].
  apply bind_inv_Return in H as ([] & w7 & H7 & H).
  apply when_Return in H7 as [Hs ->].
  apply bind_inv_Return in H as ([] & w8 & H8 & H).
  apply when_Return in H8 as [Hr ->].
  unfold ret in H. injection H as <- <-. simpl.
  exists c, n. rewrite Hc, Hn in *.
  apply negb_false_iff in Hr.
  apply bool_decide_eq_false in Ht, Hs.
  split_and!; try done.
  - intros ->. simpl in Hsame. by rewrite bool_decide_eq_true_2 in Hsame.
  - intros E. apply Ht. by rewrite E.
  - intros E. apply Hs. by rewrite E.
Qed.

Lemma elb_resolve_quiet params : quiet (ec2_asg_cutover_elb.resolve params).
Proof. unfold ec2_asg_cutover_elb.resolve. quiet_steps. Qed.

Lemma tg_resolve_quiet params : quiet (ec2_asg_cutover_target_groups.resolve params).
Proof. unfold ec2_asg_cutover_target_groups.resolve. quiet_steps. Qed.

Lemma elb_resolve_halts params : halts (ec2_asg_cutover_elb.resolve params).
Proof. unfold ec2_asg_cutover_elb.resolve. halts_steps. Qed.

Lemma tg_resolve_halts params : halts (ec2_asg_cutover_target_groups.resolve params).
Proof. unfold ec2_asg_cutover_target_groups.resolve. halts_steps. Qed.

Lemma dict_all_lookup {V} (f : string -> V -> bool) (d : gmap string V) k v :
  dict_all f d = true -> d !! k = Some v -> f k v = true.
Proof.
  unfold dict_all. rewrite List.forallb_forall. intros H Hk.
  apply (H (k, v)). apply list_elem_of_In. by apply elem_of_map_to_list.
Qed.

Lemma dict_all_intro {V} (f : string -> V -> bool) (d : gmap string V) :
  (forall k v, d !! k = Some v -> f k v = true) -> dict_all f d = true.
Proof.
  intros H. unfold dict_all. rewrite List.forallb_forall. intros [k v] Hin.
  apply H. by apply elem_of_map_to_list, list_elem_of_In.
Qed.

Lemma lookup_group_In g n w :
  In g (groups w) -> AutoScalingGroupName g = n -> In g (lookup_group n w).
Proof.
  intros Hin Hn. unfold lookup_group. apply List.filter_In. split; [done |].
  unfold named. by apply bool_decide_eq_true.
Qed.

(** ** A run whose groups do not resolve stops before the first mutation *)

Lemma elb_unresolved env fuel args w :
  (forall r w1,
      ec2_asg_cutover_elb.resolve
        (map_imap (fun k s => Some (default (arg_default s) (args !! k)))
                  (ec2_asg_cutover_elb.argument_spec env)) w <> (Return r, w1)) ->
  is_failure (ec2_asg_cutover_elb.main env fuel args w).1 = true
  /\ groups (ec2_asg_cutover_elb.main env fuel args w).2 = groups w
  /\ mutations (log (ec2_asg_cutover_elb.main env fuel args w).2) = mutations (log w).
Proof.
  intros Hres.
  unfold ec2_asg_cutover_elb.main, ec2_asg_cutover_elb.run,
    ec2_asg_cutover_elb.to_deregistration_gate, ec2_asg_cutover_elb.first_gate.
  destruct (AnsibleModule_cases (ec2_asg_cutover_elb.argument_spec env) args w)
    as [[msg H] | [H _]].
  - by rewrite (bind_FailJson _ _ w msg w).
  - set (params := map_imap _ _) in *.
    pose proof (elb_resolve_quiet params w) as [Hg Hm].
    pose proof (elb_resolve_halts params w) as Hh.
    specialize (Hres).
    destruct (ec2_asg_cutover_elb.resolve params w) as [[r|msg|e|] w1] eqn:Hr; simpl in *.
    + by destruct (Hres r w1).
    + erewrite bind_Return by exact H.
      rewrite (bind_FailJson _ _ w msg w1); [done |]. by do 2 apply bind_FailJson.
    + erewrite bind_Return by exact H.
      rewrite (bind_Raise _ _ w e w1); [done |]. by do 2 apply bind_Raise.
    + done.
Qed.

Lemma tg_unresolved env fuel args w :
  (forall r w1,
      ec2_asg_cutover_target_groups.resolve
        (map_imap (fun k s => Some (default (arg_default s) (args !! k)))
                  (ec2_asg_cutover_target_groups.argument_spec env)) w <> (Return r, w1)) ->
  is_failure (ec2_asg_cutover_target_groups.main env fuel args w).1 = true
  /\ groups (ec2_asg_cutover_target_groups.main env fuel args w).2 = groups w
  /\ mutations (log (ec2_asg_cutover_target_groups.main env fuel args w).2) = mutations (log w).
Proof.
  intros Hres.
  unfold ec2_asg_cutover_target_groups.main, ec2_asg_cutover_target_groups.run,
    ec2_asg_cutover_target_groups.to_deregistration_gate, ec2_asg_cutover_target_groups.first_gate.
  destruct (AnsibleModule_cases (ec2_asg_cutover_target_groups.argument_spec env) args w)
    as [[msg H] | [H _]].
  - by rewrite (bind_FailJson _ _ w msg w).
  - set (params := map_imap _ _) in *.
    pose proof (tg_resolve_quiet params w) as [Hg Hm].
    pose proof (tg_resolve_halts params w) as Hh.
    destruct (ec2_asg_cutover_target_groups.resolve params w) as [[r|msg|e|] w1] eqn:Hr;
      simpl in *.
    + by destruct (Hres r w1).
    + erewrite bind_Return by exact H.
      rewrite (bind_FailJson _ _ w msg w1); [done |]. by do 2 apply bind_FailJson.
    + erewrite bind_Return by exact H.
      rewrite (bind_Raise _ _ w e w1); [done |]. by do 2 apply bind_Raise.
    + done.
Qed.

(** ** With string names, resolution raises nothing *)

Lemma calm_ret {A} (a : A) : calm (ret a).
Proof. by intros w e. Qed.

Lemma calm_fail_json {A} msg : calm (@fail_json A msg).
Proof. by intros w e. Qed.

Lemma calm_bind {A B} (m : M A) (k : A -> M B) :
  calm m -> (forall a, calm (k a)) -> calm (bind m k).
Proof.
  intros Hm Hk w e. unfold bind. specialize (Hm w).
  destruct (m w) as [[a| |e'|] w1]; simpl in *; try done.
  - apply Hk.
  - by destruct (Hm e').
Qed.

Lemma calm_when c (body : M unit) : calm body -> calm (when c body).
Proof. destruct c; [done | intros _; apply calm_ret]. Qed.

Lemma calm_describe_auto_scaling_groups n : calm (describe_auto_scaling_groups (PyStr n)).
Proof. by intros w e. Qed.

Lemma calm_the_group many none gs : calm (the_group many none gs).
Proof. destruct gs as [|g [|g' gs]]; by intros w e. Qed.

Create HintDb calm.

#[global] Hint Resolve calm_ret calm_fail_json calm_when calm_describe_auto_scaling_groups
  calm_the_group : calm.

Ltac calm_steps :=
  repeat first
    [ apply calm_bind; [| intros ?]
    | progress auto with calm ].

Lemma elb_resolve_calm params c n :
  dict_get params "current_group_name" = PyStr c ->
  dict_get params "new_group_name" = PyStr n ->
  calm (ec2_asg_cutover_elb.resolve params).
Proof. intros Hc Hn. unfold ec2_asg_cutover_elb.resolve. rewrite Hc, Hn. calm_steps. Qed.

Lemma tg_resolve_calm params c n :
  dict_get params "current_group_name" = PyStr c ->
  dict_get params "new_group_name" = PyStr n ->
  calm (ec2_asg_cutover_target_groups.resolve params).
Proof.
  intros Hc Hn. unfold ec2_asg_cutover_target_groups.resolve. rewrite Hc, Hn. calm_steps.
Qed.

(** The names that reach [module.params] are the names supplied. *)
Lemma elb_params_names env (args : gmap string pyval) c n :
  args !! "current_group_name" = Some (PyStr c) ->
  args !! "new_group_name" = Some (PyStr n) ->
  let params := map_imap (fun k s => Some (default (arg_default s) (args !! k)))
                         (ec2_asg_cutover_elb.argument_spec env) in
  dict_get params "current_group_name" = PyStr c
  /\ dict_get params "new_group_name" = PyStr n.
Proof.
  intros Hc Hn. split.
  - erewrite params_declared by (by apply elb_declared). by rewrite Hc.
  - erewrite params_declared by (by apply elb_declared). by rewrite Hn.
Qed.

Lemma tg_params_names env (args : gmap string pyval) c n :
  args !! "current_group_name" = Some (PyStr c) ->
  args !! "new_group_name" = Some (PyStr n) ->
  let params := map_imap (fun k s => Some (default (arg_default s) (args !! k)))
                         (ec2_asg_cutover_target_groups.argument_spec env) in
  dict_get params "current_group_name" = PyStr c
  /\ dict_get params "new_group_name" = PyStr n.
Proof.
  intros Hc Hn. split.
  - erewrite params_declared by (by apply tg_declared). by rewrite Hc.
  - erewrite params_declared by (by apply tg_declared). by rewrite Hn.
Qed.

(** With string names, a run whose groups do not resolve ends in
    [fail_json] before the first mutation. *)
Lemma elb_rejected env fuel (args : gmap string pyval) c n w :
  args !! "current_group_name" = Some (PyStr c) ->
  args !! "new_group_name" = Some (PyStr n) ->
  (forall r w1,
      ec2_asg_cutover_elb.resolve
        (map_imap (fun k s => Some (default (arg_default s) (args !! k)))
                  (ec2_asg_cutover_elb.argument_spec env)) w <> (Return r, w1)) ->
  exists msg w',
    ec2_asg_cutover_elb.main env fuel args w = (FailJson msg, w')
    /\ groups w' = groups w
    /\ mutations (log w') = mutations (log w).
Proof.
  intros Hc Hn Hres.
  destruct (elb_unresolved env fuel args w Hres) as (Hf & Hg & Hm).
  destruct (elb_params_names env args c n Hc Hn) as [Hpc Hpn].
  revert Hf Hg Hm.
  unfold ec2_asg_cutover_elb.main, ec2_asg_cutover_elb.run,
    ec2_asg_cutover_elb.to_deregistration_gate, ec2_asg_cutover_elb.first_gate.
  destruct (AnsibleModule_cases (ec2_asg_cutover_elb.argument_spec env) args w)
    as [[msg H] | [H _]].
  - rewrite (bind_FailJson _ _ w msg w); by eauto.
  - set (params := map_imap _ _) in *.
    pose proof (elb_resolve_calm params c n Hpc Hpn w) as Hcalm.
    pose proof (elb_resolve_halts params w) as Hh.
    destruct (ec2_asg_cutover_elb.resolve params w) as [[r|msg|e|] w1] eqn:Hr; simpl in *.
    + by destruct (Hres r w1).
    + erewrite bind_Return by exact H.
      rewrite (bind_FailJson _ _ w msg w1); [by eauto |]. by do 2 apply bind_FailJson.
    + by destruct (Hcalm e).
    + done.
Qed.

Lemma tg_rejected env fuel (args : gmap string pyval) c n w :
  args !! "current_group_name" = Some (PyStr c) ->
  args !! "new_group_name" = Some (PyStr n) ->
  (forall r w1,
      ec2_asg_cutover_target_groups.resolve
        (map_imap (fun k s => Some (default (arg_default s) (args !! k)))
                  (ec2_asg_cutover_target_groups.argument_spec env)) w <> (Return r, w1)) ->
  exists msg w',
    ec2_asg_cutover_target_groups.main env fuel args w = (FailJson msg, w')
    /\ groups w' = groups w
    /\ mutations (log w') = mutations (log w).
Proof.
  intros Hc Hn Hres.
  destruct (tg_unresolved env fuel args w Hres) as (Hf & Hg & Hm).
  destruct (tg_params_names env args c n Hc Hn) as [Hpc Hpn].
  revert Hf Hg Hm.
  unfold ec2_asg_cutover_target_groups.main, ec2_asg_cutover_target_groups.run,
    ec2_asg_cutover_target_groups.to_deregistration_gate, ec2_asg_cutover_target_groups.first_gate.
  destruct (AnsibleModule_cases (ec2_asg_cutover_target_groups.argument_spec env) args w)
    as [[msg H] | [H _]].
  - rewrite (bind_FailJson _ _ w msg w); by eauto.
  - set (params := map_imap _ _) in *.
    pose proof (tg_resolve_calm params c n Hpc Hpn w) as Hcalm.
    pose proof (tg_resolve_halts params w) as Hh.
    destruct (ec2_asg_cutover_target_groups.resolve params w) as [[r|msg|e|] w1] eqn:Hr;
      simpl in *.
    + by destruct (Hres r w1).
    + erewrite bind_Return by exact H.
      rewrite (bind_FailJson _ _ w msg w1); [by eauto |]. by do 2 apply bind_FailJson.
    + by destruct (Hcalm e).
    + done.
Qed.

(** ** Leaving out an optional argument that was supplied as a falsy-typed value *)

Lemma AnsibleModule_delete (spec : gmap string argspec) (args : gmap string pyval) k v s w :
  args !! k = Some v ->
  spec !! k = Some s ->
  has_type (arg_type s) v = true ->
  arg_required s = false ->
  (exists msg, AnsibleModule spec args w = (FailJson msg, w)
               /\ AnsibleModule spec (delete k args) w = (FailJson msg, w))
  \/ (AnsibleModule spec args w
        = (Return (map_imap (fun k s => Some (default (arg_default s) (args !! k))) spec), w)
      /\ AnsibleModule spec (delete k args) w
        = (Return (map_imap (fun k' s => Some (default (arg_default s) (delete k args !! k')))
                            spec), w)).
Proof.
  intros Hk Hs Ht Hr. unfold AnsibleModule.
  assert (map_Forall (well_typed spec) args <-> map_Forall (well_typed spec) (delete k args))
    as Hwt.
  { split; [apply map_Forall_delete |]. intros H.
    rewrite <- (insert_delete_id args k v) by done.
    apply map_Forall_insert_2; [| done]. unfold well_typed. by rewrite Hs. }
  assert (map_Forall (supplied args) spec <-> map_Forall (supplied (delete k args)) spec)
    as Hsup.
  { unfold supplied. split; intros H k' s' Hs' Hreq.
    - destruct (decide (k' = k)) as [-> | Hne]; [congruence |].
      rewrite lookup_delete_ne by done. by apply (H k' s').
    - destruct (decide (k' = k)) as [-> | Hne]; [by rewrite Hk |].
      specialize (H k' s' Hs' Hreq). by rewrite lookup_delete_ne in H. }
  rewrite <- (bool_decide_ext _ _ Hwt), <- (bool_decide_ext _ _ Hsup).
  destruct (bool_decide (map_Forall (well_typed spec) args)); simpl; [| by eauto].
  destruct (bool_decide (map_Forall (supplied args) spec)); simpl; by eauto.
Qed.

Lemma params_delete_ne (spec : gmap string argspec) (args : gmap string pyval) k k' :
  k' <> k ->
  dict_get (map_imap (fun k0 s => Some (default (arg_default s) (delete k args !! k0))) spec) k'
  = dict_get (map_imap (fun k s => Some (default (arg_default s) (args !! k))) spec) k'.
Proof.
  intros Hne. unfold dict_get. rewrite !map_lookup_imap.
  destruct (spec !! k'); simpl; [| done]. by rewrite lookup_delete_ne by done.
Qed.

Lemma elb_run_standby env fuel p1 p2 w :
  dict_get p1 "current_group_name" = dict_get p2 "current_group_name" ->
  dict_get p1 "new_group_name" = dict_get p2 "new_group_name" ->
  dict_get p1 "wait_timeout" = dict_get p2 "wait_timeout" ->
  dict_get p1 "rollback_on_failure" = dict_get p2 "rollback_on_failure" ->
  dict_get p1 "verify_standby_instances" = dict_get p2 "verify_standby_instances" ->
  dict_get p1 "standby_load_balancers" = PyList [] ->
  dict_get p2 "standby_load_balancers" = PyNone ->
  ec2_asg_cutover_elb.run env fuel p1 w = ec2_asg_cutover_elb.run env fuel p2 w.
Proof.
  intros H1 H2 H3 H4 H5 H6 H7.
  unfold ec2_asg_cutover_elb.run, ec2_asg_cutover_elb.to_deregistration_gate,
    ec2_asg_cutover_elb.first_gate, ec2_asg_cutover_elb.resolve,
    ec2_asg_cutover_elb.await_new_healthy, ec2_asg_cutover_elb.new_group_timed_out,
    ec2_asg_cutover_elb.await_deregistered, ec2_asg_cutover_elb.verify_standby.
  rewrite H1, H2, H3, H4, H5, H6, H7. reflexivity.
Qed.

Lemma tg_run_standby env fuel p1 p2 w :
  dict_get p1 "current_group_name" = dict_get p2 "current_group_name" ->
  dict_get p1 "new_group_name" = dict_get p2 "new_group_name" ->
  dict_get p1 "wait_timeout" = dict_get p2 "wait_timeout" ->
  dict_get p1 "rollback_on_failure" = dict_get p2 "rollback_on_failure" ->
  dict_get p1 "verify_standby_instances" = dict_get p2 "verify_standby_instances" ->
  dict_get p1 "standby_target_group_arns" = PyList [] ->
  dict_get p2 "standby_target_group_arns" = PyNone ->
  ec2_asg_cutover_target_groups.run env fuel p1 w = ec2_asg_cutover_target_groups.run env fuel p2 w.
Proof.
  intros H1 H2 H3 H4 H5 H6 H7.
  unfold ec2_asg_cutover_target_groups.run, ec2_asg_cutover_target_groups.to_deregistration_gate,
    ec2_asg_cutover_target_groups.first_gate, ec2_asg_cutover_target_groups.resolve,
    ec2_asg_cutover_target_groups.await_new_healthy, ec2_asg_cutover_target_groups.new_group_timed_out,
    ec2_asg_cutover_target_groups.await_deregistered,
    ec2_asg_cutover_target_groups.old_group_timed_out,
    ec2_asg_cutover_target_groups.verify_standby.
  rewrite H1, H2, H3, H4, H5, H6, H7. reflexivity.
Qed.

(** ** What a completed run returns *)

Lemma as_list_Return v l w w' : as_list v w = (Return l, w') -> v = PyList l /\ w' = w.
Proof. destruct v; simpl; intros H; try discriminate. unfold ret in H. by simplify_eq. Qed.

Lemma py_or_list_nonempty v src l :
  src <> [] -> py_or v (PyList src) = PyList l -> l <> [].
Proof.
  unfold py_or. intros Hsrc. destruct (truthy v) eqn:Ht.
  - intros ->. simpl in Ht. apply negb_true_iff, bool_decide_eq_false in Ht. done.
  - intros H. by simplify_eq.
Qed.

Lemma elb_timed_out_no_Return {A} params r w (a : A) w' :
  ec2_asg_cutover_elb.new_group_timed_out params r w <> (Return a, w').
Proof.
  unfold ec2_asg_cutover_elb.new_group_timed_out. intros H.
  apply bind_inv_Return in H as (? & ? & _ & H). discriminate.
Qed.

Lemma elb_run_Return env fuel params w result w' :
  ec2_asg_cutover_elb.run env fuel params w = (Return result, w') ->
  exists r w1,
    ec2_asg_cutover_elb.resolve params w = (Return r, w1)
    /\ ec2_asg_cutover_elb.standby_load_balancers r
       = PyList (ec2_asg_cutover_elb.load_balancer_names (ec2_asg_cutover_elb.old_group result))
    /\ ec2_asg_cutover_elb.load_balancer_names (ec2_asg_cutover_elb.new_group result)
       = ec2_asg_cutover_elb.target_load_balancers r.
Proof.
  unfold ec2_asg_cutover_elb.run. intros H.
  apply bind_inv_Return in H as (r & w2 & Hg & H).
  apply bind_inv_Return in H as ([] & w3 & _ & H).
  apply bind_inv_Return in H as ([] & w4 & _ & H).
  unfold ec2_asg_cutover_elb.result_of in H.
  apply bind_inv_Return in H as (l & w5 & Hl & H).
  apply as_list_Return in Hl as [Hl ->]. unfold ret in H. simplify_eq.
  unfold ec2_asg_cutover_elb.to_deregistration_gate in Hg.
  apply bind_inv_Return in Hg as ([r0 res] & w6 & Hf & Hg). simpl in Hg.
  destruct res.2.
  { by apply elb_timed_out_no_Return in Hg. }
  apply bind_inv_Return in Hg as ([] & w7 & _ & Hg). unfold ret in Hg. simplify_eq.
  unfold ec2_asg_cutover_elb.first_gate in Hf.
  apply bind_inv_Return in Hf as (r1 & w8 & Hr & Hf).
  apply bind_inv_Return in Hf as ([] & w9 & _ & Hf).
  apply bind_inv_Return in Hf as (res1 & w10 & _ & Hf). unfold ret in Hf. simplify_eq.
  by exists r, w8.
Qed.

Lemma tg_timed_out_no_Return {A} params r w (a : A) w' :
  ec2_asg_cutover_target_groups.new_group_timed_out params r w <> (Return a, w').
Proof.
  unfold ec2_asg_cutover_target_groups.new_group_timed_out. intros H.
  destruct (truthy _); [| discriminate].
  apply bind_inv_Return in H as (? & ? & _ & H).
  apply bind_inv_Return in H as (? & ? & _ & H). discriminate.
Qed.

Lemma tg_run_Return env fuel params w result w' :
  ec2_asg_cutover_target_groups.run env fuel params w = (Return result, w') ->
  exists r w1,
    ec2_asg_cutover_target_groups.resolve params w = (Return r, w1)
    /\ ec2_asg_cutover_target_groups.standby_target_groups r
       = PyList (ec2_asg_cutover_target_groups.target_group_arns (ec2_asg_cutover_target_groups.old_group result))
    /\ ec2_asg_cutover_target_groups.target_group_arns (ec2_asg_cutover_target_groups.new_group result)
       = ec2_asg_cutover_target_groups.dest_target_groups r.
Proof.
  unfold ec2_asg_cutover_target_groups.run. intros H.
  apply bind_inv_Return in H as (r & w2 & Hg & H).
  apply bind_inv_Return in H as ([] & w3 & _ & H).
  apply bind_inv_Return in H as ([] & w4 & _ & H).
  unfold ec2_asg_cutover_target_groups.result_of in H.
  apply bind_inv_Return in H as (l & w5 & Hl & H).
  apply as_list_Return in Hl as [Hl ->]. unfold ret in H. simplify_eq.
  unfold ec2_asg_cutover_target_groups.to_deregistration_gate in Hg.
  apply bind_inv_Return in Hg as ([r0 res] & w6 & Hf & Hg). simpl in Hg.
  destruct res.2.
  { by apply tg_timed_out_no_Return in Hg. }
  apply bind_inv_Return in Hg as ([] & w7 & _ & Hg). unfold ret in Hg. simplify_eq.
  unfold ec2_asg_cutover_target_groups.first_gate in Hf.
  apply bind_inv_Return in Hf as (r1 & w8 & Hr & Hf).
  apply bind_inv_Return in Hf as ([] & w9 & _ & Hf).
  apply bind_inv_Return in Hf as (res1 & w10 & _ & Hf). unfold ret in Hf. simplify_eq.
  by exists r, w8.
Qed.

(** ** An empty standby list *)

Lemma elb_empty_standby_omitted env fuel (args : gmap string pyval) w :
  args !! "standby_load_balancers" = Some (PyList []) ->
  ec2_asg_cutover_elb.main env fuel args w
  = ec2_asg_cutover_elb.main env fuel (delete "standby_load_balancers" args) w.
Proof.
  intros Hs. unfold ec2_asg_cutover_elb.main.
  destruct (AnsibleModule_delete (ec2_asg_cutover_elb.argument_spec env) args
              "standby_load_balancers" (PyList []) (arg TList) w Hs)
    as [(msg & H1 & H2) | [H1 H2]]; try done.
  { by apply elb_declared. }
  { by rewrite (bind_FailJson _ _ _ _ _ H1), (bind_FailJson _ _ _ _ _ H2). }
  rewrite (bind_Return _ _ _ _ _ H1), (bind_Return _ _ _ _ _ H2).
  apply elb_run_standby; try (symmetry; by apply params_delete_ne).
  - erewrite params_declared by (by apply elb_declared). by rewrite Hs.
  - erewrite params_declared by (by apply elb_declared). by rewrite lookup_delete_eq.
Qed.

Lemma elb_standby_of_completed env fuel (args : gmap string pyval) w result w' :
  ec2_asg_cutover_elb.main env fuel args w = (Return result, w') ->
  exists n g,
    args !! "new_group_name" = Some (PyStr n)
    /\ lookup_group n w = [g]
    /\ LoadBalancerNames g <> []
    /\ PyList (ec2_asg_cutover_elb.load_balancer_names (ec2_asg_cutover_elb.old_group result))
       = py_or (default PyNone (args !! "standby_load_balancers"))
               (PyList (LoadBalancerNames g)).
Proof.
  unfold ec2_asg_cutover_elb.main. intros H.
  apply bind_inv_Return in H as (params & w0 & Ha & H).
  destruct (AnsibleModule_cases (ec2_asg_cutover_elb.argument_spec env) args w)
    as [[msg Hm] | [Hm _]]; rewrite Hm in Ha; [discriminate |].
  injection Ha as <- <-.
  apply elb_run_Return in H as (r & w1 & Hr & Hst & _).
  apply elb_resolve_Return in Hr
    as (c & n & _ & Hn & _ & _ & Hng & _ & Hsrc & _ & Hne & Hsb & _).
  erewrite params_declared in Hn by (by apply elb_declared).
  erewrite params_declared in Hsb by (by apply elb_declared).
  exists n, (ec2_asg_cutover_elb.new_group_ r).
  split; [| split; [done | split]].
  - destruct (args !! "new_group_name") as [v|]; simpl in Hn; by simplify_eq.
  - by rewrite <- Hsrc.
  - by rewrite <- Hst, Hsb, Hsrc.
Qed.

Lemma tg_empty_standby_omitted env fuel (args : gmap string pyval) w :
  args !! "standby_target_group_arns" = Some (PyList []) ->
  ec2_asg_cutover_target_groups.main env fuel args w
  = ec2_asg_cutover_target_groups.main env fuel (delete "standby_target_group_arns" args) w.
Proof.
  intros Hs. unfold ec2_asg_cutover_target_groups.main.
  destruct (AnsibleModule_delete (ec2_asg_cutover_target_groups.argument_spec env) args
              "standby_target_group_arns" (PyList []) (arg TList) w Hs)
    as [(msg & H1 & H2) | [H1 H2]]; try done.
  { by apply tg_declared. }
  { by rewrite (bind_FailJson _ _ _ _ _ H1), (bind_FailJson _ _ _ _ _ H2). }
  rewrite (bind_Return _ _ _ _ _ H1), (bind_Return _ _ _ _ _ H2).
  apply tg_run_standby; try (symmetry; by apply params_delete_ne).
  - erewrite params_declared by (by apply tg_declared). by rewrite Hs.
  - erewrite params_declared by (by apply tg_declared). by rewrite lookup_delete_eq.
Qed.

Lemma tg_standby_of_completed env fuel (args : gmap string pyval) w result w' :
  ec2_asg_cutover_target_groups.main env fuel args w = (Return result, w') ->
  exists n g,
    args !! "new_group_name" = Some (PyStr n)
    /\ lookup_group n w = [g]
    /\ TargetGroupARNs g <> []
    /\ PyList (ec2_asg_cutover_target_groups.target_group_arns (ec2_asg_cutover_target_groups.old_group result))
       = py_or (default PyNone (args !! "standby_target_group_arns"))
               (PyList (TargetGroupARNs g)).
Proof.
  unfold ec2_asg_cutover_target_groups.main. intros H.
  apply bind_inv_Return in H as (params & w0 & Ha & H).
  destruct (AnsibleModule_cases (ec2_asg_cutover_target_groups.argument_spec env) args w)
    as [[msg Hm] | [Hm _]]; rewrite Hm in Ha; [discriminate |].
  injection Ha as <- <-.
  apply tg_run_Return in H as (r & w1 & Hr & Hst & _).
  apply tg_resolve_Return in Hr
    as (c & n & _ & Hn & _ & _ & Hng & _ & Hsrc & _ & Hne & Hsb & _).
  erewrite params_declared in Hn by (by apply tg_declared).
  erewrite params_declared in Hsb by (by apply tg_declared).
  exists n, (ec2_asg_cutover_target_groups.new_group_ r).
  split; [| split; [done | split]].
  - destruct (args !! "new_group_name") as [v|]; simpl in Hn; by simplify_eq.
  - by rewrite <- Hsrc.
  - by rewrite <- Hst, Hsb, Hsrc.
Qed.

(** ** The single-group modules do not declare [rollback_on_failure] *)

Lemma undeclared_stays_None (spec : gmap string argspec) (args : gmap string pyval) k w params w' :
  spec !! k = None ->
  AnsibleModule spec args w = (Return params, w') ->
  dict_get params k = PyNone.
Proof.
  intros Hk H.
  destruct (AnsibleModule_cases spec args w) as [[msg Hm] | [Hm _]];
    rewrite Hm in H; [discriminate |].
  injection H as <- <-. by apply params_undeclared.
Qed.

Lemma elbs_rollback_undeclared env :
  ec2_argument_spec env !! "rollback_on_failure" = None ->
  ec2_asg_elbs.argument_spec env !! "rollback_on_failure" = None.
Proof.
  intros H. unfold ec2_asg_elbs.argument_spec. apply lookup_union_None. by split.
Qed.

Lemma target_groups_rollback_undeclared env :
  ec2_argument_spec env !! "rollback_on_failure" = None ->
  ec2_asg_target_groups.argument_spec env !! "rollback_on_failure" = None.
Proof.
  intros H. unfold ec2_asg_target_groups.argument_spec. apply lookup_union_None. by split.
Qed.

Lemma elbs_timeout env fuel args w r flag w' :
  ec2_argument_spec env !! "rollback_on_failure" = None ->
  bind (AnsibleModule (ec2_asg_elbs.argument_spec env) args)
       (ec2_asg_elbs.first_gate env fuel) w = (Return (r, (flag, true)), w') ->
  ec2_asg_elbs.main env fuel args w
  = (FailJson "Waited too long for target ELB to report instances as healthy", w').
Proof.
  intros Hu H. apply bind_inv_Return in H as (params & w0 & Ha & Hg).
  unfold ec2_asg_elbs.main. rewrite (bind_Return _ _ _ _ _ Ha).
  unfold ec2_asg_elbs.run. rewrite (bind_Return _ _ _ _ _ Hg). simpl.
  unfold ec2_asg_elbs.timed_out.
  rewrite (undeclared_stays_None _ _ _ _ _ _ (elbs_rollback_undeclared env Hu) Ha).
  reflexivity.
Qed.

Lemma target_groups_timeout env fuel args w r flag w' :
  ec2_argument_spec env !! "rollback_on_failure" = None ->
  bind (AnsibleModule (ec2_asg_target_groups.argument_spec env) args)
       (ec2_asg_target_groups.first_gate env fuel) w = (Return (r, (flag, true)), w') ->
  ec2_asg_target_groups.main env fuel args w
  = (FailJson "Waited too long for target ELB to report instances as healthy. No rollback action was taken.", w').
Proof.
  intros Hu H. apply bind_inv_Return in H as (params & w0 & Ha & Hg).
  unfold ec2_asg_target_groups.main. rewrite (bind_Return _ _ _ _ _ Ha).
  unfold ec2_asg_target_groups.run. rewrite (bind_Return _ _ _ _ _ Hg). simpl.
  unfold ec2_asg_target_groups.timed_out.
  rewrite (undeclared_stays_None _ _ _ _ _ _ (target_groups_rollback_undeclared env Hu) Ha).
  reflexivity.
Qed.

(** ** Environments that answer alike *)

Lemma bind_ext {A B} (m m' : M A) (k k' : A -> M B) w :
  m w = m' w -> (forall a w1, k a w1 = k' a w1) -> bind m k w = bind m' k' w.
Proof.
  intros Hm Hk. unfold bind. rewrite Hm.
  destruct (m' w) as [[a| | |] w1]; [apply Hk | done | done | done].
Qed.

Lemma for_each_ext {A S} (f f' : S -> A -> M S) l s w :
  (forall s a w, f s a w = f' s a w) -> for_each f l s w = for_each f' l s w.
Proof.
  intros Hf. revert s w. induction l as [|x l IH]; intros s w; simpl; [done |].
  apply bind_ext; [apply Hf | intros s' w1; apply IH].
Qed.

(** The same, when the steps only agree on the elements of the list. *)
Lemma for_each_ext_In {A S} (f f' : S -> A -> M S) l s w :
  (forall s a w, In a l -> f s a w = f' s a w) -> for_each f l s w = for_each f' l s w.
Proof.
  revert s w. induction l as [|x l IH]; intros s w Hf; simpl; [done |].
  apply bind_ext; [apply Hf; by left | intros s' w1; apply IH].
  intros s0 a w0 Hin. apply Hf. by right.
Qed.

Lemma time_time_agree env env' w :
  (forall n, clock env n = clock env' n) -> time_time env w = time_time env' w.
Proof. intros H. unfold time_time. by rewrite H. Qed.

Lemma poll_until_agree env env' fuel deadline (it it' : M bool) flag w :
  (forall n, clock env n = clock env' n) ->
  (forall w, it w = it' w) ->
  poll_until env fuel deadline it flag w = poll_until env' fuel deadline it' flag w.
Proof.
  intros Hc Hit. revert flag w. induction fuel as [|fuel IH]; intros flag w; simpl.
  - destruct flag; [done |].
    apply bind_ext; [by apply time_time_agree | done].
  - destruct flag; [done |].
    apply bind_ext; [by apply time_time_agree | intros now w1].
    case_bool_decide; [| done].
    apply bind_ext; [apply Hit | intros flag' w2].
    apply bind_ext; [done | intros _ w3; apply IH].
Qed.

Lemma gate_agree env env' fuel v (it it' : M bool) w :
  (forall n, clock env n = clock env' n) ->
  (forall w, it w = it' w) ->
  gate env fuel v it w = gate env' fuel v it' w.
Proof.
  intros Hc Hit. unfold gate, deadline_from_now.
  apply bind_ext.
  { apply bind_ext; [by apply time_time_agree | done]. }
  intros deadline w1.
  apply bind_ext; [by apply poll_until_agree | intros flag w2].
  apply bind_ext; [by apply time_time_agree | done].
Qed.

(** ** Members that were not in service at the start *)

Lemma not_in_service_unconcerned g (st : string * string) :
  st.1 <> "InService" -> concerned g st = false.
Proof. intros H. unfold concerned. by rewrite bool_decide_eq_false_2. Qed.

Lemma elb_in_service_with_agree g (status : gmap string (string * string)) ih ih' i :
  (forall st, status !! i = Some st -> st.1 <> "InService") ->
  (forall j, j <> i ->
             dict_of is_InstanceId is_State ih !! j = dict_of is_InstanceId is_State ih' !! j) ->
  ec2_asg_cutover_elb.in_service_with g status ih
  = ec2_asg_cutover_elb.in_service_with g status ih'.
Proof.
  intros Hi Hag. unfold ec2_asg_cutover_elb.in_service_with.
  apply Bool.eq_iff_eq_true. split; intros H; apply dict_all_intro; intros k v Hk;
    pose proof (dict_all_lookup _ _ k v H Hk) as Hkv; simpl in *;
    (destruct (decide (k = i)) as [-> | Hne];
     [ by rewrite (not_in_service_unconcerned g v (Hi v Hk))
     | by rewrite ?(Hag k Hne) in *; rewrite <- ?(Hag k Hne) in * ]).
Qed.

Lemma elb_healthy_iteration_agree env env' g (status : gmap string (string * string)) lbs i w :
  (forall st, status !! i = Some st -> st.1 <> "InService") ->
  (forall n lb j, j <> i ->
      dict_of is_InstanceId is_State (instance_health env n lb) !! j
      = dict_of is_InstanceId is_State (instance_health env' n lb) !! j) ->
  ec2_asg_cutover_elb.healthy_iteration env g status lbs w
  = ec2_asg_cutover_elb.healthy_iteration env' g status lbs w.
Proof.
  intros Hi Hag. unfold ec2_asg_cutover_elb.healthy_iteration.
  apply for_each_ext. intros healthy lb w0.
  unfold bind, describe_instance_health, ret.
  rewrite (elb_in_service_with_agree g status _ (instance_health env' (polls w0) lb) i); auto.
Qed.

Lemma tg_healthy_iteration_agree env env' g (status : gmap string (string * string)) tgs i w :
  (forall st, status !! i = Some st -> st.1 <> "InService") ->
  (forall n arn j, j <> i -> target_health env n arn j = target_health env' n arn j) ->
  ec2_asg_cutover_target_groups.healthy_iteration env g status tgs w
  = ec2_asg_cutover_target_groups.healthy_iteration env' g status tgs w.
Proof.
  intros Hi Hag. unfold ec2_asg_cutover_target_groups.healthy_iteration.
  apply for_each_ext_In. intros healthy [k v] w0 Hin. simpl.
  apply list_elem_of_In, elem_of_map_to_list in Hin.
  destruct (decide (k = i)) as [-> | Hne].
  { by rewrite (not_in_service_unconcerned g v (Hi v Hin)). }
  destruct (concerned g v); [| done].
  apply for_each_ext. intros h arn w1.
  apply bind_ext; [| done].
  unfold describe_target_health. by rewrite (Hag _ _ _ Hne).
Qed.

Lemma elb_await_new_healthy_agree env env' fuel params r i w :
  (forall st, ec2_asg_cutover_elb.new_instance_status r !! i = Some st -> st.1 <> "InService") ->
  (forall n, clock env n = clock env' n) ->
  (forall n lb j, j <> i ->
      dict_of is_InstanceId is_State (instance_health env n lb) !! j
      = dict_of is_InstanceId is_State (instance_health env' n lb) !! j) ->
  ec2_asg_cutover_elb.await_new_healthy env fuel params r w
  = ec2_asg_cutover_elb.await_new_healthy env' fuel params r w.
Proof.
  intros Hi Hc Hag. unfold ec2_asg_cutover_elb.await_new_healthy.
  apply gate_agree; [done |]. intros w0. by apply (elb_healthy_iteration_agree _ _ _ _ _ i).
Qed.

Lemma elb_verify_standby_agree env env' fuel params r i w :
  (forall st, ec2_asg_cutover_elb.current_instance_status r !! i = Some st ->
              st.1 <> "InService") ->
  (forall n, clock env n = clock env' n) ->
  (forall n lb j, j <> i ->
      dict_of is_InstanceId is_State (instance_health env n lb) !! j
      = dict_of is_InstanceId is_State (instance_health env' n lb) !! j) ->
  ec2_asg_cutover_elb.verify_standby env fuel params r w
  = ec2_asg_cutover_elb.verify_standby env' fuel params r w.
Proof.
  intros Hi Hc Hag. unfold ec2_asg_cutover_elb.verify_standby, when.
  destruct (truthy _); [| done].
  apply bind_ext; [done | intros standby w1].
  apply bind_ext; [| done].
  apply gate_agree; [done |]. intros w0. by apply (elb_healthy_iteration_agree _ _ _ _ _ i).
Qed.

Lemma tg_await_new_healthy_agree env env' fuel params r i w :
  (forall st, ec2_asg_cutover_target_groups.new_instance_status r !! i = Some st ->
              st.1 <> "InService") ->
  (forall n, clock env n = clock env' n) ->
  (forall n arn j, j <> i -> target_health env n arn j = target_health env' n arn j) ->
  ec2_asg_cutover_target_groups.await_new_healthy env fuel params r w
  = ec2_asg_cutover_target_groups.await_new_healthy env' fuel params r w.
Proof.
  intros Hi Hc Hag. unfold ec2_asg_cutover_target_groups.await_new_healthy.
  apply gate_agree; [done |]. intros w0. by apply (tg_healthy_iteration_agree _ _ _ _ _ i).
Qed.

Lemma tg_verify_standby_agree env env' fuel params r i w :
  (forall st, ec2_asg_cutover_target_groups.current_instance_status r !! i = Some st ->
              st.1 <> "InService") ->
  (forall n, clock env n = clock env' n) ->
  (forall n arn j, j <> i -> target_health env n arn j = target_health env' n arn j) ->
  ec2_asg_cutover_target_groups.verify_standby env fuel params r w
  = ec2_asg_cutover_target_groups.verify_standby env' fuel params r w.
Proof.
  intros Hi Hc Hag. unfold ec2_asg_cutover_target_groups.verify_standby, when.
  destruct (truthy _); [| done].
  apply bind_ext; [done | intros standby w1].
  apply bind_ext; [| done].
  apply gate_agree; [done |]. intros w0. by apply (tg_healthy_iteration_agree _ _ _ _ _ i).
Qed.

(** ** Worlds and the calls between them *)

Lemma replay_app tr1 tr2 gs : replay (tr1 ++ tr2) gs = replay tr2 (replay tr1 gs).
Proof. unfold replay. by rewrite foldl_app. Qed.

Lemma extends_refl w : extends w w [].
Proof. split; [by rewrite app_nil_r | done]. Qed.

Lemma extends_trans w1 w2 w3 tr1 tr2 :
  extends w1 w2 tr1 -> extends w2 w3 tr2 -> extends w1 w3 (tr1 ++ tr2).
Proof.
  intros [Hl1 Hg1] [Hl2 Hg2]. split.
  - by rewrite Hl2, Hl1, app_assoc.
  - by rewrite Hg2, Hg1, replay_app.
Qed.

Lemma extends_quiet {A} (m : M A) w : quiet m -> extends w (m w).2 [].
Proof. intros H. destruct (H w) as [Hg Hl]. split; [by rewrite app_nil_r | done]. Qed.

Lemma extends_quiet_eq {A} (m : M A) w o w' : quiet m -> m w = (o, w') -> extends w w' [].
Proof. intros H E. pose proof (extends_quiet m w H) as He. by rewrite E in He. Qed.

Lemma mutations_all l : forallb is_mutation l = true -> mutations l = l.
Proof.
  induction l as [|c l IH]; simpl; [done |].
  intros [Hc Hl]%andb_prop. rewrite Hc. f_equal. by apply IH.
Qed.

Lemma extends_performed calls w :
  forallb is_mutation calls = true -> extends w (performed calls w) calls.
Proof.
  intros H. split; simpl; [| done]. by rewrite mutations_app, (mutations_all calls).
Qed.

Lemma performed_app tr1 tr2 w : performed tr2 (performed tr1 w) = performed (tr1 ++ tr2) w.
Proof. unfold performed. simpl. by rewrite replay_app, app_assoc. Qed.

Lemma restore_mutations g : forallb is_mutation (restore g) = true.
Proof. unfold restore. by destruct (bool_decide _). Qed.

Lemma perform_run c w : perform c w = (Return tt, performed [c] w).
Proof. done. Qed.

Lemma reenable_health_check_run g w :
  reenable_health_check g w = (Return tt, performed (restore g) w).
Proof.
  unfold reenable_health_check, restore, when, update_auto_scaling_group.
  destruct (bool_decide (HealthCheckType g = "ELB")); [done |].
  unfold ret, performed. simpl. rewrite app_nil_r. by destruct w.
Qed.

Lemma elb_prepare_run r w :
  ec2_asg_cutover_elb.prepare_new_group r w = (Return tt, performed (elb_prepare_calls r) w).
Proof.
  unfold ec2_asg_cutover_elb.prepare_new_group, elb_prepare_calls,
    detach_load_balancers, attach_load_balancers.
  rewrite (bind_Return _ _ _ _ _ (perform_run _ _)).
  rewrite (bind_Return _ _ _ _ _ (perform_run _ _)).
  rewrite reenable_health_check_run. by rewrite !performed_app.
Qed.

Lemma elb_rollback_run {A} params r w :
  truthy (dict_get params "rollback_on_failure") = true ->
  @ec2_asg_cutover_elb.new_group_timed_out A params r w
  = (FailJson "Waited too long for target ELB to report instances as healthy",
     performed (elb_rollback_calls r) w).
Proof.
  intros H. unfold ec2_asg_cutover_elb.new_group_timed_out, elb_rollback_calls,
    detach_load_balancers, attach_load_balancers. rewrite H. simpl.
  unfold bind at 1.
  rewrite (bind_Return _ _ _ _ _ (perform_run _ _)).
  rewrite perform_run. by rewrite !performed_app.
Qed.

Lemma elb_no_rollback_run {A} params r w :
  truthy (dict_get params "rollback_on_failure") = false ->
  @ec2_asg_cutover_elb.new_group_timed_out A params r w
  = (FailJson "Waited too long for target ELB to report instances as healthy", w).
Proof. intros H. unfold ec2_asg_cutover_elb.new_group_timed_out. by rewrite H. Qed.

Lemma elb_cut_over_run r standby w :
  ec2_asg_cutover_elb.standby_load_balancers r = PyList standby ->
  ec2_asg_cutover_elb.cut_over_current_group r w
  = (Return tt, performed (elb_cut_over_calls r standby) w).
Proof.
  intros H. unfold ec2_asg_cutover_elb.cut_over_current_group, elb_cut_over_calls,
    detach_load_balancers, attach_load_balancers. rewrite H.
  rewrite (bind_Return _ _ _ _ _ (perform_run _ _)). simpl.
  unfold bind at 1. unfold ret at 1.
  rewrite (bind_Return _ _ _ _ _ (perform_run _ _)).
  rewrite reenable_health_check_run. by rewrite !performed_app.
Qed.

Lemma tg_prepare_run r w :
  ec2_asg_cutover_target_groups.prepare_new_group r w = (Return tt, performed (tg_prepare_calls r) w).
Proof.
  unfold ec2_asg_cutover_target_groups.prepare_new_group, tg_prepare_calls,
    detach_load_balancer_target_groups, attach_load_balancer_target_groups.
  rewrite (bind_Return _ _ _ _ _ (perform_run _ _)).
  rewrite (bind_Return _ _ _ _ _ (perform_run _ _)).
  rewrite reenable_health_check_run. by rewrite !performed_app.
Qed.

Lemma tg_rollback_run {A} params r w :
  truthy (dict_get params "rollback_on_failure") = true ->
  @ec2_asg_cutover_target_groups.new_group_timed_out A params r w
  = (FailJson "Waited too long for destination target group to report instances as healthy. Deployment has been rolled back.",
     performed (tg_rollback_calls r) w).
Proof.
  intros H. unfold ec2_asg_cutover_target_groups.new_group_timed_out, tg_rollback_calls,
    detach_load_balancer_target_groups, attach_load_balancer_target_groups. rewrite H.
  rewrite (bind_Return _ _ _ _ _ (perform_run _ _)).
  rewrite (bind_Return _ _ _ _ _ (perform_run _ _)).
  by rewrite !performed_app.
Qed.

Lemma tg_no_rollback_run {A} params r w :
  truthy (dict_get params "rollback_on_failure") = false ->
  @ec2_asg_cutover_target_groups.new_group_timed_out A params r w
  = (FailJson "Waited too long for destination target group to report instances as healthy. No rollback action taken.", w).
Proof. intros H. unfold ec2_asg_cutover_target_groups.new_group_timed_out. by rewrite H. Qed.

Lemma tg_late_rollback_run {A} params r standby w :
  truthy (dict_get params "rollback_on_failure") = true ->
  ec2_asg_cutover_target_groups.standby_target_groups r = PyList standby ->
  @ec2_asg_cutover_target_groups.old_group_timed_out A params r w
  = (FailJson "Waited too long for destination target group to deregister old instances. Deployment has been rolled back.",
     performed (tg_late_rollback_calls r standby) w).
Proof.
  intros H Hs. unfold ec2_asg_cutover_target_groups.old_group_timed_out,
    tg_late_rollback_calls, tg_rollback_calls,
    detach_load_balancer_target_groups, attach_load_balancer_target_groups.
  rewrite H, Hs. simpl. unfold bind at 1. unfold ret at 1.
  do 4 rewrite (bind_Return _ _ _ _ _ (perform_run _ _)).
  by rewrite !performed_app.
Qed.

Lemma tg_late_no_rollback_run {A} params r w :
  truthy (dict_get params "rollback_on_failure") = false ->
  @ec2_asg_cutover_target_groups.old_group_timed_out A params r w
  = (FailJson "Waited too long for destination target group to deregister old instances. No rollback action taken.", w).
Proof. intros H. unfold ec2_asg_cutover_target_groups.old_group_timed_out. by rewrite H. Qed.

Lemma tg_cut_over_run r standby w :
  ec2_asg_cutover_target_groups.standby_target_groups r = PyList standby ->
  ec2_asg_cutover_target_groups.cut_over_current_group r w
  = (Return tt, performed (tg_cut_over_calls r standby) w).
Proof.
  intros H. unfold ec2_asg_cutover_target_groups.cut_over_current_group, tg_cut_over_calls,
    detach_load_balancer_target_groups, attach_load_balancer_target_groups. rewrite H.
  rewrite (bind_Return _ _ _ _ _ (perform_run _ _)). simpl.
  unfold bind at 1. unfold ret at 1.
  rewrite (bind_Return _ _ _ _ _ (perform_run _ _)).
  rewrite reenable_health_check_run. by rewrite !performed_app.
Qed.

(** ** Following one group through the calls *)

Lemma effect_map c gs : effect c gs = map (effect_on c) gs.
Proof. destruct c; simpl; unfold on_group; try done; by rewrite map_id. Qed.

Lemma replay_map tr gs : replay tr gs = map (replay_on tr) gs.
Proof.
  revert gs. induction tr as [|c tr IH]; intros gs; simpl.
  - by rewrite map_id.
  - unfold replay, replay_on in *. simpl. rewrite IH, effect_map, map_map. done.
Qed.

Lemma effect_on_name c g : AutoScalingGroupName (effect_on c g) = AutoScalingGroupName g.
Proof. destruct c; simpl; try done; by destruct (named _ g). Qed.

Lemma replay_on_name tr g : AutoScalingGroupName (replay_on tr g) = AutoScalingGroupName g.
Proof.
  revert g. induction tr as [|c tr IH]; intros g; [done |].
  unfold replay_on in *. simpl. by rewrite IH, effect_on_name.
Qed.

Lemma lookup_group_replay n tr w w' :
  groups w' = replay tr (groups w) ->
  lookup_group n w' = map (replay_on tr) (lookup_group n w).
Proof.
  intros H. unfold lookup_group. rewrite H, replay_map. clear H.
  induction (groups w) as [|g gs IH]; simpl; [done |].
  assert (named n (replay_on tr g) = named n g) as ->.
  { unfold named. rewrite replay_on_name. reflexivity. }
  destruct (named n g); simpl; by rewrite IH.
Qed.

Lemma replay_on_app tr1 tr2 g : replay_on (tr1 ++ tr2) g = replay_on tr2 (replay_on tr1 g).
Proof. unfold replay_on. by rewrite foldl_app. Qed.

(** ** Detaching and attaching lists of endpoints *)

Lemma detached_subset (l k : list string) :
  (forall x, x ∈ k -> x ∈ l) -> detached l k = [].
Proof.
  unfold detached. induction k as [|x k IH]; intros Hk; [done |]. simpl.
  unfold py_in at 1. rewrite bool_decide_eq_true_2 by (apply Hk; left). simpl.
  apply IH. intros y Hy. apply Hk. by right.
Qed.

Lemma detached_all l : detached l l = [].
Proof. by apply detached_subset. Qed.

Lemma attached_with_nil l : attached_with l [] = remove_dups l.
Proof.
  unfold attached_with. simpl. f_equal.
  induction l as [|x l IH]; [done |]. simpl.
  by rewrite IH.
Qed.

Lemma detached_remove_dups l : detached l (remove_dups l) = [].
Proof. apply detached_subset. intros x Hx. by apply elem_of_remove_dups. Qed.

Lemma remove_dups_id (l : list string) : NoDup l -> remove_dups l = l.
Proof.
  induction 1 as [|x l Hx Hl IH]; [done |]. simpl.
  destruct (decide_rel elem_of x l); [done |]. by rewrite IH.
Qed.

(** Detach [s], attach [t], detach [t], attach [s], starting from [s]. *)
Lemma swap_and_back (s t : list string) :
  attached_with s (detached t (attached_with t (detached s s))) = remove_dups s.
Proof.
  by rewrite detached_all, attached_with_nil, detached_remove_dups, attached_with_nil.
Qed.

(** ** Polling changes nothing *)

Lemma tg_reports_healthy_quiet ih :
  quiet (ec2_asg_cutover_target_groups.reports_healthy ih).
Proof.
  destruct ih as [|th ?]; simpl; [auto with quiet |].
  destruct (th_State th); auto with quiet.
Qed.

#[global] Hint Resolve tg_reports_healthy_quiet : quiet.

Lemma elb_healthy_iteration_quiet env g status lbs :
  quiet (ec2_asg_cutover_elb.healthy_iteration env g status lbs).
Proof. unfold ec2_asg_cutover_elb.healthy_iteration. quiet_steps. Qed.

Lemma elb_deregistered_iteration_quiet env ids lbs :
  quiet (ec2_asg_cutover_elb.deregistered_iteration env ids lbs).
Proof. unfold ec2_asg_cutover_elb.deregistered_iteration. quiet_steps. Qed.

Lemma tg_healthy_iteration_quiet env g status tgs :
  quiet (ec2_asg_cutover_target_groups.healthy_iteration env g status tgs).
Proof. unfold ec2_asg_cutover_target_groups.healthy_iteration. quiet_steps. Qed.

Lemma tg_deregistered_iteration_quiet env ids tgs :
  quiet (ec2_asg_cutover_target_groups.deregistered_iteration env ids tgs).
Proof. unfold ec2_asg_cutover_target_groups.deregistered_iteration. quiet_steps. Qed.

#[global] Hint Resolve elb_healthy_iteration_quiet elb_deregistered_iteration_quiet
  tg_healthy_iteration_quiet tg_deregistered_iteration_quiet : quiet.

Lemma elb_await_new_healthy_quiet env fuel params r :
  quiet (ec2_asg_cutover_elb.await_new_healthy env fuel params r).
Proof. unfold ec2_asg_cutover_elb.await_new_healthy. quiet_steps. Qed.

Lemma tg_await_new_healthy_quiet env fuel params r :
  quiet (ec2_asg_cutover_target_groups.await_new_healthy env fuel params r).
Proof. unfold ec2_asg_cutover_target_groups.await_new_healthy. quiet_steps. Qed.

Lemma elb_verify_standby_quiet env fuel params r :
  quiet (ec2_asg_cutover_elb.verify_standby env fuel params r).
Proof. unfold ec2_asg_cutover_elb.verify_standby. quiet_steps. Qed.

Lemma tg_verify_standby_quiet env fuel params r :
  quiet (ec2_asg_cutover_target_groups.verify_standby env fuel params r).
Proof. unfold ec2_asg_cutover_target_groups.verify_standby. quiet_steps. Qed.

Lemma elb_await_deregistered_quiet env fuel params r :
  quiet (ec2_asg_cutover_elb.await_deregistered env fuel params r).
Proof. unfold ec2_asg_cutover_elb.await_deregistered. quiet_steps. Qed.

Lemma elb_result_of_quiet r : quiet (ec2_asg_cutover_elb.result_of r).
Proof. unfold ec2_asg_cutover_elb.result_of. quiet_steps. Qed.

Lemma tg_result_of_quiet r : quiet (ec2_asg_cutover_target_groups.result_of r).
Proof. unfold ec2_asg_cutover_target_groups.result_of. quiet_steps. Qed.

#[global] Hint Resolve elb_await_new_healthy_quiet tg_await_new_healthy_quiet
  elb_verify_standby_quiet tg_verify_standby_quiet elb_await_deregistered_quiet
  elb_result_of_quiet tg_result_of_quiet : quiet.

(** ** Rolling the new group back *)

Lemma named_self g : named (AutoScalingGroupName g) g = true.
Proof. unfold named. by apply bool_decide_eq_true. Qed.

Lemma named_eq n a b c d e : named n (MkGroup n a b c d e) = true.
Proof. unfold named. by apply bool_decide_eq_true. Qed.

Lemma there_and_back_load_balancers g t :
  replay_on ([DetachLoadBalancers (AutoScalingGroupName g) (LoadBalancerNames g);
              AttachLoadBalancers (AutoScalingGroupName g) t]
             ++ restore g
             ++ [DetachLoadBalancers (AutoScalingGroupName g) t;
                 AttachLoadBalancers (AutoScalingGroupName g) (LoadBalancerNames g)]) g
  = with_load_balancers remove_dups g.
Proof.
  destruct g as [n s tg hc p i]. unfold restore, replay_on.
  destruct (bool_decide (_ = "ELB"));
    cbn -[attached_with detached named];
    unfold with_load_balancers, with_health_check;
    cbn -[attached_with detached named];
    repeat (rewrite named_eq; cbn -[attached_with detached named]);
    by rewrite swap_and_back.
Qed.

Lemma elb_there_and_back r :
  ec2_asg_cutover_elb.source_load_balancers r
  = LoadBalancerNames (ec2_asg_cutover_elb.new_group_ r) ->
  replay_on (elb_prepare_calls r ++ elb_rollback_calls r) (ec2_asg_cutover_elb.new_group_ r)
  = with_load_balancers remove_dups (ec2_asg_cutover_elb.new_group_ r).
Proof.
  intros Hs. unfold elb_prepare_calls, elb_rollback_calls. rewrite Hs.
  rewrite <- app_assoc. apply there_and_back_load_balancers.
Qed.

Lemma elb_first_gate_Return env fuel params w r res w3 :
  ec2_asg_cutover_elb.first_gate env fuel params w = (Return (r, res), w3) ->
  exists w1,
    ec2_asg_cutover_elb.resolve params w = (Return r, w1)
    /\ ec2_asg_cutover_elb.await_new_healthy env fuel params r
         (performed (elb_prepare_calls r) w1) = (Return res, w3)
    /\ extends w w3 (elb_prepare_calls r).
Proof.
  unfold ec2_asg_cutover_elb.first_gate. intros H.
  apply bind_inv_Return in H as (r0 & w1 & Hr & H).
  rewrite (bind_Return _ _ _ _ _ (elb_prepare_run _ _)) in H.
  apply bind_inv_Return in H as (res0 & w3' & Hg & H).
  unfold ret in H. simplify_eq. exists w1. split_and!; [done | done |].
  pose proof (extends_quiet_eq _ _ _ _ (elb_resolve_quiet params) Hr) as X1.
  assert (forallb is_mutation (elb_prepare_calls r) = true) as Hmut.
  { unfold elb_prepare_calls. simpl. apply restore_mutations. }
  pose proof (extends_performed (elb_prepare_calls r) w1 Hmut) as X2.
  assert (quiet (ec2_asg_cutover_elb.await_new_healthy env fuel params r)) as Hq by auto with quiet.
  pose proof (extends_quiet_eq _ _ _ _ Hq Hg) as X3.
  pose proof (extends_trans _ _ _ _ _ (extends_trans _ _ _ _ _ X1 X2) X3) as X.
  by rewrite app_nil_r in X.
Qed.

Lemma elb_timeout_rolls_back env fuel (args : gmap string pyval) w r flag w3 :
  bind (AnsibleModule (ec2_asg_cutover_elb.argument_spec env) args)
       (ec2_asg_cutover_elb.first_gate env fuel) w = (Return (r, (flag, true)), w3) ->
  truthy (default (PyBool true) (args !! "rollback_on_failure")) = true ->
  ec2_asg_cutover_elb.main env fuel args w
  = (FailJson "Waited too long for target ELB to report instances as healthy",
     performed (elb_rollback_calls r) w3)
  /\ lookup_group (AutoScalingGroupName (ec2_asg_cutover_elb.new_group_ r)) w
     = [ec2_asg_cutover_elb.new_group_ r]
  /\ lookup_group (AutoScalingGroupName (ec2_asg_cutover_elb.new_group_ r))
                  (performed (elb_rollback_calls r) w3)
     = [with_load_balancers remove_dups (ec2_asg_cutover_elb.new_group_ r)].
Proof.
  intros H Hroll. apply bind_inv_Return in H as (params & w0 & Ha & Hg).
  destruct (AnsibleModule_cases (ec2_asg_cutover_elb.argument_spec env) args w)
    as [[msg Hm] | [Hm _]]; rewrite Hm in Ha; [discriminate |].
  injection Ha as <- <-. set (params := map_imap _ _) in *.
  assert (truthy (dict_get params "rollback_on_failure") = true) as Ht.
  { unfold params. by erewrite params_declared by (by apply elb_declared). }
  destruct (elb_first_gate_Return _ _ _ _ _ _ _ Hg) as (w1 & Hr & _ & [Hl Hgr]).
  apply elb_resolve_Return in Hr
    as (c & n & _ & _ & _ & _ & Hng & _ & Hsrc & _).
  assert (n = AutoScalingGroupName (ec2_asg_cutover_elb.new_group_ r)) as ->.
  { assert (In (ec2_asg_cutover_elb.new_group_ r) (lookup_group n w)) as Hin
      by (rewrite Hng; by left).
    apply List.filter_In in Hin as [_ Hin]. by apply bool_decide_eq_true in Hin. }
  split_and!.
  - unfold ec2_asg_cutover_elb.main. rewrite (bind_Return _ _ _ _ _ Hm).
    unfold ec2_asg_cutover_elb.run. apply bind_FailJson.
    unfold ec2_asg_cutover_elb.to_deregistration_gate.
    rewrite (bind_Return _ _ _ _ _ Hg). simpl. by apply elb_rollback_run.
  - done.
  - rewrite (lookup_group_replay _ (elb_prepare_calls r ++ elb_rollback_calls r) w).
    + rewrite Hng. cbn [map]. by rewrite elb_there_and_back.
    + simpl. by rewrite Hgr, replay_app.
Qed.

Lemma there_and_back_target_groups g t :
  replay_on ([DetachLoadBalancerTargetGroups (AutoScalingGroupName g) (TargetGroupARNs g);
              AttachLoadBalancerTargetGroups (AutoScalingGroupName g) t]
             ++ restore g
             ++ [DetachLoadBalancerTargetGroups (AutoScalingGroupName g) t;
                 AttachLoadBalancerTargetGroups (AutoScalingGroupName g) (TargetGroupARNs g)]) g
  = with_target_groups remove_dups g.
Proof.
  destruct g as [n s tg hc p i]. unfold restore, replay_on.
  destruct (bool_decide (_ = "ELB"));
    cbn -[attached_with detached named];
    unfold with_target_groups, with_health_check;
    cbn -[attached_with detached named];
    repeat (rewrite named_eq; cbn -[attached_with detached named]);
    by rewrite swap_and_back.
Qed.

Lemma tg_there_and_back r :
  ec2_asg_cutover_target_groups.source_target_groups r
  = TargetGroupARNs (ec2_asg_cutover_target_groups.new_group_ r) ->
  replay_on (tg_prepare_calls r ++ tg_rollback_calls r) (ec2_asg_cutover_target_groups.new_group_ r)
  = with_target_groups remove_dups (ec2_asg_cutover_target_groups.new_group_ r).
Proof.
  intros Hs. unfold tg_prepare_calls, tg_rollback_calls. rewrite Hs.
  rewrite <- app_assoc. apply there_and_back_target_groups.
Qed.

Lemma tg_first_gate_Return env fuel params w r res w3 :
  ec2_asg_cutover_target_groups.first_gate env fuel params w = (Return (r, res), w3) ->
  exists w1,
    ec2_asg_cutover_target_groups.resolve params w = (Return r, w1)
    /\ ec2_asg_cutover_target_groups.await_new_healthy env fuel params r
         (performed (tg_prepare_calls r) w1) = (Return res, w3)
    /\ extends w w3 (tg_prepare_calls r).
Proof.
  unfold ec2_asg_cutover_target_groups.first_gate. intros H.
  apply bind_inv_Return in H as (r0 & w1 & Hr & H).
  rewrite (bind_Return _ _ _ _ _ (tg_prepare_run _ _)) in H.
  apply bind_inv_Return in H as (res0 & w3' & Hg & H).
  unfold ret in H. simplify_eq. exists w1. split_and!; [done | done |].
  pose proof (extends_quiet_eq _ _ _ _ (tg_resolve_quiet params) Hr) as X1.
  assert (forallb is_mutation (tg_prepare_calls r) = true) as Hmut.
  { unfold tg_prepare_calls. simpl. apply restore_mutations. }
  pose proof (extends_performed (tg_prepare_calls r) w1 Hmut) as X2.
  assert (quiet (ec2_asg_cutover_target_groups.await_new_healthy env fuel params r)) as Hq by auto with quiet.
  pose proof (extends_quiet_eq _ _ _ _ Hq Hg) as X3.
  pose proof (extends_trans _ _ _ _ _ (extends_trans _ _ _ _ _ X1 X2) X3) as X.
  by rewrite app_nil_r in X.
Qed.

Lemma tg_timeout_rolls_back env fuel (args : gmap string pyval) w r flag w3 :
  bind (AnsibleModule (ec2_asg_cutover_target_groups.argument_spec env) args)
       (ec2_asg_cutover_target_groups.first_gate env fuel) w = (Return (r, (flag, true)), w3) ->
  truthy (default (PyBool true) (args !! "rollback_on_failure")) = true ->
  ec2_asg_cutover_target_groups.main env fuel args w
  = (FailJson "Waited too long for destination target group to report instances as healthy. Deployment has been rolled back.",
     performed (tg_rollback_calls r) w3)
  /\ lookup_group (AutoScalingGroupName (ec2_asg_cutover_target_groups.new_group_ r)) w
     = [ec2_asg_cutover_target_groups.new_group_ r]
  /\ lookup_group (AutoScalingGroupName (ec2_asg_cutover_target_groups.new_group_ r))
                  (performed (tg_rollback_calls r) w3)
     = [with_target_groups remove_dups (ec2_asg_cutover_target_groups.new_group_ r)].
Proof.
  intros H Hroll. apply bind_inv_Return in H as (params & w0 & Ha & Hg).
  destruct (AnsibleModule_cases (ec2_asg_cutover_target_groups.argument_spec env) args w)
    as [[msg Hm] | [Hm _]]; rewrite Hm in Ha; [discriminate |].
  injection Ha as <- <-. set (params := map_imap _ _) in *.
  assert (truthy (dict_get params "rollback_on_failure") = true) as Ht.
  { unfold params. by erewrite params_declared by (by apply tg_declared). }
  destruct (tg_first_gate_Return _ _ _ _ _ _ _ Hg) as (w1 & Hr & _ & [Hl Hgr]).
  apply tg_resolve_Return in Hr
    as (c & n & _ & _ & _ & _ & Hng & _ & Hsrc & _).
  assert (n = AutoScalingGroupName (ec2_asg_cutover_target_groups.new_group_ r)) as ->.
  { assert (In (ec2_asg_cutover_target_groups.new_group_ r) (lookup_group n w)) as Hin
      by (rewrite Hng; by left).
    apply List.filter_In in Hin as [_ Hin]. by apply bool_decide_eq_true in Hin. }
  split_and!.
  - unfold ec2_asg_cutover_target_groups.main. rewrite (bind_Return _ _ _ _ _ Hm).
    unfold ec2_asg_cutover_target_groups.run. apply bind_FailJson.
    unfold ec2_asg_cutover_target_groups.to_deregistration_gate.
    rewrite (bind_Return _ _ _ _ _ Hg). simpl. by apply tg_rollback_run.
  - done.
  - rewrite (lookup_group_replay _ (tg_prepare_calls r ++ tg_rollback_calls r) w).
    + rewrite Hng. cbn [map]. by rewrite tg_there_and_back.
    + simpl. by rewrite Hgr, replay_app.
Qed.

Lemma with_load_balancers_remove_dups g :
  (forall e, e ∈ LoadBalancerNames (with_load_balancers remove_dups g)
             <-> e ∈ LoadBalancerNames g)
  /\ (NoDup (LoadBalancerNames g) -> with_load_balancers remove_dups g = g).
Proof.
  split.
  - intros e. simpl. apply elem_of_remove_dups.
  - intros H. destruct g. unfold with_load_balancers. simpl in *. by rewrite remove_dups_id.
Qed.

Lemma with_target_groups_remove_dups g :
  (forall e, e ∈ TargetGroupARNs (with_target_groups remove_dups g)
             <-> e ∈ TargetGroupARNs g)
  /\ (NoDup (TargetGroupARNs g) -> with_target_groups remove_dups g = g).
Proof.
  split.
  - intros e. simpl. apply elem_of_remove_dups.
  - intros H. destruct g. unfold with_target_groups. simpl in *. by rewrite remove_dups_id.
Qed.

(** ** The shape of a run *)

(** A step that does not return stops the script where it is. *)
Lemma bind_stopped {A B} (m : M A) (k : A -> M B) w o w' :
  m w = (o, w') -> (forall a, o <> Return a) -> (bind m k w).2 = w'.
Proof. intros H Hno. unfold bind. rewrite H. destruct o; try done. by destruct (Hno a). Qed.

(** ... and what it stopped with is still not a result. *)
Lemma bind_stopped_eq {A B} (m : M A) (k : A -> M B) w o w' :
  m w = (o, w') -> (forall a, o <> Return a) ->
  exists o', bind m k w = (o', w') /\ forall b, o' <> Return b.
Proof.
  intros H Hno. unfold bind. rewrite H. destruct o; [by destruct (Hno a) | | |]; by eexists.
Qed.

Lemma bind_bind_Return {A B C} (m : M A) (k2 : A -> M B) (k : B -> M C) w a w1 :
  m w = (Return a, w1) -> bind (bind m k2) k w = bind (k2 a) k w1.
Proof. intros H. unfold bind at 1 2. by rewrite H. Qed.

Lemma bind_ret_l {A B} (a : A) (k : A -> M B) w : bind (ret a) k w = k a w.
Proof. done. Qed.

Lemma elb_prepare_mutations r : forallb is_mutation (elb_prepare_calls r) = true.
Proof. unfold elb_prepare_calls. simpl. apply restore_mutations. Qed.

Lemma elb_cut_over_mutations r l : forallb is_mutation (elb_cut_over_calls r l) = true.
Proof. unfold elb_cut_over_calls. simpl. apply restore_mutations. Qed.

(** A first gate that does not return either failed to resolve the groups
    or stopped inside the health loop. *)
Lemma elb_first_gate_stopped env fuel params w :
  (forall x, (ec2_asg_cutover_elb.first_gate env fuel params w).1 <> Return x) ->
  (extends w (ec2_asg_cutover_elb.first_gate env fuel params w).2 []
   /\ forall r w1, ec2_asg_cutover_elb.resolve params w <> (Return r, w1))
  \/ (exists r w1,
         ec2_asg_cutover_elb.resolve params w = (Return r, w1)
         /\ extends w (ec2_asg_cutover_elb.first_gate env fuel params w).2
                    (elb_prepare_calls r)).
Proof.
  unfold ec2_asg_cutover_elb.first_gate. intros Hno.
  pose proof (extends_quiet _ w (elb_resolve_quiet params)) as X1.
  destruct (ec2_asg_cutover_elb.resolve params w) as [[r|msg|e|] w1] eqn:Hr.
  2-4: left; unfold bind; rewrite Hr; by split.
  right. exists r, w1. split; [done |].
  rewrite (bind_Return _ _ _ _ _ Hr) in *.
  rewrite (bind_Return _ _ _ _ _ (elb_prepare_run _ _)) in *.
  pose proof (extends_performed _ w1 (elb_prepare_mutations r)) as X2.
  pose proof (extends_quiet _ (performed (elb_prepare_calls r) w1)
                (elb_await_new_healthy_quiet env fuel params r)) as X3.
  assert (forall K : bool * bool -> M (ec2_asg_cutover_elb.Resolved * (bool * bool)),
             (forall x, quiet (K x)) ->
             extends (performed (elb_prepare_calls r) w1)
               (bind (ec2_asg_cutover_elb.await_new_healthy env fuel params r) K
                     (performed (elb_prepare_calls r) w1)).2 []) as X4.
  { intros K HK. apply extends_quiet. apply quiet_bind; auto with quiet. }
  specialize (X4 _ (fun x => quiet_ret (r, x))).
  pose proof (extends_trans _ _ _ _ _ (extends_trans _ _ _ _ _ X1 X2) X4) as X.
  simpl in X. by rewrite app_nil_r in X.
Qed.

Lemma elb_run_shape env fuel params w :
  (forall src, exists l,
      py_or (dict_get params "standby_load_balancers") (PyList src) = PyList l) ->
  (extends w (ec2_asg_cutover_elb.run env fuel params w).2 []
   /\ forall r w1, ec2_asg_cutover_elb.resolve params w <> (Return r, w1))
  \/ (exists r w1 tr,
         ec2_asg_cutover_elb.resolve params w = (Return r, w1)
         /\ elb_shape r tr
         /\ extends w (ec2_asg_cutover_elb.run env fuel params w).2 tr).
Proof.
  intros Hstandby.
  unfold ec2_asg_cutover_elb.run, ec2_asg_cutover_elb.to_deregistration_gate.
  destruct (ec2_asg_cutover_elb.first_gate env fuel params w) as [o w3] eqn:Hf.
  assert (forall B C (K2 : _ -> M B) (K : B -> M C),
             (forall x, o <> Return x) ->
             (bind (bind (ec2_asg_cutover_elb.first_gate env fuel params) K2) K w).2 = w3)
    as Hstop.
  { intros B C K2 K Hno.
    destruct (bind_stopped_eq _ K2 w o w3 Hf Hno) as (o' & Ho' & Hno').
    by apply (bind_stopped _ _ w o' w3). }
  pose proof (elb_first_gate_stopped env fuel params w) as Hcases. rewrite Hf in Hcases.
  destruct o as [[r [flag late]]|msg|e|].
  2-4: rewrite !(Hstop _ _ _ _ ltac:(done));
       (destruct Hcases as [[X Hno] | (r & w1 & Hr & X)]; [done | by left |]);
       right; exists r, w1, (elb_prepare_calls r); split_and!; [done | constructor | done].
  clear Hstop Hcases.
  right.
  destruct (elb_first_gate_Return _ _ _ _ _ _ _ Hf) as (w1 & Hr & _ & X).
  exists r, w1.
  rewrite (bind_bind_Return _ _ _ _ _ _ Hf). cbn [fst snd].
  destruct late.
  - (* the test after the loop held *)
    destruct (truthy (dict_get params "rollback_on_failure")) eqn:Hroll.
    + exists (elb_prepare_calls r ++ elb_rollback_calls r).
      split_and!; [done | constructor |].
      rewrite (bind_FailJson _ _ _ _ _ (elb_rollback_run params r w3 Hroll)).
      apply (extends_trans _ _ _ _ _ X). by apply extends_performed.
    + exists (elb_prepare_calls r).
      split_and!; [done | constructor |].
      by rewrite (bind_FailJson _ _ _ _ _ (elb_no_rollback_run params r w3 Hroll)).
  - (* the new group is healthy: cut over *)
    apply elb_resolve_Return in Hr as Hres.
    destruct Hres as (_ & _ & _ & _ & _ & _ & _ & _ & _ & _ & _ & Hsb & _).
    destruct (Hstandby (ec2_asg_cutover_elb.source_load_balancers r)) as [l Hl].
    rewrite Hl in Hsb.
    exists (elb_prepare_calls r ++ elb_cut_over_calls r l).
    split_and!; [done | by constructor |].
    rewrite (bind_bind_Return _ _ _ _ _ _ (elb_cut_over_run r l w3 Hsb)).
    rewrite bind_ret_l.
    set (w4 := performed (elb_cut_over_calls r l) w3).
    assert (extends w4
              (bind (ec2_asg_cutover_elb.await_deregistered env fuel params r)
                 (fun _ => bind (ec2_asg_cutover_elb.verify_standby env fuel params r)
                             (fun _ => ec2_asg_cutover_elb.result_of r)) w4).2 []) as X5.
    { apply extends_quiet. quiet_steps. }
    pose proof (extends_trans _ _ _ _ _
                  (extends_trans _ _ _ _ _ X
                     (extends_performed _ w3 (elb_cut_over_mutations r l))) X5) as Xall.
    by rewrite app_nil_r in Xall.
Qed.

Lemma tg_prepare_mutations r : forallb is_mutation (tg_prepare_calls r) = true.
Proof. unfold tg_prepare_calls. simpl. apply restore_mutations. Qed.

Lemma tg_cut_over_mutations r l : forallb is_mutation (tg_cut_over_calls r l) = true.
Proof. unfold tg_cut_over_calls. simpl. apply restore_mutations. Qed.

(** A first gate that does not return either failed to resolve the groups
    or stopped inside the health loop. *)
Lemma tg_first_gate_stopped env fuel params w :
  (forall x, (ec2_asg_cutover_target_groups.first_gate env fuel params w).1 <> Return x) ->
  (extends w (ec2_asg_cutover_target_groups.first_gate env fuel params w).2 []
   /\ forall r w1, ec2_asg_cutover_target_groups.resolve params w <> (Return r, w1))
  \/ (exists r w1,
         ec2_asg_cutover_target_groups.resolve params w = (Return r, w1)
         /\ extends w (ec2_asg_cutover_target_groups.first_gate env fuel params w).2
                    (tg_prepare_calls r)).
Proof.
  unfold ec2_asg_cutover_target_groups.first_gate. intros Hno.
  pose proof (extends_quiet _ w (tg_resolve_quiet params)) as X1.
  destruct (ec2_asg_cutover_target_groups.resolve params w) as [[r|msg|e|] w1] eqn:Hr.
  2-4: left; unfold bind; rewrite Hr; by split.
  right. exists r, w1. split; [done |].
  rewrite (bind_Return _ _ _ _ _ Hr) in *.
  rewrite (bind_Return _ _ _ _ _ (tg_prepare_run _ _)) in *.
  pose proof (extends_performed _ w1 (tg_prepare_mutations r)) as X2.
  pose proof (extends_quiet _ (performed (tg_prepare_calls r) w1)
                (tg_await_new_healthy_quiet env fuel params r)) as X3.
  assert (forall K : bool * bool -> M (ec2_asg_cutover_target_groups.Resolved * (bool * bool)),
             (forall x, quiet (K x)) ->
             extends (performed (tg_prepare_calls r) w1)
               (bind (ec2_asg_cutover_target_groups.await_new_healthy env fuel params r) K
                     (performed (tg_prepare_calls r) w1)).2 []) as X4.
  { intros K HK. apply extends_quiet. apply quiet_bind; auto with quiet. }
  specialize (X4 _ (fun x => quiet_ret (r, x))).
  pose proof (extends_trans _ _ _ _ _ (extends_trans _ _ _ _ _ X1 X2) X4) as X.
  simpl in X. by rewrite app_nil_r in X.
Qed.

Lemma tg_run_shape env fuel params w :
  (forall src, exists l,
      py_or (dict_get params "standby_target_group_arns") (PyList src) = PyList l) ->
  (extends w (ec2_asg_cutover_target_groups.run env fuel params w).2 []
   /\ forall r w1, ec2_asg_cutover_target_groups.resolve params w <> (Return r, w1))
  \/ (exists r w1 tr,
         ec2_asg_cutover_target_groups.resolve params w = (Return r, w1)
         /\ tg_shape r tr
         /\ extends w (ec2_asg_cutover_target_groups.run env fuel params w).2 tr).
Proof.
  intros Hstandby.
  unfold ec2_asg_cutover_target_groups.run, ec2_asg_cutover_target_groups.to_deregistration_gate.
  destruct (ec2_asg_cutover_target_groups.first_gate env fuel params w) as [o w3] eqn:Hf.
  assert (forall B C (K2 : _ -> M B) (K : B -> M C),
             (forall x, o <> Return x) ->
             (bind (bind (ec2_asg_cutover_target_groups.first_gate env fuel params) K2) K w).2 = w3)
    as Hstop.
  { intros B C K2 K Hno.
    destruct (bind_stopped_eq _ K2 w o w3 Hf Hno) as (o' & Ho' & Hno').
    by apply (bind_stopped _ _ w o' w3). }
  pose proof (tg_first_gate_stopped env fuel params w) as Hcases. rewrite Hf in Hcases.
  destruct o as [[r [flag late]]|msg|e|].
  2-4: rewrite !(Hstop _ _ _ _ ltac:(done));
       (destruct Hcases as [[X Hno] | (r & w1 & Hr & X)]; [done | by left |]);
       right; exists r, w1, (tg_prepare_calls r); split_and!; [done | constructor | done].
  clear Hstop Hcases.
  right.
  destruct (tg_first_gate_Return _ _ _ _ _ _ _ Hf) as (w1 & Hr & _ & X).
  exists r, w1.
  rewrite (bind_bind_Return _ _ _ _ _ _ Hf). cbn [fst snd].
  destruct late.
  - (* the test after the loop held *)
    destruct (truthy (dict_get params "rollback_on_failure")) eqn:Hroll.
    + exists (tg_prepare_calls r ++ tg_rollback_calls r).
      split_and!; [done | constructor |].
      rewrite (bind_FailJson _ _ _ _ _ (tg_rollback_run params r w3 Hroll)).
      apply (extends_trans _ _ _ _ _ X). by apply extends_performed.
    + exists (tg_prepare_calls r).
      split_and!; [done | constructor |].
      by rewrite (bind_FailJson _ _ _ _ _ (tg_no_rollback_run params r w3 Hroll)).
  - (* the new group is healthy: cut over *)
    apply tg_resolve_Return in Hr as Hres.
    destruct Hres as (_ & _ & _ & _ & _ & _ & _ & _ & _ & _ & _ & Hsb & _).
    destruct (Hstandby (ec2_asg_cutover_target_groups.source_target_groups r)) as [l Hl].
    rewrite Hl in Hsb.
    rewrite (bind_bind_Return _ _ _ _ _ _ (tg_cut_over_run r l w3 Hsb)).
    rewrite bind_ret_l.
    set (w4 := performed (tg_cut_over_calls r l) w3).
    pose proof (extends_trans _ _ _ _ _ X
                  (extends_performed _ w3 (tg_cut_over_mutations r l))) as X4.
    fold w4 in X4.
    unfold ec2_asg_cutover_target_groups.await_deregistered.
    set (G := gate env fuel (dict_get params "wait_timeout")
                (ec2_asg_cutover_target_groups.deregistered_iteration env
                   (ec2_asg_cutover_target_groups.original_instances r)
                   (ec2_asg_cutover_target_groups.dest_target_groups r))).
    assert (quiet G) as HG by (unfold G; quiet_steps).
    pose proof (extends_quiet G w4 HG) as X5.
    destruct (G w4) as [o5 w5] eqn:HG5. simpl in X5.
    pose proof (extends_trans _ _ _ _ _ X4 X5) as X45. rewrite app_nil_r in X45.
    destruct o5 as [[flag2 late2]|msg|e|].
    2-4: exists (tg_prepare_calls r ++ tg_cut_over_calls r l);
         (split_and!; [done | by constructor |]);
         (destruct (bind_stopped_eq G
                      (fun res => if res.2
                                  then ec2_asg_cutover_target_groups.old_group_timed_out params r
                                  else ret tt) w4 _ w5 HG5 ltac:(done)) as (o' & Ho' & Hno'));
         by rewrite (bind_stopped _ _ w4 o' w5 Ho' Hno').
    rewrite (bind_bind_Return _ _ _ _ _ _ HG5). cbn [fst snd].
    destruct late2.
    + (* the deregistration loop ran out of time *)
      destruct (truthy (dict_get params "rollback_on_failure")) eqn:Hroll.
      * exists (tg_prepare_calls r ++ tg_cut_over_calls r l ++ tg_late_rollback_calls r l).
        split_and!; [done | by constructor |].
        rewrite (bind_FailJson _ _ _ _ _ (tg_late_rollback_run params r l w5 Hroll Hsb)).
        rewrite app_assoc. apply (extends_trans _ _ _ _ _ X45).
        by apply extends_performed.
      * exists (tg_prepare_calls r ++ tg_cut_over_calls r l).
        split_and!; [done | by constructor |].
        by rewrite (bind_FailJson _ _ _ _ _ (tg_late_no_rollback_run params r w5 Hroll)).
    + exists (tg_prepare_calls r ++ tg_cut_over_calls r l).
      split_and!; [done | by constructor |].
      rewrite bind_ret_l.
      assert (extends w5
                (bind (ec2_asg_cutover_target_groups.verify_standby env fuel params r)
                   (fun _ => ec2_asg_cutover_target_groups.result_of r) w5).2 []) as X6.
      { apply extends_quiet. quiet_steps. }
      pose proof (extends_trans _ _ _ _ _ X45 X6) as Xall.
      by rewrite app_nil_r in Xall.
Qed.

(** ** The shape of a run, from the task's arguments *)

Lemma list_or_list v src :
  has_type TList v = true -> exists l, py_or v (PyList src) = PyList l.
Proof.
  destruct v; simpl; try discriminate; intros _; unfold py_or; simpl; eauto.
  destruct (negb _); eauto.
Qed.

Lemma typed_param (spec : gmap string argspec) (args : gmap string pyval) k s :
  map_Forall (well_typed spec) args ->
  spec !! k = Some s ->
  has_type (arg_type s) (arg_default s) = true ->
  has_type (arg_type s)
    (dict_get (map_imap (fun k s => Some (default (arg_default s) (args !! k))) spec) k) = true.
Proof.
  intros Hwt Hs Hd. erewrite params_declared by done.
  destruct (args !! k) as [v|] eqn:Hv; simpl; [| done].
  specialize (Hwt k v Hv). unfold well_typed in Hwt. by rewrite Hs in Hwt.
Qed.

(** ** The single-group modules *)

Lemma elbs_concerned_quiet st : quiet (ec2_asg_elbs.concerned st).
Proof. unfold ec2_asg_elbs.concerned. repeat case_bool_decide; auto with quiet. Qed.

Lemma target_groups_concerned_quiet st : quiet (ec2_asg_target_groups.concerned st).
Proof. unfold ec2_asg_target_groups.concerned. repeat case_bool_decide; auto with quiet. Qed.

Lemma target_groups_reports_healthy_quiet ih :
  quiet (ec2_asg_target_groups.reports_healthy ih).
Proof.
  destruct ih as [|th ?]; simpl; [auto with quiet |].
  destruct (th_State th); auto with quiet.
Qed.

#[global] Hint Resolve elbs_concerned_quiet target_groups_concerned_quiet
  target_groups_reports_healthy_quiet : quiet.

Lemma elbs_healthy_iteration_quiet env status lbs :
  quiet (ec2_asg_elbs.healthy_iteration env status lbs).
Proof.
  unfold ec2_asg_elbs.healthy_iteration, ec2_asg_elbs.in_service_with. quiet_steps.
Qed.

Lemma target_groups_healthy_iteration_quiet env status tgs :
  quiet (ec2_asg_target_groups.healthy_iteration env status tgs).
Proof. unfold ec2_asg_target_groups.healthy_iteration. quiet_steps. Qed.

Lemma quiet_describe_target_groups names :
  quiet (ec2_asg_target_groups.describe_target_groups names).
Proof.
  destruct names; try apply quiet_raise.
  unfold ec2_asg_target_groups.describe_target_groups.
  by apply (quiet_record
              (fun w => List.filter (fun t => py_in (TargetGroupName t) l) (target_groups w)) id).
Qed.

#[global] Hint Resolve elbs_healthy_iteration_quiet target_groups_healthy_iteration_quiet
  quiet_describe_target_groups : quiet.

Lemma elbs_resolve_quiet params : quiet (ec2_asg_elbs.resolve params).
Proof.
  unfold ec2_asg_elbs.resolve. quiet_steps.
  destruct (dict_get params "load_balancers"); auto with quiet.
Qed.

Lemma target_groups_resolve_quiet params : quiet (ec2_asg_target_groups.resolve params).
Proof. unfold ec2_asg_target_groups.resolve. quiet_steps. Qed.

Lemma elbs_resolve_Return params w r w' :
  ec2_asg_elbs.resolve params w = (Return r, w') ->
  exists n,
    dict_get params "name" = PyStr n
    /\ lookup_group n w = [ec2_asg_elbs.group r]
    /\ dict_get params "load_balancers" = PyList (ec2_asg_elbs.new_load_balancers r)
    /\ ec2_asg_elbs.unique_new_load_balancers r
       = List.filter (fun l => negb (py_in l (LoadBalancerNames (ec2_asg_elbs.group r))))
                     (ec2_asg_elbs.new_load_balancers r)
    /\ ec2_asg_elbs.unique_old_load_balancers r
       = List.filter (fun l => negb (py_in l (ec2_asg_elbs.new_load_balancers r)))
                     (LoadBalancerNames (ec2_asg_elbs.group r)).
Proof.
  unfold ec2_asg_elbs.resolve. intros H.
  apply bind_inv_Return in H as (gs & w2 & H2 & H).
  apply describe_Return in H2 as (n & Hn & -> & ->).
  apply bind_inv_Return in H as (g & w3 & H3 & H).
  apply the_group_Return in H3 as [Hg ->].
  apply bind_inv_Return in H as (new & w4 & H4 & H).
  destruct (dict_get params "load_balancers") as [| | | |l] eqn:Hl; try discriminate.
  unfold ret in H4. injection H4 as <- <-.
  apply bind_inv_Return in H as ([] & w5 & _ & H).
  unfold ret in H. injection H as <- <-. simpl.
  exists n. by rewrite Hn.
Qed.

Lemma target_groups_resolve_Return params w r w' :
  ec2_asg_target_groups.resolve params w = (Return r, w') ->
  exists n names,
    dict_get params "name" = PyStr n
    /\ lookup_group n w = [ec2_asg_target_groups.group r]
    /\ dict_get params "target_groups" = PyList names
    /\ ec2_asg_target_groups.new_target_groups r
       = map TargetGroupArn
             (List.filter (fun t => py_in (TargetGroupName t) names) (target_groups w))
    /\ ec2_asg_target_groups.unique_old_target_groups r
       = List.filter (fun t => negb (py_in t (ec2_asg_target_groups.new_target_groups r)))
                     (TargetGroupARNs (ec2_asg_target_groups.group r)).
Proof.
  unfold ec2_asg_target_groups.resolve. intros H.
  apply bind_inv_Return in H as (gs & w2 & H2 & H).
  apply describe_Return in H2 as (n & Hn & -> & ->).
  apply bind_inv_Return in H as (g & w3 & H3 & H).
  apply the_group_Return in H3 as [Hg ->].
  apply bind_inv_Return in H as (tgs & w4 & H4 & H).
  destruct (dict_get params "target_groups") as [| | | |names] eqn:Hl; try discriminate.
  simpl in H4. injection H4 as <- <-.
  apply bind_inv_Return in H as ([] & w5 & _ & H).
  apply bind_inv_Return in H as ([] & w6 & _ & H).
  unfold ret in H. injection H as <- <-. simpl.
  exists n, names. by rewrite Hn.
Qed.

Lemma elbs_run_shape env fuel params w :
  (extends w (ec2_asg_elbs.run env fuel params w).2 []
   /\ forall r w1, ec2_asg_elbs.resolve params w <> (Return r, w1))
  \/ (exists r w1 tr,
         ec2_asg_elbs.resolve params w = (Return r, w1)
         /\ elbs_shape r tr
         /\ extends w (ec2_asg_elbs.run env fuel params w).2 tr).
Proof.
  unfold ec2_asg_elbs.run, ec2_asg_elbs.first_gate.
  pose proof (extends_quiet _ w (elbs_resolve_quiet params)) as X1.
  destruct (ec2_asg_elbs.resolve params w) as [o w1] eqn:Hr. simpl in X1.
  destruct o as [r|msg|e|].
  2-4: left; split; [| done];
       match goal with
       | |- extends _ (bind (bind _ ?k2) ?k _).2 _ =>
           destruct (bind_stopped_eq _ k2 w _ w1 Hr ltac:(done)) as (o' & Ho' & Hno');
           by rewrite (bind_stopped _ k w o' w1 Ho' Hno')
       end.
  right. exists r, w1.
  rewrite (bind_bind_Return _ _ _ _ _ _ Hr).
  unfold attach_load_balancers.
  rewrite (bind_bind_Return _ _ _ _ _ _ (perform_run _ _)).
  set (attach := AttachLoadBalancers _ _).
  pose proof (extends_trans _ _ _ _ _ X1 (extends_performed [attach] w1 eq_refl)) as X2.
  simpl in X2.
  set (w2 := performed [attach] w1) in *.
  set (G := gate env fuel (dict_get params "wait_timeout")
              (ec2_asg_elbs.healthy_iteration env (ec2_asg_elbs.group_instance_status r)
                 (ec2_asg_elbs.new_load_balancers r))).
  assert (quiet G) as HG by (unfold G; quiet_steps).
  pose proof (extends_quiet G w2 HG) as X3.
  destruct (G w2) as [o3 w3] eqn:HG3. simpl in X3.
  pose proof (extends_trans _ _ _ _ _ X2 X3) as X23. rewrite app_nil_r in X23.
  destruct o3 as [[flag late]|msg|e|].
  2-4: exists [attach]; (split_and!; [done | constructor |]);
       match goal with
       | |- extends _ (bind (bind _ ?k2) ?k _).2 _ =>
           destruct (bind_stopped_eq G k2 w2 _ w3 HG3 ltac:(done)) as (o' & Ho' & Hno');
           by rewrite (bind_stopped _ k w2 o' w3 Ho' Hno')
       end.
  rewrite (bind_bind_Return _ _ _ _ _ _ HG3). rewrite bind_ret_l. cbn [fst snd].
  destruct late.
  - unfold ec2_asg_elbs.timed_out, when, detach_load_balancers.
    destruct (truthy (dict_get params "rollback_on_failure")).
    + eexists. split_and!; [done | apply elbs_rolled_back |].
      rewrite (bind_Return _ _ _ _ _ (perform_run _ _)). simpl.
      apply (extends_trans _ _ _ [attach] [_] X23). by apply extends_performed.
    + exists [attach]. by split_and!; [| constructor |].
  - unfold detach_load_balancers.
    eexists. split_and!; [done | apply elbs_swapped |].
    rewrite (bind_Return _ _ _ _ _ (perform_run _ _)). simpl.
    apply (extends_trans _ _ _ [attach] [_] X23). by apply extends_performed.
Qed.

Lemma target_groups_run_shape env fuel params w :
  (extends w (ec2_asg_target_groups.run env fuel params w).2 []
   /\ forall r w1, ec2_asg_target_groups.resolve params w <> (Return r, w1))
  \/ (exists r w1 tr,
         ec2_asg_target_groups.resolve params w = (Return r, w1)
         /\ target_groups_shape r tr
         /\ extends w (ec2_asg_target_groups.run env fuel params w).2 tr).
Proof.
  unfold ec2_asg_target_groups.run, ec2_asg_target_groups.first_gate.
  pose proof (extends_quiet _ w (target_groups_resolve_quiet params)) as X1.
  destruct (ec2_asg_target_groups.resolve params w) as [o w1] eqn:Hr. simpl in X1.
  destruct o as [r|msg|e|].
  2-4: left; split; [| done];
       match goal with
       | |- extends _ (bind (bind _ ?k2) ?k _).2 _ =>
           destruct (bind_stopped_eq _ k2 w _ w1 Hr ltac:(done)) as (o' & Ho' & Hno');
           by rewrite (bind_stopped _ k w o' w1 Ho' Hno')
       end.
  right. exists r, w1.
  rewrite (bind_bind_Return _ _ _ _ _ _ Hr).
  unfold attach_load_balancer_target_groups.
  rewrite (bind_bind_Return _ _ _ _ _ _ (perform_run _ _)).
  set (attach := AttachLoadBalancerTargetGroups _ _).
  pose proof (extends_trans _ _ _ _ _ X1 (extends_performed [attach] w1 eq_refl)) as X2.
  simpl in X2.
  set (w2 := performed [attach] w1) in *.
  set (G := gate env fuel (dict_get params "wait_timeout")
              (ec2_asg_target_groups.healthy_iteration env
                 (ec2_asg_target_groups.group_instance_status r)
                 (ec2_asg_target_groups.new_target_groups r))).
  assert (quiet G) as HG by (unfold G; quiet_steps).
  pose proof (extends_quiet G w2 HG) as X3.
  destruct (G w2) as [o3 w3] eqn:HG3. simpl in X3.
  pose proof (extends_trans _ _ _ _ _ X2 X3) as X23. rewrite app_nil_r in X23.
  destruct o3 as [[flag late]|msg|e|].
  2-4: exists [attach]; (split_and!; [done | constructor |]);
       match goal with
       | |- extends _ (bind (bind _ ?k2) ?k _).2 _ =>
           destruct (bind_stopped_eq G k2 w2 _ w3 HG3 ltac:(done)) as (o' & Ho' & Hno');
           by rewrite (bind_stopped _ k w2 o' w3 Ho' Hno')
       end.
  rewrite (bind_bind_Return _ _ _ _ _ _ HG3). rewrite bind_ret_l. cbn [fst snd].
  destruct late.
  - exists [attach]. split_and!; [done | constructor |].
    unfold ec2_asg_target_groups.timed_out.
    by destruct (truthy (dict_get params "rollback_on_failure")).
  - unfold detach_load_balancer_target_groups.
    eexists. split_and!; [done | apply target_groups_swapped |].
    rewrite (bind_Return _ _ _ _ _ (perform_run _ _)). simpl.
    apply (extends_trans _ _ _ [attach] [_] X23). by apply extends_performed.
Qed.

Lemma lookup_group_name n w g : lookup_group n w = [g] -> AutoScalingGroupName g = n.
Proof.
  intros H. assert (In g (lookup_group n w)) as Hin by (rewrite H; by left).
  apply List.filter_In in Hin as [_ Hin]. by apply bool_decide_eq_true in Hin.
Qed.

(** [module.params] gives back what was supplied, when it is not [None]. *)
Lemma params_supplied (spec : gmap string argspec) (args : gmap string pyval) k s v :
  spec !! k = Some s ->
  arg_default s = PyNone ->
  v <> PyNone ->
  dict_get (map_imap (fun k s => Some (default (arg_default s) (args !! k))) spec) k = v ->
  args !! k = Some v.
Proof.
  intros Hs Hd Hv H. erewrite params_declared in H by done.
  destruct (args !! k); simpl in H; [by subst | congruence].
Qed.

Lemma elbs_declared env k s :
  (list_to_map
     [ ("name", arg_req TStr);
       ("load_balancers", arg TList);
       ("wait_timeout", arg_def TInt (PyInt 300)) ] : gmap string argspec) !! k = Some s ->
  ec2_asg_elbs.argument_spec env !! k = Some s.
Proof. intros H. unfold ec2_asg_elbs.argument_spec. by apply lookup_union_Some_l. Qed.

Lemma target_groups_declared env k s :
  (list_to_map
     [ ("name", arg_req TStr);
       ("target_groups", arg_req TList);
       ("wait_timeout", arg_def TInt (PyInt 300)) ] : gmap string argspec) !! k = Some s ->
  ec2_asg_target_groups.argument_spec env !! k = Some s.
Proof. intros H. unfold ec2_asg_target_groups.argument_spec. by apply lookup_union_Some_l. Qed.

(** Every shape of a cutover run starts with the preparation of the new
    group. *)
Lemma elb_shape_starts r tr :
  elb_shape r tr -> exists rest, tr = elb_prepare_calls r ++ rest.
Proof.
  intros [| |l Hl];
    [exists []; by rewrite app_nil_r | eexists; reflexivity | eexists; reflexivity].
Qed.

Lemma tg_shape_starts r tr :
  tg_shape r tr -> exists rest, tr = tg_prepare_calls r ++ rest.
Proof.
  intros [| |l Hl|l Hl];
    [exists []; by rewrite app_nil_r | eexists; reflexivity | eexists; reflexivity
    | eexists; reflexivity].
Qed.

(** ** How a polling loop ends *)

Lemma time_time_Return env w now w' :
  time_time env w = (Return now, w') ->
  now = clock env (ticks w) /\ ticks w' = S (ticks w) /\ polls w' = polls w.
Proof. unfold time_time. intros H. by simplify_eq. Qed.

(** A loop that ends with its flag down ended on its clock test: the last
    reading taken was not before the deadline. *)
Lemma poll_until_exit env fuel deadline it flag w f w' :
  poll_until env fuel deadline it flag w = (Return f, w') ->
  f = true \/ exists k, ticks w' = S k /\ deadline <= clock env k.
Proof.
  revert flag w. induction fuel as [|fuel IH]; intros flag w; simpl.
  - destruct flag; [intros H; unfold ret in H; left; by simplify_eq |].
    intros H. apply bind_inv_Return in H as (now & w1 & Ht & H).
    apply time_time_Return in Ht as (-> & Hticks & _).
    case_bool_decide; [discriminate |].
    unfold ret in H. simplify_eq. right. exists (ticks w). split; [done | lia].
  - destruct flag; [intros H; unfold ret in H; left; by simplify_eq |].
    intros H. apply bind_inv_Return in H as (now & w1 & Ht & H).
    apply time_time_Return in Ht as (-> & Hticks & _).
    case_bool_decide.
    + apply bind_inv_Return in H as (flag' & w2 & _ & H).
      apply bind_inv_Return in H as ([] & w3 & _ & H).
      by apply IH in H.
    + unfold ret in H. simplify_eq. right. exists (ticks w). split; [done | lia].
Qed.

(** A loop that starts with its flag down and ends with it up ended right
    after an iteration that raised it. *)
Lemma poll_until_true env fuel deadline it w w' :
  poll_until env fuel deadline it false w = (Return true, w') ->
  exists wa, it wa = (Return true, w').
Proof.
  revert w. induction fuel as [|fuel IH]; intros w; simpl.
  - intros H. apply bind_inv_Return in H as (now & w1 & _ & H).
    case_bool_decide; discriminate.
  - intros H. apply bind_inv_Return in H as (now & w1 & _ & H).
    case_bool_decide; [| discriminate].
    apply bind_inv_Return in H as (flag' & w2 & Hit & H).
    apply bind_inv_Return in H as ([] & w3 & Hs & H).
    destruct flag'.
    + simpl in Hs. unfold ret in Hs. simplify_eq.
      destruct fuel; simpl in H; unfold ret in H; simplify_eq; by exists w1.
    + by apply IH in H.
Qed.

(** With a clock that never runs backwards, a gate whose final test finds
    the deadline not yet passed has its flag up, raised by its last
    iteration. *)
Lemma gate_in_time env fuel v it w flag w' :
  monotone env ->
  gate env fuel v it w = (Return (flag, false), w') ->
  flag = true
  /\ exists wa wb, it wa = (Return true, wb) /\ w' = record TimeTime (tick wb).
Proof.
  intros Hmono H. unfold gate in H.
  apply bind_inv_Return in H as (deadline & w1 & _ & H).
  apply bind_inv_Return in H as (f & w2 & Hp & H).
  apply bind_inv_Return in H as (now & w3 & Ht & H).
  pose proof Ht as Hw3. unfold time_time in Hw3. injection Hw3 as _ Hw3.
  apply time_time_Return in Ht as (-> & _ & _).
  unfold ret in H. injection H as -> Hlate <-.
  apply bool_decide_eq_false in Hlate.
  destruct (poll_until_exit _ _ _ _ _ _ _ _ Hp) as [-> | (k & Hk & Hd)].
  - split; [done |]. apply poll_until_true in Hp as [wa Ha]. by exists wa, w2.
  - rewrite Hk in Hlate. specialize (Hmono k). lia.
Qed.

(** ** What an iteration that raises the flag has seen *)

Lemma elb_in_service_with_true g (status : gmap string (string * string)) ih :
  ec2_asg_cutover_elb.in_service_with g status ih = true ->
  forall id st, status !! id = Some st -> concerned g st = true ->
                dict_of is_InstanceId is_State ih !! id = Some "InService".
Proof.
  unfold ec2_asg_cutover_elb.in_service_with. intros H id st Hid Hc.
  apply (dict_all_lookup _ _ id st) in H; [| done]. simpl in H. rewrite Hc in H.
  apply negb_true_iff, orb_false_iff in H as [_ H].
  by apply negb_false_iff, bool_decide_eq_true in H.
Qed.

Lemma elb_healthy_iteration_true env g (status : gmap string (string * string)) lbs flag w w' :
  for_each
    (fun healthy load_balancer =>
       bind (describe_instance_health env load_balancer)
            (fun instance_health =>
               ret (healthy && ec2_asg_cutover_elb.in_service_with g status instance_health)))
    lbs flag w = (Return true, w') ->
  flag = true
  /\ (polls w <= polls w')%nat
  /\ forall lb, In lb lbs ->
       exists k, (polls w <= k < polls w')%nat
                 /\ ec2_asg_cutover_elb.in_service_with g status (instance_health env k lb)
                    = true.
Proof.
  revert flag w. induction lbs as [|lb lbs IH]; intros flag w; simpl.
  - intros H. unfold ret in H. simplify_eq. split_and!; [done | done |]. by intros lb [].
  - intros H. apply bind_inv_Return in H as (flag' & w1 & Hstep & H).
    unfold bind, describe_instance_health, ret in Hstep. simpl in Hstep.
    injection Hstep as <- <-.
    apply IH in H as (Hflag & Hle & Hall). simpl in Hle.
    apply andb_prop in Hflag as [-> Hok].
    split_and!; [done | lia |].
    intros lb' [<- | Hin].
    + exists (polls w). split; [lia | done].
    + destruct (Hall lb' Hin) as (k & Hk & Hok'). simpl in Hk. exists k. split; [lia | done].
Qed.

Lemma tg_reports_healthy_true ih w w' :
  ec2_asg_cutover_target_groups.reports_healthy ih w = (Return true, w') ->
  w' = w /\ exists th rest, ih = th :: rest /\ th_State th = Some "healthy".
Proof.
  destruct ih as [|th rest]; simpl; [discriminate |].
  destruct (th_State th) as [s|] eqn:Hs; [| discriminate].
  unfold ret. intros H. injection H as H <-.
  apply bool_decide_eq_true in H as ->. split; [done |]. by exists th, rest.
Qed.

Lemma tg_reports_healthy_Return ih w ok w' :
  ec2_asg_cutover_target_groups.reports_healthy ih w = (Return ok, w') -> w' = w.
Proof.
  destruct ih as [|th rest]; simpl; [unfold ret; intros H; by simplify_eq |].
  destruct (th_State th); [unfold ret; intros H; by simplify_eq | discriminate].
Qed.

Lemma tg_member_checked_true env id tgs flag w w' :
  for_each
    (fun healthy target_group =>
       bind (describe_target_health env target_group id)
            (fun instance_health =>
               bind (ec2_asg_cutover_target_groups.reports_healthy instance_health)
                    (fun ok => ret (healthy && ok))))
    tgs flag w = (Return true, w') ->
  flag = true
  /\ (polls w <= polls w')%nat
  /\ forall tg, In tg tgs ->
       exists k th rest,
         (polls w <= k < polls w')%nat
         /\ target_health env k tg id = th :: rest
         /\ th_State th = Some "healthy".
Proof.
  revert flag w. induction tgs as [|tg tgs IH]; intros flag w; simpl.
  - intros H. unfold ret in H. simplify_eq. split_and!; [done | done |]. by intros tg [].
  - intros H. apply bind_inv_Return in H as (flag' & w1 & Hstep & H).
    apply bind_inv_Return in Hstep as (ih & w0 & Hd & Hstep).
    unfold describe_target_health in Hd. injection Hd as <- <-.
    apply bind_inv_Return in Hstep as (ok & w2 & Hrep & Hstep).
    unfold ret in Hstep. injection Hstep as <- <-.
    apply IH in H as (Hflag & Hle & Hall).
    apply andb_prop in Hflag as [-> ->].
    apply tg_reports_healthy_true in Hrep as (-> & th & rest & Hth & Hst).
    simpl in Hle. split_and!; [done | lia |].
    intros tg' [<- | Hin].
    + exists (polls w), th, rest. split_and!; [lia | lia | done | done].
    + destruct (Hall tg' Hin) as (k & th' & rest' & Hk & Hth' & Hst').
      simpl in Hk. exists k, th', rest'. split_and!; [lia | lia | done | done].
Qed.

Lemma tg_healthy_iteration_true env g tgs (items : list (string * (string * string)))
    flag w w' :
  for_each
    (fun healthy item =>
       if concerned g item.2 then
         for_each
           (fun healthy target_group =>
              bind (describe_target_health env target_group item.1)
                   (fun instance_health =>
                      bind (ec2_asg_cutover_target_groups.reports_healthy instance_health)
                           (fun ok => ret (healthy && ok))))
           tgs healthy
       else ret healthy)
    items flag w = (Return true, w') ->
  flag = true
  /\ (polls w <= polls w')%nat
  /\ forall id st tg, In (id, st) items -> concerned g st = true -> In tg tgs ->
       exists k th rest,
         (polls w <= k < polls w')%nat
         /\ target_health env k tg id = th :: rest
         /\ th_State th = Some "healthy".
Proof.
  revert flag w. induction items as [|[id st] items IH]; intros flag w; simpl.
  - intros H. unfold ret in H. simplify_eq. split_and!; [done | done |]. by intros ? ? ? [].
  - intros H. apply bind_inv_Return in H as (flag' & w1 & Hstep & H).
    apply IH in H as (-> & Hle & Hall).
    destruct (concerned g st) eqn:Hc.
    + apply tg_member_checked_true in Hstep as (-> & Hle1 & Hmem).
      split_and!; [done | lia |].
      intros id' st' tg [Heq | Hin] Hc' Htg.
      * injection Heq as <- <-.
        destruct (Hmem tg Htg) as (k & th & rest & Hk & Hth & Hst).
        exists k, th, rest. split_and!; [lia | lia | done | done].
      * destruct (Hall id' st' tg Hin Hc' Htg) as (k & th & rest & Hk & Hth & Hst).
        exists k, th, rest. split_and!; [lia | lia | done | done].
    + unfold ret in Hstep. injection Hstep as -> ->.
      split_and!; [done | done |].
      intros id' st' tg [Heq | Hin] Hc' Htg.
      * injection Heq as <- <-. congruence.
      * by apply (Hall id' st' tg).
Qed.

(** ** Reaching the deregistration loop *)

Lemma elb_reaches_deregistration env fuel params w r w4 :
  monotone env ->
  ec2_asg_cutover_elb.to_deregistration_gate env fuel params w = (Return r, w4) ->
  exists w3 wa wb,
    ec2_asg_cutover_elb.first_gate env fuel params w = (Return (r, (true, false)), w3)
    /\ ec2_asg_cutover_elb.healthy_iteration env
         (ec2_asg_cutover_elb.new_group_ r) (ec2_asg_cutover_elb.new_instance_status r)
         (ec2_asg_cutover_elb.target_load_balancers r) wa = (Return true, wb)
    /\ w3 = record TimeTime (tick wb)
    /\ forall lb id st,
         In lb (ec2_asg_cutover_elb.target_load_balancers r) ->
         ec2_asg_cutover_elb.new_instance_status r !! id = Some st ->
         concerned (ec2_asg_cutover_elb.new_group_ r) st = true ->
         exists k, (polls wa <= k < polls wb)%nat
                   /\ dict_of is_InstanceId is_State (instance_health env k lb) !! id
                      = Some "InService".
Proof.
  intros Hmono H. unfold ec2_asg_cutover_elb.to_deregistration_gate in H.
  apply bind_inv_Return in H as ([r0 [flag late]] & w3 & Hf & H). simpl in H.
  destruct late; [by apply elb_timed_out_no_Return in H |].
  apply bind_inv_Return in H as ([] & w5 & _ & H). unfold ret in H. simplify_eq.
  pose proof Hf as Hg. unfold ec2_asg_cutover_elb.first_gate in Hg.
  apply bind_inv_Return in Hg as (r1 & w1 & _ & Hg).
  apply bind_inv_Return in Hg as ([] & w2 & _ & Hg).
  apply bind_inv_Return in Hg as (res & w6 & Hg & Hret). unfold ret in Hret. simplify_eq.
  unfold ec2_asg_cutover_elb.await_new_healthy in Hg.
  apply (gate_in_time _ _ _ _ _ _ _ Hmono) in Hg as (-> & wa & wb & Hit & ->).
  exists (record TimeTime (tick wb)), wa, wb. split_and!; [done | done | done |].
  intros lb id st Hlb Hid Hc.
  apply elb_healthy_iteration_true in Hit as (_ & _ & Hall).
  destruct (Hall lb Hlb) as (k & Hk & Hok). exists k. split; [done |].
  by apply (elb_in_service_with_true _ _ _ Hok id st).
Qed.

Lemma tg_reaches_deregistration env fuel params w r w4 :
  monotone env ->
  ec2_asg_cutover_target_groups.to_deregistration_gate env fuel params w = (Return r, w4) ->
  exists w3 wa wb,
    ec2_asg_cutover_target_groups.first_gate env fuel params w
    = (Return (r, (true, false)), w3)
    /\ ec2_asg_cutover_target_groups.healthy_iteration env
         (ec2_asg_cutover_target_groups.new_group_ r)
         (ec2_asg_cutover_target_groups.new_instance_status r)
         (ec2_asg_cutover_target_groups.dest_target_groups r) wa = (Return true, wb)
    /\ w3 = record TimeTime (tick wb)
    /\ forall tg id st,
         In tg (ec2_asg_cutover_target_groups.dest_target_groups r) ->
         ec2_asg_cutover_target_groups.new_instance_status r !! id = Some st ->
         concerned (ec2_asg_cutover_target_groups.new_group_ r) st = true ->
         exists k th rest,
           (polls wa <= k < polls wb)%nat
           /\ target_health env k tg id = th :: rest
           /\ th_State th = Some "healthy".
Proof.
  intros Hmono H. unfold ec2_asg_cutover_target_groups.to_deregistration_gate in H.
  apply bind_inv_Return in H as ([r0 [flag late]] & w3 & Hf & H). simpl in H.
  destruct late; [by apply tg_timed_out_no_Return in H |].
  apply bind_inv_Return in H as ([] & w5 & _ & H). unfold ret in H. simplify_eq.
  pose proof Hf as Hg. unfold ec2_asg_cutover_target_groups.first_gate in Hg.
  apply bind_inv_Return in Hg as (r1 & w1 & _ & Hg).
  apply bind_inv_Return in Hg as ([] & w2 & _ & Hg).
  apply bind_inv_Return in Hg as (res & w6 & Hg & Hret). unfold ret in Hret. simplify_eq.
  unfold ec2_asg_cutover_target_groups.await_new_healthy in Hg.
  apply (gate_in_time _ _ _ _ _ _ _ Hmono) in Hg as (-> & wa & wb & Hit & ->).
  exists (record TimeTime (tick wb)), wa, wb. split_and!; [done | done | done |].
  intros tg id st Htg Hid Hc.
  apply tg_healthy_iteration_true in Hit as (_ & _ & Hall).
  apply (Hall id st tg); [| done | done].
  apply list_elem_of_In. by apply elem_of_map_to_list.
Qed.

(** ** A first gate that ran out of time *)

Lemma elb_timeout_fails env fuel (args : gmap string pyval) w r flag w3 :
  bind (AnsibleModule (ec2_asg_cutover_elb.argument_spec env) args)
       (ec2_asg_cutover_elb.first_gate env fuel) w = (Return (r, (flag, true)), w3) ->
  (forall r2 w4,
      bind (AnsibleModule (ec2_asg_cutover_elb.argument_spec env) args)
           (ec2_asg_cutover_elb.to_deregistration_gate env fuel) w <> (Return r2, w4))
  /\ exists w4,
      ec2_asg_cutover_elb.main env fuel args w
      = (FailJson "Waited too long for target ELB to report instances as healthy", w4).
Proof.
  intros H. apply bind_inv_Return in H as (params & w0 & Ha & Hf). split.
  - intros r2 w4 H2. erewrite bind_Return in H2 by exact Ha.
    unfold ec2_asg_cutover_elb.to_deregistration_gate in H2.
    erewrite bind_Return in H2 by exact Hf. simpl in H2.
    by apply elb_timed_out_no_Return in H2.
  - unfold ec2_asg_cutover_elb.main. erewrite bind_Return by exact Ha.
    unfold ec2_asg_cutover_elb.run, ec2_asg_cutover_elb.to_deregistration_gate.
    erewrite bind_bind_Return by exact Hf. cbn [fst snd]. unfold bind at 1.
    destruct (truthy (dict_get params "rollback_on_failure")) eqn:Hroll.
    + rewrite (elb_rollback_run _ _ _ Hroll). by eexists.
    + rewrite (elb_no_rollback_run _ _ _ Hroll). by eexists.
Qed.

Lemma tg_timeout_fails env fuel (args : gmap string pyval) w r flag w3 :
  bind (AnsibleModule (ec2_asg_cutover_target_groups.argument_spec env) args)
       (ec2_asg_cutover_target_groups.first_gate env fuel) w
  = (Return (r, (flag, true)), w3) ->
  (forall r2 w4,
      bind (AnsibleModule (ec2_asg_cutover_target_groups.argument_spec env) args)
           (ec2_asg_cutover_target_groups.to_deregistration_gate env fuel) w
      <> (Return r2, w4))
  /\ exists msg w4,
      ec2_asg_cutover_target_groups.main env fuel args w = (FailJson msg, w4).
Proof.
  intros H. apply bind_inv_Return in H as (params & w0 & Ha & Hf). split.
  - intros r2 w4 H2. erewrite bind_Return in H2 by exact Ha.
    unfold ec2_asg_cutover_target_groups.to_deregistration_gate in H2.
    erewrite bind_Return in H2 by exact Hf. simpl in H2.
    by apply tg_timed_out_no_Return in H2.
  - unfold ec2_asg_cutover_target_groups.main. erewrite bind_Return by exact Ha.
    unfold ec2_asg_cutover_target_groups.run,
      ec2_asg_cutover_target_groups.to_deregistration_gate.
    erewrite bind_bind_Return by exact Hf. cbn [fst snd]. unfold bind at 1.
    destruct (truthy (dict_get params "rollback_on_failure")) eqn:Hroll.
    + rewrite (tg_rollback_run _ _ _ Hroll). by eexists _, _.
    + rewrite (tg_no_rollback_run _ _ _ Hroll). by eexists _, _.
Qed.


(** ** The tag filters *)

Lemma parse_asg_tags_snoc l t :
  aws.parse_asg_tags (l ++ [t])
  = (tags ← aws.parse_asg_tags l;
     k ← aws.key t;
     v ← aws.value t;
     Some (<[k := v]> tags)).
Proof. unfold aws.parse_asg_tags. by rewrite foldl_app. Qed.

Lemma format_asg_tags_snoc l t :
  aws.format_asg_tags (l ++ [t])
  = (tags ← aws.format_asg_tags l;
     d ← aws.new_tag t;
     Some (tags ++ [d])).
Proof. unfold aws.format_asg_tags. by rewrite foldl_app. Qed.

(** What [parse_asg_tags] leaves once the dict is no longer empty. *)
Lemma parse_asg_tags_from (acc : option (gmap string pyval)) l d :
  foldl (fun tags asg_tag =>
           tags ← tags;
           tag_key ← aws.key asg_tag;
           tag_val ← aws.value asg_tag;
           Some (<[tag_key := tag_val]> tags)) acc l = Some d ->
  exists a, acc = Some a
            /\ Forall (fun t => is_Some (aws.key t) /\ is_Some (aws.value t)) l
            /\ forall k, (Forall (fun t => aws.key t <> Some k) l -> d !! k = a !! k).
Proof.
  revert acc. induction l as [|t l IH]; intros acc; simpl.
  - intros ->. exists d. split_and!; [done | constructor | done].
  - intros H. apply IH in H as (a' & Ha' & Hall & Hd).
    destruct acc as [a|]; [| done]. simpl in Ha'.
    destruct (aws.key t) as [k0|] eqn:Hk; [| done]. simpl in Ha'.
    destruct (aws.value t) as [v0|] eqn:Hv; [| done]. simpl in Ha'. simplify_eq.
    exists a. split_and!; [done | |].
    + constructor; [| done]. rewrite Hk, Hv. by split; eexists.
    + intros k Hno. inversion Hno as [|? ? Hne Hrest]; subst.
      rewrite (Hd k Hrest). apply lookup_insert_ne. congruence.
Qed.

Lemma parse_asg_tags_None_from l :
  foldl (fun (tags : option (gmap string pyval)) asg_tag =>
           tags ← tags;
           tag_key ← aws.key asg_tag;
           tag_val ← aws.value asg_tag;
           Some (<[tag_key := tag_val]> tags)) None l = None.
Proof. induction l as [|t l IH]; [done | exact IH]. Qed.

Lemma format_asg_tags_None_from l :
  foldl (fun (tags : option (list (gmap string pyval))) tag =>
           tags ← tags;
           t ← aws.new_tag tag;
           Some (tags ++ [t])) None l = None.
Proof. induction l as [|t l IH]; [done | exact IH]. Qed.

Lemma new_tag_Some tag d :
  aws.new_tag tag = Some d ->
  exists k v p,
    aws.key tag = Some k /\ aws.value tag = Some v /\ aws.propagate_at_launch tag = Some p
    /\ d = <["propagate_at_launch" := p]> (<[k := v]> ∅).
Proof.
  unfold aws.new_tag. intros H.
  destruct (aws.key tag) as [k|]; [| done].
  destruct (aws.value tag) as [v|]; [| done].
  destruct (aws.propagate_at_launch tag) as [p|]; [| done].
  simpl in H. simplify_eq. by exists k, v, p.
Qed.

Lemma new_tag_None tag :
  aws.new_tag tag = None
  <-> aws.key tag = None \/ aws.value tag = None \/ aws.propagate_at_launch tag = None.
Proof.
  unfold aws.new_tag.
  destruct (aws.key tag), (aws.value tag), (aws.propagate_at_launch tag); simpl;
    split; intros H; try done; try (by left); try (by right; left); try (by right; right);
    by destruct H as [H | [H | H]].
Qed.

Lemma format_asg_tags_Forall2 tags out :
  aws.format_asg_tags tags = Some out ->
  Forall2 (fun tag d => aws.new_tag tag = Some d) tags out.
Proof.
  revert out. induction tags as [|t l IH] using rev_ind; intros out.
  - intros H. injection H as <-. constructor.
  - rewrite format_asg_tags_snoc. intros H.
    destruct (aws.format_asg_tags l) as [out'|]; [| done]. simpl in H.
    destruct (aws.new_tag t) as [d|] eqn:Hd; [| done]. simpl in H. simplify_eq.
    apply Forall2_app; [by apply IH |]. by repeat constructor.
Qed.

Lemma asg_tag_value_from (a : gmap string pyval) l d k :
  foldl (fun tags asg_tag =>
           tags ← tags;
           tag_key ← aws.key asg_tag;
           tag_val ← aws.value asg_tag;
           Some (<[tag_key := tag_val]> tags)) (Some a) l = Some d ->
  NoDup (map aws.key l) ->
  a !! k = None ->
  aws.asg_tag_value l k = Some (default PyNone (d !! k)).
Proof.
  revert a. induction l as [|t l IH]; intros a; simpl.
  - intros H _ Ha. injection H as <-. by rewrite Ha.
  - intros H Hnd Ha. apply NoDup_cons in Hnd as [Hnotin Hnd].
    destruct (aws.key t) as [k0|] eqn:Hk; simpl in H;
      [| by rewrite parse_asg_tags_None_from in H].
    destruct (aws.value t) as [v0|] eqn:Hv; simpl in H;
      [| by rewrite parse_asg_tags_None_from in H].
    simpl. case_bool_decide as Heq.
    + subst k0. apply parse_asg_tags_from in H as (a' & Ha' & _ & Hd). simplify_eq.
      rewrite Hd, lookup_insert_eq; [done |].
      apply Forall_forall. intros t' Hin Hk'. apply Hnotin.
      rewrite <- Hk'. apply list_elem_of_fmap. by exists t'.
    + apply (IH _ H Hnd). by rewrite lookup_insert_ne.
Qed.

(** ** A deadline that has passed before the loop starts *)

Lemma gate_no_time env fuel z (it : M bool) w :
  monotone env ->
  z <= 0 ->
  gate env fuel (PyInt z) it w
  = (Return (false, true),
     record TimeTime (tick (record TimeTime (tick (record TimeTime (tick w)))))).
Proof.
  intros Hmono Hz. unfold gate, deadline_from_now.
  unfold bind at 1. unfold bind at 1. unfold time_time at 1. cbv [ret].
  pose proof (Hmono (ticks w)) as H1. pose proof (Hmono (S (ticks w))) as H2.
  assert (forall (k : bool -> M (bool * bool)),
             bind (poll_until env fuel (clock env (ticks w) + z) it false) k
                  (record TimeTime (tick w))
             = k false (record TimeTime (tick (record TimeTime (tick w))))) as ->.
  { intros k. unfold bind at 1.
    assert (poll_until env fuel (clock env (ticks w) + z) it false
                       (record TimeTime (tick w))
            = (Return false, record TimeTime (tick (record TimeTime (tick w))))) as ->; [| done].
    destruct fuel; simpl; unfold bind, time_time; simpl;
      rewrite bool_decide_eq_false_2 by lia; done. }
  unfold bind, time_time. simpl. rewrite bool_decide_eq_true_2 by lia. done.
Qed.

Lemma elb_no_time env fuel (args : gmap string pyval) w z r w1 :
  monotone env ->
  args !! "wait_timeout" = Some (PyInt z) ->
  z <= 0 ->
  bind (AnsibleModule (ec2_asg_cutover_elb.argument_spec env) args)
       ec2_asg_cutover_elb.resolve w = (Return r, w1) ->
  bind (AnsibleModule (ec2_asg_cutover_elb.argument_spec env) args)
       (ec2_asg_cutover_elb.first_gate env fuel) w
  = (Return (r, (false, true)),
     record TimeTime (tick (record TimeTime (tick (record TimeTime (tick
       (performed (elb_prepare_calls r) w1))))))).
Proof.
  intros Hmono Hz Hle H. apply bind_inv_Return in H as (params & w0 & Ha & Hr).
  rewrite (bind_Return _ _ _ _ _ Ha).
  destruct (AnsibleModule_cases (ec2_asg_cutover_elb.argument_spec env) args w)
    as [[msg Hm] | [Hm _]]; rewrite Hm in Ha; [discriminate |].
  injection Ha as <- <-. set (params := map_imap _ _) in *.
  assert (dict_get params "wait_timeout" = PyInt z) as Hwt.
  { unfold params. erewrite params_declared by (by apply elb_declared). by rewrite Hz. }
  unfold ec2_asg_cutover_elb.first_gate.
  rewrite (bind_Return _ _ _ _ _ Hr).
  rewrite (bind_Return _ _ _ _ _ (elb_prepare_run _ _)).
  unfold ec2_asg_cutover_elb.await_new_healthy. rewrite Hwt.
  unfold bind at 1. by rewrite (gate_no_time _ _ _ _ _ Hmono Hle).
Qed.

Lemma log_performed calls w : log (performed calls w) = log w ++ calls.
Proof. done. Qed.

Lemma polls_performed calls w : polls (performed calls w) = polls w.
Proof. done. Qed.

(** The two lookups are all that resolving the groups leaves on record. *)
Lemma elb_resolved_world env (args : gmap string pyval) w r w1 :
  bind (AnsibleModule (ec2_asg_cutover_elb.argument_spec env) args)
       ec2_asg_cutover_elb.resolve w = (Return r, w1) ->
  w1 = record (DescribeAutoScalingGroups
                 [PyStr (AutoScalingGroupName (ec2_asg_cutover_elb.new_group_ r))])
              (record (DescribeAutoScalingGroups
                         [PyStr (AutoScalingGroupName (ec2_asg_cutover_elb.current_group r))])
                      w).
Proof.
  intros H. apply bind_inv_Return in H as (params & w0 & Ha & Hr).
  destruct (AnsibleModule_cases (ec2_asg_cutover_elb.argument_spec env) args w)
    as [[msg Hm] | [Hm _]]; rewrite Hm in Ha; [discriminate |].
  injection Ha as <- <-.
  apply elb_resolve_Return in Hr as (c & n & _ & _ & _ & Hc & Hn & _ & _ & _ & _ & _ & _ & _ & _ & _ & ->).
  apply lookup_group_name in Hc as ->. apply lookup_group_name in Hn as ->. done.
Qed.

Lemma elb_no_time_main env fuel (args : gmap string pyval) w z r w1 :
  monotone env ->
  args !! "wait_timeout" = Some (PyInt z) ->
  z <= 0 ->
  bind (AnsibleModule (ec2_asg_cutover_elb.argument_spec env) args)
       ec2_asg_cutover_elb.resolve w = (Return r, w1) ->
  exists w',
    ec2_asg_cutover_elb.main env fuel args w
    = (FailJson "Waited too long for target ELB to report instances as healthy", w')
    /\ polls w' = polls w
    /\ log w'
       = log w
         ++ [DescribeAutoScalingGroups
               [PyStr (AutoScalingGroupName (ec2_asg_cutover_elb.current_group r))];
             DescribeAutoScalingGroups
               [PyStr (AutoScalingGroupName (ec2_asg_cutover_elb.new_group_ r))]]
         ++ elb_prepare_calls r
         ++ [TimeTime; TimeTime; TimeTime]
         ++ (if truthy (default (PyBool true) (args !! "rollback_on_failure"))
             then elb_rollback_calls r else []).
Proof.
  intros Hmono Hz Hle H.
  pose proof (elb_resolved_world _ _ _ _ _ H) as Hw1.
  pose proof (elb_no_time env fuel args w z r w1 Hmono Hz Hle H) as Hg.
  apply bind_inv_Return in H as (params & w0 & Ha & Hr).
  rewrite (bind_Return _ _ _ _ _ Ha) in Hg.
  destruct (AnsibleModule_cases (ec2_asg_cutover_elb.argument_spec env) args w)
    as [[msg Hm] | [Hm _]]; rewrite Hm in Ha; [discriminate |].
  injection Ha as <- <-. set (params := map_imap _ _) in *.
  assert (dict_get params "rollback_on_failure"
          = default (PyBool true) (args !! "rollback_on_failure")) as Hroll.
  { unfold params. by erewrite params_declared by (by apply elb_declared). }
  unfold ec2_asg_cutover_elb.main. rewrite (bind_Return _ _ _ _ _ Hm). fold params.
  unfold ec2_asg_cutover_elb.run, ec2_asg_cutover_elb.to_deregistration_gate.
  rewrite (bind_bind_Return _ _ _ _ _ _ Hg). cbn [fst snd]. unfold bind at 1.
  rewrite <- Hroll.
  destruct (truthy (dict_get params "rollback_on_failure")) eqn:Ht.
  - rewrite (elb_rollback_run _ _ _ Ht). eexists. split; [reflexivity |].
    rewrite Hw1. split; [done |]. simpl. by rewrite <- !app_assoc.
  - rewrite (elb_no_rollback_run _ _ _ Ht). eexists. split; [reflexivity |].
    rewrite Hw1. split; [done |]. simpl. by rewrite <- !app_assoc.
Qed.

Lemma tg_no_time env fuel (args : gmap string pyval) w z r w1 :
  monotone env ->
  args !! "wait_timeout" = Some (PyInt z) ->
  z <= 0 ->
  bind (AnsibleModule (ec2_asg_cutover_target_groups.argument_spec env) args)
       ec2_asg_cutover_target_groups.resolve w = (Return r, w1) ->
  bind (AnsibleModule (ec2_asg_cutover_target_groups.argument_spec env) args)
       (ec2_asg_cutover_target_groups.first_gate env fuel) w
  = (Return (r, (false, true)),
     record TimeTime (tick (record TimeTime (tick (record TimeTime (tick
       (performed (tg_prepare_calls r) w1))))))).
Proof.
  intros Hmono Hz Hle H. apply bind_inv_Return in H as (params & w0 & Ha & Hr).
  rewrite (bind_Return _ _ _ _ _ Ha).
  destruct (AnsibleModule_cases (ec2_asg_cutover_target_groups.argument_spec env) args w)
    as [[msg Hm] | [Hm _]]; rewrite Hm in Ha; [discriminate |].
  injection Ha as <- <-. set (params := map_imap _ _) in *.
  assert (dict_get params "wait_timeout" = PyInt z) as Hwt.
  { unfold params. erewrite params_declared by (by apply tg_declared). by rewrite Hz. }
  unfold ec2_asg_cutover_target_groups.first_gate.
  rewrite (bind_Return _ _ _ _ _ Hr).
  rewrite (bind_Return _ _ _ _ _ (tg_prepare_run _ _)).
  unfold ec2_asg_cutover_target_groups.await_new_healthy. rewrite Hwt.
  unfold bind at 1. by rewrite (gate_no_time _ _ _ _ _ Hmono Hle).
Qed.

(** The same for ec2_asg_cutover_target_groups. *)
Lemma tg_resolved_world env (args : gmap string pyval) w r w1 :
  bind (AnsibleModule (ec2_asg_cutover_target_groups.argument_spec env) args)
       ec2_asg_cutover_target_groups.resolve w = (Return r, w1) ->
  w1 = record (DescribeAutoScalingGroups
                 [PyStr (AutoScalingGroupName (ec2_asg_cutover_target_groups.new_group_ r))])
              (record (DescribeAutoScalingGroups
                         [PyStr (AutoScalingGroupName (ec2_asg_cutover_target_groups.current_group r))])
                      w).
Proof.
  intros H. apply bind_inv_Return in H as (params & w0 & Ha & Hr).
  destruct (AnsibleModule_cases (ec2_asg_cutover_target_groups.argument_spec env) args w)
    as [[msg Hm] | [Hm _]]; rewrite Hm in Ha; [discriminate |].
  injection Ha as <- <-.
  apply tg_resolve_Return in Hr as (c & n & _ & _ & _ & Hc & Hn & _ & _ & _ & _ & _ & _ & _ & _ & _ & ->).
  apply lookup_group_name in Hc as ->. apply lookup_group_name in Hn as ->. done.
Qed.

Lemma tg_no_time_main env fuel (args : gmap string pyval) w z r w1 :
  monotone env ->
  args !! "wait_timeout" = Some (PyInt z) ->
  z <= 0 ->
  bind (AnsibleModule (ec2_asg_cutover_target_groups.argument_spec env) args)
       ec2_asg_cutover_target_groups.resolve w = (Return r, w1) ->
  exists w',
    ec2_asg_cutover_target_groups.main env fuel args w
    = (FailJson
         (if truthy (default (PyBool true) (args !! "rollback_on_failure"))
          then "Waited too long for destination target group to report instances as healthy. Deployment has been rolled back."
          else "Waited too long for destination target group to report instances as healthy. No rollback action taken."),
       w')
    /\ polls w' = polls w
    /\ log w'
       = log w
         ++ [DescribeAutoScalingGroups
               [PyStr (AutoScalingGroupName (ec2_asg_cutover_target_groups.current_group r))];
             DescribeAutoScalingGroups
               [PyStr (AutoScalingGroupName (ec2_asg_cutover_target_groups.new_group_ r))]]
         ++ tg_prepare_calls r
         ++ [TimeTime; TimeTime; TimeTime]
         ++ (if truthy (default (PyBool true) (args !! "rollback_on_failure"))
             then tg_rollback_calls r else []).
Proof.
  intros Hmono Hz Hle H.
  pose proof (tg_resolved_world _ _ _ _ _ H) as Hw1.
  pose proof (tg_no_time env fuel args w z r w1 Hmono Hz Hle H) as Hg.
  apply bind_inv_Return in H as (params & w0 & Ha & Hr).
  rewrite (bind_Return _ _ _ _ _ Ha) in Hg.
  destruct (AnsibleModule_cases (ec2_asg_cutover_target_groups.argument_spec env) args w)
    as [[msg Hm] | [Hm _]]; rewrite Hm in Ha; [discriminate |].
  injection Ha as <- <-. set (params := map_imap _ _) in *.
  assert (dict_get params "rollback_on_failure"
          = default (PyBool true) (args !! "rollback_on_failure")) as Hroll.
  { unfold params. by erewrite params_declared by (by apply tg_declared). }
  unfold ec2_asg_cutover_target_groups.main. rewrite (bind_Return _ _ _ _ _ Hm). fold params.
  unfold ec2_asg_cutover_target_groups.run, ec2_asg_cutover_target_groups.to_deregistration_gate.
  rewrite (bind_bind_Return _ _ _ _ _ _ Hg). cbn [fst snd]. unfold bind at 1.
  rewrite <- Hroll.
  destruct (truthy (dict_get params "rollback_on_failure")) eqn:Ht.
  - rewrite (tg_rollback_run _ _ _ Ht). eexists. split; [reflexivity |].
    rewrite Hw1. split; [done |]. simpl. by rewrite <- !app_assoc.
  - rewrite (tg_no_rollback_run _ _ _ Ht). eexists. split; [reflexivity |].
    rewrite Hw1. split; [done |]. simpl. by rewrite <- !app_assoc.
Qed.

(** ** Exceptions that cannot happen *)

Lemma never_raises_ret {A} e (a : A) : never_raises e (ret a).
Proof. by intros w. Qed.

Lemma never_raises_fail_json {A} e msg : never_raises e (@fail_json A msg).
Proof. by intros w. Qed.

Lemma never_raises_diverge {A} e : never_raises e (@diverge A).
Proof. by intros w. Qed.

Lemma never_raises_other {A} e e' : e' <> e -> never_raises e (@raise A e').
Proof. intros Hne w. simpl. congruence. Qed.

(** The continuation only has to behave on what the first part returns. *)
Lemma never_raises_bind_post {A B} e (P : A -> Prop) (m : M A) (k : A -> M B) :
  (forall w a w1, m w = (Return a, w1) -> P a) ->
  never_raises e m ->
  (forall a, P a -> never_raises e (k a)) ->
  never_raises e (bind m k).
Proof.
  intros Hpost Hm Hk w. unfold bind. specialize (Hm w). specialize (Hpost w).
  destruct (m w) as [[a|msg|e'|] w1]; simpl in *; [| discriminate | intros [= ->]; by apply Hm | discriminate].
  apply Hk. by eapply Hpost.
Qed.

Lemma never_raises_bind {A B} e (m : M A) (k : A -> M B) :
  never_raises e m -> (forall a, never_raises e (k a)) -> never_raises e (bind m k).
Proof.
  intros Hm Hk. apply (never_raises_bind_post e (fun _ => True)); [done | done |].
  intros a _. apply Hk.
Qed.

Lemma never_raises_when e c (body : M unit) :
  never_raises e body -> never_raises e (when c body).
Proof. intros H. destruct c; [done | apply never_raises_ret]. Qed.

Lemma never_raises_if {A} e (c : bool) (m1 m2 : M A) :
  never_raises e m1 -> never_raises e m2 -> never_raises e (if c then m1 else m2).
Proof. by destruct c. Qed.

Lemma never_raises_for_each {A S} e (f : S -> A -> M S) l s :
  (forall s a, In a l -> never_raises e (f s a)) -> never_raises e (for_each f l s).
Proof.
  revert s. induction l as [|x l IH]; intros s Hf; simpl.
  - apply never_raises_ret.
  - apply never_raises_bind; [apply Hf; by left |].
    intros s'. apply IH. intros s0 a Hin. apply Hf. by right.
Qed.

Lemma never_raises_perform e c : never_raises e (perform c).
Proof. by intros w. Qed.

Lemma never_raises_time_time e env : never_raises e (time_time env).
Proof. by intros w. Qed.

Lemma never_raises_sleep e s : never_raises e (sleep s).
Proof. by intros w. Qed.

Lemma never_raises_describe_instance_health e env lb :
  never_raises e (describe_instance_health env lb).
Proof. by intros w. Qed.

Lemma never_raises_describe_target_health e env arn i :
  never_raises e (describe_target_health env arn i).
Proof. by intros w. Qed.

Lemma never_raises_the_group e many none gs : never_raises e (the_group many none gs).
Proof. intros w. by destruct gs as [|? [|? ?]]. Qed.

Lemma never_raises_AnsibleModule e spec args : never_raises e (AnsibleModule spec args).
Proof.
  intros w. unfold AnsibleModule.
  destruct (negb _); [done |]. by destruct (negb _).
Qed.

Lemma never_raises_describe_auto_scaling_groups e name :
  "ParamValidationError" <> e -> never_raises e (describe_auto_scaling_groups name).
Proof. intros Hne w. destruct name; simpl; congruence. Qed.

Lemma never_raises_deadline_from_now e env v :
  "TypeError" <> e -> never_raises e (deadline_from_now env v).
Proof.
  intros Hne. unfold deadline_from_now.
  apply never_raises_bind; [apply never_raises_time_time |].
  intros now. destruct v; try (by apply never_raises_other). apply never_raises_ret.
Qed.

Lemma never_raises_poll_until e env fuel deadline (it : M bool) flag :
  never_raises e it -> never_raises e (poll_until env fuel deadline it flag).
Proof.
  intros Hit. revert flag. induction fuel as [|fuel IH]; intros flag; simpl.
  - destruct flag; [apply never_raises_ret |].
    apply never_raises_bind; [apply never_raises_time_time |].
    intros now. case_bool_decide; [apply never_raises_diverge | apply never_raises_ret].
  - destruct flag; [apply never_raises_ret |].
    apply never_raises_bind; [apply never_raises_time_time |].
    intros now. case_bool_decide; [| apply never_raises_ret].
    apply never_raises_bind; [done |]. intros flag'.
    apply never_raises_bind; [| intros _; apply IH].
    apply never_raises_when, never_raises_sleep.
Qed.

Lemma never_raises_gate e env fuel v (it : M bool) :
  "TypeError" <> e -> never_raises e it -> never_raises e (gate env fuel v it).
Proof.
  intros Hne Hit. unfold gate.
  apply never_raises_bind; [by apply never_raises_deadline_from_now |]. intros deadline.
  apply never_raises_bind; [by apply never_raises_poll_until |]. intros flag.
  apply never_raises_bind; [apply never_raises_time_time |]. intros now.
  apply never_raises_ret.
Qed.

(** After the check of lines 114-116 every member of the snapshot is
    InService and Healthy, and for such a member the condition of the
    health loop is decided before the unbound name is reached. *)
Lemma elbs_concerned_ready st :
  not_ready st = false -> ec2_asg_elbs.concerned st = ret true.
Proof.
  unfold not_ready, ec2_asg_elbs.concerned. intros H.
  apply orb_false_iff in H as [H1 H2].
  apply negb_false_iff in H1, H2. by rewrite H1, H2.
Qed.

Lemma target_groups_concerned_ready st :
  not_ready st = false -> ec2_asg_target_groups.concerned st = ret true.
Proof.
  unfold not_ready, ec2_asg_target_groups.concerned. intros H.
  apply orb_false_iff in H as [H1 H2].
  apply negb_false_iff in H1, H2. by rewrite H1, H2.
Qed.

Lemma ready_item (status : gmap string (string * string)) item :
  dict_all (fun _ st => negb (not_ready st)) status = true ->
  In item (map_to_list status) ->
  not_ready item.2 = false.
Proof.
  intros Hall Hin. destruct item as [id st].
  apply list_elem_of_In, elem_of_map_to_list in Hin.
  apply (dict_all_lookup _ _ _ _ Hall) in Hin. by apply negb_true_iff in Hin.
Qed.

Lemma elbs_healthy_iteration_no_NameError env (status : gmap string (string * string)) lbs :
  dict_all (fun _ st => negb (not_ready st)) status = true ->
  never_raises "NameError: new_group" (ec2_asg_elbs.healthy_iteration env status lbs).
Proof.
  intros Hall. unfold ec2_asg_elbs.healthy_iteration.
  apply never_raises_for_each. intros healthy lb _.
  apply never_raises_bind; [apply never_raises_describe_instance_health |].
  intros ih. unfold ec2_asg_elbs.in_service_with.
  apply never_raises_for_each. intros h item Hin.
  rewrite (elbs_concerned_ready _ (ready_item _ _ Hall Hin)).
  intros w. by rewrite bind_ret_l.
Qed.

Lemma target_groups_reports_healthy_only_KeyError e ih :
  "KeyError" <> e -> never_raises e (ec2_asg_target_groups.reports_healthy ih).
Proof.
  intros Hne w. destruct ih as [|th rest]; simpl; [done |].
  destruct (th_State th); simpl; congruence.
Qed.

Lemma target_groups_healthy_iteration_no_NameError env
    (status : gmap string (string * string)) tgs :
  dict_all (fun _ st => negb (not_ready st)) status = true ->
  never_raises "NameError: new_group"
               (ec2_asg_target_groups.healthy_iteration env status tgs).
Proof.
  intros Hall. unfold ec2_asg_target_groups.healthy_iteration.
  apply never_raises_for_each. intros healthy item Hin.
  rewrite (target_groups_concerned_ready _ (ready_item _ _ Hall Hin)).
  intros w. rewrite bind_ret_l. revert w.
  apply never_raises_for_each. intros h tg _.
  apply never_raises_bind; [apply never_raises_describe_target_health |]. intros ih.
  apply never_raises_bind; [by apply target_groups_reports_healthy_only_KeyError |].
  intros ok. apply never_raises_ret.
Qed.

Lemma elbs_resolve_ready params w r w' :
  ec2_asg_elbs.resolve params w = (Return r, w') ->
  dict_all (fun _ st => negb (not_ready st)) (ec2_asg_elbs.group_instance_status r) = true.
Proof.
  unfold ec2_asg_elbs.resolve. intros H.
  apply bind_inv_Return in H as (gs & w2 & _ & H).
  apply bind_inv_Return in H as (g & w3 & _ & H).
  apply bind_inv_Return in H as (new & w4 & _ & H).
  apply bind_inv_Return in H as ([] & w5 & Hw & H).
  apply when_Return in Hw as [Hw _].
  unfold ret in H. injection H as <- <-. simpl. by apply negb_false_iff in Hw.
Qed.

Lemma target_groups_resolve_ready params w r w' :
  ec2_asg_target_groups.resolve params w = (Return r, w') ->
  dict_all (fun _ st => negb (not_ready st))
           (ec2_asg_target_groups.group_instance_status r) = true.
Proof.
  unfold ec2_asg_target_groups.resolve. intros H.
  apply bind_inv_Return in H as (gs & w2 & _ & H).
  apply bind_inv_Return in H as (g & w3 & _ & H).
  apply bind_inv_Return in H as (tgs & w4 & _ & H).
  apply bind_inv_Return in H as ([] & w5 & _ & H).
  apply bind_inv_Return in H as ([] & w6 & Hw & H).
  apply when_Return in Hw as [Hw _].
  unfold ret in H. injection H as <- <-. simpl. by apply negb_false_iff in Hw.
Qed.

Lemma elbs_resolve_no_NameError e params :
  "ParamValidationError" <> e -> "TypeError" <> e ->
  never_raises e (ec2_asg_elbs.resolve params).
Proof.
  intros H1 H2. unfold ec2_asg_elbs.resolve.
  apply never_raises_bind; [by apply never_raises_describe_auto_scaling_groups |]. intros gs.
  apply never_raises_bind; [apply never_raises_the_group |]. intros g.
  apply never_raises_bind.
  { destruct (dict_get params "load_balancers");
      try (by apply never_raises_other); apply never_raises_ret. }
  intros new.
  apply never_raises_bind; [apply never_raises_when, never_raises_fail_json |].
  intros _. apply never_raises_ret.
Qed.

Lemma target_groups_resolve_no_NameError e params :
  "ParamValidationError" <> e ->
  never_raises e (ec2_asg_target_groups.resolve params).
Proof.
  intros H1. unfold ec2_asg_target_groups.resolve.
  apply never_raises_bind; [by apply never_raises_describe_auto_scaling_groups |]. intros gs.
  apply never_raises_bind; [apply never_raises_the_group |]. intros g.
  apply never_raises_bind.
  { unfold ec2_asg_target_groups.describe_target_groups.
    destruct (dict_get params "target_groups");
      try (by apply never_raises_other); by intros w. }
  intros tgs.
  apply never_raises_bind; [apply never_raises_when, never_raises_fail_json |]. intros _.
  apply never_raises_bind; [apply never_raises_when, never_raises_fail_json |]. intros _.
  apply never_raises_ret.
Qed.

Lemma elbs_run_no_NameError env fuel params :
  never_raises "NameError: new_group" (ec2_asg_elbs.run env fuel params).
Proof.
  unfold ec2_asg_elbs.run. apply never_raises_bind.
  - unfold ec2_asg_elbs.first_gate.
    apply (never_raises_bind_post _
             (fun r => dict_all (fun _ st => negb (not_ready st))
                                (ec2_asg_elbs.group_instance_status r) = true)).
    + intros w r w1. apply elbs_resolve_ready.
    + by apply elbs_resolve_no_NameError.
    + intros r Hready.
      apply never_raises_bind; [apply never_raises_perform |]. intros _.
      apply never_raises_bind; [| intros res; apply never_raises_ret].
      apply never_raises_gate; [done |]. by apply elbs_healthy_iteration_no_NameError.
  - intros x. apply never_raises_if.
    + unfold ec2_asg_elbs.timed_out.
      apply never_raises_bind; [apply never_raises_when, never_raises_perform |].
      intros _. apply never_raises_fail_json.
    + apply never_raises_bind; [apply never_raises_perform |]. intros _.
      apply never_raises_ret.
Qed.

Lemma target_groups_first_gate_no_NameError e env fuel params :
  e = "NameError: new_group" \/ e = "NameError: unique_new_load_balancers" ->
  never_raises e (ec2_asg_target_groups.first_gate env fuel params).
Proof.
  intros He. unfold ec2_asg_target_groups.first_gate.
  apply (never_raises_bind_post _
           (fun r => dict_all (fun _ st => negb (not_ready st))
                              (ec2_asg_target_groups.group_instance_status r) = true)).
  - intros w r w1. apply target_groups_resolve_ready.
  - apply target_groups_resolve_no_NameError. by destruct He as [-> | ->].
  - intros r Hready.
    apply never_raises_bind; [apply never_raises_perform |]. intros _.
    apply never_raises_bind; [| intros res; apply never_raises_ret].
    apply never_raises_gate; [by destruct He as [-> | ->] |].
    destruct He as [-> | ->].
    + by apply target_groups_healthy_iteration_no_NameError.
    + unfold ec2_asg_target_groups.healthy_iteration.
      apply never_raises_for_each. intros healthy item Hin.
      rewrite (target_groups_concerned_ready _ (ready_item _ _ Hready Hin)).
      intros w. rewrite bind_ret_l. revert w.
      apply never_raises_for_each. intros h tg _.
      apply never_raises_bind; [apply never_raises_describe_target_health |]. intros ih.
      apply never_raises_bind; [by apply target_groups_reports_healthy_only_KeyError |].
      intros ok. apply never_raises_ret.
Qed.

Lemma target_groups_run_no_NameError env fuel params :
  never_raises "NameError: new_group" (ec2_asg_target_groups.run env fuel params)
  /\ (dict_get params "rollback_on_failure" = PyNone ->
      never_raises "NameError: unique_new_load_balancers"
                   (ec2_asg_target_groups.run env fuel params)).
Proof.
  split.
  - unfold ec2_asg_target_groups.run. apply never_raises_bind.
    + apply target_groups_first_gate_no_NameError. by left.
    + intros x. apply never_raises_if.
      * unfold ec2_asg_target_groups.timed_out.
        apply never_raises_if; [by apply never_raises_other | apply never_raises_fail_json].
      * apply never_raises_bind; [apply never_raises_perform |]. intros _.
        apply never_raises_ret.
  - intros Hnone. unfold ec2_asg_target_groups.run. apply never_raises_bind.
    + apply target_groups_first_gate_no_NameError. by right.
    + intros x. apply never_raises_if.
      * unfold ec2_asg_target_groups.timed_out. rewrite Hnone. simpl.
        apply never_raises_fail_json.
      * apply never_raises_bind; [apply never_raises_perform |]. intros _.
        apply never_raises_ret.
Qed.

(** ** Where a cut-over leaves the two groups *)

Lemma named_other n g : AutoScalingGroupName g <> n -> named n g = false.
Proof. intros H. unfold named. by apply bool_decide_eq_false_2. Qed.

Lemma replay_on_restore g' g :
  replay_on (restore g') g
  = if bool_decide (HealthCheckType g' = "ELB") && named (AutoScalingGroupName g') g
    then with_health_check (HealthCheckType g') (HealthCheckGracePeriod g') g
    else g.
Proof.
  unfold restore, replay_on. destruct (bool_decide (HealthCheckType g' = "ELB")); [| done].
  simpl. by destruct (named _ g).
Qed.

Lemma replay_on_restore_self g : replay_on (restore g) g = g.
Proof.
  rewrite replay_on_restore, named_self. destruct (bool_decide _); [| done].
  by destruct g.
Qed.

Lemma replay_on_restore_other g' g :
  AutoScalingGroupName g <> AutoScalingGroupName g' -> replay_on (restore g') g = g.
Proof.
  intros H. rewrite replay_on_restore, (named_other _ _ H). by rewrite andb_false_r.
Qed.

(** Detach everything the group has, attach [t]: the group ends with [t],
    without duplicates. *)
Lemma moved_load_balancers g t :
  replay_on ([DetachLoadBalancers (AutoScalingGroupName g) (LoadBalancerNames g);
              AttachLoadBalancers (AutoScalingGroupName g) t]
             ++ restore g) g
  = with_load_balancers (fun _ => remove_dups t) g.
Proof.
  rewrite replay_on_app.
  assert (replay_on [DetachLoadBalancers (AutoScalingGroupName g) (LoadBalancerNames g);
                     AttachLoadBalancers (AutoScalingGroupName g) t] g
          = with_load_balancers (fun _ => remove_dups t) g) as ->.
  { destruct g as [n s tg hc p i]. unfold replay_on.
    cbn -[attached_with detached named]. unfold with_load_balancers.
    cbn -[attached_with detached named].
    repeat (rewrite named_eq; cbn -[attached_with detached named]).
    by rewrite detached_all, attached_with_nil. }
  rewrite replay_on_restore.
  assert (named (AutoScalingGroupName g) (with_load_balancers (fun _ => remove_dups t) g)
          = true) as -> by (by apply bool_decide_eq_true_2).
  destruct (bool_decide _); [| done]. by destruct g.
Qed.

Lemma untouched_by_load_balancer_move n a b g' g :
  AutoScalingGroupName g <> n ->
  AutoScalingGroupName g' = n ->
  replay_on ([DetachLoadBalancers n a; AttachLoadBalancers n b] ++ restore g') g = g.
Proof.
  intros Hne Hn. rewrite replay_on_app.
  assert (replay_on [DetachLoadBalancers n a; AttachLoadBalancers n b] g = g) as ->.
  { unfold replay_on. cbn -[named].
    by repeat (rewrite (named_other _ _ Hne); cbn -[named]). }
  apply replay_on_restore_other. by rewrite Hn.
Qed.

Lemma elb_swapped_groups r standby :
  AutoScalingGroupName (ec2_asg_cutover_elb.current_group r)
  <> AutoScalingGroupName (ec2_asg_cutover_elb.new_group_ r) ->
  ec2_asg_cutover_elb.target_load_balancers r
  = LoadBalancerNames (ec2_asg_cutover_elb.current_group r) ->
  ec2_asg_cutover_elb.source_load_balancers r
  = LoadBalancerNames (ec2_asg_cutover_elb.new_group_ r) ->
  replay_on (elb_prepare_calls r ++ elb_cut_over_calls r standby)
            (ec2_asg_cutover_elb.new_group_ r)
  = with_load_balancers (fun _ => remove_dups (ec2_asg_cutover_elb.target_load_balancers r))
                        (ec2_asg_cutover_elb.new_group_ r)
  /\ replay_on (elb_prepare_calls r ++ elb_cut_over_calls r standby)
               (ec2_asg_cutover_elb.current_group r)
     = with_load_balancers (fun _ => remove_dups standby)
                           (ec2_asg_cutover_elb.current_group r).
Proof.
  intros Hne Ht Hs. rewrite !(replay_on_app (elb_prepare_calls r)).
  unfold elb_prepare_calls, elb_cut_over_calls. cbv zeta. split.
  - rewrite Hs at 1. rewrite (moved_load_balancers (ec2_asg_cutover_elb.new_group_ r)).
    apply untouched_by_load_balancer_move; [| done]. simpl. congruence.
  - rewrite (untouched_by_load_balancer_move _ _ _ (ec2_asg_cutover_elb.new_group_ r))
      by done.
    rewrite Ht at 1. apply (moved_load_balancers (ec2_asg_cutover_elb.current_group r)).
Qed.

Lemma elb_to_deregistration_Return env fuel params w r w4 :
  ec2_asg_cutover_elb.to_deregistration_gate env fuel params w = (Return r, w4) ->
  exists w1 flag w3 standby,
    ec2_asg_cutover_elb.resolve params w = (Return r, w1)
    /\ ec2_asg_cutover_elb.first_gate env fuel params w = (Return (r, (flag, false)), w3)
    /\ ec2_asg_cutover_elb.standby_load_balancers r = PyList standby
    /\ w4 = performed (elb_cut_over_calls r standby) w3
    /\ extends w w4 (elb_prepare_calls r ++ elb_cut_over_calls r standby).
Proof.
  unfold ec2_asg_cutover_elb.to_deregistration_gate. intros H.
  apply bind_inv_Return in H as ([r0 [flag late]] & w3 & Hf & H). simpl in H.
  destruct late; [by apply elb_timed_out_no_Return in H |].
  apply bind_inv_Return in H as ([] & w5 & Hc & H). unfold ret in H. simplify_eq.
  destruct (elb_first_gate_Return _ _ _ _ _ _ _ Hf) as (w1 & Hr & _ & Hext).
  pose proof Hc as Hc'. unfold ec2_asg_cutover_elb.cut_over_current_group in Hc'.
  apply bind_inv_Return in Hc' as ([] & w6 & _ & Hc').
  apply bind_inv_Return in Hc' as (standby & w7 & Hl & _).
  apply as_list_Return in Hl as [Hl _].
  rewrite (elb_cut_over_run _ _ _ Hl) in Hc. injection Hc as <-.
  exists w1, flag, w3, standby. split_and!; [done | done | done | done |].
  eapply extends_trans; [exact Hext |].
  apply extends_performed, elb_cut_over_mutations.
Qed.

(** Nothing that follows the cut-over changes a group. *)
Lemma elb_after_cut_over_quiet env fuel params r :
  quiet (bind (ec2_asg_cutover_elb.await_deregistered env fuel params r)
              (fun _ => bind (ec2_asg_cutover_elb.verify_standby env fuel params r)
                             (fun _ => ec2_asg_cutover_elb.result_of r))).
Proof. quiet_steps. Qed.

Lemma elb_cut_over_is_final env fuel params w r w4 :
  ec2_asg_cutover_elb.to_deregistration_gate env fuel params w = (Return r, w4) ->
  exists standby,
    ec2_asg_cutover_elb.standby_load_balancers r = PyList standby
    /\ extends w (ec2_asg_cutover_elb.run env fuel params w).2
               (elb_prepare_calls r ++ elb_cut_over_calls r standby).
Proof.
  intros H.
  destruct (elb_to_deregistration_Return _ _ _ _ _ _ H)
    as (w1 & flag & w3 & standby & _ & _ & Hl & _ & Hext).
  exists standby. split; [done |].
  unfold ec2_asg_cutover_elb.run. rewrite (bind_Return _ _ _ _ _ H).
  rewrite <- (app_nil_r (_ ++ _)). eapply extends_trans; [exact Hext |].
  apply (extends_quiet _ _ (elb_after_cut_over_quiet env fuel params r)).
Qed.

Lemma elb_final_groups env fuel (args : gmap string pyval) w r w4 :
  bind (AnsibleModule (ec2_asg_cutover_elb.argument_spec env) args)
       (ec2_asg_cutover_elb.to_deregistration_gate env fuel) w = (Return r, w4) ->
  exists standby,
    ec2_asg_cutover_elb.standby_load_balancers r = PyList standby
    /\ standby <> []
    /\ mutations (log (ec2_asg_cutover_elb.main env fuel args w).2)
       = mutations (log w) ++ elb_prepare_calls r ++ elb_cut_over_calls r standby
    /\ lookup_group (AutoScalingGroupName (ec2_asg_cutover_elb.new_group_ r)) w
       = [ec2_asg_cutover_elb.new_group_ r]
    /\ lookup_group (AutoScalingGroupName (ec2_asg_cutover_elb.current_group r)) w
       = [ec2_asg_cutover_elb.current_group r]
    /\ lookup_group (AutoScalingGroupName (ec2_asg_cutover_elb.new_group_ r))
                    (ec2_asg_cutover_elb.main env fuel args w).2
       = [with_load_balancers
            (fun _ => remove_dups (LoadBalancerNames (ec2_asg_cutover_elb.current_group r)))
            (ec2_asg_cutover_elb.new_group_ r)]
    /\ lookup_group (AutoScalingGroupName (ec2_asg_cutover_elb.current_group r))
                    (ec2_asg_cutover_elb.main env fuel args w).2
       = [with_load_balancers (fun _ => remove_dups standby)
                              (ec2_asg_cutover_elb.current_group r)].
Proof.
  intros H. apply bind_inv_Return in H as (params & w0 & Ha & H).
  destruct (AnsibleModule_cases (ec2_asg_cutover_elb.argument_spec env) args w)
    as [[msg Hm] | [Hm _]]; rewrite Hm in Ha; [discriminate |].
  injection Ha as <- <-. set (params := map_imap _ _) in *.
  destruct (elb_cut_over_is_final _ _ _ _ _ _ H) as (standby & Hl & [Hmut Hgr]).
  destruct (elb_to_deregistration_Return _ _ _ _ _ _ H)
    as (w1 & _ & _ & _ & Hr & _ & _ & _ & _).
  apply elb_resolve_Return in Hr
    as (c & n & _ & _ & Hcn & Hc & Hn & Ht & Hs & _ & Hsne & Hsb & _).
  pose proof (lookup_group_name _ _ _ Hc) as Hcname.
  pose proof (lookup_group_name _ _ _ Hn) as Hnname.
  assert (AutoScalingGroupName (ec2_asg_cutover_elb.current_group r)
          <> AutoScalingGroupName (ec2_asg_cutover_elb.new_group_ r)) as Hne by congruence.
  destruct (elb_swapped_groups r standby Hne Ht Hs) as [Hnew Hold].
  assert ((ec2_asg_cutover_elb.main env fuel args w).2
          = (ec2_asg_cutover_elb.run env fuel params w).2) as Hmain.
  { unfold ec2_asg_cutover_elb.main. by rewrite (bind_Return _ _ _ _ _ Hm). }
  rewrite Hmain. exists standby.
  split_and!; [done | | exact Hmut | by rewrite Hnname | by rewrite Hcname | |].
  - rewrite Hl in Hsb. symmetry in Hsb. by apply py_or_list_nonempty in Hsb.
  - rewrite (lookup_group_replay _ _ _ _ Hgr), Hnname, Hn. cbn [map].
    by rewrite Hnew, Ht.
  - rewrite (lookup_group_replay _ _ _ _ Hgr), Hcname, Hc. cbn [map]. by rewrite Hold.
Qed.

(** The same for target groups. *)
Lemma moved_target_groups g t :
  replay_on ([DetachLoadBalancerTargetGroups (AutoScalingGroupName g) (TargetGroupARNs g);
              AttachLoadBalancerTargetGroups (AutoScalingGroupName g) t]
             ++ restore g) g
  = with_target_groups (fun _ => remove_dups t) g.
Proof.
  rewrite replay_on_app.
  assert (replay_on [DetachLoadBalancerTargetGroups (AutoScalingGroupName g) (TargetGroupARNs g);
                     AttachLoadBalancerTargetGroups (AutoScalingGroupName g) t] g
          = with_target_groups (fun _ => remove_dups t) g) as ->.
  { destruct g as [n s tg hc p i]. unfold replay_on.
    cbn -[attached_with detached named]. unfold with_target_groups.
    cbn -[attached_with detached named].
    repeat (rewrite named_eq; cbn -[attached_with detached named]).
    by rewrite detached_all, attached_with_nil. }
  rewrite replay_on_restore.
  assert (named (AutoScalingGroupName g) (with_target_groups (fun _ => remove_dups t) g)
          = true) as -> by (by apply bool_decide_eq_true_2).
  destruct (bool_decide _); [| done]. by destruct g.
Qed.

Lemma untouched_by_target_group_move n a b g' g :
  AutoScalingGroupName g <> n ->
  AutoScalingGroupName g' = n ->
  replay_on ([DetachLoadBalancerTargetGroups n a; AttachLoadBalancerTargetGroups n b] ++ restore g') g = g.
Proof.
  intros Hne Hn. rewrite replay_on_app.
  assert (replay_on [DetachLoadBalancerTargetGroups n a; AttachLoadBalancerTargetGroups n b] g = g) as ->.
  { unfold replay_on. cbn -[named].
    by repeat (rewrite (named_other _ _ Hne); cbn -[named]). }
  apply replay_on_restore_other. by rewrite Hn.
Qed.

Lemma tg_swapped_groups r standby :
  AutoScalingGroupName (ec2_asg_cutover_target_groups.current_group r)
  <> AutoScalingGroupName (ec2_asg_cutover_target_groups.new_group_ r) ->
  ec2_asg_cutover_target_groups.dest_target_groups r
  = TargetGroupARNs (ec2_asg_cutover_target_groups.current_group r) ->
  ec2_asg_cutover_target_groups.source_target_groups r
  = TargetGroupARNs (ec2_asg_cutover_target_groups.new_group_ r) ->
  replay_on (tg_prepare_calls r ++ tg_cut_over_calls r standby)
            (ec2_asg_cutover_target_groups.new_group_ r)
  = with_target_groups (fun _ => remove_dups (ec2_asg_cutover_target_groups.dest_target_groups r))
                        (ec2_asg_cutover_target_groups.new_group_ r)
  /\ replay_on (tg_prepare_calls r ++ tg_cut_over_calls r standby)
               (ec2_asg_cutover_target_groups.current_group r)
     = with_target_groups (fun _ => remove_dups standby)
                           (ec2_asg_cutover_target_groups.current_group r).
Proof.
  intros Hne Ht Hs. rewrite !(replay_on_app (tg_prepare_calls r)).
  unfold tg_prepare_calls, tg_cut_over_calls. cbv zeta. split.
  - rewrite Hs at 1. rewrite (moved_target_groups (ec2_asg_cutover_target_groups.new_group_ r)).
    apply untouched_by_target_group_move; [| done]. simpl. congruence.
  - rewrite (untouched_by_target_group_move _ _ _ (ec2_asg_cutover_target_groups.new_group_ r))
      by done.
    rewrite Ht at 1. apply (moved_target_groups (ec2_asg_cutover_target_groups.current_group r)).
Qed.

Lemma tg_to_deregistration_Return env fuel params w r w4 :
  ec2_asg_cutover_target_groups.to_deregistration_gate env fuel params w = (Return r, w4) ->
  exists w1 flag w3 standby,
    ec2_asg_cutover_target_groups.resolve params w = (Return r, w1)
    /\ ec2_asg_cutover_target_groups.first_gate env fuel params w = (Return (r, (flag, false)), w3)
    /\ ec2_asg_cutover_target_groups.standby_target_groups r = PyList standby
    /\ w4 = performed (tg_cut_over_calls r standby) w3
    /\ extends w w4 (tg_prepare_calls r ++ tg_cut_over_calls r standby).
Proof.
  unfold ec2_asg_cutover_target_groups.to_deregistration_gate. intros H.
  apply bind_inv_Return in H as ([r0 [flag late]] & w3 & Hf & H). simpl in H.
  destruct late; [by apply tg_timed_out_no_Return in H |].
  apply bind_inv_Return in H as ([] & w5 & Hc & H). unfold ret in H. simplify_eq.
  destruct (tg_first_gate_Return _ _ _ _ _ _ _ Hf) as (w1 & Hr & _ & Hext).
  pose proof Hc as Hc'. unfold ec2_asg_cutover_target_groups.cut_over_current_group in Hc'.
  apply bind_inv_Return in Hc' as ([] & w6 & _ & Hc').
  apply bind_inv_Return in Hc' as (standby & w7 & Hl & _).
  apply as_list_Return in Hl as [Hl _].
  rewrite (tg_cut_over_run _ _ _ Hl) in Hc. injection Hc as <-.
  exists w1, flag, w3, standby. split_and!; [done | done | done | done |].
  eapply extends_trans; [exact Hext |].
  apply extends_performed, tg_cut_over_mutations.
Qed.

Lemma pair_on_group n a b g :
  AutoScalingGroupName g = n ->
  replay_on [DetachLoadBalancerTargetGroups n a; AttachLoadBalancerTargetGroups n b] g
  = with_target_groups (fun x => attached_with b (detached a x)) g.
Proof.
  intros <-. destruct g as [n s tg hc p i]. unfold replay_on.
  cbn -[attached_with detached named]. unfold with_target_groups.
  cbn -[attached_with detached named].
  by repeat (rewrite named_eq; cbn -[attached_with detached named]).
Qed.

Lemma pair_elsewhere n a b g :
  AutoScalingGroupName g <> n ->
  replay_on [DetachLoadBalancerTargetGroups n a; AttachLoadBalancerTargetGroups n b] g = g.
Proof.
  intros Hne. unfold replay_on. cbn -[named].
  by repeat (rewrite (named_other _ _ Hne); cbn -[named]).
Qed.

(** After the late rollback both groups have the target groups they
    started with. *)
Lemma tg_restored_groups r standby :
  AutoScalingGroupName (ec2_asg_cutover_target_groups.current_group r)
  <> AutoScalingGroupName (ec2_asg_cutover_target_groups.new_group_ r) ->
  ec2_asg_cutover_target_groups.dest_target_groups r
  = TargetGroupARNs (ec2_asg_cutover_target_groups.current_group r) ->
  ec2_asg_cutover_target_groups.source_target_groups r
  = TargetGroupARNs (ec2_asg_cutover_target_groups.new_group_ r) ->
  replay_on (tg_prepare_calls r ++ tg_cut_over_calls r standby
             ++ tg_late_rollback_calls r standby)
            (ec2_asg_cutover_target_groups.new_group_ r)
  = with_target_groups remove_dups (ec2_asg_cutover_target_groups.new_group_ r)
  /\ replay_on (tg_prepare_calls r ++ tg_cut_over_calls r standby
                ++ tg_late_rollback_calls r standby)
               (ec2_asg_cutover_target_groups.current_group r)
     = with_target_groups remove_dups (ec2_asg_cutover_target_groups.current_group r).
Proof.
  intros Hne Ht Hs. rewrite !app_assoc.
  rewrite !(replay_on_app (tg_prepare_calls r ++ tg_cut_over_calls r standby)).
  destruct (tg_swapped_groups r standby Hne Ht Hs) as [-> ->].
  unfold tg_late_rollback_calls, tg_rollback_calls. cbv zeta.
  rewrite !(replay_on_app [_; _] [_; _]). split.
  - rewrite (pair_elsewhere
               (AutoScalingGroupName (ec2_asg_cutover_target_groups.current_group r)))
      by (intros Heq; apply Hne; symmetry; exact Heq).
    rewrite pair_on_group by done.
    destruct (ec2_asg_cutover_target_groups.new_group_ r) as [n s tg hc p i].
    unfold with_target_groups. cbn [TargetGroupARNs AutoScalingGroupName LoadBalancerNames
      HealthCheckType HealthCheckGracePeriod Instances].
    simpl in Hs. rewrite Hs, Ht.
    by rewrite detached_remove_dups, attached_with_nil.
  - rewrite (pair_on_group
               (AutoScalingGroupName (ec2_asg_cutover_target_groups.current_group r)))
      by done.
    rewrite pair_elsewhere by exact Hne.
    destruct (ec2_asg_cutover_target_groups.current_group r) as [n s tg hc p i].
    unfold with_target_groups. cbn [TargetGroupARNs AutoScalingGroupName LoadBalancerNames
      HealthCheckType HealthCheckGracePeriod Instances].
    simpl in Ht. rewrite Ht.
    by rewrite detached_remove_dups, attached_with_nil.
Qed.

Lemma tg_after_deregistration_quiet env fuel params r :
  quiet (bind (ec2_asg_cutover_target_groups.verify_standby env fuel params r)
              (fun _ => ec2_asg_cutover_target_groups.result_of r)).
Proof. quiet_steps. Qed.

Lemma tg_deregistration_gate_quiet env fuel v ids tgs :
  quiet (gate env fuel v (ec2_asg_cutover_target_groups.deregistered_iteration env ids tgs)).
Proof. quiet_steps. Qed.

Lemma tg_late_rollback_mutations r l : forallb is_mutation (tg_late_rollback_calls r l) = true.
Proof. done. Qed.

Lemma tg_old_group_timed_out_no_Return {A} params r w (a : A) w' :
  ec2_asg_cutover_target_groups.old_group_timed_out params r w <> (Return a, w').
Proof.
  unfold ec2_asg_cutover_target_groups.old_group_timed_out. intros H.
  destruct (truthy _); [| discriminate].
  apply bind_inv_Return in H as (? & ? & _ & H).
  apply bind_inv_Return in H as (? & ? & _ & H).
  apply bind_inv_Return in H as (? & ? & _ & H).
  apply bind_inv_Return in H as (? & ? & _ & H).
  apply bind_inv_Return in H as (? & ? & _ & H). discriminate.
Qed.

(** Unless the deregistration loop times out with rollback enabled, waiting
    for it changes nothing. *)
Lemma tg_await_deregistered_still env fuel params r w4 :
  (forall flag w5,
      gate env fuel (dict_get params "wait_timeout")
           (ec2_asg_cutover_target_groups.deregistered_iteration env
              (ec2_asg_cutover_target_groups.original_instances r)
              (ec2_asg_cutover_target_groups.dest_target_groups r)) w4
      = (Return (flag, true), w5) ->
      truthy (dict_get params "rollback_on_failure") = false) ->
  extends w4 (ec2_asg_cutover_target_groups.await_deregistered env fuel params r w4).2 [].
Proof.
  intros H. unfold ec2_asg_cutover_target_groups.await_deregistered.
  pose proof (extends_quiet _ w4
                (tg_deregistration_gate_quiet env fuel (dict_get params "wait_timeout")
                   (ec2_asg_cutover_target_groups.original_instances r)
                   (ec2_asg_cutover_target_groups.dest_target_groups r))) as Hq.
  unfold bind.
  destruct (gate env fuel _ _ w4) as [[[flag late]|msg|e|] w5] eqn:Hg; simpl in *;
    [| done | done | done].
  destruct late; [| done].
  by rewrite (tg_late_no_rollback_run _ _ _ (H _ _ eq_refl)).
Qed.

Lemma extends_bind_quiet {A B} (m : M A) (k : A -> M B) w tr :
  extends w (m w).2 tr -> (forall a, quiet (k a)) -> extends w (bind m k w).2 tr.
Proof.
  intros Hm Hk. unfold bind. destruct (m w) as [[a|msg|e|] w1]; simpl in *; try done.
  rewrite <- (app_nil_r tr). eapply extends_trans; [exact Hm |].
  apply (extends_quiet _ _ (Hk a)).
Qed.

Lemma tg_cut_over_is_final env fuel params w r w4 :
  ec2_asg_cutover_target_groups.to_deregistration_gate env fuel params w = (Return r, w4) ->
  (forall flag w5,
      gate env fuel (dict_get params "wait_timeout")
           (ec2_asg_cutover_target_groups.deregistered_iteration env
              (ec2_asg_cutover_target_groups.original_instances r)
              (ec2_asg_cutover_target_groups.dest_target_groups r)) w4
      = (Return (flag, true), w5) ->
      truthy (dict_get params "rollback_on_failure") = false) ->
  exists standby,
    ec2_asg_cutover_target_groups.standby_target_groups r = PyList standby
    /\ extends w (ec2_asg_cutover_target_groups.run env fuel params w).2
               (tg_prepare_calls r ++ tg_cut_over_calls r standby).
Proof.
  intros H Hlate.
  destruct (tg_to_deregistration_Return _ _ _ _ _ _ H)
    as (w1 & flag & w3 & standby & _ & _ & Hl & _ & Hext).
  exists standby. split; [done |].
  unfold ec2_asg_cutover_target_groups.run. rewrite (bind_Return _ _ _ _ _ H).
  rewrite <- (app_nil_r (_ ++ _)). eapply extends_trans; [exact Hext |].
  apply extends_bind_quiet; [by apply tg_await_deregistered_still |].
  intros _. apply tg_after_deregistration_quiet.
Qed.

Lemma tg_final_groups env fuel (args : gmap string pyval) w r w4 :
  bind (AnsibleModule (ec2_asg_cutover_target_groups.argument_spec env) args)
       (ec2_asg_cutover_target_groups.to_deregistration_gate env fuel) w = (Return r, w4) ->
  (forall flag w5,
      gate env fuel (default (PyInt 300) (args !! "wait_timeout"))
           (ec2_asg_cutover_target_groups.deregistered_iteration env
              (ec2_asg_cutover_target_groups.original_instances r)
              (ec2_asg_cutover_target_groups.dest_target_groups r)) w4
      = (Return (flag, true), w5) ->
      truthy (default (PyBool true) (args !! "rollback_on_failure")) = false) ->
  exists standby,
    ec2_asg_cutover_target_groups.standby_target_groups r = PyList standby
    /\ standby <> []
    /\ mutations (log (ec2_asg_cutover_target_groups.main env fuel args w).2)
       = mutations (log w) ++ tg_prepare_calls r ++ tg_cut_over_calls r standby
    /\ lookup_group (AutoScalingGroupName (ec2_asg_cutover_target_groups.new_group_ r)) w
       = [ec2_asg_cutover_target_groups.new_group_ r]
    /\ lookup_group (AutoScalingGroupName (ec2_asg_cutover_target_groups.current_group r)) w
       = [ec2_asg_cutover_target_groups.current_group r]
    /\ lookup_group (AutoScalingGroupName (ec2_asg_cutover_target_groups.new_group_ r))
                    (ec2_asg_cutover_target_groups.main env fuel args w).2
       = [with_target_groups
            (fun _ => remove_dups
                        (TargetGroupARNs (ec2_asg_cutover_target_groups.current_group r)))
            (ec2_asg_cutover_target_groups.new_group_ r)]
    /\ lookup_group (AutoScalingGroupName (ec2_asg_cutover_target_groups.current_group r))
                    (ec2_asg_cutover_target_groups.main env fuel args w).2
       = [with_target_groups (fun _ => remove_dups standby)
                             (ec2_asg_cutover_target_groups.current_group r)].
Proof.
  intros H Hlate. apply bind_inv_Return in H as (params & w0 & Ha & H).
  destruct (AnsibleModule_cases (ec2_asg_cutover_target_groups.argument_spec env) args w)
    as [[msg Hm] | [Hm _]]; rewrite Hm in Ha; [discriminate |].
  injection Ha as <- <-. set (params := map_imap _ _) in *.
  assert (dict_get params "wait_timeout" = default (PyInt 300) (args !! "wait_timeout"))
    as Hwt.
  { unfold params. by erewrite params_declared by (by apply tg_declared). }
  assert (dict_get params "rollback_on_failure"
          = default (PyBool true) (args !! "rollback_on_failure")) as Hroll.
  { unfold params. by erewrite params_declared by (by apply tg_declared). }
  rewrite <- Hwt, <- Hroll in Hlate.
  destruct (tg_cut_over_is_final _ _ _ _ _ _ H Hlate) as (standby & Hl & [Hmut Hgr]).
  destruct (tg_to_deregistration_Return _ _ _ _ _ _ H)
    as (w1 & _ & _ & _ & Hr & _ & _ & _ & _).
  apply tg_resolve_Return in Hr
    as (c & n & _ & _ & Hcn & Hc & Hn & Ht & Hs & _ & Hsne & Hsb & _).
  pose proof (lookup_group_name _ _ _ Hc) as Hcname.
  pose proof (lookup_group_name _ _ _ Hn) as Hnname.
  assert (AutoScalingGroupName (ec2_asg_cutover_target_groups.current_group r)
          <> AutoScalingGroupName (ec2_asg_cutover_target_groups.new_group_ r))
    as Hne by congruence.
  destruct (tg_swapped_groups r standby Hne Ht Hs) as [Hnew Hold].
  assert ((ec2_asg_cutover_target_groups.main env fuel args w).2
          = (ec2_asg_cutover_target_groups.run env fuel params w).2) as Hmain.
  { unfold ec2_asg_cutover_target_groups.main. by rewrite (bind_Return _ _ _ _ _ Hm). }
  rewrite Hmain. exists standby.
  split_and!; [done | | exact Hmut | by rewrite Hnname | by rewrite Hcname | |].
  - rewrite Hl in Hsb. symmetry in Hsb. by apply py_or_list_nonempty in Hsb.
  - rewrite (lookup_group_replay _ _ _ _ Hgr), Hnname, Hn. cbn [map].
    by rewrite Hnew, Ht.
  - rewrite (lookup_group_replay _ _ _ _ Hgr), Hcname, Hc. cbn [map]. by rewrite Hold.
Qed.

Lemma tg_late_timeout_main env fuel (args : gmap string pyval) w r w4 flag w5 :
  bind (AnsibleModule (ec2_asg_cutover_target_groups.argument_spec env) args)
       (ec2_asg_cutover_target_groups.to_deregistration_gate env fuel) w = (Return r, w4) ->
  gate env fuel (default (PyInt 300) (args !! "wait_timeout"))
       (ec2_asg_cutover_target_groups.deregistered_iteration env
          (ec2_asg_cutover_target_groups.original_instances r)
          (ec2_asg_cutover_target_groups.dest_target_groups r)) w4
  = (Return (flag, true), w5) ->
  truthy (default (PyBool true) (args !! "rollback_on_failure")) = true ->
  exists standby w',
    ec2_asg_cutover_target_groups.standby_target_groups r = PyList standby
    /\ ec2_asg_cutover_target_groups.main env fuel args w
       = (FailJson "Waited too long for destination target group to deregister old instances. Deployment has been rolled back.", w')
    /\ mutations (log w')
       = mutations (log w) ++ tg_prepare_calls r ++ tg_cut_over_calls r standby
         ++ tg_late_rollback_calls r standby
    /\ lookup_group (AutoScalingGroupName (ec2_asg_cutover_target_groups.new_group_ r)) w
       = [ec2_asg_cutover_target_groups.new_group_ r]
    /\ lookup_group (AutoScalingGroupName (ec2_asg_cutover_target_groups.current_group r)) w
       = [ec2_asg_cutover_target_groups.current_group r]
    /\ lookup_group (AutoScalingGroupName (ec2_asg_cutover_target_groups.new_group_ r)) w'
       = [with_target_groups remove_dups (ec2_asg_cutover_target_groups.new_group_ r)]
    /\ lookup_group (AutoScalingGroupName (ec2_asg_cutover_target_groups.current_group r)) w'
       = [with_target_groups remove_dups (ec2_asg_cutover_target_groups.current_group r)].
Proof.
  intros H Hg Hroll. apply bind_inv_Return in H as (params & w0 & Ha & H).
  destruct (AnsibleModule_cases (ec2_asg_cutover_target_groups.argument_spec env) args w)
    as [[msg Hm] | [Hm _]]; rewrite Hm in Ha; [discriminate |].
  injection Ha as <- <-. set (params := map_imap _ _) in *.
  assert (dict_get params "wait_timeout" = default (PyInt 300) (args !! "wait_timeout"))
    as Hwt.
  { unfold params. by erewrite params_declared by (by apply tg_declared). }
  assert (dict_get params "rollback_on_failure"
          = default (PyBool true) (args !! "rollback_on_failure")) as Hr.
  { unfold params. by erewrite params_declared by (by apply tg_declared). }
  rewrite <- Hwt in Hg. rewrite <- Hr in Hroll.
  destruct (tg_to_deregistration_Return _ _ _ _ _ _ H)
    as (w1 & _ & _ & standby & Hres & _ & Hl & _ & Hext).
  apply tg_resolve_Return in Hres
    as (c & n & _ & _ & Hcn & Hc & Hn & Ht & Hs & _).
  pose proof (lookup_group_name _ _ _ Hc) as Hcname.
  pose proof (lookup_group_name _ _ _ Hn) as Hnname.
  assert (AutoScalingGroupName (ec2_asg_cutover_target_groups.current_group r)
          <> AutoScalingGroupName (ec2_asg_cutover_target_groups.new_group_ r))
    as Hne by congruence.
  destruct (tg_restored_groups r standby Hne Ht Hs) as [Hnew Hold].
  assert (extends w (performed (tg_late_rollback_calls r standby) w5)
                  (tg_prepare_calls r ++ tg_cut_over_calls r standby
                   ++ tg_late_rollback_calls r standby)) as [Hmut Hgr].
  { rewrite app_assoc. eapply extends_trans; [exact Hext |].
    rewrite <- (app_nil_l (tg_late_rollback_calls r standby)) at 2.
    eapply extends_trans.
    - apply (extends_quiet_eq _ _ _ _ (tg_deregistration_gate_quiet _ _ _ _ _) Hg).
    - apply extends_performed, tg_late_rollback_mutations. }
  exists standby, (performed (tg_late_rollback_calls r standby) w5).
  split_and!; [done | | exact Hmut | by rewrite Hnname | by rewrite Hcname | |].
  - unfold ec2_asg_cutover_target_groups.main. rewrite (bind_Return _ _ _ _ _ Hm).
    fold params. unfold ec2_asg_cutover_target_groups.run.
    rewrite (bind_Return _ _ _ _ _ H). apply bind_FailJson.
    unfold ec2_asg_cutover_target_groups.await_deregistered.
    rewrite (bind_Return _ _ _ _ _ Hg). cbn [snd].
    by apply tg_late_rollback_run.
  - rewrite (lookup_group_replay _ _ _ _ Hgr), Hnname, Hn. cbn [map]. by rewrite Hnew.
  - rewrite (lookup_group_replay _ _ _ _ Hgr), Hcname, Hc. cbn [map]. by rewrite Hold.
Qed.

(** ** A run that completes *)

Lemma elb_resolve_new_instances params w r w' :
  ec2_asg_cutover_elb.resolve params w = (Return r, w') ->
  ec2_asg_cutover_elb.new_instances r
  = map InstanceId (Instances (ec2_asg_cutover_elb.new_group_ r)).
Proof.
  unfold ec2_asg_cutover_elb.resolve. intros H.
  apply bind_inv_Return in H as ([] & w1 & _ & H).
  apply bind_inv_Return in H as (gs & w2 & _ & H).
  apply bind_inv_Return in H as (g & w3 & _ & H).
  apply bind_inv_Return in H as (gs' & w4 & _ & H).
  apply bind_inv_Return in H as (g' & w5 & _ & H).
  apply bind_inv_Return in H as ([] & w6 & _ & H).
  apply bind_inv_Return in H as ([] & w7 & _ & H).
  apply bind_inv_Return in H as ([] & w8 & _ & H).
  unfold ret in H. by simplify_eq.
Qed.

Lemma elb_main_Return env fuel (args : gmap string pyval) w result w' :
  ec2_asg_cutover_elb.main env fuel args w = (Return result, w') ->
  exists r w4 standby,
    bind (AnsibleModule (ec2_asg_cutover_elb.argument_spec env) args)
         (ec2_asg_cutover_elb.to_deregistration_gate env fuel) w = (Return r, w4)
    /\ ec2_asg_cutover_elb.standby_load_balancers r = PyList standby
    /\ result
       = ec2_asg_cutover_elb.MkResult
           (ec2_asg_cutover_elb.MkGroupResult
              (AutoScalingGroupName (ec2_asg_cutover_elb.new_group_ r))
              (ec2_asg_cutover_elb.target_load_balancers r)
              (ec2_asg_cutover_elb.new_instances r)
              (ec2_asg_cutover_elb.new_instance_status r))
           (ec2_asg_cutover_elb.MkGroupResult
              (AutoScalingGroupName (ec2_asg_cutover_elb.current_group r))
              standby
              (ec2_asg_cutover_elb.original_instances r)
              (ec2_asg_cutover_elb.current_instance_status r)).
Proof.
  unfold ec2_asg_cutover_elb.main. intros H.
  apply bind_inv_Return in H as (params & w0 & Ha & H).
  unfold ec2_asg_cutover_elb.run in H.
  apply bind_inv_Return in H as (r & w4 & Hg & H).
  apply bind_inv_Return in H as ([] & w5 & _ & H).
  apply bind_inv_Return in H as ([] & w6 & _ & H).
  unfold ec2_asg_cutover_elb.result_of in H.
  apply bind_inv_Return in H as (standby & w7 & Hl & H).
  apply as_list_Return in Hl as [Hl ->]. unfold ret in H. injection H as <- <-.
  exists r, w4, standby. split_and!; [| done | done].
  by rewrite (bind_Return _ _ _ _ _ Ha).
Qed.

Lemma elb_completed env fuel (args : gmap string pyval) w result w' :
  ec2_asg_cutover_elb.main env fuel args w = (Return result, w') ->
  exists g_new g_old,
    lookup_group (ec2_asg_cutover_elb.name (ec2_asg_cutover_elb.new_group result)) w
    = [g_new]
    /\ lookup_group (ec2_asg_cutover_elb.name (ec2_asg_cutover_elb.old_group result)) w
       = [g_old]
    /\ ec2_asg_cutover_elb.load_balancer_names (ec2_asg_cutover_elb.new_group result)
       = LoadBalancerNames g_old
    /\ ec2_asg_cutover_elb.load_balancer_names (ec2_asg_cutover_elb.old_group result) <> []
    /\ ec2_asg_cutover_elb.instance_ids (ec2_asg_cutover_elb.new_group result)
       = map InstanceId (Instances g_new)
    /\ ec2_asg_cutover_elb.instance_ids (ec2_asg_cutover_elb.old_group result)
       = map InstanceId (Instances g_old)
    /\ ec2_asg_cutover_elb.instance_status (ec2_asg_cutover_elb.new_group result)
       = instance_status_of g_new
    /\ ec2_asg_cutover_elb.instance_status (ec2_asg_cutover_elb.old_group result)
       = instance_status_of g_old
    /\ lookup_group (ec2_asg_cutover_elb.name (ec2_asg_cutover_elb.new_group result)) w'
       = [with_load_balancers
            (fun _ => remove_dups (ec2_asg_cutover_elb.load_balancer_names
                                     (ec2_asg_cutover_elb.new_group result)))
            g_new]
    /\ lookup_group (ec2_asg_cutover_elb.name (ec2_asg_cutover_elb.old_group result)) w'
       = [with_load_balancers
            (fun _ => remove_dups (ec2_asg_cutover_elb.load_balancer_names
                                     (ec2_asg_cutover_elb.old_group result)))
            g_old].
Proof.
  intros Hm. destruct (elb_main_Return _ _ _ _ _ _ Hm) as (r & w4 & standby & H & Hl & ->).
  destruct (elb_final_groups _ _ _ _ _ _ H)
    as (standby' & Hl' & Hne & _ & Hn & Hc & Hn' & Hc').
  rewrite Hl in Hl'. injection Hl' as <-. rewrite Hm in Hn', Hc'. simpl in Hn', Hc'.
  apply bind_inv_Return in H as (params & w0 & _ & H).
  destruct (elb_to_deregistration_Return _ _ _ _ _ _ H)
    as (w1 & _ & _ & _ & Hr & _ & _ & _ & _).
  pose proof (elb_resolve_new_instances _ _ _ _ Hr) as Hni.
  apply elb_resolve_Return in Hr
    as (c & n & _ & _ & _ & _ & _ & Ht & _ & _ & _ & _ & Ho & Hcs & Hns & _).
  exists (ec2_asg_cutover_elb.new_group_ r), (ec2_asg_cutover_elb.current_group r).
  cbn [ec2_asg_cutover_elb.name ec2_asg_cutover_elb.new_group ec2_asg_cutover_elb.old_group
       ec2_asg_cutover_elb.load_balancer_names ec2_asg_cutover_elb.instance_ids
       ec2_asg_cutover_elb.instance_status].
  split_and!; [done | done | done | done | done | done | done | done | | done].
  by rewrite Ht.
Qed.

Lemma tg_resolve_new_instances params w r w' :
  ec2_asg_cutover_target_groups.resolve params w = (Return r, w') ->
  ec2_asg_cutover_target_groups.new_instances r
  = map InstanceId (Instances (ec2_asg_cutover_target_groups.new_group_ r)).
Proof.
  unfold ec2_asg_cutover_target_groups.resolve. intros H.
  apply bind_inv_Return in H as ([] & w1 & _ & H).
  apply bind_inv_Return in H as (gs & w2 & _ & H).
  apply bind_inv_Return in H as (g & w3 & _ & H).
  apply bind_inv_Return in H as (gs' & w4 & _ & H).
  apply bind_inv_Return in H as (g' & w5 & _ & H).
  apply bind_inv_Return in H as ([] & w6 & _ & H).
  apply bind_inv_Return in H as ([] & w7 & _ & H).
  apply bind_inv_Return in H as ([] & w8 & _ & H).
  unfold ret in H. by simplify_eq.
Qed.

Lemma tg_main_Return env fuel (args : gmap string pyval) w result w' :
  ec2_asg_cutover_target_groups.main env fuel args w = (Return result, w') ->
  exists r w4 standby,
    bind (AnsibleModule (ec2_asg_cutover_target_groups.argument_spec env) args)
         (ec2_asg_cutover_target_groups.to_deregistration_gate env fuel) w = (Return r, w4)
    /\ ec2_asg_cutover_target_groups.standby_target_groups r = PyList standby
    /\ (forall flag w5,
           gate env fuel (default (PyInt 300) (args !! "wait_timeout"))
                (ec2_asg_cutover_target_groups.deregistered_iteration env
                   (ec2_asg_cutover_target_groups.original_instances r)
                   (ec2_asg_cutover_target_groups.dest_target_groups r)) w4
           <> (Return (flag, true), w5))
    /\ result
       = ec2_asg_cutover_target_groups.MkResult
           (ec2_asg_cutover_target_groups.MkGroupResult
              (AutoScalingGroupName (ec2_asg_cutover_target_groups.new_group_ r))
              (ec2_asg_cutover_target_groups.dest_target_groups r)
              (ec2_asg_cutover_target_groups.new_instances r)
              (ec2_asg_cutover_target_groups.new_instance_status r))
           (ec2_asg_cutover_target_groups.MkGroupResult
              (AutoScalingGroupName (ec2_asg_cutover_target_groups.current_group r))
              standby
              (ec2_asg_cutover_target_groups.original_instances r)
              (ec2_asg_cutover_target_groups.current_instance_status r)).
Proof.
  unfold ec2_asg_cutover_target_groups.main. intros H.
  apply bind_inv_Return in H as (params & w0 & Ha & H).
  unfold ec2_asg_cutover_target_groups.run in H.
  apply bind_inv_Return in H as (r & w4 & Hg & H).
  apply bind_inv_Return in H as ([] & w5 & Hd & H).
  apply bind_inv_Return in H as ([] & w6 & _ & H).
  unfold ec2_asg_cutover_target_groups.result_of in H.
  apply bind_inv_Return in H as (standby & w7 & Hl & H).
  apply as_list_Return in Hl as [Hl ->]. unfold ret in H. injection H as <- <-.
  exists r, w4, standby. split_and!; [| done | | done].
  - by rewrite (bind_Return _ _ _ _ _ Ha).
  - intros flag w8 Hlate.
    destruct (AnsibleModule_cases (ec2_asg_cutover_target_groups.argument_spec env) args w)
      as [[msg Hm] | [Hm _]]; rewrite Hm in Ha; [discriminate |].
    injection Ha as <- <-. set (params := map_imap _ _) in *.
    assert (dict_get params "wait_timeout" = default (PyInt 300) (args !! "wait_timeout"))
      as Hwt.
    { unfold params. by erewrite params_declared by (by apply tg_declared). }
    rewrite <- Hwt in Hlate.
    unfold ec2_asg_cutover_target_groups.await_deregistered in Hd.
    rewrite (bind_Return _ _ _ _ _ Hlate) in Hd. cbn [snd] in Hd.
    by apply tg_old_group_timed_out_no_Return in Hd.
Qed.

Lemma tg_completed env fuel (args : gmap string pyval) w result w' :
  ec2_asg_cutover_target_groups.main env fuel args w = (Return result, w') ->
  exists g_new g_old,
    lookup_group (ec2_asg_cutover_target_groups.name (ec2_asg_cutover_target_groups.new_group result)) w
    = [g_new]
    /\ lookup_group (ec2_asg_cutover_target_groups.name (ec2_asg_cutover_target_groups.old_group result)) w
       = [g_old]
    /\ ec2_asg_cutover_target_groups.target_group_arns (ec2_asg_cutover_target_groups.new_group result)
       = TargetGroupARNs g_old
    /\ ec2_asg_cutover_target_groups.target_group_arns (ec2_asg_cutover_target_groups.old_group result) <> []
    /\ ec2_asg_cutover_target_groups.instance_ids (ec2_asg_cutover_target_groups.new_group result)
       = map InstanceId (Instances g_new)
    /\ ec2_asg_cutover_target_groups.instance_ids (ec2_asg_cutover_target_groups.old_group result)
       = map InstanceId (Instances g_old)
    /\ ec2_asg_cutover_target_groups.instance_status (ec2_asg_cutover_target_groups.new_group result)
       = instance_status_of g_new
    /\ ec2_asg_cutover_target_groups.instance_status (ec2_asg_cutover_target_groups.old_group result)
       = instance_status_of g_old
    /\ lookup_group (ec2_asg_cutover_target_groups.name (ec2_asg_cutover_target_groups.new_group result)) w'
       = [with_target_groups
            (fun _ => remove_dups (ec2_asg_cutover_target_groups.target_group_arns
                                     (ec2_asg_cutover_target_groups.new_group result)))
            g_new]
    /\ lookup_group (ec2_asg_cutover_target_groups.name (ec2_asg_cutover_target_groups.old_group result)) w'
       = [with_target_groups
            (fun _ => remove_dups (ec2_asg_cutover_target_groups.target_group_arns
                                     (ec2_asg_cutover_target_groups.old_group result)))
            g_old].
Proof.
  intros Hm.
  destruct (tg_main_Return _ _ _ _ _ _ Hm) as (r & w4 & standby & H & Hl & Hnl & ->).
  destruct (tg_final_groups _ _ _ _ _ _ H)
    as (standby' & Hl' & Hne & _ & Hn & Hc & Hn' & Hc');
    [intros flag w5 Hg; by destruct (Hnl flag w5) |].
  rewrite Hl in Hl'. injection Hl' as <-. rewrite Hm in Hn', Hc'. simpl in Hn', Hc'.
  apply bind_inv_Return in H as (params & w0 & _ & H).
  destruct (tg_to_deregistration_Return _ _ _ _ _ _ H)
    as (w1 & _ & _ & _ & Hr & _ & _ & _ & _).
  pose proof (tg_resolve_new_instances _ _ _ _ Hr) as Hni.
  apply tg_resolve_Return in Hr
    as (c & n & _ & _ & _ & _ & _ & Ht & _ & _ & _ & _ & Ho & Hcs & Hns & _).
  exists (ec2_asg_cutover_target_groups.new_group_ r), (ec2_asg_cutover_target_groups.current_group r).
  cbn [ec2_asg_cutover_target_groups.name ec2_asg_cutover_target_groups.new_group ec2_asg_cutover_target_groups.old_group
       ec2_asg_cutover_target_groups.target_group_arns ec2_asg_cutover_target_groups.instance_ids
       ec2_asg_cutover_target_groups.instance_status].
  split_and!; [done | done | done | done | done | done | done | done | | done].
  by rewrite Ht.
Qed.

(** ** The single-group scripts, completed *)

(** Attach [new], then detach what was attached before and is not in
    [new]: what remains is [new], as a set. *)
Lemma attach_then_detach_old (old new : list string) e :
  e ∈ detached (List.filter (fun l => negb (py_in l new)) old) (attached_with new old)
  <-> e ∈ new.
Proof.
  unfold detached, attached_with, py_in.
  rewrite !list_elem_of_In, List.filter_In, <- !list_elem_of_In.
  rewrite elem_of_app, elem_of_remove_dups.
  rewrite !list_elem_of_In, List.filter_In, <- !list_elem_of_In.
  rewrite !negb_true_iff, !bool_decide_eq_false.
  rewrite !list_elem_of_In, List.filter_In, <- !list_elem_of_In.
  rewrite negb_true_iff, bool_decide_eq_false.
  destruct (decide (e ∈ new)), (decide (e ∈ old)); tauto.
Qed.

Lemma elbs_timed_out_no_Return {A} params g l w (a : A) w' :
  ec2_asg_elbs.timed_out params g l w <> (Return a, w').
Proof.
  unfold ec2_asg_elbs.timed_out. intros H.
  apply bind_inv_Return in H as (? & ? & _ & H). discriminate.
Qed.

Lemma elbs_gate_quiet env fuel v status lbs :
  quiet (gate env fuel v (ec2_asg_elbs.healthy_iteration env status lbs)).
Proof. quiet_steps. Qed.

Lemma elbs_main_Return env fuel (args : gmap string pyval) w result w' :
  ec2_asg_elbs.main env fuel args w = (Return result, w') ->
  exists params r w1,
    AnsibleModule (ec2_asg_elbs.argument_spec env) args w = (Return params, w)
    /\ ec2_asg_elbs.resolve params w = (Return r, w1)
    /\ result = ec2_asg_elbs.MkResult (AutoScalingGroupName (ec2_asg_elbs.group r))
                                      (ec2_asg_elbs.new_load_balancers r)
                                      (ec2_asg_elbs.instances r)
                                      (ec2_asg_elbs.group_instance_status r)
    /\ extends w w' [AttachLoadBalancers (AutoScalingGroupName (ec2_asg_elbs.group r))
                                         (ec2_asg_elbs.new_load_balancers r);
                     DetachLoadBalancers (AutoScalingGroupName (ec2_asg_elbs.group r))
                                         (ec2_asg_elbs.unique_old_load_balancers r)].
Proof.
  unfold ec2_asg_elbs.main. intros H.
  apply bind_inv_Return in H as (params & w0 & Ha & H).
  destruct (AnsibleModule_cases (ec2_asg_elbs.argument_spec env) args w)
    as [[msg Hm] | [Hm _]]; rewrite Hm in Ha; [discriminate |].
  injection Ha as <- <-. set (params := map_imap _ _) in *.
  unfold ec2_asg_elbs.run in H.
  apply bind_inv_Return in H as ([r [flag late]] & w3 & Hf & H). simpl in H.
  destruct late; [by apply elbs_timed_out_no_Return in H |].
  unfold detach_load_balancers in H. rewrite (bind_Return _ _ _ _ _ (perform_run _ _)) in H.
  unfold ret in H. injection H as <- <-.
  unfold ec2_asg_elbs.first_gate in Hf.
  apply bind_inv_Return in Hf as (r0 & w1 & Hr & Hf).
  unfold attach_load_balancers in Hf.
  rewrite (bind_Return _ _ _ _ _ (perform_run _ _)) in Hf.
  apply bind_inv_Return in Hf as (res & w2 & Hg & Hf).
  unfold ret in Hf. injection Hf as Hr0 Hres Hw. subst r0 res w2.
  exists params, r, w1. split_and!; [done | done | done |].
  change [AttachLoadBalancers (AutoScalingGroupName (ec2_asg_elbs.group r))
                              (ec2_asg_elbs.new_load_balancers r);
          DetachLoadBalancers (AutoScalingGroupName (ec2_asg_elbs.group r))
                              (ec2_asg_elbs.unique_old_load_balancers r)]
    with ([] ++ [AttachLoadBalancers (AutoScalingGroupName (ec2_asg_elbs.group r))
                                     (ec2_asg_elbs.new_load_balancers r)]
          ++ [] ++ [DetachLoadBalancers (AutoScalingGroupName (ec2_asg_elbs.group r))
                                        (ec2_asg_elbs.unique_old_load_balancers r)]).
  eapply extends_trans; [apply (extends_quiet_eq _ _ _ _ (elbs_resolve_quiet params) Hr) |].
  eapply extends_trans; [by apply extends_performed |].
  eapply extends_trans; [apply (extends_quiet_eq _ _ _ _ (elbs_gate_quiet _ _ _ _ _) Hg) |].
  by apply extends_performed.
Qed.

Lemma elbs_completed env fuel (args : gmap string pyval) w result w' :
  ec2_asg_elbs.main env fuel args w = (Return result, w') ->
  exists g g',
    lookup_group (ec2_asg_elbs.name result) w = [g]
    /\ lookup_group (ec2_asg_elbs.name result) w' = [g']
    /\ args !! "load_balancers" = Some (PyList (ec2_asg_elbs.load_balancer_names result))
    /\ (forall e, e ∈ LoadBalancerNames g' <-> e ∈ ec2_asg_elbs.load_balancer_names result)
    /\ with_load_balancers (fun _ => LoadBalancerNames g) g' = g
    /\ ec2_asg_elbs.instance_ids result = map InstanceId (Instances g)
    /\ mutations (log w')
       = mutations (log w)
         ++ [AttachLoadBalancers (ec2_asg_elbs.name result)
                                 (ec2_asg_elbs.load_balancer_names result);
             DetachLoadBalancers (ec2_asg_elbs.name result)
               (List.filter (fun l => negb (py_in l (ec2_asg_elbs.load_balancer_names result)))
                            (LoadBalancerNames g))].
Proof.
  intros H.
  destruct (elbs_main_Return _ _ _ _ _ _ H) as (params & r & w1 & Ha & Hr & -> & [Hmut Hgr]).
  pose proof Hr as Hr'. unfold ec2_asg_elbs.resolve in Hr'.
  assert (ec2_asg_elbs.instances r = map InstanceId (Instances (ec2_asg_elbs.group r)))
    as Hinst.
  { apply bind_inv_Return in Hr' as (gs & w2 & _ & Hr').
    apply bind_inv_Return in Hr' as (g & w3 & _ & Hr').
    apply bind_inv_Return in Hr' as (new & w4 & _ & Hr').
    apply bind_inv_Return in Hr' as ([] & w5 & _ & Hr').
    unfold ret in Hr'. by simplify_eq. }
  apply elbs_resolve_Return in Hr as (n & Hn & Hg & Hl & _ & Huo).
  pose proof (lookup_group_name _ _ _ Hg) as Hname.
  cbn [ec2_asg_elbs.name ec2_asg_elbs.load_balancer_names ec2_asg_elbs.instance_ids].
  rewrite Hname. eexists _, _. split_and!; [exact Hg | | | | | exact Hinst |].
  - rewrite (lookup_group_replay _ _ _ _ Hgr), Hg. cbn [map]. reflexivity.
  - destruct (AnsibleModule_cases (ec2_asg_elbs.argument_spec env) args w)
      as [[msg Hm] | [Hm _]]; rewrite Hm in Ha; [discriminate |].
    injection Ha as <-.
    apply (params_supplied (ec2_asg_elbs.argument_spec env) args "load_balancers"
                           (arg TList)); [by apply elbs_declared | done | done | exact Hl].
  - intros e. rewrite Huo.
    destruct (ec2_asg_elbs.group r) as [n0 s tg hc p i]. unfold replay_on.
    cbn -[attached_with detached named]. unfold with_load_balancers.
    cbn -[attached_with detached named].
    repeat (rewrite named_eq; cbn -[attached_with detached named]).
    apply attach_then_detach_old.
  - destruct (ec2_asg_elbs.group r) as [n0 s tg hc p i]. unfold replay_on.
    cbn -[attached_with detached named]. unfold with_load_balancers.
    cbn -[attached_with detached named].
    by repeat (rewrite named_eq; cbn -[attached_with detached named]).
  - rewrite Hmut, <- Hname, Huo. done.
Qed.

Lemma target_groups_timed_out_no_Return {A} params w (a : A) w' :
  ec2_asg_target_groups.timed_out params w <> (Return a, w').
Proof. unfold ec2_asg_target_groups.timed_out. by destruct (truthy _). Qed.

Lemma target_groups_gate_quiet env fuel v status lbs :
  quiet (gate env fuel v (ec2_asg_target_groups.healthy_iteration env status lbs)).
Proof. quiet_steps. Qed.

Lemma target_groups_main_Return env fuel (args : gmap string pyval) w result w' :
  ec2_asg_target_groups.main env fuel args w = (Return result, w') ->
  exists params r w1,
    AnsibleModule (ec2_asg_target_groups.argument_spec env) args w = (Return params, w)
    /\ ec2_asg_target_groups.resolve params w = (Return r, w1)
    /\ result = ec2_asg_target_groups.MkResult (AutoScalingGroupName (ec2_asg_target_groups.group r))
                                      (ec2_asg_target_groups.new_target_groups r)
                                      (ec2_asg_target_groups.instances r)
                                      (ec2_asg_target_groups.group_instance_status r)
    /\ extends w w' [AttachLoadBalancerTargetGroups (AutoScalingGroupName (ec2_asg_target_groups.group r))
                                         (ec2_asg_target_groups.new_target_groups r);
                     DetachLoadBalancerTargetGroups (AutoScalingGroupName (ec2_asg_target_groups.group r))
                                         (ec2_asg_target_groups.unique_old_target_groups r)].
Proof.
  unfold ec2_asg_target_groups.main. intros H.
  apply bind_inv_Return in H as (params & w0 & Ha & H).
  destruct (AnsibleModule_cases (ec2_asg_target_groups.argument_spec env) args w)
    as [[msg Hm] | [Hm _]]; rewrite Hm in Ha; [discriminate |].
  injection Ha as <- <-. set (params := map_imap _ _) in *.
  unfold ec2_asg_target_groups.run in H.
  apply bind_inv_Return in H as ([r [flag late]] & w3 & Hf & H). simpl in H.
  destruct late; [by apply target_groups_timed_out_no_Return in H |].
  unfold detach_load_balancer_target_groups in H. rewrite (bind_Return _ _ _ _ _ (perform_run _ _)) in H.
  unfold ret in H. injection H as <- <-.
  unfold ec2_asg_target_groups.first_gate in Hf.
  apply bind_inv_Return in Hf as (r0 & w1 & Hr & Hf).
  unfold attach_load_balancer_target_groups in Hf.
  rewrite (bind_Return _ _ _ _ _ (perform_run _ _)) in Hf.
  apply bind_inv_Return in Hf as (res & w2 & Hg & Hf).
  unfold ret in Hf. injection Hf as Hr0 Hres Hw. subst r0 res w2.
  exists params, r, w1. split_and!; [done | done | done |].
  change [AttachLoadBalancerTargetGroups (AutoScalingGroupName (ec2_asg_target_groups.group r))
                              (ec2_asg_target_groups.new_target_groups r);
          DetachLoadBalancerTargetGroups (AutoScalingGroupName (ec2_asg_target_groups.group r))
                              (ec2_asg_target_groups.unique_old_target_groups r)]
    with ([] ++ [AttachLoadBalancerTargetGroups (AutoScalingGroupName (ec2_asg_target_groups.group r))
                                     (ec2_asg_target_groups.new_target_groups r)]
          ++ [] ++ [DetachLoadBalancerTargetGroups (AutoScalingGroupName (ec2_asg_target_groups.group r))
                                        (ec2_asg_target_groups.unique_old_target_groups r)]).
  eapply extends_trans; [apply (extends_quiet_eq _ _ _ _ (target_groups_resolve_quiet params) Hr) |].
  eapply extends_trans; [by apply extends_performed |].
  eapply extends_trans; [apply (extends_quiet_eq _ _ _ _ (target_groups_gate_quiet _ _ _ _ _) Hg) |].
  by apply extends_performed.
Qed.

Lemma target_groups_completed env fuel (args : gmap string pyval) w result w' :
  ec2_asg_target_groups.main env fuel args w = (Return result, w') ->
  exists g g',
    lookup_group (ec2_asg_target_groups.name result) w = [g]
    /\ lookup_group (ec2_asg_target_groups.name result) w' = [g']
    /\ (forall e, e ∈ TargetGroupARNs g' <-> e ∈ ec2_asg_target_groups.target_group_arns result)
    /\ with_target_groups (fun _ => TargetGroupARNs g) g' = g
    /\ ec2_asg_target_groups.instance_ids result = map InstanceId (Instances g)
    /\ mutations (log w')
       = mutations (log w)
         ++ [AttachLoadBalancerTargetGroups (ec2_asg_target_groups.name result)
                                 (ec2_asg_target_groups.target_group_arns result);
             DetachLoadBalancerTargetGroups (ec2_asg_target_groups.name result)
               (List.filter (fun l => negb (py_in l (ec2_asg_target_groups.target_group_arns result)))
                            (TargetGroupARNs g))].
Proof.
  intros H.
  destruct (target_groups_main_Return _ _ _ _ _ _ H) as (params & r & w1 & Ha & Hr & -> & [Hmut Hgr]).
  pose proof Hr as Hr'. unfold ec2_asg_target_groups.resolve in Hr'.
  assert (ec2_asg_target_groups.instances r = map InstanceId (Instances (ec2_asg_target_groups.group r)))
    as Hinst.
  { apply bind_inv_Return in Hr' as (gs & w2 & _ & Hr').
    apply bind_inv_Return in Hr' as (g & w3 & _ & Hr').
    apply bind_inv_Return in Hr' as (new & w4 & _ & Hr').
    apply bind_inv_Return in Hr' as ([] & w5 & _ & Hr').
    apply bind_inv_Return in Hr' as ([] & w6 & _ & Hr').
    unfold ret in Hr'. by simplify_eq. }
  apply target_groups_resolve_Return in Hr as (n & names & Hn & Hg & Hl & _ & Huo).
  pose proof (lookup_group_name _ _ _ Hg) as Hname.
  cbn [ec2_asg_target_groups.name ec2_asg_target_groups.target_group_arns ec2_asg_target_groups.instance_ids].
  rewrite Hname. eexists _, _. split_and!; [exact Hg | | | | exact Hinst |].
  - rewrite (lookup_group_replay _ _ _ _ Hgr), Hg. cbn [map]. reflexivity.
  - intros e. rewrite Huo.
    destruct (ec2_asg_target_groups.group r) as [n0 s tg hc p i]. unfold replay_on.
    cbn -[attached_with detached named]. unfold with_target_groups.
    cbn -[attached_with detached named].
    repeat (rewrite named_eq; cbn -[attached_with detached named]).
    apply attach_then_detach_old.
  - destruct (ec2_asg_target_groups.group r) as [n0 s tg hc p i]. unfold replay_on.
    cbn -[attached_with detached named]. unfold with_target_groups.
    cbn -[attached_with detached named].
    by repeat (rewrite named_eq; cbn -[attached_with detached named]).
  - rewrite Hmut, <- Hname, Huo. done.
Qed.

(** ** Arguments the scripts do not insist on *)

Lemma elbs_no_load_balancers env fuel (args : gmap string pyval) w n g params w0 :
  AnsibleModule (ec2_asg_elbs.argument_spec env) args w = (Return params, w0) ->
  args !! "name" = Some (PyStr n) ->
  args !! "load_balancers" = None ->
  lookup_group n w = [g] ->
  ec2_asg_elbs.main env fuel args w
  = (Raise "TypeError", record (DescribeAutoScalingGroups [PyStr n]) w).
Proof.
  intros Ha Hn Hl Hg.
  destruct (AnsibleModule_cases (ec2_asg_elbs.argument_spec env) args w)
    as [[msg Hm] | [Hm _]]; rewrite Hm in Ha; [discriminate |].
  injection Ha as <- <-. set (params := map_imap _ _) in *.
  assert (dict_get params "name" = PyStr n) as Hpn.
  { unfold params. erewrite params_declared by (by apply elbs_declared). by rewrite Hn. }
  assert (dict_get params "load_balancers" = PyNone) as Hpl.
  { unfold params. erewrite params_declared by (by apply elbs_declared). by rewrite Hl. }
  unfold ec2_asg_elbs.main. rewrite (bind_Return _ _ _ _ _ Hm). fold params.
  unfold ec2_asg_elbs.run. apply bind_Raise.
  unfold ec2_asg_elbs.first_gate. apply bind_Raise.
  unfold ec2_asg_elbs.resolve. rewrite Hpn, Hpl.
  unfold bind at 1. simpl. fold (lookup_group n w). rewrite Hg. reflexivity.
Qed.

(** ** Groups that cannot be told apart or found *)

Lemma elb_lookup_failures env fuel (args : gmap string pyval) w c n params w0 :
  AnsibleModule (ec2_asg_cutover_elb.argument_spec env) args w = (Return params, w0) ->
  args !! "current_group_name" = Some (PyStr c) ->
  args !! "new_group_name" = Some (PyStr n) ->
  c <> n ->
  (lookup_group c w = [] ->
   ec2_asg_cutover_elb.main env fuel args w
   = (FailJson ("The current auto scaling group '" ++ c ++ "' was not found"),
      record (DescribeAutoScalingGroups [PyStr c]) w))
  /\ ((1 < length (lookup_group c w))%nat ->
      ec2_asg_cutover_elb.main env fuel args w
      = (FailJson ("More than one auto scaling group was found that matches the supplied current_group_name '" ++ c ++ "'."),
         record (DescribeAutoScalingGroups [PyStr c]) w))
  /\ ((length (lookup_group c w) = 1)%nat ->
      lookup_group n w = [] ->
      ec2_asg_cutover_elb.main env fuel args w
      = (FailJson ("The new auto scaling group '" ++ n ++ "' was not found"),
         record (DescribeAutoScalingGroups [PyStr n])
                (record (DescribeAutoScalingGroups [PyStr c]) w)))
  /\ ((length (lookup_group c w) = 1)%nat ->
      (1 < length (lookup_group n w))%nat ->
      ec2_asg_cutover_elb.main env fuel args w
      = (FailJson ("More than one auto scaling group was found that matches the supplied new_group_name '" ++ n ++ "'."),
         record (DescribeAutoScalingGroups [PyStr n])
                (record (DescribeAutoScalingGroups [PyStr c]) w))).
Proof.
  intros Ha Hc Hn Hne.
  destruct (AnsibleModule_cases (ec2_asg_cutover_elb.argument_spec env) args w)
    as [[msg Hm] | [Hm _]]; rewrite Hm in Ha; [discriminate |].
  injection Ha as <- <-. set (params := map_imap _ _) in *.
  destruct (elb_params_names env args c n Hc Hn) as [Hpc Hpn]. fold params in Hpc, Hpn.
  assert (forall msg w',
             ec2_asg_cutover_elb.resolve params w = (FailJson msg, w') ->
             ec2_asg_cutover_elb.main env fuel args w = (FailJson msg, w')) as Hfail.
  { intros msg w' Hr. unfold ec2_asg_cutover_elb.main. rewrite (bind_Return _ _ _ _ _ Hm).
    fold params. unfold ec2_asg_cutover_elb.run. apply bind_FailJson.
    unfold ec2_asg_cutover_elb.to_deregistration_gate. apply bind_FailJson.
    unfold ec2_asg_cutover_elb.first_gate. by apply bind_FailJson. }
  assert (forall k : unit -> M ec2_asg_cutover_elb.Resolved,
             bind (when (negb (bool_decide (PyStr c = PyNone))
                         && bool_decide (PyStr c = PyStr n))
                        (fail_json "current_group_name and new_group_name cannot be the same!"))
                  k w = k tt w) as Hwhen.
  { intros k. rewrite (bool_decide_eq_false_2 (PyStr c = PyStr n)) by congruence.
    by rewrite andb_false_r. }
  split_and!.
  - intros Hnone. apply Hfail. unfold ec2_asg_cutover_elb.resolve. rewrite Hpc, Hpn, Hwhen.
    unfold bind at 1. simpl. fold (lookup_group c w). by rewrite Hnone.
  - intros Hmany. apply Hfail. unfold ec2_asg_cutover_elb.resolve. rewrite Hpc, Hpn, Hwhen.
    unfold bind at 1. simpl. fold (lookup_group c w).
    destruct (lookup_group c w) as [|g1 [|g2 rest]]; simpl in Hmany; [lia | lia | done].
  - intros Hone Hnone. apply Hfail. unfold ec2_asg_cutover_elb.resolve.
    rewrite Hpc, Hpn, Hwhen.
    unfold bind at 1. simpl. fold (lookup_group c w).
    destruct (lookup_group c w) as [|g1 [|g2 rest]]; simpl in Hone; [lia | | lia].
    unfold bind at 1. simpl. unfold bind at 1. simpl.
    fold (lookup_group n w). by rewrite Hnone.
  - intros Hone Hmany. apply Hfail. unfold ec2_asg_cutover_elb.resolve.
    rewrite Hpc, Hpn, Hwhen.
    unfold bind at 1. simpl. fold (lookup_group c w).
    destruct (lookup_group c w) as [|g1 [|g2 rest]]; simpl in Hone; [lia | | lia].
    unfold bind at 1. simpl. unfold bind at 1. simpl.
    fold (lookup_group n w).
    destruct (lookup_group n w) as [|h1 [|h2 rest]]; simpl in Hmany; [lia | lia | done].
Qed.

Lemma tg_lookup_failures env fuel (args : gmap string pyval) w c n params w0 :
  AnsibleModule (ec2_asg_cutover_target_groups.argument_spec env) args w = (Return params, w0) ->
  args !! "current_group_name" = Some (PyStr c) ->
  args !! "new_group_name" = Some (PyStr n) ->
  c <> n ->
  (lookup_group c w = [] ->
   ec2_asg_cutover_target_groups.main env fuel args w
   = (FailJson ("The current auto scaling group '" ++ c ++ "' was not found"),
      record (DescribeAutoScalingGroups [PyStr c]) w))
  /\ ((1 < length (lookup_group c w))%nat ->
      ec2_asg_cutover_target_groups.main env fuel args w
      = (FailJson ("More than one auto scaling group was found that matches the supplied current_group_name '" ++ c ++ "'."),
         record (DescribeAutoScalingGroups [PyStr c]) w))
  /\ ((length (lookup_group c w) = 1)%nat ->
      lookup_group n w = [] ->
      ec2_asg_cutover_target_groups.main env fuel args w
      = (FailJson ("The new auto scaling group '" ++ n ++ "' was not found"),
         record (DescribeAutoScalingGroups [PyStr n])
                (record (DescribeAutoScalingGroups [PyStr c]) w)))
  /\ ((length (lookup_group c w) = 1)%nat ->
      (1 < length (lookup_group n w))%nat ->
      ec2_asg_cutover_target_groups.main env fuel args w
      = (FailJson ("More than one auto scaling group was found that matches the supplied new_group_name '" ++ n ++ "'."),
         record (DescribeAutoScalingGroups [PyStr n])
                (record (DescribeAutoScalingGroups [PyStr c]) w))).
Proof.
  intros Ha Hc Hn Hne.
  destruct (AnsibleModule_cases (ec2_asg_cutover_target_groups.argument_spec env) args w)
    as [[msg Hm] | [Hm _]]; rewrite Hm in Ha; [discriminate |].
  injection Ha as <- <-. set (params := map_imap _ _) in *.
  destruct (tg_params_names env args c n Hc Hn) as [Hpc Hpn]. fold params in Hpc, Hpn.
  assert (forall msg w',
             ec2_asg_cutover_target_groups.resolve params w = (FailJson msg, w') ->
             ec2_asg_cutover_target_groups.main env fuel args w = (FailJson msg, w')) as Hfail.
  { intros msg w' Hr. unfold ec2_asg_cutover_target_groups.main. rewrite (bind_Return _ _ _ _ _ Hm).
    fold params. unfold ec2_asg_cutover_target_groups.run. apply bind_FailJson.
    unfold ec2_asg_cutover_target_groups.to_deregistration_gate. apply bind_FailJson.
    unfold ec2_asg_cutover_target_groups.first_gate. by apply bind_FailJson. }
  assert (forall k : unit -> M ec2_asg_cutover_target_groups.Resolved,
             bind (when (negb (bool_decide (PyStr c = PyNone))
                         && bool_decide (PyStr c = PyStr n))
                        (fail_json "current_group_name and new_group_name cannot be the same!"))
                  k w = k tt w) as Hwhen.
  { intros k. rewrite (bool_decide_eq_false_2 (PyStr c = PyStr n)) by congruence.
    by rewrite andb_false_r. }
  split_and!.
  - intros Hnone. apply Hfail. unfold ec2_asg_cutover_target_groups.resolve. rewrite Hpc, Hpn, Hwhen.
    unfold bind at 1. simpl. fold (lookup_group c w). by rewrite Hnone.
  - intros Hmany. apply Hfail. unfold ec2_asg_cutover_target_groups.resolve. rewrite Hpc, Hpn, Hwhen.
    unfold bind at 1. simpl. fold (lookup_group c w).
    destruct (lookup_group c w) as [|g1 [|g2 rest]]; simpl in Hmany; [lia | lia | done].
  - intros Hone Hnone. apply Hfail. unfold ec2_asg_cutover_target_groups.resolve.
    rewrite Hpc, Hpn, Hwhen.
    unfold bind at 1. simpl. fold (lookup_group c w).
    destruct (lookup_group c w) as [|g1 [|g2 rest]]; simpl in Hone; [lia | | lia].
    unfold bind at 1. simpl. unfold bind at 1. simpl.
    fold (lookup_group n w). by rewrite Hnone.
  - intros Hone Hmany. apply Hfail. unfold ec2_asg_cutover_target_groups.resolve.
    rewrite Hpc, Hpn, Hwhen.
    unfold bind at 1. simpl. fold (lookup_group c w).
    destruct (lookup_group c w) as [|g1 [|g2 rest]]; simpl in Hone; [lia | | lia].
    unfold bind at 1. simpl. unfold bind at 1. simpl.
    fold (lookup_group n w).
    destruct (lookup_group n w) as [|h1 [|h2 rest]]; simpl in Hmany; [lia | lia | done].
Qed.

(** ** One iteration of a loop, in closed form *)

Lemma for_each_load_balancer env (P : list InstanceState -> bool) lbs flag w :
  exists b w',
    for_each (fun h lb => bind (describe_instance_health env lb)
                               (fun ih => ret (h && P ih))) lbs flag w
    = (Return b, w')
    /\ log w' = log w ++ map DescribeInstanceHealth lbs
    /\ polls w' = (polls w + length lbs)%nat
    /\ ticks w' = ticks w
    /\ groups w' = groups w
    /\ (b = true
        <-> flag = true
            /\ forall i lb, lbs !! i = Some lb ->
                            P (instance_health env (polls w + i) lb) = true).
Proof.
  revert flag w. induction lbs as [|lb lbs IH]; intros flag w.
  - exists flag, w. simpl. rewrite app_nil_r, Nat.add_0_r.
    split_and!; [done | done | done | done | done |].
    split; [intros ->; split; [done |]; intros i lb Hi; by destruct i | by intros [-> _]].
  - destruct (IH (flag && P (instance_health env (polls w) lb))
                 (record (DescribeInstanceHealth lb) (polled w)))
      as (b & w' & Hrun & Hlog & Hpolls & Hticks & Hgroups & Hb).
    exists b, w'. split_and!.
    + simpl. unfold bind at 1. unfold bind at 1. unfold describe_instance_health at 1.
      unfold ret at 1. exact Hrun.
    + rewrite Hlog. simpl. by rewrite <- app_assoc.
    + rewrite Hpolls. simpl. lia.
    + by rewrite Hticks.
    + by rewrite Hgroups.
    + rewrite Hb. rewrite andb_true_iff. simpl polls. split.
      * intros [[-> H0] Hrest]. split; [done |]. intros i lb' Hi.
        destruct i as [|i]; simpl in Hi.
        -- injection Hi as <-. by rewrite Nat.add_0_r.
        -- specialize (Hrest i lb' Hi). by rewrite Nat.add_succ_r.
      * intros [-> Hall]. split_and!; [done | |].
        -- specialize (Hall 0%nat lb eq_refl). by rewrite Nat.add_0_r in Hall.
        -- intros i lb' Hi. specialize (Hall (S i) lb' Hi).
           by rewrite Nat.add_succ_r in Hall.
Qed.

Lemma elb_in_service_with_iff g (status : gmap string (string * string)) ih :
  ec2_asg_cutover_elb.in_service_with g status ih = true
  <-> forall id st, status !! id = Some st -> concerned g st = true ->
                    dict_of is_InstanceId is_State ih !! id = Some "InService".
Proof.
  split; [apply elb_in_service_with_true |].
  intros H. unfold ec2_asg_cutover_elb.in_service_with. apply dict_all_intro.
  intros id st Hid. simpl. destruct (concerned g st) eqn:Hc; [| done].
  rewrite (H id st Hid Hc).
  rewrite bool_decide_eq_true_2 by (by eexists). by rewrite bool_decide_eq_true_2.
Qed.

Lemma none_registered_iff (ids : list string) (ih : list InstanceState) :
  forallb (fun i => negb (py_in (is_InstanceId i) ids)) ih = true
  <-> forall s, s ∈ ih -> is_InstanceId s ∉ ids.
Proof.
  rewrite forallb_forall. split.
  - intros H s Hs. apply list_elem_of_In, H in Hs.
    apply negb_true_iff in Hs. by apply bool_decide_eq_false in Hs.
  - intros H s Hs. apply list_elem_of_In, H in Hs.
    apply negb_true_iff. by apply bool_decide_eq_false.
Qed.

(** Arguments that pass both checks become [module.params]. *)
Lemma AnsibleModule_accepts (spec : gmap string argspec) (args : gmap string pyval) w :
  bool_decide (map_Forall (well_typed spec) args) = true ->
  bool_decide (map_Forall (supplied args) spec) = true ->
  AnsibleModule spec args w
  = (Return (map_imap (fun k s => Some (default (arg_default s) (args !! k))) spec), w).
Proof. intros H1 H2. unfold AnsibleModule. by rewrite H1, H2. Qed.

(** * The claims *)

(** C3.  When the live group name and the candidate group name supplied to
    a cutover module are the same string, the run ends in [fail_json] and
    the world it leaves is the world it found: not a single call was made,
    so in particular no attach and no detach.  This holds for both cutover
    modules, every environment and every amount of fuel. *)
Theorem same_name_is_rejected env fuel (args : gmap string pyval) n w :
  args !! "current_group_name" = Some (PyStr n) ->
  args !! "new_group_name" = Some (PyStr n) ->
  (exists msg, ec2_asg_cutover_elb.main env fuel args w = (FailJson msg, w))
  /\ (exists msg, ec2_asg_cutover_target_groups.main env fuel args w = (FailJson msg, w)).
Proof.
  intros Hc Hn. split.
  - by apply (elb_main_same_name env fuel args n).
  - by apply (tg_main_same_name env fuel args n).
Qed.

Lemma same_name_is_rejected_witness :
  Scenario.same_name_args !! "current_group_name" = Some (PyStr "web-blue")
  /\ Scenario.same_name_args !! "new_group_name" = Some (PyStr "web-blue")
  /\ (exists msg, ec2_asg_cutover_elb.main Scenario.silent 10 Scenario.same_name_args Scenario.world
                  = (FailJson msg, Scenario.world))
  /\ (exists msg, ec2_asg_cutover_target_groups.main Scenario.silent 10 Scenario.same_name_args
                    Scenario.world
                  = (FailJson msg, Scenario.world)).
Proof.
  split; [reflexivity |]. split; [reflexivity |].
  apply (same_name_is_rejected Scenario.silent 10 Scenario.same_name_args "web-blue" Scenario.world);
    reflexivity.
Defined.

(** C5.  If the group that a cutover would resolve as the live or as the
    candidate fleet has no load balancer attached, ec2_asg_cutover_elb ends
    in [fail_json], the groups are what they were and no mutation call was
    added to the record: the cutover is rejected before any mutation.  The
    same holds for ec2_asg_cutover_target_groups when that group has no
    target group attached.  Each module is rejected on its own kind of
    endpoint, whatever the other kind looks like. *)
Theorem empty_endpoints_rejected env fuel (args : gmap string pyval) c n g w :
  args !! "current_group_name" = Some (PyStr c) ->
  args !! "new_group_name" = Some (PyStr n) ->
  In g (groups w) ->
  AutoScalingGroupName g = c \/ AutoScalingGroupName g = n ->
  (LoadBalancerNames g = [] ->
   exists msg w',
     ec2_asg_cutover_elb.main env fuel args w = (FailJson msg, w')
     /\ groups w' = groups w /\ mutations (log w') = mutations (log w))
  /\ (TargetGroupARNs g = [] ->
      exists msg w',
        ec2_asg_cutover_target_groups.main env fuel args w = (FailJson msg, w')
        /\ groups w' = groups w /\ mutations (log w') = mutations (log w)).
Proof.
  intros Hc Hn Hin Hname. split.
  - intros Hempty.
    apply (elb_rejected env fuel args c n w Hc Hn). intros r w1 Hr.
    destruct (elb_params_names env args c n Hc Hn) as [Hpc Hpn].
    apply elb_resolve_Return in Hr
      as (c0 & n0 & Hc0 & Hn0 & _ & Hcg & Hng & Ht & Hs & Htne & Hsne & _).
    rewrite Hpc in Hc0. rewrite Hpn in Hn0. simplify_eq.
    destruct Hname as [Hname | Hname].
    + pose proof (lookup_group_In g _ w Hin Hname) as Hg.
      rewrite Hcg in Hg. destruct Hg as [<- | []]. congruence.
    + pose proof (lookup_group_In g _ w Hin Hname) as Hg.
      rewrite Hng in Hg. destruct Hg as [<- | []]. congruence.
  - intros Hempty.
    apply (tg_rejected env fuel args c n w Hc Hn). intros r w1 Hr.
    destruct (tg_params_names env args c n Hc Hn) as [Hpc Hpn].
    apply tg_resolve_Return in Hr
      as (c0 & n0 & Hc0 & Hn0 & _ & Hcg & Hng & Ht & Hs & Htne & Hsne & _).
    rewrite Hpc in Hc0. rewrite Hpn in Hn0. simplify_eq.
    destruct Hname as [Hname | Hname].
    + pose proof (lookup_group_In g _ w Hin Hname) as Hg.
      rewrite Hcg in Hg. destruct Hg as [<- | []]. congruence.
    + pose proof (lookup_group_In g _ w Hin Hname) as Hg.
      rewrite Hng in Hg. destruct Hg as [<- | []]. congruence.
Qed.

Lemma empty_endpoints_rejected_witness :
  (exists msg w',
      ec2_asg_cutover_elb.main Scenario.silent 10 Scenario.bare_args Scenario.world
      = (FailJson msg, w')
      /\ groups w' = groups Scenario.world
      /\ mutations (log w') = mutations (log Scenario.world))
  /\ (exists msg w',
         ec2_asg_cutover_target_groups.main Scenario.silent 10 Scenario.bare_args Scenario.world
         = (FailJson msg, w')
         /\ groups w' = groups Scenario.world
         /\ mutations (log w') = mutations (log Scenario.world)).
Proof.
  assert (In Scenario.web_bare (groups Scenario.world)) as Hin by (simpl; tauto).
  destruct (empty_endpoints_rejected Scenario.silent 10 Scenario.bare_args
              "web-blue" "web-bare" Scenario.web_bare Scenario.world
              eq_refl eq_refl Hin (or_intror eq_refl)) as [Helb Htg].
  split; [apply Helb; reflexivity | apply Htg; reflexivity].
Defined.

(** C6.  If the baseline snapshot of the candidate group holds a member
    that is not both InService and Healthy, the run ends in [fail_json],
    the groups are what they were and no mutation call was added to the
    record.  The snapshot is the dict the scripts build from the group's
    instances. *)
Theorem unready_candidate_rejected env fuel (args : gmap string pyval) c n g i st w :
  args !! "current_group_name" = Some (PyStr c) ->
  args !! "new_group_name" = Some (PyStr n) ->
  In g (groups w) ->
  AutoScalingGroupName g = n ->
  instance_status_of g !! i = Some st ->
  st.1 <> "InService" \/ st.2 <> "Healthy" ->
  (exists msg w',
      ec2_asg_cutover_elb.main env fuel args w = (FailJson msg, w')
      /\ groups w' = groups w /\ mutations (log w') = mutations (log w))
  /\ (exists msg w',
         ec2_asg_cutover_target_groups.main env fuel args w = (FailJson msg, w')
         /\ groups w' = groups w /\ mutations (log w') = mutations (log w)).
Proof.
  intros Hc Hn Hin Hname Hi Hst.
  assert (not_ready st = true) as Hnr.
  { unfold not_ready. destruct Hst as [Hst | Hst].
    - by rewrite bool_decide_eq_false_2.
    - rewrite (bool_decide_eq_false_2 (st.2 = "Healthy")) by done. apply orb_true_r. }
  pose proof (lookup_group_In g n w Hin Hname) as Hg.
  split.
  - apply (elb_rejected env fuel args c n w Hc Hn). intros r w1 Hr.
    destruct (elb_params_names env args c n Hc Hn) as [Hpc Hpn].
    apply elb_resolve_Return in Hr
      as (c0 & n0 & Hc0 & Hn0 & _ & _ & Hng & _ & _ & _ & _ & _ & _ & _ & Hnew & Hall & _).
    rewrite Hpn in Hn0. simplify_eq.
    rewrite Hng in Hg. destruct Hg as [<- | []].
    rewrite Hnew in Hall. apply (dict_all_lookup _ _ i st) in Hall; [| done].
    simpl in Hall. by rewrite Hnr in Hall.
  - apply (tg_rejected env fuel args c n w Hc Hn). intros r w1 Hr.
    destruct (tg_params_names env args c n Hc Hn) as [Hpc Hpn].
    apply tg_resolve_Return in Hr
      as (c0 & n0 & Hc0 & Hn0 & _ & _ & Hng & _ & _ & _ & _ & _ & _ & _ & Hnew & Hall & _).
    rewrite Hpn in Hn0. simplify_eq.
    rewrite Hng in Hg. destruct Hg as [<- | []].
    rewrite Hnew in Hall. apply (dict_all_lookup _ _ i st) in Hall; [| done].
    simpl in Hall. by rewrite Hnr in Hall.
Qed.

Lemma unready_candidate_rejected_witness :
  (exists msg w',
      ec2_asg_cutover_elb.main Scenario.silent 10 Scenario.warming_args Scenario.world
      = (FailJson msg, w')
      /\ groups w' = groups Scenario.world
      /\ mutations (log w') = mutations (log Scenario.world))
  /\ (exists msg w',
         ec2_asg_cutover_target_groups.main Scenario.silent 10 Scenario.warming_args
           Scenario.world
         = (FailJson msg, w')
         /\ groups w' = groups Scenario.world
         /\ mutations (log w') = mutations (log Scenario.world)).
Proof.
  apply (unready_candidate_rejected Scenario.silent 10 Scenario.warming_args
           "web-blue" "web-warming" Scenario.web_warming "i-aaccee02" ("Pending", "Healthy")
           Scenario.world).
  - reflexivity.
  - reflexivity.
  - simpl. tauto.
  - reflexivity.
  - reflexivity.
  - left. simpl. discriminate.
Defined.

(** C9.  A cutover called with an explicitly empty standby list behaves
    exactly as the same call without the standby argument: the two runs end
    with the same outcome in the same world.  When such a run completes,
    the endpoints reported for (and attached to) the old group are the ones
    the candidate group had at the start.  And whatever the arguments, a
    completed run never reports an empty endpoint list for the old group,
    so an empty standby set cannot be requested.  Both cutover modules. *)
Theorem empty_standby_falls_back env fuel (args args' : gmap string pyval) w :
  args !! "standby_load_balancers" = Some (PyList []) ->
  args' !! "standby_target_group_arns" = Some (PyList []) ->
  (ec2_asg_cutover_elb.main env fuel args w
   = ec2_asg_cutover_elb.main env fuel (delete "standby_load_balancers" args) w
   /\ forall result w',
       ec2_asg_cutover_elb.main env fuel args w = (Return result, w') ->
       exists n g,
         args !! "new_group_name" = Some (PyStr n)
         /\ lookup_group n w = [g]
         /\ ec2_asg_cutover_elb.load_balancer_names (ec2_asg_cutover_elb.old_group result)
            = LoadBalancerNames g)
  /\ (ec2_asg_cutover_target_groups.main env fuel args' w
      = ec2_asg_cutover_target_groups.main env fuel (delete "standby_target_group_arns" args') w
      /\ forall result w',
          ec2_asg_cutover_target_groups.main env fuel args' w = (Return result, w') ->
          exists n g,
            args' !! "new_group_name" = Some (PyStr n)
            /\ lookup_group n w = [g]
            /\ ec2_asg_cutover_target_groups.target_group_arns
                 (ec2_asg_cutover_target_groups.old_group result)
               = TargetGroupARNs g)
  /\ (forall any result w',
         ec2_asg_cutover_elb.main env fuel any w = (Return result, w') ->
         ec2_asg_cutover_elb.load_balancer_names (ec2_asg_cutover_elb.old_group result) <> [])
  /\ (forall any result w',
         ec2_asg_cutover_target_groups.main env fuel any w = (Return result, w') ->
         ec2_asg_cutover_target_groups.target_group_arns
           (ec2_asg_cutover_target_groups.old_group result) <> []).
Proof.
  intros Hs Hs'. split_and!.
  - by apply elb_empty_standby_omitted.
  - intros result w' H.
    apply elb_standby_of_completed in H as (n & g & Hn & Hg & _ & Hst).
    exists n, g. rewrite Hs in Hst. split_and!; [done | done |].
    simpl in Hst. unfold py_or in Hst. simpl in Hst. by simplify_eq.
  - by apply tg_empty_standby_omitted.
  - intros result w' H.
    apply tg_standby_of_completed in H as (n & g & Hn & Hg & _ & Hst).
    exists n, g. rewrite Hs' in Hst. split_and!; [done | done |].
    simpl in Hst. unfold py_or in Hst. simpl in Hst. by simplify_eq.
  - intros any result w' H.
    apply elb_standby_of_completed in H as (n & g & _ & _ & Hne & Hst).
    by apply (py_or_list_nonempty _ _ _ Hne (eq_sym Hst)).
  - intros any result w' H.
    apply tg_standby_of_completed in H as (n & g & _ & _ & Hne & Hst).
    by apply (py_or_list_nonempty _ _ _ Hne (eq_sym Hst)).
Qed.

Lemma empty_standby_falls_back_witness :
  ec2_asg_cutover_elb.main Scenario.prompt 10 Scenario.cutover_elb_empty_standby_args
    Scenario.world
  = ec2_asg_cutover_elb.main Scenario.prompt 10
      (delete "standby_load_balancers" Scenario.cutover_elb_empty_standby_args) Scenario.world
  /\ ec2_asg_cutover_target_groups.main Scenario.prompt 10
       Scenario.cutover_tg_empty_standby_args Scenario.world
     = ec2_asg_cutover_target_groups.main Scenario.prompt 10
         (delete "standby_target_group_arns" Scenario.cutover_tg_empty_standby_args)
         Scenario.world.
Proof.
  pose proof (empty_standby_falls_back Scenario.prompt 10
                Scenario.cutover_elb_empty_standby_args
                Scenario.cutover_tg_empty_standby_args Scenario.world
                eq_refl eq_refl) as (H1 & H2 & _).
  split; [exact (proj1 H1) | exact (proj1 H2)].
Defined.

(** The run of the witness above does complete, and leaves the old group
    on the candidate's original load balancer. *)
Example empty_standby_run :
  exists result w',
    ec2_asg_cutover_elb.main Scenario.prompt 10 Scenario.cutover_elb_empty_standby_args
      Scenario.world = (Return result, w')
    /\ ec2_asg_cutover_elb.load_balancer_names (ec2_asg_cutover_elb.old_group result)
       = ["lb-green"]
    /\ map LoadBalancerNames (lookup_group "web-blue" w') = [["lb-green"]].
Proof. eexists _, _. split_and!; vm_compute; reflexivity. Qed.

(** C10.  Neither single-group module declares [rollback_on_failure]
    (taking it that the common AWS argument spec does not declare it
    either).  So for every accepted set of arguments
    [module.params.get('rollback_on_failure')] is falsy, and in each module,
    whenever the test after its health loop finds the deadline passed, the
    run ends in [fail_json] in the very world that test left: nothing is
    detached, and in ec2_asg_target_groups the rollback branch with its
    unbound name is not entered.  Each module on its own: a timeout of one
    needs no run of the other. *)
Theorem single_group_timeout_never_rolls_back
    env fuel (args args' : gmap string pyval) w :
  ec2_argument_spec env !! "rollback_on_failure" = None ->
  (forall any w0 params w0',
      AnsibleModule (ec2_asg_elbs.argument_spec env) any w0 = (Return params, w0') ->
      truthy (dict_get params "rollback_on_failure") = false)
  /\ (forall any w0 params w0',
         AnsibleModule (ec2_asg_target_groups.argument_spec env) any w0 = (Return params, w0') ->
         truthy (dict_get params "rollback_on_failure") = false)
  /\ (forall r flag w1,
         bind (AnsibleModule (ec2_asg_elbs.argument_spec env) args)
              (ec2_asg_elbs.first_gate env fuel) w = (Return (r, (flag, true)), w1) ->
         ec2_asg_elbs.main env fuel args w
         = (FailJson "Waited too long for target ELB to report instances as healthy", w1))
  /\ (forall r' flag' w1',
         bind (AnsibleModule (ec2_asg_target_groups.argument_spec env) args')
              (ec2_asg_target_groups.first_gate env fuel) w
         = (Return (r', (flag', true)), w1') ->
         ec2_asg_target_groups.main env fuel args' w
         = (FailJson "Waited too long for target ELB to report instances as healthy. No rollback action was taken.", w1')).
Proof.
  intros Hu. split_and!.
  - intros any w0 params w0' H.
    by rewrite (undeclared_stays_None _ _ _ _ _ _ (elbs_rollback_undeclared env Hu) H).
  - intros any w0 params w0' H.
    by rewrite (undeclared_stays_None _ _ _ _ _ _ (target_groups_rollback_undeclared env Hu) H).
  - intros r flag w1 He. by apply (elbs_timeout env fuel args w r flag).
  - intros r' flag' w1' Ht. by apply (target_groups_timeout env fuel args' w r' flag').
Qed.

Lemma single_group_timeout_never_rolls_back_witness :
  exists w1 w1',
    ec2_asg_elbs.main Scenario.silent 10 Scenario.elbs_args Scenario.world
    = (FailJson "Waited too long for target ELB to report instances as healthy", w1)
    /\ ec2_asg_target_groups.main Scenario.silent 10 Scenario.target_groups_args Scenario.world
       = (FailJson "Waited too long for target ELB to report instances as healthy. No rollback action was taken.", w1')
    /\ mutations (log w1) = [AttachLoadBalancers "web-green" ["lb-green"; "lb-blue"]]
    /\ mutations (log w1')
       = [AttachLoadBalancerTargetGroups "web-green" ["arn:tg-blue"; "arn:tg-green"]].
Proof.
  assert (exists r flag w1,
             bind (AnsibleModule (ec2_asg_elbs.argument_spec Scenario.silent) Scenario.elbs_args)
                  (ec2_asg_elbs.first_gate Scenario.silent 10) Scenario.world
             = (Return (r, (flag, true)), w1)
             /\ mutations (log w1) = [AttachLoadBalancers "web-green" ["lb-green"; "lb-blue"]])
    as (r & flag & w1 & He & Hm).
  { eexists _, _, _. split; vm_compute; reflexivity. }
  assert (exists r flag w1,
             bind (AnsibleModule (ec2_asg_target_groups.argument_spec Scenario.silent)
                                 Scenario.target_groups_args)
                  (ec2_asg_target_groups.first_gate Scenario.silent 10) Scenario.world
             = (Return (r, (flag, true)), w1)
             /\ mutations (log w1)
                = [AttachLoadBalancerTargetGroups "web-green" ["arn:tg-blue"; "arn:tg-green"]])
    as (r' & flag' & w1' & Ht & Hm').
  { eexists _, _, _. split; vm_compute; reflexivity. }
  exists w1, w1'.
  destruct (single_group_timeout_never_rolls_back Scenario.silent 10
              Scenario.elbs_args Scenario.target_groups_args Scenario.world eq_refl)
    as (_ & _ & H1 & H2).
  split_and!; [exact (H1 r flag w1 He) | exact (H2 r' flag' w1' Ht) | exact Hm | exact Hm'].
Defined.

(** C4.  Take a member that is not InService in the baseline snapshots
    (or is absent from them), and two environments with the same clock
    whose load balancers and target groups answer alike about every other
    member.  Then each health gate of each cutover module - the gate on the
    new group and the optional gate on the standby endpoints - runs
    identically in both: same calls, same verdict, same outcome.  Whatever
    is reported about that member, it cannot keep a gate from passing. *)
Theorem unserviced_member_never_blocks env env' fuel params r r' i w :
  (forall st,
      ec2_asg_cutover_elb.new_instance_status r !! i = Some st
      \/ ec2_asg_cutover_elb.current_instance_status r !! i = Some st ->
      st.1 <> "InService") ->
  (forall st,
      ec2_asg_cutover_target_groups.new_instance_status r' !! i = Some st
      \/ ec2_asg_cutover_target_groups.current_instance_status r' !! i = Some st ->
      st.1 <> "InService") ->
  (forall n, clock env n = clock env' n) ->
  (forall n lb j, j <> i ->
      dict_of is_InstanceId is_State (instance_health env n lb) !! j
      = dict_of is_InstanceId is_State (instance_health env' n lb) !! j) ->
  (forall n arn j, j <> i -> target_health env n arn j = target_health env' n arn j) ->
  ec2_asg_cutover_elb.await_new_healthy env fuel params r w
  = ec2_asg_cutover_elb.await_new_healthy env' fuel params r w
  /\ ec2_asg_cutover_elb.verify_standby env fuel params r w
     = ec2_asg_cutover_elb.verify_standby env' fuel params r w
  /\ ec2_asg_cutover_target_groups.await_new_healthy env fuel params r' w
     = ec2_asg_cutover_target_groups.await_new_healthy env' fuel params r' w
  /\ ec2_asg_cutover_target_groups.verify_standby env fuel params r' w
     = ec2_asg_cutover_target_groups.verify_standby env' fuel params r' w.
Proof.
  intros Hr Hr' Hc Hlb Htg. split_and!.
  - apply (elb_await_new_healthy_agree _ _ _ _ _ i); auto.
  - apply (elb_verify_standby_agree _ _ _ _ _ i); auto.
  - apply (tg_await_new_healthy_agree _ _ _ _ _ i); auto.
  - apply (tg_verify_standby_agree _ _ _ _ _ i); auto.
Qed.

Lemma unserviced_member_never_blocks_witness :
  ec2_asg_cutover_elb.verify_standby Scenario.silent 10 Scenario.verifying_params
    Scenario.warming_elb Scenario.world
  = ec2_asg_cutover_elb.verify_standby Scenario.noisy 10 Scenario.verifying_params
      Scenario.warming_elb Scenario.world
  /\ ec2_asg_cutover_target_groups.verify_standby Scenario.silent 10 Scenario.verifying_params
       Scenario.warming_tg Scenario.world
     = ec2_asg_cutover_target_groups.verify_standby Scenario.noisy 10 Scenario.verifying_params
         Scenario.warming_tg Scenario.world.
Proof.
  destruct (unserviced_member_never_blocks Scenario.silent Scenario.noisy 10
              Scenario.verifying_params Scenario.warming_elb Scenario.warming_tg
              "i-aaccee02" Scenario.world) as (_ & H1 & _ & H2).
  - intros st [H | H]; vm_compute in H; injection H as <-; discriminate.
  - intros st [H | H]; vm_compute in H; injection H as <-; discriminate.
  - reflexivity.
  - intros n lb j Hj. simpl. unfold dict_of. simpl.
    rewrite lookup_insert_ne by done. reflexivity.
  - intros n arn j Hj. simpl. by rewrite bool_decide_eq_false_2.
  - split; [exact H1 | exact H2].
Defined.

(** C1.  Suppose a cutover gets as far as the test after the first health
    loop, that the test finds the deadline passed, and that rollback is
    enabled.  Then the run makes exactly two more calls - detach the
    destination endpoints from the candidate group, attach the source
    endpoints to it again - and ends in [fail_json]; nothing of the later
    phases is on record.  The candidate group is then attached to the same
    set of endpoints as at the start, and when that list had no duplicates
    the group is exactly what it was.  Stated for each cutover module on
    its own: a timeout of one needs no run of the other. *)
Theorem timeout_with_rollback_restores_candidate
    env fuel (args args' : gmap string pyval) w :
  (forall r flag w3,
      bind (AnsibleModule (ec2_asg_cutover_elb.argument_spec env) args)
           (ec2_asg_cutover_elb.first_gate env fuel) w = (Return (r, (flag, true)), w3) ->
      truthy (default (PyBool true) (args !! "rollback_on_failure")) = true ->
      exists w4 g g',
        let n := AutoScalingGroupName (ec2_asg_cutover_elb.new_group_ r) in
        ec2_asg_cutover_elb.main env fuel args w
        = (FailJson "Waited too long for target ELB to report instances as healthy", w4)
        /\ log w4
           = log w3 ++ [DetachLoadBalancers n (ec2_asg_cutover_elb.target_load_balancers r);
                        AttachLoadBalancers n (ec2_asg_cutover_elb.source_load_balancers r)]
        /\ lookup_group n w = [g]
        /\ lookup_group n w4 = [g']
        /\ (forall e, e ∈ LoadBalancerNames g' <-> e ∈ LoadBalancerNames g)
        /\ (NoDup (LoadBalancerNames g) -> g' = g))
  /\ (forall r' flag' w3',
         bind (AnsibleModule (ec2_asg_cutover_target_groups.argument_spec env) args')
              (ec2_asg_cutover_target_groups.first_gate env fuel) w
         = (Return (r', (flag', true)), w3') ->
         truthy (default (PyBool true) (args' !! "rollback_on_failure")) = true ->
         exists w4 g g',
           let n := AutoScalingGroupName (ec2_asg_cutover_target_groups.new_group_ r') in
           ec2_asg_cutover_target_groups.main env fuel args' w
           = (FailJson "Waited too long for destination target group to report instances as healthy. Deployment has been rolled back.", w4)
           /\ log w4
              = log w3' ++ [DetachLoadBalancerTargetGroups n
                              (ec2_asg_cutover_target_groups.dest_target_groups r');
                            AttachLoadBalancerTargetGroups n
                              (ec2_asg_cutover_target_groups.source_target_groups r')]
           /\ lookup_group n w = [g]
           /\ lookup_group n w4 = [g']
           /\ (forall e, e ∈ TargetGroupARNs g' <-> e ∈ TargetGroupARNs g)
           /\ (NoDup (TargetGroupARNs g) -> g' = g)).
Proof.
  split.
  - intros r flag w3 He Hroll.
    destruct (elb_timeout_rolls_back env fuel args w r flag w3 He Hroll) as (Hm & Hg & Hg').
    destruct (with_load_balancers_remove_dups (ec2_asg_cutover_elb.new_group_ r)) as [Hset Heq].
    eexists _, _, _. split_and!; [exact Hm | done | exact Hg | exact Hg' | exact Hset | exact Heq].
  - intros r' flag' w3' Ht Hroll'.
    destruct (tg_timeout_rolls_back env fuel args' w r' flag' w3' Ht Hroll') as (Hm & Hg & Hg').
    destruct (with_target_groups_remove_dups (ec2_asg_cutover_target_groups.new_group_ r'))
      as [Hset Heq].
    eexists _, _, _. split_and!; [exact Hm | done | exact Hg | exact Hg' | exact Hset | exact Heq].
Qed.

Lemma timeout_with_rollback_restores_candidate_witness :
  exists w4 w4',
    ec2_asg_cutover_elb.main Scenario.silent 10 Scenario.cutover_args Scenario.world
    = (FailJson "Waited too long for target ELB to report instances as healthy", w4)
    /\ lookup_group "web-green" w4 = [Scenario.web_green]
    /\ ec2_asg_cutover_target_groups.main Scenario.silent 10 Scenario.cutover_args Scenario.world
       = (FailJson "Waited too long for destination target group to report instances as healthy. Deployment has been rolled back.", w4')
    /\ lookup_group "web-green" w4' = [Scenario.web_green].
Proof.
  assert (exists r flag w3,
             bind (AnsibleModule (ec2_asg_cutover_elb.argument_spec Scenario.silent)
                                 Scenario.cutover_args)
                  (ec2_asg_cutover_elb.first_gate Scenario.silent 10) Scenario.world
             = (Return (r, (flag, true)), w3)
             /\ ec2_asg_cutover_elb.new_group_ r = Scenario.web_green)
    as (r & flag & w3 & He & Hr).
  { eexists _, _, _. split; vm_compute; reflexivity. }
  assert (exists r flag w3,
             bind (AnsibleModule (ec2_asg_cutover_target_groups.argument_spec Scenario.silent)
                                 Scenario.cutover_args)
                  (ec2_asg_cutover_target_groups.first_gate Scenario.silent 10) Scenario.world
             = (Return (r, (flag, true)), w3)
             /\ ec2_asg_cutover_target_groups.new_group_ r = Scenario.web_green)
    as (r' & flag' & w3' & Ht & Hr').
  { eexists _, _, _. split; vm_compute; reflexivity. }
  destruct (timeout_with_rollback_restores_candidate Scenario.silent 10
              Scenario.cutover_args Scenario.cutover_args Scenario.world) as [Helb Htg].
  destruct (Helb r flag w3 He eq_refl) as (w4 & g & g' & Hm & _ & Hg & Hg' & _ & Heq).
  destruct (Htg r' flag' w3' Ht eq_refl) as (w4' & h & h' & Hm' & _ & Hh & Hh' & _ & Heq').
  rewrite Hr in *. rewrite Hr' in *.
  exists w4, w4'. split_and!; [exact Hm | | exact Hm' |].
  - etransitivity; [exact Hg' |]. f_equal. vm_compute in Hg. injection Hg as <-.
    apply Heq. vm_compute. apply NoDup_cons. split; [apply not_elem_of_nil | apply NoDup_nil_2].
  - etransitivity; [exact Hh' |]. f_equal. vm_compute in Hh. injection Hh as <-.
    apply Heq'. vm_compute. apply NoDup_cons. split; [apply not_elem_of_nil | apply NoDup_nil_2].
Defined.

(** C7, as stated, fails.  With the candidate group on ELB health checks
    and a first health gate that times out with rollback enabled, the
    record of mutation calls ends with the rollback pair - detach the
    destination load balancer, attach the source one - and no
    update_auto_scaling_group follows it. *)
Lemma rollback_pair_not_restored :
  mutations (log (ec2_asg_cutover_elb.main Scenario.silent 10 Scenario.cutover_args
                    Scenario.world).2)
  = [DetachLoadBalancers "web-green" ["lb-green"];
     AttachLoadBalancers "web-green" ["lb-blue"];
     UpdateAutoScalingGroup "web-green" "ELB" 300;
     DetachLoadBalancers "web-green" ["lb-blue"];
     AttachLoadBalancers "web-green" ["lb-green"]]
  /\ endpoint_managed (groups Scenario.world) "web-green" = true
  /\ pairs_restored (groups Scenario.world)
       (mutations (log (ec2_asg_cutover_elb.main Scenario.silent 10 Scenario.cutover_args
                          Scenario.world).2))
     = false.
Proof. split_and!; vm_compute; reflexivity. Qed.

(** C7, amended.  Whatever the environment, the fuel, the arguments and
    the world, a run of a cutover module either records no mutation call at
    all, or resolves the two groups and records one of these sequences:
    the preparation of the new group; the preparation followed by the
    rollback pair; the preparation followed by the cut-over of the current
    group; and, for target groups only, all of that followed by the two
    late rollback pairs.  The preparation and the cut-over are a
    detach/attach pair followed by [restore] of the group concerned, which
    is one update_auto_scaling_group call when the group's HealthCheckType
    is 'ELB' and nothing otherwise; the rollback pairs are followed by
    nothing.  The groups at the end are the groups at the start after
    those calls. *)
Theorem restore_follows_forward_pairs env fuel (args : gmap string pyval) w :
  (extends w (ec2_asg_cutover_elb.main env fuel args w).2 []
   \/ exists c n r tr,
       args !! "current_group_name" = Some (PyStr c)
       /\ args !! "new_group_name" = Some (PyStr n)
       /\ lookup_group c w = [ec2_asg_cutover_elb.current_group r]
       /\ lookup_group n w = [ec2_asg_cutover_elb.new_group_ r]
       /\ ec2_asg_cutover_elb.target_load_balancers r
          = LoadBalancerNames (ec2_asg_cutover_elb.current_group r)
       /\ ec2_asg_cutover_elb.source_load_balancers r
          = LoadBalancerNames (ec2_asg_cutover_elb.new_group_ r)
       /\ elb_shape r tr
       /\ extends w (ec2_asg_cutover_elb.main env fuel args w).2 tr)
  /\ (extends w (ec2_asg_cutover_target_groups.main env fuel args w).2 []
      \/ exists c n r tr,
          args !! "current_group_name" = Some (PyStr c)
          /\ args !! "new_group_name" = Some (PyStr n)
          /\ lookup_group c w = [ec2_asg_cutover_target_groups.current_group r]
          /\ lookup_group n w = [ec2_asg_cutover_target_groups.new_group_ r]
          /\ ec2_asg_cutover_target_groups.dest_target_groups r
             = TargetGroupARNs (ec2_asg_cutover_target_groups.current_group r)
          /\ ec2_asg_cutover_target_groups.source_target_groups r
             = TargetGroupARNs (ec2_asg_cutover_target_groups.new_group_ r)
          /\ tg_shape r tr
          /\ extends w (ec2_asg_cutover_target_groups.main env fuel args w).2 tr).
Proof.
  split.
  { (* load balancers *)
      unfold ec2_asg_cutover_elb.main.
      destruct (AnsibleModule_cases (ec2_asg_cutover_elb.argument_spec env) args w)
        as [[msg Hm] | [Hm Hwt]].
      { left. rewrite (bind_FailJson _ _ _ _ _ Hm). apply extends_refl. }
      rewrite (bind_Return _ _ _ _ _ Hm). set (params := map_imap _ _) in *.
      destruct (elb_run_shape env fuel params w) as [[X _] | (r & w1 & tr & Hr & Hsh & X)].
      - intros src. apply list_or_list.
        apply (typed_param _ _ "standby_load_balancers" (arg TList) Hwt); [| done].
        by apply elb_declared.
      - by left.
      - right.
        apply elb_resolve_Return in Hr
          as (c & n & Hc & Hn & _ & Hcg & Hng & Ht & Hs & _).
        unfold params in Hc, Hn.
        erewrite params_declared in Hc by (by apply elb_declared).
        erewrite params_declared in Hn by (by apply elb_declared).
        exists c, n, r, tr. split_and!; try done.
        + destruct (args !! "current_group_name"); simpl in Hc; by simplify_eq.
        + destruct (args !! "new_group_name"); simpl in Hn; by simplify_eq.
  }
  { (* target groups *)
      unfold ec2_asg_cutover_target_groups.main.
      destruct (AnsibleModule_cases (ec2_asg_cutover_target_groups.argument_spec env) args w)
        as [[msg Hm] | [Hm Hwt]].
      { left. rewrite (bind_FailJson _ _ _ _ _ Hm). apply extends_refl. }
      rewrite (bind_Return _ _ _ _ _ Hm). set (params := map_imap _ _) in *.
      destruct (tg_run_shape env fuel params w) as [[X _] | (r & w1 & tr & Hr & Hsh & X)].
      - intros src. apply list_or_list.
        apply (typed_param _ _ "standby_target_group_arns" (arg TList) Hwt); [| done].
        by apply tg_declared.
      - by left.
      - right.
        apply tg_resolve_Return in Hr
          as (c & n & Hc & Hn & _ & Hcg & Hng & Ht & Hs & _).
        unfold params in Hc, Hn.
        erewrite params_declared in Hc by (by apply tg_declared).
        erewrite params_declared in Hn by (by apply tg_declared).
        exists c, n, r, tr. split_and!; try done.
        + destruct (args !! "current_group_name"); simpl in Hc; by simplify_eq.
        + destruct (args !! "new_group_name"); simpl in Hn; by simplify_eq.
  }
Qed.

(** C8, as stated, fails.  ec2_asg_elbs asked for load balancers
    lb-green and lb-blue on a group that already has lb-green attaches the
    whole requested list, lb-green included; and the first call of a
    cutover detaches the candidate group's complete list of load
    balancers. *)
Lemma attach_passes_attached_endpoint :
  map LoadBalancerNames (lookup_group "web-green" Scenario.world) = [["lb-green"]]
  /\ mutations (log (ec2_asg_elbs.main Scenario.silent 10 Scenario.elbs_args Scenario.world).2)
     = [AttachLoadBalancers "web-green" ["lb-green"; "lb-blue"]]
  /\ attaches_only_unattached (groups Scenario.world)
       (mutations (log (ec2_asg_elbs.main Scenario.silent 10 Scenario.elbs_args
                          Scenario.world).2))
     = false
  /\ hd_error (mutations (log (ec2_asg_cutover_elb.main Scenario.silent 10
                                 Scenario.cutover_args Scenario.world).2))
     = Some (DetachLoadBalancers "web-green" (LoadBalancerNames Scenario.web_green)).
Proof. split_and!; vm_compute; reflexivity. Qed.

(** C8, amended.  For every environment, fuel, arguments and world:

    - a run of ec2_asg_elbs (ec2_asg_target_groups) either records no
      mutation call, or resolves the group and records one attach call with
      the full requested list (the ARNs of all target groups found),
      followed by nothing or by one detach call that names either the
      requested endpoints that were not attached at the start or the
      endpoints attached at the start that were not requested;
    - a run of a cutover module either records no mutation call, or starts
      by detaching the candidate group's full list of endpoints and
      attaching the live group's full list to it.

    In each case the groups at the end are the groups at the start after
    the calls on record. *)
Theorem attach_full_lists_detach_deltas env fuel (args : gmap string pyval) w :
  (extends w (ec2_asg_elbs.main env fuel args w).2 []
   \/ exists n g new rest,
       args !! "name" = Some (PyStr n)
       /\ args !! "load_balancers" = Some (PyList new)
       /\ lookup_group n w = [g]
       /\ (rest = []
           \/ rest = [DetachLoadBalancers n
                        (List.filter (fun l => negb (py_in l (LoadBalancerNames g))) new)]
           \/ rest = [DetachLoadBalancers n
                        (List.filter (fun l => negb (py_in l new)) (LoadBalancerNames g))])
       /\ extends w (ec2_asg_elbs.main env fuel args w).2 (AttachLoadBalancers n new :: rest))
  /\ (extends w (ec2_asg_target_groups.main env fuel args w).2 []
      \/ exists n g names rest,
          let new := map TargetGroupArn
                         (List.filter (fun t => py_in (TargetGroupName t) names)
                                      (target_groups w)) in
          args !! "name" = Some (PyStr n)
          /\ args !! "target_groups" = Some (PyList names)
          /\ lookup_group n w = [g]
          /\ (rest = []
              \/ rest = [DetachLoadBalancerTargetGroups n
                           (List.filter (fun t => negb (py_in t new)) (TargetGroupARNs g))])
          /\ extends w (ec2_asg_target_groups.main env fuel args w).2
                     (AttachLoadBalancerTargetGroups n new :: rest))
  /\ (extends w (ec2_asg_cutover_elb.main env fuel args w).2 []
      \/ exists c n gc gn rest,
          args !! "current_group_name" = Some (PyStr c)
          /\ args !! "new_group_name" = Some (PyStr n)
          /\ lookup_group c w = [gc]
          /\ lookup_group n w = [gn]
          /\ extends w (ec2_asg_cutover_elb.main env fuel args w).2
                     (DetachLoadBalancers n (LoadBalancerNames gn)
                      :: AttachLoadBalancers n (LoadBalancerNames gc) :: rest))
  /\ (extends w (ec2_asg_cutover_target_groups.main env fuel args w).2 []
      \/ exists c n gc gn rest,
          args !! "current_group_name" = Some (PyStr c)
          /\ args !! "new_group_name" = Some (PyStr n)
          /\ lookup_group c w = [gc]
          /\ lookup_group n w = [gn]
          /\ extends w (ec2_asg_cutover_target_groups.main env fuel args w).2
                     (DetachLoadBalancerTargetGroups n (TargetGroupARNs gn)
                      :: AttachLoadBalancerTargetGroups n (TargetGroupARNs gc) :: rest)).
Proof.
  split_and!.
  { (* ec2_asg_elbs *)
    unfold ec2_asg_elbs.main.
    destruct (AnsibleModule_cases (ec2_asg_elbs.argument_spec env) args w)
      as [[msg Hm] | [Hm Hwt]].
    { left. rewrite (bind_FailJson _ _ _ _ _ Hm). apply extends_refl. }
    rewrite (bind_Return _ _ _ _ _ Hm). set (params := map_imap _ _) in *.
    destruct (elbs_run_shape env fuel params w) as [[X _] | (r & w1 & tr & Hr & Hsh & X)];
      [by left | right].
    apply elbs_resolve_Return in Hr as (n & Hn & Hg & Hnew & Hun & Huo).
    pose proof (lookup_group_name _ _ _ Hg) as Hname.
    apply (params_supplied _ _ _ (arg_req TStr)) in Hn;
      [| by apply elbs_declared | done | done].
    apply (params_supplied _ _ _ (arg TList)) in Hnew;
      [| by apply elbs_declared | done | done].
    exists n, (ec2_asg_elbs.group r), (ec2_asg_elbs.new_load_balancers r).
    destruct Hsh; rewrite ?Hun, ?Huo, Hname in X;
      eexists; (split_and!; [done | done | done | | exact X]); auto. }
  { (* ec2_asg_target_groups *)
    unfold ec2_asg_target_groups.main.
    destruct (AnsibleModule_cases (ec2_asg_target_groups.argument_spec env) args w)
      as [[msg Hm] | [Hm Hwt]].
    { left. rewrite (bind_FailJson _ _ _ _ _ Hm). apply extends_refl. }
    rewrite (bind_Return _ _ _ _ _ Hm). set (params := map_imap _ _) in *.
    destruct (target_groups_run_shape env fuel params w)
      as [[X _] | (r & w1 & tr & Hr & Hsh & X)]; [by left | right].
    apply target_groups_resolve_Return in Hr as (n & names & Hn & Hg & Hnames & Hnew & Huo).
    pose proof (lookup_group_name _ _ _ Hg) as Hname.
    apply (params_supplied _ _ _ (arg_req TStr)) in Hn;
      [| by apply target_groups_declared | done | done].
    apply (params_supplied _ _ _ (arg_req TList)) in Hnames;
      [| by apply target_groups_declared | done | done].
    exists n, (ec2_asg_target_groups.group r), names.
    destruct Hsh; rewrite ?Huo, Hname, ?Hnew in X;
      eexists; (split_and!; [done | done | done | | exact X]); auto. }
  { (* ec2_asg_cutover_elb *)
    unfold ec2_asg_cutover_elb.main.
    destruct (AnsibleModule_cases (ec2_asg_cutover_elb.argument_spec env) args w)
      as [[msg Hm] | [Hm Hwt]].
    { left. rewrite (bind_FailJson _ _ _ _ _ Hm). apply extends_refl. }
    rewrite (bind_Return _ _ _ _ _ Hm). set (params := map_imap _ _) in *.
    destruct (elb_run_shape env fuel params w) as [[X _] | (r & w1 & tr & Hr & Hsh & X)].
    - intros src. apply list_or_list.
      apply (typed_param _ _ "standby_load_balancers" (arg TList) Hwt); [| done].
      by apply elb_declared.
    - by left.
    - right.
      apply elb_resolve_Return in Hr as (c & n & Hc & Hn & _ & Hcg & Hng & Ht & Hs & _).
      pose proof (lookup_group_name _ _ _ Hng) as Hname.
      apply (params_supplied _ _ _ (arg_req TStr)) in Hc;
        [| by apply elb_declared | done | done].
      apply (params_supplied _ _ _ (arg_req TStr)) in Hn;
        [| by apply elb_declared | done | done].
      apply elb_shape_starts in Hsh as [rest ->].
      unfold elb_prepare_calls in X. rewrite Ht, Hs, Hname in X.
      exists c, n, (ec2_asg_cutover_elb.current_group r), (ec2_asg_cutover_elb.new_group_ r).
      eexists. split_and!; [done | done | done | done |].
      rewrite <- app_assoc in X. exact X. }
  { (* ec2_asg_cutover_target_groups *)
    unfold ec2_asg_cutover_target_groups.main.
    destruct (AnsibleModule_cases (ec2_asg_cutover_target_groups.argument_spec env) args w)
      as [[msg Hm] | [Hm Hwt]].
    { left. rewrite (bind_FailJson _ _ _ _ _ Hm). apply extends_refl. }
    rewrite (bind_Return _ _ _ _ _ Hm). set (params := map_imap _ _) in *.
    destruct (tg_run_shape env fuel params w) as [[X _] | (r & w1 & tr & Hr & Hsh & X)].
    - intros src. apply list_or_list.
      apply (typed_param _ _ "standby_target_group_arns" (arg TList) Hwt); [| done].
      by apply tg_declared.
    - by left.
    - right.
      apply tg_resolve_Return in Hr as (c & n & Hc & Hn & _ & Hcg & Hng & Ht & Hs & _).
      pose proof (lookup_group_name _ _ _ Hng) as Hname.
      apply (params_supplied _ _ _ (arg_req TStr)) in Hc;
        [| by apply tg_declared | done | done].
      apply (params_supplied _ _ _ (arg_req TStr)) in Hn;
        [| by apply tg_declared | done | done].
      apply tg_shape_starts in Hsh as [rest ->].
      unfold tg_prepare_calls in X. rewrite Ht, Hs, Hname in X.
      exists c, n, (ec2_asg_cutover_target_groups.current_group r),
        (ec2_asg_cutover_target_groups.new_group_ r).
      eexists. split_and!; [done | done | done | done |].
      rewrite <- app_assoc in X. exact X. }
Qed.

(** C2, as stated, fails.  The loop condition and the test after the loop
    read the clock separately.  With a clock that is set back between the
    two readings, the first health loop of either cutover module ends on
    its deadline without having asked for the health of anything, with
    [healthy] still [False]; the test after the loop then finds the
    deadline not yet reached, the live group is cut over, the
    deregistration loop runs and the run ends in [exit_json]. *)
Lemma unhealthy_gate_reaches_deregistration :
  (exists r w3 w4 result w',
      bind (AnsibleModule (ec2_asg_cutover_elb.argument_spec Scenario.stepping_back)
                          Scenario.cutover_args)
           (ec2_asg_cutover_elb.first_gate Scenario.stepping_back 10) Scenario.world
      = (Return (r, (false, false)), w3)
      /\ polls w3 = 0%nat
      /\ bind (AnsibleModule (ec2_asg_cutover_elb.argument_spec Scenario.stepping_back)
                             Scenario.cutover_args)
              (ec2_asg_cutover_elb.to_deregistration_gate Scenario.stepping_back 10)
              Scenario.world
         = (Return r, w4)
      /\ ec2_asg_cutover_elb.main Scenario.stepping_back 10 Scenario.cutover_args
                                  Scenario.world
         = (Return result, w'))
  /\ (exists r w3 w4 result w',
         bind (AnsibleModule (ec2_asg_cutover_target_groups.argument_spec
                                Scenario.stepping_back) Scenario.cutover_args)
              (ec2_asg_cutover_target_groups.first_gate Scenario.stepping_back 10)
              Scenario.world
         = (Return (r, (false, false)), w3)
         /\ polls w3 = 0%nat
         /\ bind (AnsibleModule (ec2_asg_cutover_target_groups.argument_spec
                                   Scenario.stepping_back) Scenario.cutover_args)
                 (ec2_asg_cutover_target_groups.to_deregistration_gate
                    Scenario.stepping_back 10)
                 Scenario.world
            = (Return r, w4)
         /\ ec2_asg_cutover_target_groups.main Scenario.stepping_back 10
                                               Scenario.cutover_args Scenario.world
            = (Return result, w')).
Proof.
  split.
  - eexists _, _, _, _, _. split_and!; vm_compute; reflexivity.
  - eexists _, _, _, _, _. split_and!; vm_compute; reflexivity.
Qed.

(** C2, amended.  As long as the clock never runs backwards: whenever a
    cutover gets as far as the deregistration loop, the first health gate
    before it ended with [healthy] set and with the deadline not yet
    reached: the loop's final iteration returned [True] just before the
    clock was read for the test after the loop, and during that iteration
    every member of the candidate snapshot that the loop is concerned with
    was reported in service (healthy, for target groups) by every
    destination endpoint.  Whatever the clock does: when the test after the
    first health loop finds the deadline passed, the script never gets to
    the deregistration loop and ends in [fail_json].  Both cutover
    modules. *)
Theorem deregistration_follows_healthy_gate env fuel (args args' : gmap string pyval) w :
  (monotone env ->
   (forall r w4,
       bind (AnsibleModule (ec2_asg_cutover_elb.argument_spec env) args)
            (ec2_asg_cutover_elb.to_deregistration_gate env fuel) w = (Return r, w4) ->
       exists w3 wa wb,
         bind (AnsibleModule (ec2_asg_cutover_elb.argument_spec env) args)
              (ec2_asg_cutover_elb.first_gate env fuel) w = (Return (r, (true, false)), w3)
         /\ ec2_asg_cutover_elb.healthy_iteration env
              (ec2_asg_cutover_elb.new_group_ r) (ec2_asg_cutover_elb.new_instance_status r)
              (ec2_asg_cutover_elb.target_load_balancers r) wa = (Return true, wb)
         /\ w3 = record TimeTime (tick wb)
         /\ forall lb id st,
              In lb (ec2_asg_cutover_elb.target_load_balancers r) ->
              ec2_asg_cutover_elb.new_instance_status r !! id = Some st ->
              concerned (ec2_asg_cutover_elb.new_group_ r) st = true ->
              exists k, (polls wa <= k < polls wb)%nat
                        /\ dict_of is_InstanceId is_State (instance_health env k lb) !! id
                           = Some "InService")
   /\ (forall r w4,
          bind (AnsibleModule (ec2_asg_cutover_target_groups.argument_spec env) args')
               (ec2_asg_cutover_target_groups.to_deregistration_gate env fuel) w
          = (Return r, w4) ->
          exists w3 wa wb,
            bind (AnsibleModule (ec2_asg_cutover_target_groups.argument_spec env) args')
                 (ec2_asg_cutover_target_groups.first_gate env fuel) w
            = (Return (r, (true, false)), w3)
            /\ ec2_asg_cutover_target_groups.healthy_iteration env
                 (ec2_asg_cutover_target_groups.new_group_ r)
                 (ec2_asg_cutover_target_groups.new_instance_status r)
                 (ec2_asg_cutover_target_groups.dest_target_groups r) wa = (Return true, wb)
            /\ w3 = record TimeTime (tick wb)
            /\ forall tg id st,
                 In tg (ec2_asg_cutover_target_groups.dest_target_groups r) ->
                 ec2_asg_cutover_target_groups.new_instance_status r !! id = Some st ->
                 concerned (ec2_asg_cutover_target_groups.new_group_ r) st = true ->
                 exists k th rest,
                   (polls wa <= k < polls wb)%nat
                   /\ target_health env k tg id = th :: rest
                   /\ th_State th = Some "healthy"))
  /\ (forall r flag w3,
         bind (AnsibleModule (ec2_asg_cutover_elb.argument_spec env) args)
              (ec2_asg_cutover_elb.first_gate env fuel) w = (Return (r, (flag, true)), w3) ->
         (forall r2 w4,
             bind (AnsibleModule (ec2_asg_cutover_elb.argument_spec env) args)
                  (ec2_asg_cutover_elb.to_deregistration_gate env fuel) w <> (Return r2, w4))
         /\ exists w4,
             ec2_asg_cutover_elb.main env fuel args w
             = (FailJson "Waited too long for target ELB to report instances as healthy", w4))
  /\ (forall r flag w3,
         bind (AnsibleModule (ec2_asg_cutover_target_groups.argument_spec env) args')
              (ec2_asg_cutover_target_groups.first_gate env fuel) w
         = (Return (r, (flag, true)), w3) ->
         (forall r2 w4,
             bind (AnsibleModule (ec2_asg_cutover_target_groups.argument_spec env) args')
                  (ec2_asg_cutover_target_groups.to_deregistration_gate env fuel) w
             <> (Return r2, w4))
         /\ exists msg w4,
             ec2_asg_cutover_target_groups.main env fuel args' w = (FailJson msg, w4)).
Proof.
  split_and!.
  - intros Hmono. split.
    + intros r w4 H. apply bind_inv_Return in H as (params & w0 & Ha & H).
      destruct (elb_reaches_deregistration env fuel params w0 r w4 Hmono H)
        as (w3 & wa & wb & Hf & Hit & Hw3 & Hall).
      exists w3, wa, wb. split_and!; [| exact Hit | exact Hw3 | exact Hall].
      by erewrite bind_Return by exact Ha.
    + intros r w4 H. apply bind_inv_Return in H as (params & w0 & Ha & H).
      destruct (tg_reaches_deregistration env fuel params w0 r w4 Hmono H)
        as (w3 & wa & wb & Hf & Hit & Hw3 & Hall).
      exists w3, wa, wb. split_and!; [| exact Hit | exact Hw3 | exact Hall].
      by erewrite bind_Return by exact Ha.
  - intros r flag w3. apply elb_timeout_fails.
  - intros r flag w3. apply tg_timeout_fails.
Qed.

Lemma deregistration_follows_healthy_gate_witness :
  monotone Scenario.prompt
  /\ (exists r w3 w4 k,
         bind (AnsibleModule (ec2_asg_cutover_elb.argument_spec Scenario.prompt)
                             Scenario.cutover_args)
              (ec2_asg_cutover_elb.to_deregistration_gate Scenario.prompt 10) Scenario.world
         = (Return r, w4)
         /\ bind (AnsibleModule (ec2_asg_cutover_elb.argument_spec Scenario.prompt)
                                Scenario.cutover_args)
                 (ec2_asg_cutover_elb.first_gate Scenario.prompt 10) Scenario.world
            = (Return (r, (true, false)), w3)
         /\ dict_of is_InstanceId is_State (instance_health Scenario.prompt k "lb-blue")
              !! "i-aaccee01" = Some "InService")
  /\ (exists r w3 w4 k th rest,
         bind (AnsibleModule (ec2_asg_cutover_target_groups.argument_spec Scenario.prompt)
                             Scenario.cutover_args)
              (ec2_asg_cutover_target_groups.to_deregistration_gate Scenario.prompt 10)
              Scenario.world
         = (Return r, w4)
         /\ bind (AnsibleModule (ec2_asg_cutover_target_groups.argument_spec Scenario.prompt)
                                Scenario.cutover_args)
                 (ec2_asg_cutover_target_groups.first_gate Scenario.prompt 10) Scenario.world
            = (Return (r, (true, false)), w3)
         /\ target_health Scenario.prompt k "arn:tg-blue" "i-aaccee01" = th :: rest
         /\ th_State th = Some "healthy").
Proof.
  assert (monotone Scenario.prompt) as Hmono.
  { intros n. simpl. unfold Scenario.clock4. lia. }
  destruct (deregistration_follows_healthy_gate Scenario.prompt 10
              Scenario.cutover_args Scenario.cutover_args Scenario.world) as (X & _ & _).
  destruct (X Hmono) as [Helb Htg].
  split; [exact Hmono |]. split.
  - assert (exists r w4,
               bind (AnsibleModule (ec2_asg_cutover_elb.argument_spec Scenario.prompt)
                                   Scenario.cutover_args)
                    (ec2_asg_cutover_elb.to_deregistration_gate Scenario.prompt 10)
                    Scenario.world
               = (Return r, w4)
               /\ In "lb-blue" (ec2_asg_cutover_elb.target_load_balancers r)
               /\ ec2_asg_cutover_elb.new_instance_status r !! "i-aaccee01"
                  = Some ("InService", "Healthy")
               /\ concerned (ec2_asg_cutover_elb.new_group_ r) ("InService", "Healthy") = true)
      as (r & w4 & Hr & Hlb & Hid & Hc).
    { eexists _, _. split_and!; [vm_compute; reflexivity | by left | vm_compute; reflexivity
                                | vm_compute; reflexivity]. }
    destruct (Helb r w4 Hr) as (w3 & wa & wb & Hf & _ & _ & Hall).
    destruct (Hall _ _ _ Hlb Hid Hc) as (k & _ & Hk).
    exists r, w3, w4, k. split_and!; [exact Hr | exact Hf | exact Hk].
  - assert (exists r w4,
               bind (AnsibleModule (ec2_asg_cutover_target_groups.argument_spec Scenario.prompt)
                                   Scenario.cutover_args)
                    (ec2_asg_cutover_target_groups.to_deregistration_gate Scenario.prompt 10)
                    Scenario.world
               = (Return r, w4)
               /\ In "arn:tg-blue" (ec2_asg_cutover_target_groups.dest_target_groups r)
               /\ ec2_asg_cutover_target_groups.new_instance_status r !! "i-aaccee01"
                  = Some ("InService", "Healthy")
               /\ concerned (ec2_asg_cutover_target_groups.new_group_ r)
                            ("InService", "Healthy") = true)
      as (r & w4 & Hr & Htgb & Hid & Hc).
    { eexists _, _. split_and!; [vm_compute; reflexivity | by left | vm_compute; reflexivity
                                | vm_compute; reflexivity]. }
    destruct (Htg r w4 Hr) as (w3 & wa & wb & Hf & _ & _ & Hall).
    destruct (Hall _ _ _ Htgb Hid Hc) as (k & th & rest & _ & Hth & Hst).
    exists r, w3, w4, k, th, rest. split_and!; [exact Hr | exact Hf | exact Hth | exact Hst].
Defined.
(** * Further properties *)

(** ** filter_plugins/aws.py *)

(** When a key occurs in several tags, [parse_asg_tags] keeps the value of
    the last of them, while [asg_tag_value] returns the value of the first:
    looking a key up in the parsed dict (with [None] for a missing key) is
    [asg_tag_value] on the tags in reverse order. *)
Theorem parse_asg_tags_keeps_last (tags : list aws.Tag) d :
  aws.parse_asg_tags tags = Some d ->
  forall k, aws.asg_tag_value (reverse tags) k = Some (default PyNone (d !! k)).
Proof.
  revert d. induction tags as [|t l IH] using rev_ind; intros d.
  - intros H k. injection H as <-. by rewrite lookup_empty.
  - rewrite parse_asg_tags_snoc. intros H k.
    destruct (aws.parse_asg_tags l) as [d'|]; [| done]. simpl in H.
    destruct (aws.key t) as [k0|] eqn:Hk; [| done]. simpl in H.
    destruct (aws.value t) as [v0|] eqn:Hv; [| done]. simpl in H. simplify_eq.
    rewrite reverse_snoc. simpl. rewrite Hk. simpl.
    case_bool_decide as Heq.
    + subst k0. by rewrite Hv, lookup_insert_eq.
    + rewrite (IH d' eq_refl k). by rewrite lookup_insert_ne.
Qed.

Lemma parse_asg_tags_keeps_last_witness :
  let tags := [aws.MkTag (Some "env") (Some (PyStr "blue")) None;
               aws.MkTag (Some "env") (Some (PyStr "green")) None] in
  aws.parse_asg_tags tags = Some {[ "env" := PyStr "green" ]}
  /\ aws.asg_tag_value (reverse tags) "env" = Some (PyStr "green")
  /\ aws.asg_tag_value tags "env" = Some (PyStr "blue").
Proof.
  intros tags.
  assert (aws.parse_asg_tags tags = Some {[ "env" := PyStr "green" ]}) as H.
  { vm_compute. reflexivity. }
  split_and!; [exact H | | reflexivity].
  etransitivity; [exact (parse_asg_tags_keeps_last tags _ H "env") |].
  by rewrite lookup_singleton_eq.
Defined.

(** When no two tags have the same key, the two ways of reading a tag
    agree: [asg_tag_value] returns what the dict built by [parse_asg_tags]
    holds for the key, and [None] for a key that is not there. *)
Theorem tag_lookups_agree_on_distinct_keys (tags : list aws.Tag) d :
  aws.parse_asg_tags tags = Some d ->
  NoDup (map aws.key tags) ->
  forall k, aws.asg_tag_value tags k = Some (default PyNone (d !! k)).
Proof.
  intros H Hnd k. apply (asg_tag_value_from ∅ tags d k H Hnd). apply lookup_empty.
Qed.

Lemma tag_lookups_agree_on_distinct_keys_witness :
  let tags := [aws.MkTag (Some "Name") (Some (PyStr "web")) None;
               aws.MkTag (Some "env") (Some (PyStr "green")) None] in
  aws.asg_tag_value tags "env" = Some (PyStr "green")
  /\ aws.asg_tag_value tags "owner" = Some PyNone.
Proof.
  intros tags.
  assert (aws.parse_asg_tags tags
          = Some (<["env" := PyStr "green"]> {[ "Name" := PyStr "web" ]})) as H.
  { vm_compute. reflexivity. }
  assert (NoDup (map aws.key tags)) as Hnd.
  { apply NoDup_cons. split; [| apply NoDup_singleton].
    intros Hin. apply list_elem_of_singleton in Hin. discriminate. }
  split.
  - etransitivity; [exact (tag_lookups_agree_on_distinct_keys tags _ H Hnd "env") |].
    by rewrite lookup_insert_eq.
  - etransitivity; [exact (tag_lookups_agree_on_distinct_keys tags _ H Hnd "owner") |].
    reflexivity.
Defined.

(** [format_asg_tags] turns the tags, in order, into as many dicts.  Each
    dict holds the tag's ['propagate_at_launch'] under that name and the
    tag's value under the tag's key, and nothing else - except that a tag
    whose key is itself ['propagate_at_launch'] loses its value, because
    the second entry of the dict display replaces the first. *)
Theorem format_asg_tags_entries (tags : list aws.Tag) out :
  aws.format_asg_tags tags = Some out ->
  length out = length tags
  /\ forall i tag,
       tags !! i = Some tag ->
       exists k v p d,
         aws.key tag = Some k /\ aws.value tag = Some v
         /\ aws.propagate_at_launch tag = Some p
         /\ out !! i = Some d
         /\ d !! "propagate_at_launch" = Some p
         /\ (k <> "propagate_at_launch" -> d !! k = Some v)
         /\ (forall k', is_Some (d !! k') <-> k' = k \/ k' = "propagate_at_launch").
Proof.
  intros H. apply format_asg_tags_Forall2 in H.
  split; [symmetry; by eapply Forall2_length |].
  intros i tag Hi.
  destruct (Forall2_lookup_l _ _ _ _ _ H Hi) as (d & Hd & Hnew).
  apply new_tag_Some in Hnew as (k & v & p & Hk & Hv & Hp & ->).
  exists k, v, p. eexists. split_and!; [done | done | done | exact Hd | | |].
  - apply lookup_insert_eq.
  - intros Hne. rewrite lookup_insert_ne by done. apply lookup_insert_eq.
  - intros k'. destruct (decide (k' = "propagate_at_launch")) as [-> | Hne].
    + rewrite lookup_insert_eq. split; [by right | by eexists].
    + rewrite lookup_insert_ne by done.
      destruct (decide (k' = k)) as [-> | Hne'].
      * rewrite lookup_insert_eq. split; [by left | by eexists].
      * rewrite lookup_insert_ne by done. rewrite lookup_empty.
        split; [by intros [? ?] | by intros [? | ?]].
Qed.

Lemma format_asg_tags_entries_witness :
  let tags := [aws.MkTag (Some "env") (Some (PyStr "green")) (Some (PyBool true));
               aws.MkTag (Some "propagate_at_launch") (Some (PyStr "lost"))
                         (Some (PyBool false))] in
  exists out d,
    aws.format_asg_tags tags = Some out
    /\ length out = 2%nat
    /\ out !! 1%nat = Some d
    /\ d !! "propagate_at_launch" = Some (PyBool false)
    /\ forall k', is_Some (d !! k') <-> k' = "propagate_at_launch" \/ k' = "propagate_at_launch".
Proof.
  intros tags.
  set (out := [<["propagate_at_launch" := PyBool true]> (<["env" := PyStr "green"]> ∅);
               <["propagate_at_launch" := PyBool false]>
                 (<["propagate_at_launch" := PyStr "lost"]> ∅)]
              : list (gmap string pyval)).
  assert (aws.format_asg_tags tags = Some out) as H by reflexivity.
  destruct (format_asg_tags_entries tags out H) as [Hlen Hall].
  destruct (Hall 1%nat _ eq_refl) as (k & v & p & d & Hk & Hv & Hp & Hd & Hpal & _ & Hdom).
  simpl in Hk, Hp. simplify_eq.
  exists out, d. split_and!; [exact H | exact Hlen | exact Hd | exact Hpal | exact Hdom].
Defined.

(** The only way the two list filters fail is KeyError, and they fail
    exactly when some tag lacks a field they read: ['key'], ['value'] or
    ['propagate_at_launch'] for [format_asg_tags], ['key'] or ['value'] for
    [parse_asg_tags], which never looks at ['propagate_at_launch']. *)
Theorem tag_filters_fail_on_missing_field (tags : list aws.Tag) :
  (aws.format_asg_tags tags = None
   <-> Exists (fun t => aws.key t = None \/ aws.value t = None
                        \/ aws.propagate_at_launch t = None) tags)
  /\ (aws.parse_asg_tags tags = None
      <-> Exists (fun t => aws.key t = None \/ aws.value t = None) tags).
Proof.
  split.
  - induction tags as [|t l IH] using rev_ind.
    + split; [done | by intros H%Exists_nil].
    + rewrite format_asg_tags_snoc, Exists_app, Exists_cons, Exists_nil.
      destruct (aws.format_asg_tags l) as [out|]; simpl.
      * destruct (aws.new_tag t) as [d|] eqn:Hd; simpl.
        -- split; [done |]. intros [Hl | [Ht | []]].
           ++ apply IH in Hl. done.
           ++ apply new_tag_None in Ht. congruence.
        -- split; [| done]. intros _. right. left. by apply new_tag_None.
      * split; [| done]. intros _. left. by apply IH.
  - induction tags as [|t l IH] using rev_ind.
    + split; [done | by intros H%Exists_nil].
    + rewrite parse_asg_tags_snoc, Exists_app, Exists_cons, Exists_nil.
      destruct (aws.parse_asg_tags l) as [d|]; simpl.
      * destruct (aws.key t) as [k|]; simpl; [| split; [intros _ | done]; right; left; by left].
        destruct (aws.value t) as [v|]; simpl; [| split; [intros _ | done]; right; left; by right].
        split; [done |]. intros [Hl | [[Ht | Ht] | []]]; [| done | done].
        apply IH in Hl. done.
      * split; [| done]. intros _. left. by apply IH.
Qed.

(** [asg_tag_value] returns the value of the first tag whose key is the
    one asked for and reads nothing after it, so whatever follows - even a
    tag without ['key'] - makes no difference; a KeyError comes from that
    tag's missing ['value'] only.  When no tag has the key the answer is
    [None]. *)
Theorem asg_tag_value_first_match (pre post : list aws.Tag) (t : aws.Tag) k :
  Forall (fun t' => exists k', aws.key t' = Some k' /\ k' <> k) pre ->
  (aws.key t = Some k -> aws.asg_tag_value (pre ++ t :: post) k = aws.value t)
  /\ aws.asg_tag_value pre k = Some PyNone.
Proof.
  induction 1 as [|t' pre (k' & Hk' & Hne) Hpre [IH1 IH2]]; simpl.
  - split; [| done]. intros ->. simpl. by rewrite bool_decide_eq_true_2.
  - rewrite Hk'. simpl. rewrite bool_decide_eq_false_2 by done. by split.
Qed.

Lemma asg_tag_value_first_match_witness :
  aws.asg_tag_value
    ([aws.MkTag (Some "Name") (Some (PyStr "web")) None]
     ++ aws.MkTag (Some "env") (Some (PyStr "green")) None
     :: [aws.MkTag None None None]) "env"
  = Some (PyStr "green").
Proof.
  refine (proj1 (asg_tag_value_first_match
                   [aws.MkTag (Some "Name") (Some (PyStr "web")) None]
                   [aws.MkTag None None None]
                   (aws.MkTag (Some "env") (Some (PyStr "green")) None) "env" _) eq_refl).
  repeat constructor. exists "Name". split; [reflexivity | discriminate].
Defined.

(** ** The cutover scripts *)

(** With a [wait_timeout] of zero or less and a clock that never runs
    backwards, a cutover that gets past its checks always times out at the
    first health loop without having asked for the health of anything: the
    deadline has passed at the first test of the loop condition, the body
    never runs, and the test after the loop holds.  What goes on record is
    the two lookups, the calls that move the candidate group, three
    readings of the clock and, when rollback is enabled, the rollback pair;
    the run ends in [fail_json].  The timeout is taken no smaller than
    [-2^1023]: the clock reading is a float, and adding an integer that no
    float can hold raises OverflowError instead. *)
Theorem nonpositive_timeout_never_polls env fuel z :
  monotone env ->
  - 2 ^ 1023 <= z ->
  z <= 0 ->
  (forall (args : gmap string pyval) w r w1,
      args !! "wait_timeout" = Some (PyInt z) ->
      bind (AnsibleModule (ec2_asg_cutover_elb.argument_spec env) args)
           ec2_asg_cutover_elb.resolve w = (Return r, w1) ->
      exists w',
        ec2_asg_cutover_elb.main env fuel args w
        = (FailJson "Waited too long for target ELB to report instances as healthy", w')
        /\ polls w' = polls w
        /\ log w'
           = log w
             ++ [DescribeAutoScalingGroups
                   [PyStr (AutoScalingGroupName (ec2_asg_cutover_elb.current_group r))];
                 DescribeAutoScalingGroups
                   [PyStr (AutoScalingGroupName (ec2_asg_cutover_elb.new_group_ r))]]
             ++ elb_prepare_calls r
             ++ [TimeTime; TimeTime; TimeTime]
             ++ (if truthy (default (PyBool true) (args !! "rollback_on_failure"))
                 then elb_rollback_calls r else []))
  /\ (forall (args : gmap string pyval) w r w1,
         args !! "wait_timeout" = Some (PyInt z) ->
         bind (AnsibleModule (ec2_asg_cutover_target_groups.argument_spec env) args)
              ec2_asg_cutover_target_groups.resolve w = (Return r, w1) ->
         exists w',
           ec2_asg_cutover_target_groups.main env fuel args w
           = (FailJson
                (if truthy (default (PyBool true) (args !! "rollback_on_failure"))
                 then "Waited too long for destination target group to report instances as healthy. Deployment has been rolled back."
                 else "Waited too long for destination target group to report instances as healthy. No rollback action taken."),
              w')
           /\ polls w' = polls w
           /\ log w'
              = log w
                ++ [DescribeAutoScalingGroups
                      [PyStr (AutoScalingGroupName
                                (ec2_asg_cutover_target_groups.current_group r))];
                    DescribeAutoScalingGroups
                      [PyStr (AutoScalingGroupName
                                (ec2_asg_cutover_target_groups.new_group_ r))]]
                ++ tg_prepare_calls r
                ++ [TimeTime; TimeTime; TimeTime]
                ++ (if truthy (default (PyBool true) (args !! "rollback_on_failure"))
                    then tg_rollback_calls r else [])).
Proof.
  intros Hmono _ Hz. split.
  - intros args w r w1 Hwt H. by apply (elb_no_time_main env fuel args w z r w1).
  - intros args w r w1 Hwt H. by apply (tg_no_time_main env fuel args w z r w1).
Qed.

Lemma nonpositive_timeout_never_polls_witness :
  exists w' w'',
    ec2_asg_cutover_elb.main Scenario.prompt 10
      (<["wait_timeout" := PyInt 0]> Scenario.cutover_args) Scenario.world
    = (FailJson "Waited too long for target ELB to report instances as healthy", w')
    /\ polls w' = 0%nat
    /\ ec2_asg_cutover_target_groups.main Scenario.prompt 10
         (<["wait_timeout" := PyInt 0]> Scenario.cutover_args) Scenario.world
       = (FailJson "Waited too long for destination target group to report instances as healthy. Deployment has been rolled back.", w'')
    /\ polls w'' = 0%nat.
Proof.
  assert (monotone Scenario.prompt) as Hmono.
  { intros n. simpl. unfold Scenario.clock4. lia. }
  assert (- 2 ^ 1023 <= 0) as Hfloat.
  { apply Z.opp_nonpos_nonneg, Z.pow_nonneg. lia. }
  destruct (nonpositive_timeout_never_polls Scenario.prompt 10 0 Hmono Hfloat ltac:(lia))
    as [Helb Htg].
  assert (exists r w1,
             bind (AnsibleModule (ec2_asg_cutover_elb.argument_spec Scenario.prompt)
                                 (<["wait_timeout" := PyInt 0]> Scenario.cutover_args))
                  ec2_asg_cutover_elb.resolve Scenario.world = (Return r, w1))
    as (r & w1 & Hr).
  { eexists _, _. vm_compute. reflexivity. }
  assert (exists r w1,
             bind (AnsibleModule (ec2_asg_cutover_target_groups.argument_spec Scenario.prompt)
                                 (<["wait_timeout" := PyInt 0]> Scenario.cutover_args))
                  ec2_asg_cutover_target_groups.resolve Scenario.world = (Return r, w1))
    as (r' & w1' & Hr').
  { eexists _, _. vm_compute. reflexivity. }
  assert ((<["wait_timeout" := PyInt 0]> Scenario.cutover_args : gmap string pyval)
          !! "wait_timeout" = Some (PyInt 0)) as Hwt.
  { vm_compute. reflexivity. }
  destruct (Helb _ _ r w1 Hwt Hr) as (w' & Hm & Hp & _).
  destruct (Htg _ _ r' w1' Hwt Hr') as (w'' & Hm' & Hp' & _).
  exists w', w''. split_and!; [exact Hm | exact Hp | exact Hm' | exact Hp'].
Defined.

(** ** The single-group scripts *)

(** Both single-group scripts name a variable [new_group] in the condition
    of their health loop, and ec2_asg_target_groups names
    [unique_new_load_balancers] in its rollback branch; neither is ever
    bound.  No run evaluates them.  Every member of the snapshot has passed
    the check for InService and Healthy, so [status[1] == 'Healthy'] decides
    the condition before [new_group] is reached; and the rollback branch is
    guarded by a parameter the script does not declare, as long as the
    common AWS arguments do not declare it either. *)
Theorem unbound_names_are_never_evaluated env fuel (args : gmap string pyval) w :
  (ec2_asg_elbs.main env fuel args w).1 <> Raise "NameError: new_group"
  /\ (ec2_asg_target_groups.main env fuel args w).1 <> Raise "NameError: new_group"
  /\ (ec2_argument_spec env !! "rollback_on_failure" = None ->
      (ec2_asg_target_groups.main env fuel args w).1
      <> Raise "NameError: unique_new_load_balancers").
Proof.
  split_and!.
  - unfold ec2_asg_elbs.main. apply never_raises_bind.
    + apply never_raises_AnsibleModule.
    + intros params. apply elbs_run_no_NameError.
  - unfold ec2_asg_target_groups.main. apply never_raises_bind.
    + apply never_raises_AnsibleModule.
    + intros params. apply target_groups_run_no_NameError.
  - intros Hu. unfold ec2_asg_target_groups.main.
    apply (never_raises_bind_post _
             (fun params => dict_get params "rollback_on_failure" = PyNone)).
    + intros w0 params w1 Ha.
      apply (undeclared_stays_None _ _ _ _ _ _ (target_groups_rollback_undeclared env Hu) Ha).
    + apply never_raises_AnsibleModule.
    + intros params Hnone. by apply target_groups_run_no_NameError.
Qed.

Lemma unbound_names_are_never_evaluated_witness :
  (ec2_asg_target_groups.main Scenario.silent 10 Scenario.target_groups_args
                              Scenario.world).1
  <> Raise "NameError: unique_new_load_balancers".
Proof.
  apply (unbound_names_are_never_evaluated Scenario.silent 10 Scenario.target_groups_args
                                           Scenario.world).
  reflexivity.
Defined.

(** ec2_asg_cutover_elb never undoes a cut-over.  Once the live group has
    been moved to the standby load balancers the script makes no further
    change, however the run ends - a deregistration loop or a standby
    verification that times out included, and whatever
    [rollback_on_failure] says: the candidate group stays attached to the
    load balancers the live group had, and the live group to the standby
    ones. *)
Theorem elb_cut_over_is_never_undone env fuel (args : gmap string pyval) w r w4 :
  bind (AnsibleModule (ec2_asg_cutover_elb.argument_spec env) args)
       (ec2_asg_cutover_elb.to_deregistration_gate env fuel) w = (Return r, w4) ->
  exists standby,
    ec2_asg_cutover_elb.standby_load_balancers r = PyList standby
    /\ standby <> []
    /\ mutations (log (ec2_asg_cutover_elb.main env fuel args w).2)
       = mutations (log w) ++ elb_prepare_calls r ++ elb_cut_over_calls r standby
    /\ lookup_group (AutoScalingGroupName (ec2_asg_cutover_elb.new_group_ r)) w
       = [ec2_asg_cutover_elb.new_group_ r]
    /\ lookup_group (AutoScalingGroupName (ec2_asg_cutover_elb.current_group r)) w
       = [ec2_asg_cutover_elb.current_group r]
    /\ lookup_group (AutoScalingGroupName (ec2_asg_cutover_elb.new_group_ r))
                    (ec2_asg_cutover_elb.main env fuel args w).2
       = [with_load_balancers
            (fun _ => remove_dups (LoadBalancerNames (ec2_asg_cutover_elb.current_group r)))
            (ec2_asg_cutover_elb.new_group_ r)]
    /\ lookup_group (AutoScalingGroupName (ec2_asg_cutover_elb.current_group r))
                    (ec2_asg_cutover_elb.main env fuel args w).2
       = [with_load_balancers (fun _ => remove_dups standby)
                              (ec2_asg_cutover_elb.current_group r)].
Proof. apply elb_final_groups. Qed.

Lemma elb_cut_over_is_never_undone_witness :
  exists w',
    ec2_asg_cutover_elb.main Scenario.lingering 10 Scenario.cutover_args Scenario.world
    = (FailJson "Waited too long for target ELB to deregister old instances", w')
    /\ lookup_group "web-green" w'
       = [with_load_balancers (fun _ => ["lb-blue"]) Scenario.web_green]
    /\ lookup_group "web-blue" w'
       = [with_load_balancers (fun _ => ["lb-green"]) Scenario.web_blue].
Proof.
  assert (exists r w4,
             bind (AnsibleModule (ec2_asg_cutover_elb.argument_spec Scenario.lingering)
                                 Scenario.cutover_args)
                  (ec2_asg_cutover_elb.to_deregistration_gate Scenario.lingering 10)
                  Scenario.world = (Return r, w4)
             /\ ec2_asg_cutover_elb.new_group_ r = Scenario.web_green
             /\ ec2_asg_cutover_elb.current_group r = Scenario.web_blue
             /\ ec2_asg_cutover_elb.standby_load_balancers r = PyList ["lb-green"])
    as (r & w4 & H & Hn & Hc & Hs).
  { eexists _, _. split_and!; vm_compute; reflexivity. }
  destruct (elb_cut_over_is_never_undone Scenario.lingering 10 Scenario.cutover_args
              Scenario.world r w4 H)
    as (standby & Hl & _ & _ & _ & _ & Hnew & Hold).
  rewrite Hs in Hl. injection Hl as <-. rewrite Hn, Hc in *.
  assert (exists w',
             ec2_asg_cutover_elb.main Scenario.lingering 10 Scenario.cutover_args
                                      Scenario.world
             = (FailJson "Waited too long for target ELB to deregister old instances", w'))
    as [w' Hm].
  { eexists. vm_compute. reflexivity. }
  rewrite Hm in Hnew, Hold. exists w'. split_and!; [exact Hm | exact Hnew | exact Hold].
Defined.

(** ec2_asg_cutover_target_groups undoes a cut-over in one case only.
    Unless the deregistration loop times out while [rollback_on_failure]
    is true, the script makes no change after moving the live group to the
    standby target groups, however the run ends - a standby verification
    that times out included: the candidate group stays attached to the
    target groups the live group had, and the live group to the standby
    ones. *)
Theorem tg_cut_over_undone_only_by_late_rollback env fuel (args : gmap string pyval) w r w4 :
  bind (AnsibleModule (ec2_asg_cutover_target_groups.argument_spec env) args)
       (ec2_asg_cutover_target_groups.to_deregistration_gate env fuel) w = (Return r, w4) ->
  (forall flag w5,
      gate env fuel (default (PyInt 300) (args !! "wait_timeout"))
           (ec2_asg_cutover_target_groups.deregistered_iteration env
              (ec2_asg_cutover_target_groups.original_instances r)
              (ec2_asg_cutover_target_groups.dest_target_groups r)) w4
      = (Return (flag, true), w5) ->
      truthy (default (PyBool true) (args !! "rollback_on_failure")) = false) ->
  exists standby,
    ec2_asg_cutover_target_groups.standby_target_groups r = PyList standby
    /\ standby <> []
    /\ mutations (log (ec2_asg_cutover_target_groups.main env fuel args w).2)
       = mutations (log w) ++ tg_prepare_calls r ++ tg_cut_over_calls r standby
    /\ lookup_group (AutoScalingGroupName (ec2_asg_cutover_target_groups.new_group_ r)) w
       = [ec2_asg_cutover_target_groups.new_group_ r]
    /\ lookup_group (AutoScalingGroupName (ec2_asg_cutover_target_groups.current_group r)) w
       = [ec2_asg_cutover_target_groups.current_group r]
    /\ lookup_group (AutoScalingGroupName (ec2_asg_cutover_target_groups.new_group_ r))
                    (ec2_asg_cutover_target_groups.main env fuel args w).2
       = [with_target_groups
            (fun _ => remove_dups
                        (TargetGroupARNs (ec2_asg_cutover_target_groups.current_group r)))
            (ec2_asg_cutover_target_groups.new_group_ r)]
    /\ lookup_group (AutoScalingGroupName (ec2_asg_cutover_target_groups.current_group r))
                    (ec2_asg_cutover_target_groups.main env fuel args w).2
       = [with_target_groups (fun _ => remove_dups standby)
                             (ec2_asg_cutover_target_groups.current_group r)].
Proof. apply tg_final_groups. Qed.

Lemma tg_cut_over_undone_only_by_late_rollback_witness :
  exists w',
    ec2_asg_cutover_target_groups.main Scenario.lingering 10
      (<["rollback_on_failure" := PyBool false]> Scenario.cutover_args) Scenario.world
    = (FailJson "Waited too long for destination target group to deregister old instances. No rollback action taken.", w')
    /\ lookup_group "web-green" w'
       = [with_target_groups (fun _ => ["arn:tg-blue"]) Scenario.web_green]
    /\ lookup_group "web-blue" w'
       = [with_target_groups (fun _ => ["arn:tg-green"]) Scenario.web_blue].
Proof.
  set (args := <["rollback_on_failure" := PyBool false]> Scenario.cutover_args
               : gmap string pyval).
  assert (exists r w4,
             bind (AnsibleModule (ec2_asg_cutover_target_groups.argument_spec
                                    Scenario.lingering) args)
                  (ec2_asg_cutover_target_groups.to_deregistration_gate Scenario.lingering 10)
                  Scenario.world = (Return r, w4)
             /\ ec2_asg_cutover_target_groups.new_group_ r = Scenario.web_green
             /\ ec2_asg_cutover_target_groups.current_group r = Scenario.web_blue
             /\ ec2_asg_cutover_target_groups.standby_target_groups r
                = PyList ["arn:tg-green"])
    as (r & w4 & H & Hn & Hc & Hs).
  { eexists _, _. split_and!; vm_compute; reflexivity. }
  assert (truthy (default (PyBool true) (args !! "rollback_on_failure")) = false) as Hroll.
  { vm_compute. reflexivity. }
  destruct (tg_cut_over_undone_only_by_late_rollback Scenario.lingering 10 args
              Scenario.world r w4 H (fun _ _ _ => Hroll))
    as (standby & Hl & _ & _ & _ & _ & Hnew & Hold).
  rewrite Hs in Hl. injection Hl as <-. rewrite Hn, Hc in *.
  assert (exists w',
             ec2_asg_cutover_target_groups.main Scenario.lingering 10 args Scenario.world
             = (FailJson "Waited too long for destination target group to deregister old instances. No rollback action taken.", w'))
    as [w' Hm].
  { eexists. vm_compute. reflexivity. }
  rewrite Hm in Hnew, Hold. exists w'. split_and!; [exact Hm | exact Hnew | exact Hold].
Defined.

(** When the deregistration loop of ec2_asg_cutover_target_groups times
    out and [rollback_on_failure] is true, the script undoes both moves -
    the live group goes from the standby target groups back to the
    destination ones, the candidate group from the destination target
    groups back to its own - and fails.  Each group is then attached to the
    same set of target groups as at the start, and is exactly what it was
    when that list had no duplicates. *)
Theorem tg_late_timeout_restores_both_groups
    env fuel (args : gmap string pyval) w r w4 flag w5 :
  bind (AnsibleModule (ec2_asg_cutover_target_groups.argument_spec env) args)
       (ec2_asg_cutover_target_groups.to_deregistration_gate env fuel) w = (Return r, w4) ->
  gate env fuel (default (PyInt 300) (args !! "wait_timeout"))
       (ec2_asg_cutover_target_groups.deregistered_iteration env
          (ec2_asg_cutover_target_groups.original_instances r)
          (ec2_asg_cutover_target_groups.dest_target_groups r)) w4
  = (Return (flag, true), w5) ->
  truthy (default (PyBool true) (args !! "rollback_on_failure")) = true ->
  exists standby w' g_new g_old g_new' g_old',
    ec2_asg_cutover_target_groups.standby_target_groups r = PyList standby
    /\ ec2_asg_cutover_target_groups.main env fuel args w
       = (FailJson "Waited too long for destination target group to deregister old instances. Deployment has been rolled back.", w')
    /\ mutations (log w')
       = mutations (log w) ++ tg_prepare_calls r ++ tg_cut_over_calls r standby
         ++ tg_late_rollback_calls r standby
    /\ lookup_group (AutoScalingGroupName (ec2_asg_cutover_target_groups.new_group_ r)) w
       = [g_new]
    /\ lookup_group (AutoScalingGroupName (ec2_asg_cutover_target_groups.current_group r)) w
       = [g_old]
    /\ lookup_group (AutoScalingGroupName (ec2_asg_cutover_target_groups.new_group_ r)) w'
       = [g_new']
    /\ lookup_group (AutoScalingGroupName (ec2_asg_cutover_target_groups.current_group r)) w'
       = [g_old']
    /\ (forall e, e ∈ TargetGroupARNs g_new' <-> e ∈ TargetGroupARNs g_new)
    /\ (forall e, e ∈ TargetGroupARNs g_old' <-> e ∈ TargetGroupARNs g_old)
    /\ (NoDup (TargetGroupARNs g_new) -> g_new' = g_new)
    /\ (NoDup (TargetGroupARNs g_old) -> g_old' = g_old).
Proof.
  intros H Hg Hroll.
  destruct (tg_late_timeout_main env fuel args w r w4 flag w5 H Hg Hroll)
    as (standby & w' & Hl & Hm & Hmut & Hn & Hc & Hn' & Hc').
  destruct (with_target_groups_remove_dups (ec2_asg_cutover_target_groups.new_group_ r))
    as [Hset Heq].
  destruct (with_target_groups_remove_dups (ec2_asg_cutover_target_groups.current_group r))
    as [Hset' Heq'].
  exists standby, w'. eexists _, _, _, _.
  split_and!; [exact Hl | exact Hm | exact Hmut | exact Hn | exact Hc | exact Hn' | exact Hc'
              | exact Hset | exact Hset' | exact Heq | exact Heq'].
Qed.

Lemma tg_late_timeout_restores_both_groups_witness :
  exists w',
    ec2_asg_cutover_target_groups.main Scenario.lingering 10 Scenario.cutover_args
                                       Scenario.world
    = (FailJson "Waited too long for destination target group to deregister old instances. Deployment has been rolled back.", w')
    /\ lookup_group "web-green" w' = [Scenario.web_green]
    /\ lookup_group "web-blue" w' = [Scenario.web_blue].
Proof.
  assert (exists r w4 flag w5,
             bind (AnsibleModule (ec2_asg_cutover_target_groups.argument_spec
                                    Scenario.lingering) Scenario.cutover_args)
                  (ec2_asg_cutover_target_groups.to_deregistration_gate Scenario.lingering 10)
                  Scenario.world = (Return r, w4)
             /\ gate Scenario.lingering 10
                     (default (PyInt 300) (Scenario.cutover_args !! "wait_timeout"))
                     (ec2_asg_cutover_target_groups.deregistered_iteration Scenario.lingering
                        (ec2_asg_cutover_target_groups.original_instances r)
                        (ec2_asg_cutover_target_groups.dest_target_groups r)) w4
                = (Return (flag, true), w5)
             /\ ec2_asg_cutover_target_groups.new_group_ r = Scenario.web_green
             /\ ec2_asg_cutover_target_groups.current_group r = Scenario.web_blue)
    as (r & w4 & flag & w5 & H & Hg & Hn & Hc).
  { eexists _, _, _, _. split_and!; vm_compute; reflexivity. }
  assert (truthy (default (PyBool true) (Scenario.cutover_args !! "rollback_on_failure"))
          = true) as Hroll.
  { vm_compute. reflexivity. }
  destruct (tg_late_timeout_restores_both_groups Scenario.lingering 10 Scenario.cutover_args
              Scenario.world r w4 flag w5 H Hg Hroll)
    as (standby & w' & g_new & g_old & g_new' & g_old'
        & _ & Hm & _ & Hgn & Hgo & Hgn' & Hgo' & _ & _ & Heq & Heq').
  rewrite Hn, Hc in *.
  assert (g_new = Scenario.web_green) as ->.
  { vm_compute in Hgn. by injection Hgn. }
  assert (g_old = Scenario.web_blue) as ->.
  { vm_compute in Hgo. by injection Hgo. }
  exists w'. split_and!; [exact Hm | |].
  - etransitivity; [exact Hgn' |]. f_equal. apply Heq. vm_compute.
    apply NoDup_cons. split; [apply not_elem_of_nil | apply NoDup_nil_2].
  - etransitivity; [exact Hgo' |]. f_equal. apply Heq'. vm_compute.
    apply NoDup_cons. split; [apply not_elem_of_nil | apply NoDup_nil_2].
Defined.

(** A cutover that completes has swapped the two groups, and its result
    says so.  The result names the two groups, each of which was the only
    one of its name at the start; the endpoints it reports for the
    candidate group are those the live group had, the instance lists and
    statuses are the baseline snapshots, and in the final state each group
    is attached to exactly the endpoints the result reports for it
    (duplicates removed).  Both cutover modules. *)
Theorem completed_cutover_has_swapped_endpoints env fuel (args : gmap string pyval) w :
  (forall result w',
      ec2_asg_cutover_elb.main env fuel args w = (Return result, w') ->
      exists g_new g_old,
        lookup_group (ec2_asg_cutover_elb.name (ec2_asg_cutover_elb.new_group result)) w
        = [g_new]
        /\ lookup_group (ec2_asg_cutover_elb.name (ec2_asg_cutover_elb.old_group result)) w
           = [g_old]
        /\ ec2_asg_cutover_elb.load_balancer_names (ec2_asg_cutover_elb.new_group result)
           = LoadBalancerNames g_old
        /\ ec2_asg_cutover_elb.load_balancer_names (ec2_asg_cutover_elb.old_group result)
           <> []
        /\ ec2_asg_cutover_elb.instance_ids (ec2_asg_cutover_elb.new_group result)
           = map InstanceId (Instances g_new)
        /\ ec2_asg_cutover_elb.instance_ids (ec2_asg_cutover_elb.old_group result)
           = map InstanceId (Instances g_old)
        /\ ec2_asg_cutover_elb.instance_status (ec2_asg_cutover_elb.new_group result)
           = instance_status_of g_new
        /\ ec2_asg_cutover_elb.instance_status (ec2_asg_cutover_elb.old_group result)
           = instance_status_of g_old
        /\ lookup_group (ec2_asg_cutover_elb.name (ec2_asg_cutover_elb.new_group result)) w'
           = [with_load_balancers
                (fun _ => remove_dups (ec2_asg_cutover_elb.load_balancer_names
                                         (ec2_asg_cutover_elb.new_group result)))
                g_new]
        /\ lookup_group (ec2_asg_cutover_elb.name (ec2_asg_cutover_elb.old_group result)) w'
           = [with_load_balancers
                (fun _ => remove_dups (ec2_asg_cutover_elb.load_balancer_names
                                         (ec2_asg_cutover_elb.old_group result)))
                g_old])
  /\ (forall result w',
         ec2_asg_cutover_target_groups.main env fuel args w = (Return result, w') ->
         exists g_new g_old,
           lookup_group (ec2_asg_cutover_target_groups.name
                           (ec2_asg_cutover_target_groups.new_group result)) w
           = [g_new]
           /\ lookup_group (ec2_asg_cutover_target_groups.name
                              (ec2_asg_cutover_target_groups.old_group result)) w
              = [g_old]
           /\ ec2_asg_cutover_target_groups.target_group_arns
                (ec2_asg_cutover_target_groups.new_group result)
              = TargetGroupARNs g_old
           /\ ec2_asg_cutover_target_groups.target_group_arns
                (ec2_asg_cutover_target_groups.old_group result) <> []
           /\ ec2_asg_cutover_target_groups.instance_ids
                (ec2_asg_cutover_target_groups.new_group result)
              = map InstanceId (Instances g_new)
           /\ ec2_asg_cutover_target_groups.instance_ids
                (ec2_asg_cutover_target_groups.old_group result)
              = map InstanceId (Instances g_old)
           /\ ec2_asg_cutover_target_groups.instance_status
                (ec2_asg_cutover_target_groups.new_group result)
              = instance_status_of g_new
           /\ ec2_asg_cutover_target_groups.instance_status
                (ec2_asg_cutover_target_groups.old_group result)
              = instance_status_of g_old
           /\ lookup_group (ec2_asg_cutover_target_groups.name
                              (ec2_asg_cutover_target_groups.new_group result)) w'
              = [with_target_groups
                   (fun _ => remove_dups (ec2_asg_cutover_target_groups.target_group_arns
                                            (ec2_asg_cutover_target_groups.new_group result)))
                   g_new]
           /\ lookup_group (ec2_asg_cutover_target_groups.name
                              (ec2_asg_cutover_target_groups.old_group result)) w'
              = [with_target_groups
                   (fun _ => remove_dups (ec2_asg_cutover_target_groups.target_group_arns
                                            (ec2_asg_cutover_target_groups.old_group result)))
                   g_old]).
Proof.
  split.
  - intros result w'. apply elb_completed.
  - intros result w'. apply tg_completed.
Qed.

Lemma completed_cutover_has_swapped_endpoints_witness :
  exists result w' result2 w2,
    ec2_asg_cutover_elb.main Scenario.prompt 10 Scenario.cutover_args Scenario.world
    = (Return result, w')
    /\ lookup_group "web-green" w'
       = [with_load_balancers (fun _ => ["lb-blue"]) Scenario.web_green]
    /\ lookup_group "web-blue" w'
       = [with_load_balancers (fun _ => ["lb-green"]) Scenario.web_blue]
    /\ ec2_asg_cutover_target_groups.main Scenario.prompt 10 Scenario.cutover_args
                                          Scenario.world
       = (Return result2, w2)
    /\ lookup_group "web-green" w2
       = [with_target_groups (fun _ => ["arn:tg-blue"]) Scenario.web_green]
    /\ lookup_group "web-blue" w2
       = [with_target_groups (fun _ => ["arn:tg-green"]) Scenario.web_blue].
Proof.
  destruct (completed_cutover_has_swapped_endpoints Scenario.prompt 10 Scenario.cutover_args
              Scenario.world) as [Helb Htg].
  assert (exists result w',
             ec2_asg_cutover_elb.main Scenario.prompt 10 Scenario.cutover_args Scenario.world
             = (Return result, w')
             /\ ec2_asg_cutover_elb.name (ec2_asg_cutover_elb.new_group result) = "web-green"
             /\ ec2_asg_cutover_elb.name (ec2_asg_cutover_elb.old_group result) = "web-blue"
             /\ ec2_asg_cutover_elb.load_balancer_names (ec2_asg_cutover_elb.new_group result)
                = ["lb-blue"]
             /\ ec2_asg_cutover_elb.load_balancer_names (ec2_asg_cutover_elb.old_group result)
                = ["lb-green"])
    as (result & w' & Hm & Hnn & Hon & Hnl & Hol).
  { eexists _, _. split_and!; vm_compute; reflexivity. }
  assert (exists result w',
             ec2_asg_cutover_target_groups.main Scenario.prompt 10 Scenario.cutover_args
                                                Scenario.world
             = (Return result, w')
             /\ ec2_asg_cutover_target_groups.name
                  (ec2_asg_cutover_target_groups.new_group result) = "web-green"
             /\ ec2_asg_cutover_target_groups.name
                  (ec2_asg_cutover_target_groups.old_group result) = "web-blue"
             /\ ec2_asg_cutover_target_groups.target_group_arns
                  (ec2_asg_cutover_target_groups.new_group result) = ["arn:tg-blue"]
             /\ ec2_asg_cutover_target_groups.target_group_arns
                  (ec2_asg_cutover_target_groups.old_group result) = ["arn:tg-green"])
    as (result2 & w2 & Hm2 & Hnn2 & Hon2 & Hnl2 & Hol2).
  { eexists _, _. split_and!; vm_compute; reflexivity. }
  destruct (Helb result w' Hm)
    as (g_new & g_old & Hgn & Hgo & _ & _ & _ & _ & _ & _ & Hn' & Ho').
  destruct (Htg result2 w2 Hm2)
    as (h_new & h_old & Hhn & Hho & _ & _ & _ & _ & _ & _ & Hn2 & Ho2).
  rewrite Hnn, Hnl in *. rewrite Hon, Hol in *. rewrite Hnn2, Hnl2 in *.
  rewrite Hon2, Hol2 in *.
  vm_compute in Hgn. injection Hgn as <-. vm_compute in Hgo. injection Hgo as <-.
  vm_compute in Hhn. injection Hhn as <-. vm_compute in Hho. injection Hho as <-.
  exists result, w', result2, w2.
  split_and!; [exact Hm | exact Hn' | exact Ho' | exact Hm2 | exact Hn2 | exact Ho2].
Defined.

(** A single-group run that completes leaves the group attached to
    exactly the requested endpoints.  The group named in the result was the
    only one of that name; the script attached the whole requested list and
    then detached what had been attached before and was not requested, and
    made no other change, so that in the final state the group's endpoints
    are, as a set, those the result reports, and nothing else about the
    group has changed.  For ec2_asg_elbs the reported list is the
    [load_balancers] argument. *)
Theorem completed_single_group_run_has_requested_endpoints
    env fuel (args : gmap string pyval) w :
  (forall result w',
      ec2_asg_elbs.main env fuel args w = (Return result, w') ->
      exists g g',
        lookup_group (ec2_asg_elbs.name result) w = [g]
        /\ lookup_group (ec2_asg_elbs.name result) w' = [g']
        /\ args !! "load_balancers" = Some (PyList (ec2_asg_elbs.load_balancer_names result))
        /\ (forall e, e ∈ LoadBalancerNames g'
                      <-> e ∈ ec2_asg_elbs.load_balancer_names result)
        /\ with_load_balancers (fun _ => LoadBalancerNames g) g' = g
        /\ ec2_asg_elbs.instance_ids result = map InstanceId (Instances g)
        /\ mutations (log w')
           = mutations (log w)
             ++ [AttachLoadBalancers (ec2_asg_elbs.name result)
                                     (ec2_asg_elbs.load_balancer_names result);
                 DetachLoadBalancers (ec2_asg_elbs.name result)
                   (List.filter
                      (fun l => negb (py_in l (ec2_asg_elbs.load_balancer_names result)))
                      (LoadBalancerNames g))])
  /\ (forall result w',
         ec2_asg_target_groups.main env fuel args w = (Return result, w') ->
         exists g g',
           lookup_group (ec2_asg_target_groups.name result) w = [g]
           /\ lookup_group (ec2_asg_target_groups.name result) w' = [g']
           /\ (forall e, e ∈ TargetGroupARNs g'
                         <-> e ∈ ec2_asg_target_groups.target_group_arns result)
           /\ with_target_groups (fun _ => TargetGroupARNs g) g' = g
           /\ ec2_asg_target_groups.instance_ids result = map InstanceId (Instances g)
           /\ mutations (log w')
              = mutations (log w)
                ++ [AttachLoadBalancerTargetGroups
                      (ec2_asg_target_groups.name result)
                      (ec2_asg_target_groups.target_group_arns result);
                    DetachLoadBalancerTargetGroups
                      (ec2_asg_target_groups.name result)
                      (List.filter
                         (fun l => negb (py_in l (ec2_asg_target_groups.target_group_arns
                                                    result)))
                         (TargetGroupARNs g))]).
Proof.
  split.
  - intros result w'. apply elbs_completed.
  - intros result w'. apply target_groups_completed.
Qed.

Lemma completed_single_group_run_has_requested_endpoints_witness :
  exists result w' g',
    ec2_asg_elbs.main Scenario.lingering 10 Scenario.elbs_args Scenario.world
    = (Return result, w')
    /\ lookup_group "web-green" w' = [g']
    /\ (forall e, e ∈ LoadBalancerNames g' <-> e ∈ ["lb-green"; "lb-blue"]).
Proof.
  destruct (completed_single_group_run_has_requested_endpoints Scenario.lingering 10
              Scenario.elbs_args Scenario.world) as [Helbs _].
  assert (exists result w',
             ec2_asg_elbs.main Scenario.lingering 10 Scenario.elbs_args Scenario.world
             = (Return result, w')
             /\ ec2_asg_elbs.name result = "web-green"
             /\ ec2_asg_elbs.load_balancer_names result = ["lb-green"; "lb-blue"])
    as (result & w' & Hm & Hn & Hl).
  { eexists _, _. split_and!; vm_compute; reflexivity. }
  destruct (Helbs result w' Hm) as (g & g' & _ & Hg' & _ & Hset & _).
  rewrite Hn in Hg'. rewrite Hl in Hset.
  exists result, w', g'. split_and!; [exact Hm | exact Hg' | exact Hset].
Defined.

(** ec2_asg_elbs does not require [load_balancers], but cannot do without
    it: when the argument is left out and the group is found, the script
    stops with a TypeError at the first comprehension over the missing
    list.  The lookup of the group is the only call it has made by then. *)
Theorem elbs_without_load_balancers_raises env fuel (args : gmap string pyval) w n g params w0 :
  AnsibleModule (ec2_asg_elbs.argument_spec env) args w = (Return params, w0) ->
  args !! "name" = Some (PyStr n) ->
  args !! "load_balancers" = None ->
  lookup_group n w = [g] ->
  ec2_asg_elbs.main env fuel args w
  = (Raise "TypeError", record (DescribeAutoScalingGroups [PyStr n]) w)
  /\ groups (ec2_asg_elbs.main env fuel args w).2 = groups w
  /\ mutations (log (ec2_asg_elbs.main env fuel args w).2) = mutations (log w).
Proof.
  intros Ha Hn Hl Hg.
  rewrite (elbs_no_load_balancers env fuel args w n g params w0 Ha Hn Hl Hg).
  split_and!; [done | done |]. simpl. by rewrite mutations_snoc_other.
Qed.

Lemma elbs_without_load_balancers_raises_witness :
  exists w',
    ec2_asg_elbs.main Scenario.silent 10 {[ "name" := PyStr "web-green" ]} Scenario.world
    = (Raise "TypeError", w')
    /\ groups w' = groups Scenario.world.
Proof.
  assert (bool_decide (map_Forall (well_typed (ec2_asg_elbs.argument_spec Scenario.silent))
                                  ({[ "name" := PyStr "web-green" ]} : gmap string pyval))
          = true) as H1 by (vm_compute; reflexivity).
  assert (bool_decide (map_Forall (supplied ({[ "name" := PyStr "web-green" ]}
                                             : gmap string pyval))
                                  (ec2_asg_elbs.argument_spec Scenario.silent))
          = true) as H2 by (vm_compute; reflexivity).
  pose proof (AnsibleModule_accepts _ _ Scenario.world H1 H2) as Ha.
  assert (({[ "name" := PyStr "web-green" ]} : gmap string pyval) !! "name"
          = Some (PyStr "web-green")) as Hn by (vm_compute; reflexivity).
  assert (({[ "name" := PyStr "web-green" ]} : gmap string pyval) !! "load_balancers"
          = None) as Hl by (vm_compute; reflexivity).
  assert (lookup_group "web-green" Scenario.world = [Scenario.web_green]) as Hg
    by (vm_compute; reflexivity).
  destruct (elbs_without_load_balancers_raises Scenario.silent 10 _ Scenario.world
              "web-green" Scenario.web_green _ _ Ha Hn Hl Hg) as (Hm & Hgr & _).
  eexists. split; [exact Hm | reflexivity].
Defined.

(** A cutover whose groups cannot be found, or cannot be told apart, stops
    before it changes anything, and says which name was at fault.  The
    live group is looked up first: when no group, or more than one, has its
    name, the script fails after that one lookup; only with exactly one
    live group is the candidate group looked up, with the same two ways of
    failing.  Nothing but the lookups is on record.  Both names are taken
    to be non-empty: an empty name is refused by the client library before
    any lookup is made.  Both cutover modules. *)
Theorem cutover_reports_unusable_group_names env fuel :
  (forall (args : gmap string pyval) w c n params w0,
      AnsibleModule (ec2_asg_cutover_elb.argument_spec env) args w = (Return params, w0) ->
      args !! "current_group_name" = Some (PyStr c) ->
      args !! "new_group_name" = Some (PyStr n) ->
      c <> n ->
      c <> EmptyString ->
      n <> EmptyString ->
      (lookup_group c w = [] ->
       ec2_asg_cutover_elb.main env fuel args w
       = (FailJson ("The current auto scaling group '" ++ c ++ "' was not found"),
          record (DescribeAutoScalingGroups [PyStr c]) w))
      /\ ((1 < length (lookup_group c w))%nat ->
          ec2_asg_cutover_elb.main env fuel args w
          = (FailJson ("More than one auto scaling group was found that matches the supplied current_group_name '" ++ c ++ "'."),
             record (DescribeAutoScalingGroups [PyStr c]) w))
      /\ ((length (lookup_group c w) = 1)%nat ->
          lookup_group n w = [] ->
          ec2_asg_cutover_elb.main env fuel args w
          = (FailJson ("The new auto scaling group '" ++ n ++ "' was not found"),
             record (DescribeAutoScalingGroups [PyStr n])
                    (record (DescribeAutoScalingGroups [PyStr c]) w)))
      /\ ((length (lookup_group c w) = 1)%nat ->
          (1 < length (lookup_group n w))%nat ->
          ec2_asg_cutover_elb.main env fuel args w
          = (FailJson ("More than one auto scaling group was found that matches the supplied new_group_name '" ++ n ++ "'."),
             record (DescribeAutoScalingGroups [PyStr n])
                    (record (DescribeAutoScalingGroups [PyStr c]) w))))
  /\ (forall (args : gmap string pyval) w c n params w0,
           AnsibleModule (ec2_asg_cutover_target_groups.argument_spec env) args w = (Return params, w0) ->
           args !! "current_group_name" = Some (PyStr c) ->
           args !! "new_group_name" = Some (PyStr n) ->
           c <> n ->
           c <> EmptyString ->
           n <> EmptyString ->
           (lookup_group c w = [] ->
            ec2_asg_cutover_target_groups.main env fuel args w
            = (FailJson ("The current auto scaling group '" ++ c ++ "' was not found"),
               record (DescribeAutoScalingGroups [PyStr c]) w))
           /\ ((1 < length (lookup_group c w))%nat ->
               ec2_asg_cutover_target_groups.main env fuel args w
               = (FailJson ("More than one auto scaling group was found that matches the supplied current_group_name '" ++ c ++ "'."),
                  record (DescribeAutoScalingGroups [PyStr c]) w))
           /\ ((length (lookup_group c w) = 1)%nat ->
               lookup_group n w = [] ->
               ec2_asg_cutover_target_groups.main env fuel args w
               = (FailJson ("The new auto scaling group '" ++ n ++ "' was not found"),
                  record (DescribeAutoScalingGroups [PyStr n])
                         (record (DescribeAutoScalingGroups [PyStr c]) w)))
           /\ ((length (lookup_group c w) = 1)%nat ->
               (1 < length (lookup_group n w))%nat ->
               ec2_asg_cutover_target_groups.main env fuel args w
               = (FailJson ("More than one auto scaling group was found that matches the supplied new_group_name '" ++ n ++ "'."),
                  record (DescribeAutoScalingGroups [PyStr n])
                         (record (DescribeAutoScalingGroups [PyStr c]) w)))).
Proof.
  split.
  - intros args w c n params w0 Ha Hc Hn Hne _ _.
    by apply (elb_lookup_failures env fuel args w c n params w0).
  - intros args w c n params w0 Ha Hc Hn Hne _ _.
    by apply (tg_lookup_failures env fuel args w c n params w0).
Qed.

Lemma cutover_reports_unusable_group_names_witness :
  ec2_asg_cutover_elb.main Scenario.silent 10
    (<["new_group_name" := PyStr "web-ghost"]> Scenario.cutover_args) Scenario.world
  = (FailJson "The new auto scaling group 'web-ghost' was not found",
     record (DescribeAutoScalingGroups [PyStr "web-ghost"])
            (record (DescribeAutoScalingGroups [PyStr "web-blue"]) Scenario.world)).
Proof.
  set (args := <["new_group_name" := PyStr "web-ghost"]> Scenario.cutover_args
               : gmap string pyval).
  assert (bool_decide (map_Forall (well_typed (ec2_asg_cutover_elb.argument_spec
                                                 Scenario.silent)) args) = true) as H1
    by (vm_compute; reflexivity).
  assert (bool_decide (map_Forall (supplied args)
                                  (ec2_asg_cutover_elb.argument_spec Scenario.silent))
          = true) as H2 by (vm_compute; reflexivity).
  pose proof (AnsibleModule_accepts _ _ Scenario.world H1 H2) as Ha.
  assert (args !! "current_group_name" = Some (PyStr "web-blue")) as Hc
    by (vm_compute; reflexivity).
  assert (args !! "new_group_name" = Some (PyStr "web-ghost")) as Hn
    by (vm_compute; reflexivity).
  assert ("web-blue" <> "web-ghost") as Hne by discriminate.
  destruct (cutover_reports_unusable_group_names Scenario.silent 10) as [Helb _].
  assert ("web-blue" <> EmptyString) as Hc0 by discriminate.
  assert ("web-ghost" <> EmptyString) as Hn0 by discriminate.
  destruct (Helb args Scenario.world "web-blue" "web-ghost" _ _ Ha Hc Hn Hne Hc0 Hn0)
    as (_ & _ & Hnone & _).
  apply Hnone; vm_compute; reflexivity.
Defined.

(** One iteration of a loop of ec2_asg_cutover_elb asks every load
    balancer of its list for its instance states, once and in order,
    whatever the answers: a load balancer that fails the test does not stop
    the others from being asked.  The iteration always returns.  The health
    iteration leaves the flag set exactly when every load balancer reports
    every member the loop is concerned with as InService; the
    deregistration iteration exactly when no load balancer lists an
    instance of the old group, in whatever state. *)
Theorem elb_iteration_asks_every_load_balancer
    env g (status : gmap string (string * string)) ids lbs w :
  (exists b w',
      ec2_asg_cutover_elb.healthy_iteration env g status lbs w = (Return b, w')
      /\ log w' = log w ++ map DescribeInstanceHealth lbs
      /\ polls w' = (polls w + length lbs)%nat
      /\ groups w' = groups w
      /\ (b = true
          <-> forall i lb, lbs !! i = Some lb ->
              forall id st, status !! id = Some st -> concerned g st = true ->
                dict_of is_InstanceId is_State (instance_health env (polls w + i) lb) !! id
                = Some "InService"))
  /\ (exists b w',
         ec2_asg_cutover_elb.deregistered_iteration env ids lbs w = (Return b, w')
         /\ log w' = log w ++ map DescribeInstanceHealth lbs
         /\ polls w' = (polls w + length lbs)%nat
         /\ groups w' = groups w
         /\ (b = true
             <-> forall i lb, lbs !! i = Some lb ->
                 forall s, s ∈ instance_health env (polls w + i) lb ->
                           is_InstanceId s ∉ ids)).
Proof.
  split.
  - destruct (for_each_load_balancer env (ec2_asg_cutover_elb.in_service_with g status)
                                     lbs true w)
      as (b & w' & Hrun & Hlog & Hpolls & _ & Hgroups & Hb).
    exists b, w'. split_and!; [exact Hrun | exact Hlog | exact Hpolls | exact Hgroups |].
    rewrite Hb. split.
    + intros [_ H] i lb Hi. by apply elb_in_service_with_iff, H.
    + intros H. split; [done |]. intros i lb Hi. apply elb_in_service_with_iff. by apply H.
  - destruct (for_each_load_balancer env
                (forallb (fun i => negb (py_in (is_InstanceId i) ids))) lbs true w)
      as (b & w' & Hrun & Hlog & Hpolls & _ & Hgroups & Hb).
    exists b, w'. split_and!; [exact Hrun | exact Hlog | exact Hpolls | exact Hgroups |].
    rewrite Hb. split.
    + intros [_ H] i lb Hi. by apply none_registered_iff, H.
    + intros H. split; [done |]. intros i lb Hi. apply none_registered_iff. by apply H.
Qed.
